(** * MWIMS: allocation, FEFO fulfilment and the occupancy ledger

    A shallow embedding of the request handlers of [backend.js] over the
    relational schema of [schema.sql].  Tables are lists of rows in
    insertion order, SQL statements are functions on those lists, and a
    handler runs its statements on a connection that carries the committed
    rows next to the rows of the open transaction.

    Conventions.
    - INT columns and JavaScript integers are [Z]; a nullable column and a
      JavaScript [null]/[undefined] are [option].
    - DATE columns are day numbers and TIMESTAMP columns are milliseconds,
      both compared as numbers.  A DECIMAL(5,2) temperature is an integer
      counting hundredths of a degree: SQL compares it as a number,
      JavaScript receives it from the driver as a string and compares
      that.
    - The store is taken by its contract: a statement sees the rows of
      the open transaction, [commit] publishes them, [rollback] restores
      the rows of [beginTransaction], AUTO_INCREMENT counters included;
      requests are served one at a time.
    - Columns that no modelled statement reads (description, manufacturer,
      price, size_type, manufacture_date, created_at, picked_at) are left
      out, and so are the rows of [temperature_logs], which no handler
      reads.  The rows of [dispatches] and the counters of [products] and
      [storage_locations] come with the store of the second part. *)

From Stdlib Require Import ZArith List String Bool Lia Permutation Sorted.
From Stdlib Require Import DecimalString.
Import ListNotations.
Local Open Scope string_scope.
Local Open Scope list_scope.
Local Open Scope Z_scope.

(** ** Rows *)

(** ENUM('Ambient', 'Cold Storage'), used by [products.category] and
    [storage_locations.location_type]. *)
Inductive storage_type := Ambient | ColdStorage.

(** ENUM('Available', 'Picked', 'Dispatched', 'Expired', 'Damaged'). *)
Inductive batch_status := Available | Picked | Dispatched | Expired | Damaged.

(** ENUM('Pending', 'Completed', 'Dispatched', 'Cancelled'). *)
Inductive order_status := Pending | Completed | OrderDispatched | Cancelled.

(** ENUM('Pending Pick', 'Picked', 'Dispatched'). *)
Inductive pick_status := PendingPick | PickPicked | PickDispatched.

Module Product.
Record t := mk { product_id : Z; name : string; category : storage_type }.
End Product.

Module Location.
Record t := mk {
  location_id : Z;
  zone : string;
  rack : string;
  slot : string;
  location_type : storage_type;
  capacity : Z;
  current_occupancy : Z;
  min_temp : option Z;
  max_temp : option Z;
  latest_temperature : option Z;
  last_temp_update : option Z
}.

Definition with_occupancy (occ : Z) (l : t) : t :=
  mk (location_id l) (zone l) (rack l) (slot l) (location_type l)
     (capacity l) occ (min_temp l) (max_temp l)
     (latest_temperature l) (last_temp_update l).
End Location.

Module Batch.
Record t := mk {
  batch_id : Z;
  product_id : Z;
  batch_number : string;
  expiry_date : Z;
  quantity : Z;
  barcode : option string;
  assigned_location_id : option Z;
  status : batch_status
}.

Definition with_quantity (q : Z) (b : t) : t :=
  mk (batch_id b) (product_id b) (batch_number b) (expiry_date b) q
     (barcode b) (assigned_location_id b) (status b).
End Batch.

Module Order.
Record t := mk { order_id : Z; status : order_status }.
End Order.

Module OrderItem.
Record t := mk { order_item_id : Z; order_id : Z; product_id : Z; quantity : Z }.
End OrderItem.

Module Pick.
Record t := mk {
  pick_id : Z;
  order_id : Z;
  batch_id : Z;
  quantity_picked : Z;
  status : pick_status
}.
End Pick.

(** ** The database *)

(** The rows of every table together with the AUTO_INCREMENT counter of
    each table that the handlers insert into. *)
Record db := mkDb {
  products : list Product.t;
  storage_locations : list Location.t;
  batches : list Batch.t;
  orders : list Order.t;
  order_items : list OrderItem.t;
  order_batch_picks : list Pick.t;
  next_batch_id : Z;
  next_order_id : Z;
  next_order_item_id : Z;
  next_pick_id : Z
}.

Definition with_storage_locations (ls : list Location.t) (d : db) : db :=
  mkDb (products d) ls (batches d) (orders d) (order_items d)
       (order_batch_picks d) (next_batch_id d) (next_order_id d)
       (next_order_item_id d) (next_pick_id d).

Definition with_batches (bs : list Batch.t) (n : Z) (d : db) : db :=
  mkDb (products d) (storage_locations d) bs (orders d) (order_items d)
       (order_batch_picks d) n (next_order_id d)
       (next_order_item_id d) (next_pick_id d).

Definition with_order_batch_picks (ps : list Pick.t) (n : Z) (d : db) : db :=
  mkDb (products d) (storage_locations d) (batches d) (orders d)
       (order_items d) ps (next_batch_id d) (next_order_id d)
       (next_order_item_id d) n.

(** ** JavaScript values *)

(** Truthiness of a number or [null]: [if (x)], [!x]. *)
Definition truthy (x : option Z) : bool :=
  match x with
  | Some n => negb (n =? 0)
  | None => false
  end.

(** A relational operator converts a [null] operand to the number 0. *)
Definition to_number (x : option Z) : Z :=
  match x with
  | Some n => n
  | None => 0
  end.

(** Template-literal rendering of an integer. *)
Definition string_of_Z (n : Z) : string := NilZero.string_of_int (Z.to_int n).

(** The pool is created without [decimalNumbers], so the driver hands a
    DECIMAL(5,2) column to JavaScript as the text MySQL prints for it: a
    minus sign below zero, the integer part, a point and two decimals. *)
Definition two_digits (n : Z) : string :=
  if n <? 10 then "0" ++ string_of_Z n else string_of_Z n.

Definition decimal_string (hundredths : Z) : string :=
  (if hundredths <? 0 then "-" else "")
  ++ string_of_Z (Z.abs hundredths / 100) ++ "."
  ++ two_digits (Z.abs hundredths mod 100).

(** [a < b] on two DECIMAL columns of a row.  Two strings are compared
    code unit by code unit, a proper prefix being the smaller; when one
    side is null both sides are converted to numbers. *)
Definition js_lt (a b : option Z) : bool :=
  match a, b with
  | Some x, Some y => String.ltb (decimal_string x) (decimal_string y)
  | _, _ => to_number a <? to_number b
  end.

(** [a > b] is [b < a]; [a <= b] is [!(b < a)] and [a >= b] is [!(a < b)],
    no operand being NaN. *)
Definition js_gt (a b : option Z) : bool := js_lt b a.
Definition js_le (a b : option Z) : bool := negb (js_lt b a).
Definition js_ge (a b : option Z) : bool := negb (js_lt a b).

Definition storage_type_eqb (a b : storage_type) : bool :=
  match a, b with
  | Ambient, Ambient | ColdStorage, ColdStorage => true
  | _, _ => false
  end.

Definition batch_status_eqb (a b : batch_status) : bool :=
  match a, b with
  | Available, Available | Picked, Picked | Dispatched, Dispatched
  | Expired, Expired | Damaged, Damaged => true
  | _, _ => false
  end.

Definition option_Z_eqb (a b : option Z) : bool :=
  match a, b with
  | Some x, Some y => x =? y
  | None, None => true
  | _, _ => false
  end.

(** SQL equality of a nullable VARCHAR column with a value: NULL equals
    nothing. *)
Definition column_eqb (a : option string) (v : string) : bool :=
  match a with
  | Some x => String.eqb x v
  | None => false
  end.

Definition with_orders (os : list Order.t) (n : Z) (d : db) : db :=
  mkDb (products d) (storage_locations d) (batches d) os (order_items d)
       (order_batch_picks d) (next_batch_id d) n
       (next_order_item_id d) (next_pick_id d).

Definition with_order_items (rows : list OrderItem.t) (n : Z) (d : db) : db :=
  mkDb (products d) (storage_locations d) (batches d) (orders d) rows
       (order_batch_picks d) (next_batch_id d) (next_order_id d)
       n (next_pick_id d).

(** ** Errors, connections and the transaction monad *)

(** What a statement or a handler body can throw: a JavaScript [Error]
    with its message, or a driver error with its [code]; the argument of a
    driver error is the key or constraint that its message names. *)
Inductive exn :=
| JsError (message : string)
| ER_DUP_ENTRY (key : string)
| ER_NO_REFERENCED_ROW_2 (foreign_key : string).

Inductive result (A : Type) :=
| Ok (a : A)
| Throw (e : exn).
Arguments Ok {A} a.
Arguments Throw {A} e.

(** A pooled connection: the rows every other reader sees, and the rows
    as the open transaction has changed them. *)
Record connection := mkConn { committed : db; working : db }.

(** [pool.getConnection()] followed by [beginTransaction()]. *)
Definition getConnection (d : db) : connection := mkConn d d.

Definition tx (A : Type) : Type := connection -> result A * connection.

Definition ret {A} (a : A) : tx A := fun c => (Ok a, c).

Definition bind {A B} (m : tx A) (k : A -> tx B) : tx B :=
  fun c =>
    match m c with
    | (Ok a, c') => k a c'
    | (Throw e, c') => (Throw e, c')
    end.

Definition throw {A} (e : exn) : tx A := fun c => (Throw e, c).

(** [try { body } catch (err) { handler }]. *)
Definition try_catch {A} (body : tx A) (handler : exn -> tx A) : tx A :=
  fun c =>
    match body c with
    | (Ok a, c') => (Ok a, c')
    | (Throw e, c') => handler e c'
    end.

Declare Scope tx_scope.
Delimit Scope tx_scope with tx.
Notation "x <- m ;; k" := (bind m (fun x => k))
  (at level 100, m at next level, right associativity) : tx_scope.
Notation "m ;;; k" := (bind m (fun _ => k))
  (at level 100, right associativity) : tx_scope.

(** A SELECT reads the rows of the open transaction. *)
Definition select {A} (q : db -> A) : tx A := fun c => (Ok (q (working c)), c).

(** An INSERT, UPDATE or DELETE changes them, or fails and changes nothing. *)
Definition statement {A} (u : db -> result (A * db)) : tx A :=
  fun c =>
    match u (working c) with
    | Ok (a, d) => (Ok a, mkConn (committed c) d)
    | Throw e => (Throw e, c)
    end.

Definition commit : tx unit := fun c => (Ok tt, mkConn (working c) (working c)).

Definition rollback : tx unit := fun c => (Ok tt, mkConn (committed c) (committed c)).

(** ** Responses *)

(** [res.status(status).json(body)], [res.status(status).json({error})], or
    [next(err)], which the error middleware answers with status 500,
    [error: 'Internal Server Error'] and [details: err.message]. *)
Inductive response (A : Type) :=
| Json (status : Z) (body : A)
| JsonError (status : Z) (error : string)
| InternalServerError (err : exn).
Arguments Json {A} status body.
Arguments JsonError {A} status error.
Arguments InternalServerError {A} err.


(** A handler takes the connection through one transaction and hands it
    back to the pool with [connection.release()], which neither commits
    nor rolls back: the rows left behind for the requests that follow are
    the rows this session reads, those of its transaction as the handler
    left it.  A handler body that ends by an uncaught throw does not
    occur: every body is a [try_catch]. *)
Definition release (c : connection) : db := working c.

Definition run_handler {A} (body : tx (response A)) (d : db) : response A * db :=
  match body (getConnection d) with
  | (Ok r, c) => (r, release c)
  | (Throw e, c) => (InternalServerError e, release c)
  end.

(** ** ORDER BY *)

(** Rows come out of a table in insertion order; ORDER BY is a stable
    insertion sort, so rows with equal keys keep that order. *)
Fixpoint insert_by {A} (le : A -> A -> bool) (x : A) (l : list A) : list A :=
  match l with
  | [] => [x]
  | y :: l' => if le x y then x :: l else y :: insert_by le x l'
  end.

Definition order_by {A} (le : A -> A -> bool) (l : list A) : list A :=
  fold_right (insert_by le) [] l.

(** ** Smart allocation *)

Definition free_capacity (l : Location.t) : Z :=
  Location.capacity l - Location.current_occupancy l.

(** SELECT category FROM products WHERE product_id = ? *)
Definition select_product_category (productId : Z) (d : db) : list storage_type :=
  map Product.category
      (filter (fun p => Product.product_id p =? productId) (products d)).

(** SELECT ... FROM storage_locations
    WHERE location_type = ? AND current_occupancy + ? <= capacity
    ORDER BY (capacity - current_occupancy) DESC *)
Definition select_candidate_locations
    (productCategory : storage_type) (quantityNeeded : Z) (d : db) : list Location.t :=
  order_by (fun a b => free_capacity b <=? free_capacity a)
    (filter (fun l =>
               storage_type_eqb (Location.location_type l) productCategory
               && (Location.current_occupancy l + quantityNeeded <=? Location.capacity l))
            (storage_locations d)).

(** [loc.latest_temperature === null ||
     (loc.latest_temperature >= loc.min_temp && loc.latest_temperature <= loc.max_temp)] *)
Definition temperature_suitable (loc : Location.t) : bool :=
  match Location.latest_temperature loc with
  | None => true
  | Some t =>
      js_ge (Some t) (Location.min_temp loc)
      && js_le (Some t) (Location.max_temp loc)
  end.

Definition findSuitableLocation (productId quantityNeeded : Z) : tx (option Location.t) :=
  try_catch
    (productRows <- select (select_product_category productId) ;;
     match productRows with
     | [] => throw (JsError "Product not found for smart allocation.")
     | productCategory :: _ =>
         candidateLocations <-
           select (select_candidate_locations productCategory quantityNeeded) ;;
         ret (if storage_type_eqb productCategory ColdStorage
              then find temperature_suitable candidateLocations
              else hd_error candidateLocations)
     end)%tx
    (fun _ => throw (JsError "Internal error during smart allocation.")).

(** ** Batches *)

(** The JSON body of POST /batches and PUT /batches/:id; a missing field
    is [None]. *)
Module BatchRequest.
Record t := mk {
  product_id : option Z;
  batch_number : option string;
  expiry_date : option Z;
  quantity : option Z;
  barcode : option string;
  status : option batch_status
}.
End BatchRequest.

(** UPDATE storage_locations SET current_occupancy = current_occupancy + ?
    WHERE location_id = ? *)
Definition add_occupancy (delta locationId : Z) (d : db) : db :=
  with_storage_locations
    (map (fun l =>
            if Location.location_id l =? locationId
            then Location.with_occupancy (Location.current_occupancy l + delta) l
            else l)
         (storage_locations d))
    d.

(** UPDATE storage_locations SET current_occupancy = current_occupancy - ?
    WHERE location_id = ? *)
Definition subtract_occupancy (amount locationId : Z) (d : db) : db :=
  with_storage_locations
    (map (fun l =>
            if Location.location_id l =? locationId
            then Location.with_occupancy (Location.current_occupancy l - amount) l
            else l)
         (storage_locations d))
    d.

Definition product_exists (productId : Z) (d : db) : bool :=
  existsb (fun p => Product.product_id p =? productId) (products d).

Definition location_exists (locationId : Z) (d : db) : bool :=
  existsb (fun l => Location.location_id l =? locationId) (storage_locations d).

(** INSERT INTO batches (...) VALUES (...): the unique keys [batch_number]
    and [barcode], then the foreign keys to [products] and
    [storage_locations]; the new row takes the next AUTO_INCREMENT value,
    which is the statement's [insertId]. *)
Definition insert_batch
    (productId : Z) (batchNumber : string) (expiryDate quantity : Z)
    (barcode : string) (assignedLocationId : Z) (status : batch_status)
    (d : db) : result (Z * db) :=
  if existsb (fun b => String.eqb (Batch.batch_number b) batchNumber) (batches d)
  then Throw (ER_DUP_ENTRY "batches.batch_number")
  else if existsb (fun b => column_eqb (Batch.barcode b) barcode) (batches d)
  then Throw (ER_DUP_ENTRY "batches.barcode")
  else if negb (product_exists productId d)
  then Throw (ER_NO_REFERENCED_ROW_2 "batches_ibfk_1")
  else if negb (location_exists assignedLocationId d)
  then Throw (ER_NO_REFERENCED_ROW_2 "batches_ibfk_2")
  else
    let newBatchId := next_batch_id d in
    Ok (newBatchId,
        with_batches
          (batches d ++
           [Batch.mk newBatchId productId batchNumber expiryDate quantity
                     (Some barcode) (Some assignedLocationId) status])
          (newBatchId + 1) d).

(** [barcode || batch_number] *)
Definition barcode_or (barcode : option string) (batchNumber : string) : string :=
  match barcode with
  | Some s => if String.eqb s "" then batchNumber else s
  | None => batchNumber
  end.

Module BatchCreated.
Record t := mk {
  message : string;
  batch_id : Z;
  barcode : string;
  assigned_location_id : Z
}.
End BatchCreated.

(** [catch (err)] of POST /batches and of PUT /batches/:id. *)
Definition batch_catch {A} (duplicate : string) (err : exn) : tx (response A) :=
  (rollback ;;;
   match err with
   | ER_DUP_ENTRY key =>
       if String.eqb key "batches.batch_number"
       then ret (JsonError 409 duplicate)
       else ret (InternalServerError err)
   | _ => ret (InternalServerError err)
   end)%tx.

(** POST /batches *)
Definition createBatch (req : BatchRequest.t) (d : db) : response BatchCreated.t * db :=
  match BatchRequest.product_id req, BatchRequest.batch_number req,
        BatchRequest.expiry_date req, BatchRequest.quantity req with
  | Some product_id, Some batch_number, Some expiry_date, Some quantity =>
      if (product_id =? 0) || String.eqb batch_number "" || (quantity <=? 0)
      then (JsonError 400 "Missing required batch fields (product, batch number, expiry date, or valid quantity).", d)
      else
        run_handler
          (try_catch
             (suitableLocation <- findSuitableLocation product_id quantity ;;
              match suitableLocation with
              | None =>
                  rollback ;;;
                  ret (JsonError 400 "No suitable storage location found based on product criteria, capacity, and temperature. Please ensure you have available racks and, for Cold Storage, valid temperature readings.")
              | Some loc =>
                  let assignedLocationId := Location.location_id loc in
                  let barcode := barcode_or (BatchRequest.barcode req) batch_number in
                  newBatchId <-
                    statement (insert_batch product_id batch_number expiry_date
                                 quantity barcode assignedLocationId Available) ;;
                  statement (fun w => Ok (tt, add_occupancy quantity assignedLocationId w)) ;;;
                  commit ;;;
                  ret (Json 201
                         (BatchCreated.mk "Stock added successfully!" newBatchId
                            barcode assignedLocationId))
              end)%tx
             (batch_catch
                ("Batch number '" ++ batch_number
                 ++ "' already exists. Please use a unique batch number.")%string))
          d
  | _, _, _, _ =>
      (JsonError 400 "Missing required batch fields (product, batch number, expiry date, or valid quantity).", d)
  end.

(** SELECT quantity, assigned_location_id FROM batches
    WHERE batch_id = ? FOR UPDATE *)
Definition select_batch_for_update (id : Z) (d : db) : list (Z * option Z) :=
  map (fun b => (Batch.quantity b, Batch.assigned_location_id b))
      (filter (fun b => Batch.batch_id b =? id) (batches d)).

(** UPDATE batches SET product_id = ?, batch_number = ?, expiry_date = ?,
    quantity = ?, barcode = ?, status = ? WHERE batch_id = ?: the unique
    keys are checked against the other rows. *)
Definition update_batch
    (productId : Z) (batchNumber : string) (expiryDate quantity : Z)
    (barcode : string) (status : batch_status) (id : Z)
    (d : db) : result (unit * db) :=
  if negb (existsb (fun b => Batch.batch_id b =? id) (batches d))
  then Ok (tt, d)
  else if existsb (fun b => negb (Batch.batch_id b =? id)
                            && String.eqb (Batch.batch_number b) batchNumber)
                  (batches d)
  then Throw (ER_DUP_ENTRY "batches.batch_number")
  else if existsb (fun b => negb (Batch.batch_id b =? id)
                            && column_eqb (Batch.barcode b) barcode)
                  (batches d)
  then Throw (ER_DUP_ENTRY "batches.barcode")
  else if negb (product_exists productId d)
  then Throw (ER_NO_REFERENCED_ROW_2 "batches_ibfk_1")
  else
    Ok (tt,
        with_batches
          (map (fun b =>
                  if Batch.batch_id b =? id
                  then Batch.mk (Batch.batch_id b) productId batchNumber expiryDate
                                quantity (Some barcode)
                                (Batch.assigned_location_id b) status
                  else b)
               (batches d))
          (next_batch_id d) d).

(** SELECT * FROM batches WHERE batch_id = ?, first row. *)
Definition select_batch (id : Z) (d : db) : option Batch.t :=
  hd_error (filter (fun b => Batch.batch_id b =? id) (batches d)).

(** PUT /batches/:id *)
Definition updateBatch (id : Z) (req : BatchRequest.t) (d : db)
  : response (option Batch.t) * db :=
  match BatchRequest.product_id req, BatchRequest.batch_number req,
        BatchRequest.expiry_date req, BatchRequest.quantity req,
        BatchRequest.status req with
  | Some product_id, Some batch_number, Some expiry_date, Some quantity, Some status =>
      if (product_id =? 0) || String.eqb batch_number "" || (quantity <? 0)
      then (JsonError 400 "Missing required batch fields for update, or invalid quantity.", d)
      else
        run_handler
          (try_catch
             (oldBatchRows <- select (select_batch_for_update id) ;;
              match oldBatchRows with
              | [] => throw (JsError "Batch not found.")
              | (oldQuantity, assignedLocationId) :: _ =>
                  statement (update_batch product_id batch_number expiry_date quantity
                               (barcode_or (BatchRequest.barcode req) batch_number)
                               status id) ;;;
                  (if truthy assignedLocationId
                   then
                     let quantityDifference := quantity - oldQuantity in
                     statement (fun w =>
                       Ok (tt, add_occupancy quantityDifference
                                 (to_number assignedLocationId) w))
                   else ret tt) ;;;
                  commit ;;;
                  updatedBatch <- (fun c => (Ok (select_batch id (committed c)), c)) ;;
                  ret (Json 200 updatedBatch)
              end)%tx
             (batch_catch
                ("Batch number '" ++ batch_number
                 ++ "' already exists for another batch.")%string))
          d
  | _, _, _, _, _ =>
      (JsonError 400 "Missing required batch fields for update, or invalid quantity.", d)
  end.

(** DELETE FROM order_batch_picks WHERE batch_id = ? *)
Definition delete_picks_of_batch (id : Z) (d : db) : db :=
  with_order_batch_picks
    (filter (fun p => negb (Pick.batch_id p =? id)) (order_batch_picks d))
    (next_pick_id d) d.

(** DELETE FROM batches WHERE batch_id = ?, with the picks that still
    reference a deleted row removed by ON DELETE CASCADE; the result is
    [affectedRows]. *)
Definition delete_batch (id : Z) (d : db) : result (Z * db) :=
  let affectedRows :=
    Z.of_nat (List.length (filter (fun b => Batch.batch_id b =? id) (batches d))) in
  Ok (affectedRows,
      with_batches
        (filter (fun b => negb (Batch.batch_id b =? id)) (batches d))
        (next_batch_id d)
        (delete_picks_of_batch id d)).

Module BatchDeleted.
Record t := mk { message : string; batchId : Z }.
End BatchDeleted.

(** DELETE /batches/:id *)
Definition deleteBatch (id : Z) (d : db) : response BatchDeleted.t * db :=
  run_handler
    (try_catch
       (batchRows <- select (select_batch_for_update id) ;;
        match batchRows with
        | [] => throw (JsError "Batch not found.")
        | (batchQuantity, assignedLocationId) :: _ =>
            statement (fun w => Ok (tt, delete_picks_of_batch id w)) ;;;
            affectedRows <- statement (delete_batch id) ;;
            (if affectedRows =? 0
             then throw (JsError "Batch not found or no changes made.")
             else ret tt) ;;;
            (if truthy assignedLocationId
             then statement (fun w =>
                    Ok (tt, subtract_occupancy batchQuantity
                              (to_number assignedLocationId) w))
             else ret tt) ;;;
            commit ;;;
            ret (Json 200 (BatchDeleted.mk "Batch deleted successfully" id))
        end)%tx
       (fun err => rollback ;;; ret (InternalServerError err))%tx)
    d.

(** ** Orders *)

(** One element of the [items] array of POST /orders. *)
Module ItemRequest.
Record t := mk { product_id : option Z; quantity : option Z }.
End ItemRequest.

(** INSERT INTO orders (order_date, status) VALUES (NOW(), 'Pending') *)
Definition insert_order (d : db) : result (Z * db) :=
  let orderId := next_order_id d in
  Ok (orderId, with_orders (orders d ++ [Order.mk orderId Pending]) (orderId + 1) d).

Definition order_exists (orderId : Z) (d : db) : bool :=
  existsb (fun o => Order.order_id o =? orderId) (orders d).

Definition batch_exists (batchId : Z) (d : db) : bool :=
  existsb (fun b => Batch.batch_id b =? batchId) (batches d).

(** INSERT INTO order_items (order_id, product_id, quantity) VALUES (?, ?, ?) *)
Definition insert_order_item (orderId productId quantity : Z) (d : db)
  : result (unit * db) :=
  if negb (order_exists orderId d)
  then Throw (ER_NO_REFERENCED_ROW_2 "order_items_ibfk_1")
  else if negb (product_exists productId d)
  then Throw (ER_NO_REFERENCED_ROW_2 "order_items_ibfk_2")
  else
    Ok (tt,
        with_order_items
          (order_items d ++
           [OrderItem.mk (next_order_item_id d) orderId productId quantity])
          (next_order_item_id d + 1) d).

(** SELECT batch_id, quantity, assigned_location_id, expiry_date FROM batches
    WHERE product_id = ? AND quantity > 0 AND status = 'Available'
    ORDER BY expiry_date ASC FOR UPDATE *)
Definition select_available_batches (productId : Z) (d : db) : list Batch.t :=
  order_by (fun a b => Batch.expiry_date a <=? Batch.expiry_date b)
    (filter (fun b =>
               (Batch.product_id b =? productId)
               && (0 <? Batch.quantity b)
               && batch_status_eqb (Batch.status b) Available)
            (batches d)).

(** INSERT INTO order_batch_picks (order_id, batch_id, quantity_picked, status)
    VALUES (?, ?, ?, ?): UNIQUE(order_id, batch_id), then the foreign keys. *)
Definition insert_pick
    (orderId batchId quantityPicked : Z) (status : pick_status) (d : db)
  : result (unit * db) :=
  if existsb (fun p => (Pick.order_id p =? orderId) && (Pick.batch_id p =? batchId))
             (order_batch_picks d)
  then Throw (ER_DUP_ENTRY "order_batch_picks.order_id")
  else if negb (order_exists orderId d)
  then Throw (ER_NO_REFERENCED_ROW_2 "order_batch_picks_ibfk_1")
  else if negb (batch_exists batchId d)
  then Throw (ER_NO_REFERENCED_ROW_2 "order_batch_picks_ibfk_2")
  else
    Ok (tt,
        with_order_batch_picks
          (order_batch_picks d ++
           [Pick.mk (next_pick_id d) orderId batchId quantityPicked status])
          (next_pick_id d + 1) d).

(** UPDATE batches SET quantity = quantity - ? WHERE batch_id = ? *)
Definition reduce_batch_quantity (amount batchId : Z) (d : db) : db :=
  with_batches
    (map (fun b =>
            if Batch.batch_id b =? batchId
            then Batch.with_quantity (Batch.quantity b - amount) b
            else b)
         (batches d))
    (next_batch_id d) d.

(** [for (const batch of availableBatches) { ... }]: the result is
    [remainingToPick] when the loop is left. *)
Fixpoint pick_from_batches
    (orderId : Z) (availableBatches : list Batch.t) (remainingToPick : Z) : tx Z :=
  match availableBatches with
  | [] => ret remainingToPick
  | batch :: rest =>
      if remainingToPick <=? 0 then ret remainingToPick
      else
        let quantityFromBatch := Z.min remainingToPick (Batch.quantity batch) in
        (statement (insert_pick orderId (Batch.batch_id batch) quantityFromBatch
                      PendingPick) ;;;
         statement (fun w =>
           Ok (tt, reduce_batch_quantity quantityFromBatch (Batch.batch_id batch) w)) ;;;
         (if truthy (Batch.assigned_location_id batch)
          then statement (fun w =>
                 Ok (tt, subtract_occupancy quantityFromBatch
                           (to_number (Batch.assigned_location_id batch)) w))
          else ret tt) ;;;
         pick_from_batches orderId rest (remainingToPick - quantityFromBatch))%tx
  end.

Definition insufficient_stock (productId quantity remainingToPick : Z) : exn :=
  JsError ("Insufficient stock for product ID " ++ string_of_Z productId
           ++ ". Needed " ++ string_of_Z quantity
           ++ ", but only " ++ string_of_Z (quantity - remainingToPick)
           ++ " available.")%string.

(** The body of [for (const item of items) { ... }]. *)
Definition fulfil_item (orderId : Z) (item : ItemRequest.t) : tx unit :=
  match ItemRequest.product_id item, ItemRequest.quantity item with
  | Some product_id, Some quantity =>
      if (product_id =? 0) || (quantity <=? 0)
      then throw (JsError "Invalid product or quantity in order item.")
      else
        (statement (insert_order_item orderId product_id quantity) ;;;
         availableBatches <- select (select_available_batches product_id) ;;
         remainingToPick <- pick_from_batches orderId availableBatches quantity ;;
         if 0 <? remainingToPick
         then throw (insufficient_stock product_id quantity remainingToPick)
         else ret tt)%tx
  | _, _ => throw (JsError "Invalid product or quantity in order item.")
  end.

Fixpoint for_each {A} (l : list A) (body : A -> tx unit) : tx unit :=
  match l with
  | [] => ret tt
  | x :: l' => (body x ;;; for_each l' body)%tx
  end.

Module OrderPlaced.
Record t := mk { message : string; order_id : Z }.
End OrderPlaced.

(** POST /orders *)
Definition createOrder (items : list ItemRequest.t) (d : db)
  : response OrderPlaced.t * db :=
  match items with
  | [] => (JsonError 400 "Order must contain at least one item.", d)
  | _ :: _ =>
      run_handler
        (try_catch
           (orderId <- statement insert_order ;;
            for_each items (fulfil_item orderId) ;;;
            commit ;;;
            ret (Json 201 (OrderPlaced.mk "Order placed successfully" orderId)))%tx
           (fun err => rollback ;;; ret (InternalServerError err))%tx)
        d
  end.

(** ** Barcode verification *)

Module VerifiedBatch.
Record t := mk {
  batch_id : Z;
  batch_number : string;
  quantity : Z;
  expiry_date : Z;
  product_name : string;
  product_type : storage_type
}.
End VerifiedBatch.

Module PendingPickRow.
Record t := mk {
  pick_id : Z;
  order_id : Z;
  quantity_picked : Z;
  order_status : order_status
}.
End PendingPickRow.

Module Verification.
Record t := mk {
  isValid : bool;
  batch : option VerifiedBatch.t;
  messages : list string;
  pendingPicks : option (list PendingPickRow.t)
}.
End Verification.

(** SELECT b.batch_id, b.batch_number, b.quantity, b.expiry_date,
           p.name AS product_name, p.category AS product_type
    FROM batches b JOIN products p ON b.product_id = p.product_id
    WHERE b.barcode = ? *)
Definition select_batch_by_barcode (barcode : string) (d : db) : list VerifiedBatch.t :=
  flat_map
    (fun b =>
       map (fun p =>
              VerifiedBatch.mk (Batch.batch_id b) (Batch.batch_number b)
                (Batch.quantity b) (Batch.expiry_date b)
                (Product.name p) (Product.category p))
           (filter (fun p => Product.product_id p =? Batch.product_id b) (products d)))
    (filter (fun b => column_eqb (Batch.barcode b) barcode) (batches d)).

Definition order_status_eqb (a b : order_status) : bool :=
  match a, b with
  | Pending, Pending | Completed, Completed
  | OrderDispatched, OrderDispatched | Cancelled, Cancelled => true
  | _, _ => false
  end.

Definition pick_status_eqb (a b : pick_status) : bool :=
  match a, b with
  | PendingPick, PendingPick | PickPicked, PickPicked
  | PickDispatched, PickDispatched => true
  | _, _ => false
  end.

(** SELECT obp.pick_id, obp.order_id, obp.quantity_picked, o.status as order_status
    FROM order_batch_picks obp JOIN orders o ON obp.order_id = o.order_id
    WHERE obp.batch_id = ? AND obp.status = 'Pending Pick' AND o.status = 'Pending' *)
Definition select_pending_picks (batchId : Z) (d : db) : list PendingPickRow.t :=
  flat_map
    (fun p =>
       map (fun o =>
              PendingPickRow.mk (Pick.pick_id p) (Pick.order_id p)
                (Pick.quantity_picked p) (Order.status o))
           (filter (fun o => (Order.order_id o =? Pick.order_id p)
                             && order_status_eqb (Order.status o) Pending)
                   (orders d)))
    (filter (fun p => (Pick.batch_id p =? batchId)
                      && pick_status_eqb (Pick.status p) PendingPick)
            (order_batch_picks d)).

(** [ids.join(', ')] *)
Fixpoint join_ids (ids : list Z) : string :=
  match ids with
  | [] => ""
  | [i] => string_of_Z i
  | i :: rest => (string_of_Z i ++ ", " ++ join_ids rest)%string
  end.

Section Clock.

(** The day on which the request is served, and the locale's rendering
    of a date. *)
Variable today : Z.
Variable toLocaleDateString : Z -> string.

(** GET /verify-barcode/:barcode.  [expiryDate] is the end of the expiry
    day and [today] the start of the current one, so [expiryDate < today]
    compares the day numbers; [thirtyDaysFromNow] is the end of the day
    thirty days ahead. *)
Definition verifyBarcode (barcode : string) (d : db) : response Verification.t * db :=
  match select_batch_by_barcode barcode d with
  | [] => (Json 200 (Verification.mk false None ["Barcode not found."] None), d)
  | batch :: _ =>
      let quantity := VerifiedBatch.quantity batch in
      let expiryDate := VerifiedBatch.expiry_date batch in
      let '(isValid1, messages1) :=
        if quantity <=? 0
        then (false, [("Batch is out of stock (Quantity: " ++ string_of_Z quantity
                       ++ ").")%string])
        else (true, []) in
      let '(isValid2, messages2) :=
        if expiryDate <? today
        then (false,
              messages1 ++ [("Expired: Batch expired on "
                             ++ toLocaleDateString expiryDate ++ ".")%string])
        else if expiryDate <=? today + 30
        then (isValid1,
              messages1 ++ [("Expiring Soon: Batch expires on "
                             ++ toLocaleDateString expiryDate ++ ".")%string])
        else (isValid1, messages1) in
      let pendingPicks := select_pending_picks (VerifiedBatch.batch_id batch) d in
      match pendingPicks with
      | _ :: _ =>
          (Json 200
             (Verification.mk isValid2 (Some batch)
                (messages2 ++
                 [("Part of pending order(s) for picking: "
                   ++ join_ids (map PendingPickRow.order_id pendingPicks)
                   ++ ".")%string])
                (Some pendingPicks)), d)
      | [] =>
          if (0 <? quantity) && (today <=? expiryDate)
          then (Json 200
                  (Verification.mk false (Some batch)
                     (messages2 ++
                      ["This batch is not part of any *active* pending pick list."])
                     None), d)
          else (Json 200 (Verification.mk isValid2 (Some batch) messages2 None), d)
      end
  end.

End Clock.

(** ** Temperature alerts *)

Module TemperatureAlert.
Record t := mk {
  location_id : Z;
  location_name : string;
  alert_type : string;
  message : string
}.
End TemperatureAlert.

(** SQL [a < b] on nullable columns inside a disjunction of a WHERE
    clause: a comparison with NULL is unknown and selects nothing. *)
Definition sql_lt (a b : option Z) : bool :=
  match a, b with
  | Some x, Some y => x <? y
  | _, _ => false
  end.

Definition is_null {A} (a : option A) : bool :=
  match a with
  | Some _ => false
  | None => true
  end.

Section TemperatureAlerts.

(** [NOW()] when the query runs and [Date.now()] when its rows are
    formatted, in milliseconds; the rendering of a temperature column in
    a template literal and of a timestamp by [toLocaleString]. *)
Variable sqlNow : Z.
Variable jsNow : Z.
Variable renderTemperature : option Z -> string.
Variable toLocaleString : Z -> string.

(** SELECT sl.location_id, CONCAT(sl.zone, '-', sl.rack, '-', sl.slot), ...
    FROM storage_locations sl
    WHERE sl.location_type = 'Cold Storage'
      AND (sl.latest_temperature IS NULL
           OR sl.latest_temperature < sl.min_temp
           OR sl.latest_temperature > sl.max_temp
           OR sl.last_temp_update IS NULL
           OR sl.last_temp_update < DATE_SUB(NOW(), INTERVAL 1 HOUR)) *)
Definition select_temperature_alerts (d : db) : list Location.t :=
  filter
    (fun sl =>
       storage_type_eqb (Location.location_type sl) ColdStorage
       && (is_null (Location.latest_temperature sl)
           || sql_lt (Location.latest_temperature sl) (Location.min_temp sl)
           || sql_lt (Location.max_temp sl) (Location.latest_temperature sl)
           || is_null (Location.last_temp_update sl)
           || sql_lt (Location.last_temp_update sl) (Some (sqlNow - 3600000))))
    (storage_locations d).

Definition location_name (sl : Location.t) : string :=
  (Location.zone sl ++ "-" ++ Location.rack sl ++ "-" ++ Location.slot sl)%string.

(** The callback of [alerts.map(alert => ...)]. *)
Definition format_alert (alert : Location.t) : TemperatureAlert.t :=
  let '(alert_type, message) :=
    match Location.latest_temperature alert, Location.last_temp_update alert with
    | Some latest, Some updated =>
        if js_lt (Some latest) (Location.min_temp alert)
        then ("Low Temperature",
              "Temperature too low: " ++ renderTemperature (Some latest)
              ++ "°C (Min: " ++ renderTemperature (Location.min_temp alert) ++ "°C)")%string
        else if js_gt (Some latest) (Location.max_temp alert)
        then ("High Temperature",
              "Temperature too high: " ++ renderTemperature (Some latest)
              ++ "°C (Max: " ++ renderTemperature (Location.max_temp alert) ++ "°C)")%string
        else if updated <? jsNow - 3600000
        then ("Stale Reading",
              "No temperature update in the last hour. Last reading: "
              ++ renderTemperature (Some latest) ++ "°C at "
              ++ toLocaleString updated)%string
        else ("", "")
    | _, _ => ("No Readings", "No recent temperature readings.")
    end in
  TemperatureAlert.mk (Location.location_id alert) (location_name alert)
                      alert_type message.

(** GET /alerts/temperature *)
Definition temperatureAlerts (d : db) : response (list TemperatureAlert.t) * db :=
  (Json 200 (map format_alert (select_temperature_alerts d)), d).

End TemperatureAlerts.

(** ** The occupancy ledger *)

(** What a batch contributes to the occupancy of location [locationId]. *)
Definition contribution (locationId : Z) (b : Batch.t) : Z :=
  if option_Z_eqb (Batch.assigned_location_id b) (Some locationId)
  then Batch.quantity b
  else 0.

(** Σ quantity over the batches assigned to [locationId]. *)
Fixpoint assigned_quantity (locationId : Z) (bs : list Batch.t) : Z :=
  match bs with
  | [] => 0
  | b :: rest => contribution locationId b + assigned_quantity locationId rest
  end.

Definition ledger (ls : list Location.t) (bs : list Batch.t) : Prop :=
  forall l, In l ls ->
    Location.current_occupancy l = assigned_quantity (Location.location_id l) bs.

Definition ledger_consistent (d : db) : Prop :=
  ledger (storage_locations d) (batches d).

(** What the schema guarantees of the keys: [batch_id] is a primary key
    drawn from the AUTO_INCREMENT counter, and no [location_id] is 0. *)
Definition keys_wellformed (d : db) : Prop :=
  NoDup (map Batch.batch_id (batches d))
  /\ (forall b, In b (batches d) -> Batch.batch_id b < next_batch_id d)
  /\ (forall l, In l (storage_locations d) -> Location.location_id l <> 0).

(** The mutating operations of the core. *)
Inductive operation :=
| CreateBatch (req : BatchRequest.t)
| UpdateBatch (id : Z) (req : BatchRequest.t)
| DeleteBatch (id : Z)
| CreateOrder (items : list ItemRequest.t).

Definition perform (op : operation) (d : db) : db :=
  match op with
  | CreateBatch req => snd (createBatch req d)
  | UpdateBatch id req => snd (updateBatch id req d)
  | DeleteBatch id => snd (deleteBatch id d)
  | CreateOrder items => snd (createOrder items d)
  end.

(** The row-wise effect of both occupancy updates. *)
Definition adjust (locationId delta : Z) (l : Location.t) : Location.t :=
  if Location.location_id l =? locationId
  then Location.with_occupancy (Location.current_occupancy l + delta) l
  else l.

(** ** The depletion plan of one order item, in the specification's words *)

(** For each candidate in order, take [min(remaining, batch.quantity)];
    stop once [remaining] is 0. *)
Fixpoint fefo_plan (candidates : list Batch.t) (remaining : Z) : list (Batch.t * Z) :=
  match candidates with
  | [] => []
  | b :: rest =>
      if remaining <=? 0 then []
      else
        let amount := Z.min remaining (Batch.quantity b) in
        (b, amount) :: fefo_plan rest (remaining - amount)
  end.

Fixpoint planned_total (plan : list (Batch.t * Z)) : Z :=
  match plan with
  | [] => 0
  | (_, amount) :: rest => amount + planned_total rest
  end.

(** The amount the plan takes from batch [batchId]. *)
Fixpoint taken_from_batch (batchId : Z) (plan : list (Batch.t * Z)) : Z :=
  match plan with
  | [] => 0
  | (b, amount) :: rest =>
      (if Batch.batch_id b =? batchId then amount else 0)
      + taken_from_batch batchId rest
  end.

(** The amount the plan takes from the batches assigned to [locationId];
    a batch without a location counts for none. *)
Fixpoint taken_from_location (locationId : Z) (plan : list (Batch.t * Z)) : Z :=
  match plan with
  | [] => 0
  | (b, amount) :: rest =>
      (if option_Z_eqb (Batch.assigned_location_id b) (Some locationId)
       then amount else 0)
      + taken_from_location locationId rest
  end.

(** One Pick per planned amount, status Pending Pick, numbered from [n]. *)
Fixpoint planned_picks (orderId n : Z) (plan : list (Batch.t * Z)) : list Pick.t :=
  match plan with
  | [] => []
  | (b, amount) :: rest =>
      Pick.mk n orderId (Batch.batch_id b) amount PendingPick
      :: planned_picks orderId (n + 1) rest
  end.

(** The database after the plan: picks appended, every batch and every
    location decremented by what the plan takes from it. *)
Definition deplete (orderId : Z) (plan : list (Batch.t * Z)) (d : db) : db :=
  mkDb (products d)
       (map (fun l =>
               Location.with_occupancy
                 (Location.current_occupancy l
                  - taken_from_location (Location.location_id l) plan) l)
            (storage_locations d))
       (map (fun b =>
               Batch.with_quantity
                 (Batch.quantity b - taken_from_batch (Batch.batch_id b) plan) b)
            (batches d))
       (orders d) (order_items d)
       (order_batch_picks d ++ planned_picks orderId (next_pick_id d) plan)
       (next_batch_id d) (next_order_id d) (next_order_item_id d)
       (next_pick_id d + Z.of_nat (List.length plan)).

(** The candidates of an order item: its product, stock left, Available. *)
Definition fefo_candidate (productId : Z) (b : Batch.t) : Prop :=
  Batch.product_id b = productId /\ 0 < Batch.quantity b /\ Batch.status b = Available.

Definition expiry_ascending (a b : Batch.t) : Prop :=
  Batch.expiry_date a <= Batch.expiry_date b.

(** No pick of order [orderId] on any of the batches [bs] yet. *)
Definition unpicked (orderId : Z) (bs : list Batch.t) (d : db) : Prop :=
  forall b p, In b bs -> In p (order_batch_picks d) ->
    ~ (Pick.order_id p = orderId /\ Pick.batch_id p = Batch.batch_id b).

(** ** The allocator's gate, in the specification's words *)

(** [latest_temperature] is null or lies within [[min_temp, max_temp]]. *)
Definition within_range (l : Location.t) : Prop :=
  Location.latest_temperature l = None
  \/ exists t lo hi,
       Location.latest_temperature l = Some t
       /\ Location.min_temp l = Some lo /\ Location.max_temp l = Some hi
       /\ lo <= t <= hi.

Definition passes_gate (productCategory : storage_type) (l : Location.t) : Prop :=
  match productCategory with
  | ColdStorage => within_range l
  | Ambient => True
  end.

Definition eligible (productCategory : storage_type) (quantityNeeded : Z)
    (l : Location.t) : Prop :=
  Location.location_type l = productCategory
  /\ quantityNeeded <= free_capacity l.

(** Temperature bounds are mandatory for a Cold Storage location. *)
Definition cold_storage_bounded (d : db) : Prop :=
  forall l, In l (storage_locations d) ->
    Location.location_type l = ColdStorage ->
    Location.min_temp l <> None /\ Location.max_temp l <> None.

(** ** Alert classification, in the specification's words *)

Inductive classification :=
| NoReadings | LowTemperature | HighTemperature | StaleReading.

Definition classification_name (k : classification) : string :=
  match k with
  | NoReadings => "No Readings"
  | LowTemperature => "Low Temperature"
  | HighTemperature => "High Temperature"
  | StaleReading => "Stale Reading"
  end.

(** In priority order: a reading or its time absent, below [min_temp],
    above [max_temp], older than one hour at time [now]. *)
Definition classify (now : Z) (l : Location.t) : option classification :=
  match Location.latest_temperature l, Location.last_temp_update l with
  | Some t, Some u =>
      match Location.min_temp l, Location.max_temp l with
      | Some lo, Some hi =>
          if t <? lo then Some LowTemperature
          else if hi <? t then Some HighTemperature
          else if u <? now - 3600000 then Some StaleReading
          else None
      | _, _ => None
      end
  | _, _ => Some NoReadings
  end.

(** The three statements of one loop iteration. *)
Definition pick_step (orderId : Z) (b : Batch.t) (amount : Z) (d : db) : db :=
  let d1 := with_order_batch_picks
              (order_batch_picks d ++
               [Pick.mk (next_pick_id d) orderId (Batch.batch_id b) amount PendingPick])
              (next_pick_id d + 1) d in
  let d2 := reduce_batch_quantity amount (Batch.batch_id b) d1 in
  if truthy (Batch.assigned_location_id b)
  then subtract_occupancy amount (to_number (Batch.assigned_location_id b)) d2
  else d2.

(** The item as POST /orders accepts it. *)
Definition valid_item (item : ItemRequest.t) (productId quantity : Z) : Prop :=
  ItemRequest.product_id item = Some productId
  /\ ItemRequest.quantity item = Some quantity
  /\ productId <> 0 /\ 0 < quantity.

(** The rows after INSERT INTO order_items for the item. *)
Definition with_item (orderId productId quantity : Z) (d : db) : db :=
  with_order_items
    (order_items d ++ [OrderItem.mk (next_order_item_id d) orderId productId quantity])
    (next_order_item_id d + 1) d.

(** The stock an order item can draw on: Σ quantity over its candidates. *)
Fixpoint stock (bs : list Batch.t) : Z :=
  match bs with
  | [] => 0
  | b :: rest => Batch.quantity b + stock rest
  end.

Definition available_stock (productId : Z) (d : db) : Z :=
  stock (select_available_batches productId d).

(** A property of the rows that none of the statements of order
    fulfilment can break. *)
Definition stable_picking (I : db -> Prop) : Prop :=
  (forall d rows n, I d -> I (with_order_batch_picks rows n d))
  /\ (forall d amount i, I d -> I (reduce_batch_quantity amount i d))
  /\ (forall d amount l, I d -> I (subtract_occupancy amount l d)).

Definition stable (I : db -> Prop) : Prop :=
  (forall d rows n, I d -> I (with_order_items rows n d))
  /\ stable_picking I.

(** What an OrderItem row records, and what an item asks to record. *)
Definition recorded (r : OrderItem.t) : Z * Z * Z :=
  (OrderItem.order_id r, OrderItem.product_id r, OrderItem.quantity r).

Definition requested (orderId : Z) (item : ItemRequest.t) : Z * Z * Z :=
  (orderId, to_number (ItemRequest.product_id item),
   to_number (ItemRequest.quantity item)).

(** ** Reasoning about transaction bodies *)

(** Run on rows satisfying [P], the body leaves the committed rows alone
    and, when it returns [a], leaves working rows satisfying [Q a]. *)
Definition triple {A} (P : db -> Prop) (m : tx A) (Q : A -> db -> Prop) : Prop :=
  forall c, P (working c) ->
    committed (snd (m c)) = committed c
    /\ forall a, fst (m c) = Ok a -> Q a (working (snd (m c))).

(** Every snapshot row in [bs] still has its row, at the same location. *)
Definition agrees (bs : list Batch.t) (d : db) : Prop :=
  forall b, In b bs ->
    exists r, In r (batches d)
              /\ Batch.batch_id r = Batch.batch_id b
              /\ Batch.assigned_location_id r = Batch.assigned_location_id b.

Definition sound (d : db) : Prop := keys_wellformed d /\ ledger_consistent d.

(** Cold Storage locations only, and only those that match a class. *)
Definition reportable (now : Z) (l : Location.t) : bool :=
  storage_type_eqb (Location.location_type l) ColdStorage
  && match classify now l with
     | Some _ => true
     | None => false
     end.

(** The locations an answer of GET /alerts/temperature names, each with
    the type it is given. *)
Definition reported_types (r : response (list TemperatureAlert.t)) : list (Z * string) :=
  match r with
  | Json _ alerts =>
      map (fun a => (TemperatureAlert.location_id a, TemperatureAlert.alert_type a))
          alerts
  | _ => []
  end.

(** ** Text order and numeric order *)

(** A temperature from 0.00 to 9.99: one digit before the point. *)
Definition below_ten (hundredths : Z) : Prop := 0 <= hundredths < 1000.

Definition below_ten_values : list Z := map Z.of_nat (seq 0 1000).

(** On every two of the values [vs] the order of the texts is the order
    of the numbers. *)
Definition text_order_agrees (vs : list Z) : bool :=
  let rendered := map (fun v => (v, decimal_string v)) vs in
  forallb (fun x =>
             forallb (fun y => Bool.eqb (String.ltb (snd x) (snd y)) (fst x <? fst y))
                     rendered)
          rendered.

(** No location exceeds its capacity. *)
Definition within_capacity (d : db) : Prop :=
  forall l, In l (storage_locations d) ->
    Location.current_occupancy l <= Location.capacity l.


(** ** A small warehouse *)

Module Sample.

(** 2025-01-01 and 2025-02-01 as day numbers. *)
Definition jan1 : Z := 20089.
Definition feb1 : Z := 20120.

Definition gloves : Product.t := Product.mk 1 "Surgical Gloves" Ambient.
Definition vaccine : Product.t := Product.mk 2 "Flu Vaccine" ColdStorage.

Definition shelf : Location.t :=
  Location.mk 1 "Ambient_A" "AR1" "AS1" Ambient 200 10 None None None None.
Definition fridge : Location.t :=
  Location.mk 2 "Cold_A" "CR1" "CS1" ColdStorage 80 0
              (Some 200) (Some 800) (Some 550) (Some 1000).

(** Roomier than the fridge, but reading 10.00 degrees against a
    maximum of 4.00. *)
Definition freezer : Location.t :=
  Location.mk 3 "Cold_B" "CR2" "CS1" ColdStorage 100 0
              (Some (-200)) (Some 400) (Some 1000) (Some 1000).

(** The batch that expires later was taken in first. *)
Definition late : Batch.t :=
  Batch.mk 1 1 "GLOVE-001" feb1 5 (Some "GLOVE-001") (Some 1) Available.
Definition early : Batch.t :=
  Batch.mk 2 1 "GLOVE-002" jan1 5 (Some "GLOVE-002") (Some 1) Available.

Definition warehouse : db :=
  mkDb [gloves; vaccine] [shelf; fridge; freezer] [late; early] [] [] [] 3 1 1 1.

(** The same locations and products before any stock is taken in. *)
Definition vacant : db :=
  mkDb [gloves; vaccine]
       [Location.with_occupancy 0 shelf; fridge; freezer] [] [] [] [] 1 1 1 1.

(** Intake of ten gloves, then an edit of that batch to five hundred. *)
Definition intake : BatchRequest.t :=
  BatchRequest.mk (Some 1) (Some "GLOVE-001") (Some feb1) (Some 10) None None.
Definition overfill : BatchRequest.t :=
  BatchRequest.mk (Some 1) (Some "GLOVE-001") (Some feb1) (Some 500) None
                  (Some Available).

Definition item (productId quantity : Z) : ItemRequest.t :=
  ItemRequest.mk (Some productId) (Some quantity).

(** A store whose only location is a cold room reading 3.00 degrees
    between 2.00 and 10.00. *)
Definition coldroom : Location.t :=
  Location.mk 1 "Cold_C" "CR3" "CS1" ColdStorage 100 0
              (Some 200) (Some 1000) (Some 300) (Some 1000).

Definition annex : db :=
  mkDb [gloves; vaccine] [coldroom] [] [] [] [] 1 1 1 1.

(** The warehouse with the fridge reading 10.00 degrees against its
    maximum of 8.00. *)
Definition warm_fridge : Location.t :=
  Location.mk 2 "Cold_A" "CR1" "CS1" ColdStorage 80 0
              (Some 200) (Some 800) (Some 1000) (Some 1000).

Definition heatwave : db :=
  mkDb [gloves; vaccine] [shelf; warm_fridge] [late; early] [] [] [] 3 1 1 1.

End Sample.

(** * The rest of the handlers *)

(** ** Order and pick status *)

(** [['Pending', 'Completed', 'Dispatched', 'Cancelled'].includes(status)] *)
Definition order_status_of_string (s : string) : option order_status :=
  if String.eqb s "Pending" then Some Pending
  else if String.eqb s "Completed" then Some Completed
  else if String.eqb s "Dispatched" then Some OrderDispatched
  else if String.eqb s "Cancelled" then Some Cancelled
  else None.

(** [['Picked', 'Pending Pick', 'Dispatched'].includes(status)] *)
Definition pick_status_of_string (s : string) : option pick_status :=
  if String.eqb s "Picked" then Some PickPicked
  else if String.eqb s "Pending Pick" then Some PendingPick
  else if String.eqb s "Dispatched" then Some PickDispatched
  else None.

(** UPDATE orders SET status = ? WHERE order_id = ?, with [affectedRows],
    which counts the rows the WHERE clause finds. *)
Definition update_order_status (status : order_status) (orderId : Z) (d : db) : Z * db :=
  (Z.of_nat (List.length (filter (fun o => Order.order_id o =? orderId) (orders d))),
   with_orders
     (map (fun o => if Order.order_id o =? orderId
                    then Order.mk (Order.order_id o) status
                    else o)
          (orders d))
     (next_order_id d) d).

(** SELECT * FROM orders WHERE order_id = ?, first row. *)
Definition select_order (orderId : Z) (d : db) : option Order.t :=
  hd_error (filter (fun o => Order.order_id o =? orderId) (orders d)).

(** PUT /orders/:orderId *)
Definition setOrderStatus (orderId : Z) (status : option string) (d : db)
  : response (option Order.t) * db :=
  match status with
  | None => (JsonError 400 "Invalid order status provided.", d)
  | Some s =>
      match order_status_of_string s with
      | None => (JsonError 400 "Invalid order status provided.", d)
      | Some status =>
          let '(affectedRows, d') := update_order_status status orderId d in
          if affectedRows =? 0
          then (JsonError 404 "Order not found.", d')
          else (Json 200 (select_order orderId d'), d')
      end
  end.

(** UPDATE order_batch_picks SET status = ? WHERE pick_id = ? *)
Definition update_pick_status (status : pick_status) (pickId : Z) (d : db) : Z * db :=
  (Z.of_nat (List.length (filter (fun p => Pick.pick_id p =? pickId)
                                 (order_batch_picks d))),
   with_order_batch_picks
     (map (fun p => if Pick.pick_id p =? pickId
                    then Pick.mk (Pick.pick_id p) (Pick.order_id p) (Pick.batch_id p)
                                 (Pick.quantity_picked p) status
                    else p)
          (order_batch_picks d))
     (next_pick_id d) d).

(** SELECT * FROM order_batch_picks WHERE pick_id = ?, first row. *)
Definition select_pick (pickId : Z) (d : db) : option Pick.t :=
  hd_error (filter (fun p => Pick.pick_id p =? pickId) (order_batch_picks d)).

(** PUT /order_batch_picks/:pickId *)
Definition setPickStatus (pickId : Z) (status : option string) (d : db)
  : response (option Pick.t) * db :=
  match status with
  | None =>
      (JsonError 400 "Invalid pick status provided. Must be Picked, Pending Pick, or Dispatched.", d)
  | Some s =>
      match pick_status_of_string s with
      | None =>
          (JsonError 400 "Invalid pick status provided. Must be Picked, Pending Pick, or Dispatched.", d)
      | Some status =>
          let '(affectedRows, d') := update_pick_status status pickId d in
          if affectedRows =? 0
          then (JsonError 404 "Pick item not found or status already set.", d')
          else (Json 200 (select_pick pickId d'), d')
      end
  end.

(** ** Expiry and stock alerts *)

(** The products a batch row joins with: JOIN products p ON
    b.product_id = p.product_id. *)
Definition products_of (b : Batch.t) (d : db) : list Product.t :=
  filter (fun p => Product.product_id p =? Batch.product_id b) (products d).

Module ExpiryRow.
Record t := mk {
  batch_id : Z;
  batch_number : string;
  quantity : Z;
  expiry_date : Z;
  product_name : string
}.
End ExpiryRow.

Definition expiry_row (b : Batch.t) (p : Product.t) : ExpiryRow.t :=
  ExpiryRow.mk (Batch.batch_id b) (Batch.batch_number b) (Batch.quantity b)
               (Batch.expiry_date b) (Product.name p).

Module ExpiryAlerts.
Record t := mk { expired : list ExpiryRow.t; expiringSoon : list ExpiryRow.t }.
End ExpiryAlerts.

(** SELECT ... FROM batches b JOIN products p ON ...
    WHERE b.expiry_date < CURDATE() AND b.quantity > 0 AND b.status = 'Available' *)
Definition select_expired (today : Z) (d : db) : list ExpiryRow.t :=
  flat_map (fun b => map (expiry_row b) (products_of b d))
    (filter (fun b => (Batch.expiry_date b <? today)
                      && (0 <? Batch.quantity b)
                      && batch_status_eqb (Batch.status b) Available)
            (batches d)).

(** SELECT ... WHERE b.expiry_date >= CURDATE()
      AND b.expiry_date <= DATE_ADD(CURDATE(), INTERVAL 30 DAY)
      AND b.quantity > 0 AND b.status = 'Available'
    ORDER BY b.expiry_date ASC *)
Definition select_expiring_soon (today : Z) (d : db) : list ExpiryRow.t :=
  order_by (fun a b => ExpiryRow.expiry_date a <=? ExpiryRow.expiry_date b)
    (flat_map (fun b => map (expiry_row b) (products_of b d))
       (filter (fun b => (today <=? Batch.expiry_date b)
                         && (Batch.expiry_date b <=? today + 30)
                         && (0 <? Batch.quantity b)
                         && batch_status_eqb (Batch.status b) Available)
               (batches d))).

(** GET /alerts/expiry, served on day [today]. *)
Definition getExpiryAlerts (today : Z) (d : db) : response ExpiryAlerts.t * db :=
  (Json 200 (ExpiryAlerts.mk (select_expired today d) (select_expiring_soon today d)), d).

Module StockRow.
Record t := mk {
  batch_id : Z;
  batch_number : string;
  quantity : Z;
  product_name : string
}.
End StockRow.

Module OutOfStockRow.
Record t := mk { batch_id : Z; batch_number : string; product_name : string }.
End OutOfStockRow.

Module StockAlerts.
Record t := mk { lowStock : list StockRow.t; outOfStock : list OutOfStockRow.t }.
End StockAlerts.

Definition LOW_STOCK_THRESHOLD : Z := 10.

(** SELECT ... WHERE b.quantity > 0 AND b.quantity <= ? AND b.status = 'Available'
    ORDER BY b.quantity ASC *)
Definition select_low_stock (threshold : Z) (d : db) : list StockRow.t :=
  order_by (fun a b => StockRow.quantity a <=? StockRow.quantity b)
    (flat_map
       (fun b => map (fun p => StockRow.mk (Batch.batch_id b) (Batch.batch_number b)
                                 (Batch.quantity b) (Product.name p))
                     (products_of b d))
       (filter (fun b => (0 <? Batch.quantity b)
                         && (Batch.quantity b <=? threshold)
                         && batch_status_eqb (Batch.status b) Available)
               (batches d))).

(** SELECT ... WHERE b.quantity <= 0 AND b.status = 'Available' *)
Definition select_out_of_stock (d : db) : list OutOfStockRow.t :=
  flat_map
    (fun b => map (fun p => OutOfStockRow.mk (Batch.batch_id b) (Batch.batch_number b)
                              (Product.name p))
                  (products_of b d))
    (filter (fun b => (Batch.quantity b <=? 0)
                      && batch_status_eqb (Batch.status b) Available)
            (batches d)).

(** GET /alerts/low_stock *)
Definition getLowStockAlerts (d : db) : response StockAlerts.t * db :=
  (Json 200 (StockAlerts.mk (select_low_stock LOW_STOCK_THRESHOLD d)
                            (select_out_of_stock d)), d).

(** ** The locations with their contents *)

Module ContentRow.
Record t := mk {
  batch_id : Z;
  product_id : Z;
  product_name : string;
  product_type : storage_type;
  batch_number : string;
  assigned_quantity : Z;
  expiry_date : Z;
  barcode : option string;
  assigned_location_id : option Z;
  status : batch_status
}.
End ContentRow.

Module LocationDetails.
Record t := mk {
  location : Location.t;
  last_temp_update_formatted : string;
  contents : list ContentRow.t
}.
End LocationDetails.

(** SELECT b.batch_id, ..., b.quantity AS assigned_quantity, ...
    FROM batches b JOIN products p ON b.product_id = p.product_id
    WHERE b.assigned_location_id IS NOT NULL *)
Definition select_batches_with_product_info (d : db) : list ContentRow.t :=
  flat_map
    (fun b =>
       map (fun p =>
              ContentRow.mk (Batch.batch_id b) (Batch.product_id b) (Product.name p)
                (Product.category p) (Batch.batch_number b) (Batch.quantity b)
                (Batch.expiry_date b) (Batch.barcode b)
                (Batch.assigned_location_id b) (Batch.status b))
           (products_of b d))
    (filter (fun b => negb (is_null (Batch.assigned_location_id b))) (batches d)).

(** GET /storage_locations, with the locale's rendering of a timestamp. *)
Definition getStorageLocations (toLocaleString : Z -> string) (d : db)
  : response (list LocationDetails.t) * db :=
  let batchesWithProductInfo := select_batches_with_product_info d in
  (Json 200
     (map (fun location =>
             let contents :=
               filter (fun batch =>
                         option_Z_eqb (ContentRow.assigned_location_id batch)
                                      (Some (Location.location_id location)))
                      batchesWithProductInfo in
             LocationDetails.mk location
               (match Location.last_temp_update location with
                | Some t => toLocaleString t
                | None => "N/A"
                end)
               contents)
          (storage_locations d)),
   d).

Definition is_nil {A} (l : list A) : bool :=
  match l with
  | [] => true
  | _ :: _ => false
  end.

(** The quantity a location's contents add up to. *)
Fixpoint content_quantity (rows : list ContentRow.t) : Z :=
  match rows with
  | [] => 0
  | r :: rest => ContentRow.assigned_quantity r + content_quantity rest
  end.

(** The body of POST /batches as the handler accepts it. *)
Definition valid_batch_request
    (req : BatchRequest.t) (productId : Z) (batchNumber : string)
    (expiryDate quantity : Z) : Prop :=
  BatchRequest.product_id req = Some productId
  /\ BatchRequest.batch_number req = Some batchNumber
  /\ BatchRequest.expiry_date req = Some expiryDate
  /\ BatchRequest.quantity req = Some quantity
  /\ productId <> 0 /\ batchNumber <> "" /\ 0 < quantity.

(** The allocator's choice among the candidates of a category. *)
Definition first_fit (productCategory : storage_type) (quantityNeeded : Z) (d : db)
  : option Location.t :=
  if storage_type_eqb productCategory ColdStorage
  then find temperature_suitable
         (select_candidate_locations productCategory quantityNeeded d)
  else hd_error (select_candidate_locations productCategory quantityNeeded d).

(** The body of PUT /batches/:id as the handler accepts it. *)
Definition valid_batch_update
    (req : BatchRequest.t) (productId : Z) (batchNumber : string)
    (expiryDate quantity : Z) (status : batch_status) : Prop :=
  BatchRequest.product_id req = Some productId
  /\ BatchRequest.batch_number req = Some batchNumber
  /\ BatchRequest.expiry_date req = Some expiryDate
  /\ BatchRequest.quantity req = Some quantity
  /\ BatchRequest.status req = Some status
  /\ productId <> 0 /\ batchNumber <> "" /\ 0 <= quantity.

(** No batch holds a negative quantity. *)
Definition stocked (d : db) : Prop :=
  forall b, In b (batches d) -> 0 <= Batch.quantity b.

(** The quantity picked for order [orderId]. *)
Fixpoint picked_for (orderId : Z) (ps : list Pick.t) : Z :=
  match ps with
  | [] => 0
  | p :: rest =>
      (if Pick.order_id p =? orderId then Pick.quantity_picked p else 0)
      + picked_for orderId rest
  end.

(** The quantity the items of a request ask for. *)
Fixpoint requested_total (items : list ItemRequest.t) : Z :=
  match items with
  | [] => 0
  | item :: rest => to_number (ItemRequest.quantity item) + requested_total rest
  end.

(** The amount a plan takes from the batches [bs]. *)
Fixpoint taken_from (bs : list Batch.t) (plan : list (Batch.t * Z)) : Z :=
  match bs with
  | [] => 0
  | b :: rest => taken_from_batch (Batch.batch_id b) plan + taken_from rest plan
  end.

(** [location_id] is a primary key. *)
Definition locations_keyed (d : db) : Prop :=
  NoDup (map Location.location_id (storage_locations d)).

(** The WHERE clause of the candidate query. *)
Definition is_candidate (productId : Z) (b : Batch.t) : bool :=
  (Batch.product_id b =? productId)
  && (0 <? Batch.quantity b)
  && batch_status_eqb (Batch.status b) Available.

(** The quantity the items of a request ask for of one product. *)
Fixpoint requested_for (productId : Z) (items : list ItemRequest.t) : Z :=
  match items with
  | [] => 0
  | item :: rest =>
      (if to_number (ItemRequest.product_id item) =? productId
       then to_number (ItemRequest.quantity item)
       else 0)
      + requested_for productId rest
  end.

(** ** Temperature logging *)

(** The row after UPDATE ... SET latest_temperature = ?, last_temp_update = NOW(). *)
Definition with_reading (reading now : Z) (l : Location.t) : Location.t :=
  Location.mk (Location.location_id l) (Location.zone l) (Location.rack l)
    (Location.slot l) (Location.location_type l) (Location.capacity l)
    (Location.current_occupancy l) (Location.min_temp l) (Location.max_temp l)
    (Some reading) (Some now).

(** INSERT INTO temperature_logs (location_id, temperature_reading, timestamp)
    VALUES (?, ?, NOW()): no handler reads the table, so all that the
    statement shows is its foreign key to [storage_locations]. *)
Definition insert_temperature_log (locationId : Z) (d : db) : result (unit * db) :=
  if negb (location_exists locationId d)
  then Throw (ER_NO_REFERENCED_ROW_2 "temperature_logs_ibfk_1")
  else Ok (tt, d).

(** UPDATE storage_locations SET latest_temperature = ?, last_temp_update = NOW()
    WHERE location_id = ? *)
Definition update_latest_temperature (reading now locationId : Z) (d : db) : db :=
  with_storage_locations
    (map (fun l =>
            if Location.location_id l =? locationId
            then with_reading reading now l
            else l)
         (storage_locations d))
    d.

(** POST /temperature_logs, served when NOW() is [now]; a missing field
    of the body is [None].  The Socket.IO broadcast that follows the
    answer changes no row and is left out. *)
Definition logTemperature (now : Z) (location_id temperature_reading : option Z) (d : db)
  : response string * db :=
  match location_id, temperature_reading with
  | Some location_id, Some temperature_reading =>
      run_handler
        (try_catch
           (statement (insert_temperature_log location_id) ;;;
            statement (fun w =>
              Ok (tt, update_latest_temperature temperature_reading now location_id w)) ;;;
            commit ;;;
            ret (Json 201 "Temperature log received and stored successfully"))%tx
           (fun err => rollback ;;; ret (InternalServerError err))%tx)
        d
  | _, _ =>
      (JsonError 400 "Location ID and a valid temperature reading are required.", d)
  end.

(** * Master data and dispatches *)

(** The handlers below insert into [products], [storage_locations] and
    [dispatches], so the store carries the AUTO_INCREMENT counters of the
    first two and the rows and counter of the third next to the tables
    above.  They run their statements on the pool, each statement in its
    own transaction.  Values are taken to fit their columns, and strings
    are compared character by character. *)

Module Dispatch.
Record t := mk {
  dispatch_id : Z;
  order_id : Z;
  dispatched_by : string;
  dispatch_date : Z
}.
End Dispatch.

Record store := mkStore {
  tables : db;
  dispatches : list Dispatch.t;
  next_product_id : Z;
  next_location_id : Z;
  next_dispatch_id : Z
}.

Definition with_tables (d : db) (s : store) : store :=
  mkStore d (dispatches s) (next_product_id s) (next_location_id s)
          (next_dispatch_id s).

Definition with_products (ps : list Product.t) (d : db) : db :=
  mkDb ps (storage_locations d) (batches d) (orders d) (order_items d)
       (order_batch_picks d) (next_batch_id d) (next_order_id d)
       (next_order_item_id d) (next_pick_id d).

(** A handler of the tables above, run on the store. *)
Definition on_tables {A} (handler : db -> A * db) (s : store) : A * store :=
  let '(answer, d) := handler (tables s) in (answer, with_tables d s).

(** The double quote of the messages that quote the two categories. *)
Definition dquote : string := String (Ascii.ascii_of_nat 34) EmptyString.

(** [['Ambient', 'Cold Storage'].includes(category)] *)
Definition storage_type_of_string (s : string) : option storage_type :=
  if String.eqb s "Ambient" then Some Ambient
  else if String.eqb s "Cold Storage" then Some ColdStorage
  else None.

(** ** Products *)

(** The JSON body of POST /products; a missing field is [None]. *)
Module ProductRequest.
Record t := mk { name : option string; category : option string }.
End ProductRequest.

(** INSERT INTO products (name, ..., category, ...) VALUES (?, ..., ?, ...):
    the unique key [name]; the result is [insertId]. *)
Definition insert_product (name : string) (category : storage_type) (s : store)
  : result (Z * store) :=
  if existsb (fun p => String.eqb (Product.name p) name) (products (tables s))
  then Throw (ER_DUP_ENTRY "products.name")
  else
    let insertId := next_product_id s in
    Ok (insertId,
        mkStore
          (with_products
             (products (tables s) ++ [Product.mk insertId name category])
             (tables s))
          (dispatches s) (insertId + 1) (next_location_id s) (next_dispatch_id s)).

(** SELECT * FROM products WHERE product_id = ?, first row. *)
Definition select_product (productId : Z) (s : store) : option Product.t :=
  hd_error (filter (fun p => Product.product_id p =? productId) (products (tables s))).

(** POST /products *)
Definition createProduct (req : ProductRequest.t) (s : store)
  : response (option Product.t) * store :=
  match ProductRequest.name req, ProductRequest.category req with
  | Some name, Some category =>
      if String.eqb name "" || String.eqb category ""
      then (JsonError 400 "Product name and category are required.", s)
      else
        match storage_type_of_string category with
        | None =>
            (JsonError 400
               ("Invalid category. Only " ++ dquote ++ "Ambient" ++ dquote ++ " or "
                ++ dquote ++ "Cold Storage" ++ dquote ++ " are allowed.")%string, s)
        | Some category =>
            match insert_product name category s with
            | Ok (insertId, s') => (Json 201 (select_product insertId s'), s')
            | Throw (ER_DUP_ENTRY _) =>
                (JsonError 409
                   ("Product with name '" ++ name ++ "' already exists.")%string, s)
            | Throw err => (InternalServerError err, s)
            end
        end
  | _, _ => (JsonError 400 "Product name and category are required.", s)
  end.

(** ** Storage locations *)

(** The JSON body of POST /storage_locations; a missing field is [None],
    and the numbers are numbers. *)
Module LocationRequest.
Record t := mk {
  zone : option string;
  rack : option string;
  slot : option string;
  location_type : option string;
  capacity : option Z;
  min_temp : option Z;
  max_temp : option Z
}.
End LocationRequest.

(** INSERT INTO storage_locations (zone, rack, slot, location_type, size_type,
    capacity, current_occupancy, min_temp, max_temp)
    VALUES (?, ?, ?, ?, ?, ?, 0, ?, ?): UNIQUE(zone, rack, slot); the
    reading and its time take their default, NULL. *)
Definition insert_location
    (zone rack slot : string) (locationType : storage_type) (capacity : Z)
    (minTemp maxTemp : option Z) (s : store) : result (Z * store) :=
  if existsb (fun l => String.eqb (Location.zone l) zone
                       && String.eqb (Location.rack l) rack
                       && String.eqb (Location.slot l) slot)
             (storage_locations (tables s))
  then Throw (ER_DUP_ENTRY "storage_locations.zone")
  else
    let insertId := next_location_id s in
    Ok (insertId,
        mkStore
          (with_storage_locations
             (storage_locations (tables s) ++
              [Location.mk insertId zone rack slot locationType capacity 0
                           minTemp maxTemp None None])
             (tables s))
          (dispatches s) (next_product_id s) (insertId + 1) (next_dispatch_id s)).

(** SELECT * FROM storage_locations WHERE location_id = ?, first row. *)
Definition select_location (locationId : Z) (s : store) : option Location.t :=
  hd_error (filter (fun l => Location.location_id l =? locationId)
                   (storage_locations (tables s))).

(** POST /storage_locations *)
Definition createStorageLocation (req : LocationRequest.t) (s : store)
  : response (option Location.t) * store :=
  match LocationRequest.zone req, LocationRequest.rack req, LocationRequest.slot req,
        LocationRequest.capacity req, LocationRequest.location_type req with
  | Some zone, Some rack, Some slot, Some capacity, Some location_type =>
      if String.eqb zone "" || String.eqb rack "" || String.eqb slot ""
         || (capacity <=? 0) || String.eqb location_type ""
      then (JsonError 400 "Zone, Rack, Slot, Location Type, and a valid positive Capacity are required.", s)
      else
        match storage_type_of_string location_type with
        | None =>
            (JsonError 400
               ("Invalid location type. Must be " ++ dquote ++ "Ambient" ++ dquote
                ++ " or " ++ dquote ++ "Cold Storage" ++ dquote ++ ".")%string, s)
        | Some locationType =>
            let insert min_temp max_temp :=
              match insert_location zone rack slot locationType capacity
                      min_temp max_temp s with
              | Ok (insertId, s') => (Json 201 (select_location insertId s'), s')
              | Throw (ER_DUP_ENTRY _) =>
                  (JsonError 409
                     "A location with this Zone, Rack, and Slot already exists.", s)
              | Throw err => (InternalServerError err, s)
              end in
            match locationType with
            | ColdStorage =>
                match LocationRequest.min_temp req, LocationRequest.max_temp req with
                | Some min_temp, Some max_temp => insert (Some min_temp) (Some max_temp)
                | _, _ =>
                    (JsonError 400 "Min/Max Temperatures are required and must be numbers for Cold Storage locations.", s)
                end
            | Ambient => insert None None
            end
        end
  | _, _, _, _, _ =>
      (JsonError 400 "Zone, Rack, Slot, Location Type, and a valid positive Capacity are required.", s)
  end.

(** ** Dispatches *)

(** The JSON body of POST /dispatches; a missing field is [None]. *)
Module DispatchRequest.
Record t := mk {
  order_id : option Z;
  dispatched_by : option string;
  dispatch_date : option Z
}.
End DispatchRequest.

(** INSERT INTO dispatches (order_id, dispatched_by, dispatch_date)
    VALUES (?, ?, ?): the foreign key to [orders] and the unique key
    [order_id], which share an index. *)
Definition insert_dispatch (orderId : Z) (dispatchedBy : string) (dispatchDate : Z)
    (s : store) : result (Z * store) :=
  if negb (order_exists orderId (tables s))
  then Throw (ER_NO_REFERENCED_ROW_2 "dispatches_ibfk_1")
  else if existsb (fun x => Dispatch.order_id x =? orderId) (dispatches s)
  then Throw (ER_DUP_ENTRY "dispatches.order_id")
  else
    let insertId := next_dispatch_id s in
    Ok (insertId,
        mkStore (tables s)
          (dispatches s ++ [Dispatch.mk insertId orderId dispatchedBy dispatchDate])
          (next_product_id s) (next_location_id s) (insertId + 1)).

(** SELECT * FROM dispatches WHERE dispatch_id = ?, first row. *)
Definition select_dispatch (dispatchId : Z) (s : store) : option Dispatch.t :=
  hd_error (filter (fun x => Dispatch.dispatch_id x =? dispatchId) (dispatches s)).

(** POST /dispatches *)
Definition recordDispatch (req : DispatchRequest.t) (s : store)
  : response (option Dispatch.t) * store :=
  match DispatchRequest.order_id req, DispatchRequest.dispatched_by req,
        DispatchRequest.dispatch_date req with
  | Some order_id, Some dispatched_by, Some dispatch_date =>
      if (order_id =? 0) || String.eqb dispatched_by ""
      then (JsonError 400 "Order ID, dispatcher, and date are required for dispatch.", s)
      else
        match insert_dispatch order_id dispatched_by dispatch_date s with
        | Ok (insertId, s') => (Json 201 (select_dispatch insertId s'), s')
        | Throw err => (InternalServerError err, s)
        end
  | _, _, _ =>
      (JsonError 400 "Order ID, dispatcher, and date are required for dispatch.", s)
  end.

(** What the schema guarantees of [products]: [product_id] is a primary
    key drawn from a positive AUTO_INCREMENT counter and [name] is unique. *)
Definition products_keyed (s : store) : Prop :=
  NoDup (map Product.product_id (products (tables s)))
  /\ NoDup (map Product.name (products (tables s)))
  /\ 0 < next_product_id s
  /\ forall p, In p (products (tables s)) ->
       0 < Product.product_id p < next_product_id s.

(** The body of POST /products as the handler accepts it. *)
Definition valid_product_request
    (req : ProductRequest.t) (name : string) (category : storage_type) : Prop :=
  ProductRequest.name req = Some name /\ name <> ""
  /\ exists text, ProductRequest.category req = Some text
                  /\ storage_type_of_string text = Some category.

(** The sample warehouse with its counters, no dispatch recorded. *)
Definition depot : store := mkStore Sample.warehouse [] 3 4 1.

(** What the schema guarantees of [storage_locations]: [location_id] is
    a primary key drawn from a positive AUTO_INCREMENT counter and
    (zone, rack, slot) is unique. *)
Definition locations_wellkeyed (s : store) : Prop :=
  locations_keyed (tables s)
  /\ NoDup (map (fun l => (Location.zone l, Location.rack l, Location.slot l))
                (storage_locations (tables s)))
  /\ 0 < next_location_id s
  /\ forall l, In l (storage_locations (tables s)) ->
       0 < Location.location_id l < next_location_id s.

(** The bounds POST /storage_locations stores for a location type:
    those of the request for Cold Storage, which must give both, and none
    for Ambient. *)
Definition stored_bounds (req : LocationRequest.t) (locationType : storage_type)
  : option (option Z * option Z) :=
  match locationType with
  | ColdStorage =>
      match LocationRequest.min_temp req, LocationRequest.max_temp req with
      | Some lo, Some hi => Some (Some lo, Some hi)
      | _, _ => None
      end
  | Ambient => Some (None, None)
  end.

(** The body of POST /storage_locations as the handler accepts it. *)
Definition valid_location_request
    (req : LocationRequest.t) (zone rack slot : string)
    (locationType : storage_type) (capacity : Z) (bounds : option Z * option Z)
  : Prop :=
  LocationRequest.zone req = Some zone /\ zone <> ""
  /\ LocationRequest.rack req = Some rack /\ rack <> ""
  /\ LocationRequest.slot req = Some slot /\ slot <> ""
  /\ LocationRequest.capacity req = Some capacity /\ 0 < capacity
  /\ (exists text, LocationRequest.location_type req = Some text
                   /\ storage_type_of_string text = Some locationType)
  /\ stored_bounds req locationType = Some bounds.

(** What the schema guarantees of [dispatches]: one dispatch per order,
    of an order that exists, under an id below the counter. *)
Definition dispatches_keyed (s : store) : Prop :=
  NoDup (map Dispatch.order_id (dispatches s))
  /\ (forall x, In x (dispatches s) ->
        order_exists (Dispatch.order_id x) (tables s) = true)
  /\ (forall x, In x (dispatches s) -> Dispatch.dispatch_id x < next_dispatch_id s).

(** The body of POST /dispatches as the handler accepts it. *)
Definition valid_dispatch_request
    (req : DispatchRequest.t) (orderId : Z) (dispatchedBy : string) (dispatchDate : Z)
  : Prop :=
  DispatchRequest.order_id req = Some orderId /\ orderId <> 0
  /\ DispatchRequest.dispatched_by req = Some dispatchedBy /\ dispatchedBy <> ""
  /\ DispatchRequest.dispatch_date req = Some dispatchDate.

(** * The requests that write *)

Inductive request :=
| PostProducts (req : ProductRequest.t)
| PostStorageLocations (req : LocationRequest.t)
| PostBatches (req : BatchRequest.t)
| PutBatches (id : Z) (req : BatchRequest.t)
| DeleteBatches (id : Z)
| PostOrders (items : list ItemRequest.t)
| PutOrders (orderId : Z) (status : option string)
| PutOrderBatchPicks (pickId : Z) (status : option string)
| PostDispatches (req : DispatchRequest.t)
| PostTemperatureLogs (now : Z) (location_id temperature_reading : option Z).

(** The store after a request is served. *)
Definition serve (r : request) (s : store) : store :=
  match r with
  | PostProducts req => snd (createProduct req s)
  | PostStorageLocations req => snd (createStorageLocation req s)
  | PostBatches req => snd (on_tables (createBatch req) s)
  | PutBatches id req => snd (on_tables (updateBatch id req) s)
  | DeleteBatches id => snd (on_tables (deleteBatch id) s)
  | PostOrders items => snd (on_tables (createOrder items) s)
  | PutOrders orderId status => snd (on_tables (setOrderStatus orderId status) s)
  | PutOrderBatchPicks pickId status => snd (on_tables (setPickStatus pickId status) s)
  | PostDispatches req => snd (recordDispatch req s)
  | PostTemperatureLogs now location_id temperature_reading =>
      snd (on_tables (logTemperature now location_id temperature_reading) s)
  end.

Definition serve_all (rs : list request) (s : store) : store :=
  fold_left (fun s r => serve r s) rs s.

(** The database of schema.sql before its sample rows. *)
Definition empty_store : store :=
  mkStore (mkDb [] [] [] [] [] [] 1 1 1 1) [] 1 1 1.

(** The columns of a location that neither a stock movement nor a
    reading writes. *)
Definition fixture (l : Location.t) : Location.t :=
  Location.with_occupancy 0 (with_reading 0 0 l).

(** The products, the fixtures and the orders of [d] are those of [d']. *)
Definition master_data_kept (d d' : db) : Prop :=
  products d' = products d
  /\ map fixture (storage_locations d') = map fixture (storage_locations d)
  /\ forall orderId, order_exists orderId d = true -> order_exists orderId d' = true.

(** The foreign keys of the schema, and what the handlers add to them:
    every batch has a location. *)
Definition referenced (d : db) : Prop :=
  (forall b, In b (batches d) ->
     product_exists (Batch.product_id b) d = true
     /\ exists k, Batch.assigned_location_id b = Some k /\ location_exists k d = true)
  /\ (forall p, In p (order_batch_picks d) ->
        batch_exists (Pick.batch_id p) d = true
        /\ order_exists (Pick.order_id p) d = true)
  /\ (forall o, In o (orders d) -> Order.order_id o < next_order_id d).

Definition consistent (s : store) : Prop :=
  sound (tables s)
  /\ stocked (tables s)
  /\ referenced (tables s)
  /\ cold_storage_bounded (tables s)
  /\ products_keyed s
  /\ locations_wellkeyed s
  /\ dispatches_keyed s.

(** * The dashboard lists *)

(** A row of GET /batches: the batch with the name and category of its
    product and, by LEFT JOIN, the place of its location. *)
Module DashboardRow.
Record t := mk {
  batch : Batch.t;
  product_name : string;
  product_type : storage_type;
  zone : option string;
  rack : option string;
  slot : option string
}.
End DashboardRow.

(** The locations a batch row joins with:
    LEFT JOIN storage_locations sl ON b.assigned_location_id = sl.location_id. *)
Definition locations_of (b : Batch.t) (d : db) : list Location.t :=
  filter (fun sl => option_Z_eqb (Batch.assigned_location_id b)
                                 (Some (Location.location_id sl)))
         (storage_locations d).

(** SELECT b.*, p.name AS product_name, p.category AS product_type,
           sl.zone, sl.rack, sl.slot
    FROM batches b JOIN products p ON b.product_id = p.product_id
    LEFT JOIN storage_locations sl ON b.assigned_location_id = sl.location_id *)
Definition select_dashboard_batches (d : db) : list DashboardRow.t :=
  flat_map
    (fun b =>
       flat_map
         (fun p =>
            match locations_of b d with
            | [] => [DashboardRow.mk b (Product.name p) (Product.category p)
                                     None None None]
            | sls =>
                map (fun sl =>
                       DashboardRow.mk b (Product.name p) (Product.category p)
                         (Some (Location.zone sl)) (Some (Location.rack sl))
                         (Some (Location.slot sl)))
                    sls
            end)
         (products_of b d))
    (batches d).

(** GET /batches *)
Definition getBatches (d : db) : response (list DashboardRow.t) * db :=
  (Json 200 (select_dashboard_batches d), d).

(** A row of [order.picked_batches] of GET /orders. *)
Module PickedBatchRow.
Record t := mk {
  pick_id : Z;
  batch_id : Z;
  quantity_picked : Z;
  status : pick_status;
  batch_number : string;
  barcode : option string;
  product_name : string;
  assigned_location_id : option Z;
  zone : option string;
  rack : option string;
  slot : option string
}.
End PickedBatchRow.

(** A row of [order.items] of GET /orders. *)
Module OrderItemRow.
Record t := mk { product_id : Z; quantity : Z; product_name : string }.
End OrderItemRow.

Module OrderDetails.
Record t := mk {
  order : Order.t;
  items : list OrderItemRow.t;
  picked_batches : list PickedBatchRow.t
}.
End OrderDetails.

(** SELECT oi.product_id, oi.quantity, p.name AS product_name
    FROM order_items oi JOIN products p ON oi.product_id = p.product_id
    WHERE oi.order_id = ? *)
Definition select_items_of_order (orderId : Z) (d : db) : list OrderItemRow.t :=
  flat_map
    (fun oi =>
       map (fun p => OrderItemRow.mk (OrderItem.product_id oi) (OrderItem.quantity oi)
                       (Product.name p))
           (filter (fun p => Product.product_id p =? OrderItem.product_id oi)
                   (products d)))
    (filter (fun oi => OrderItem.order_id oi =? orderId) (order_items d)).

(** SELECT obp.pick_id, obp.batch_id, obp.quantity_picked, obp.status,
           b.batch_number, b.barcode, p.name AS product_name,
           b.assigned_location_id, sl.zone, sl.rack, sl.slot
    FROM order_batch_picks obp
    JOIN batches b ON obp.batch_id = b.batch_id
    JOIN products p ON b.product_id = p.product_id
    LEFT JOIN storage_locations sl ON b.assigned_location_id = sl.location_id
    WHERE obp.order_id = ? *)
Definition select_picked_batches (orderId : Z) (d : db) : list PickedBatchRow.t :=
  flat_map
    (fun obp =>
       flat_map
         (fun b =>
            flat_map
              (fun p =>
                 let row zone rack slot :=
                   PickedBatchRow.mk (Pick.pick_id obp) (Pick.batch_id obp)
                     (Pick.quantity_picked obp) (Pick.status obp)
                     (Batch.batch_number b) (Batch.barcode b) (Product.name p)
                     (Batch.assigned_location_id b) zone rack slot in
                 match locations_of b d with
                 | [] => [row None None None]
                 | sls =>
                     map (fun sl => row (Some (Location.zone sl))
                                        (Some (Location.rack sl))
                                        (Some (Location.slot sl)))
                         sls
                 end)
              (products_of b d))
         (filter (fun b => Batch.batch_id b =? Pick.batch_id obp) (batches d)))
    (filter (fun obp => Pick.order_id obp =? orderId) (order_batch_picks d)).

(** GET /orders: every order with its items and its picked batches. *)
Definition getOrders (d : db) : response (list OrderDetails.t) * db :=
  (Json 200
     (map (fun order =>
             OrderDetails.mk order
               (select_items_of_order (Order.order_id order) d)
               (select_picked_batches (Order.order_id order) d))
          (orders d)),
   d).

(** The quantity the picked batches of an order add up to. *)
Fixpoint picked_quantity (rows : list PickedBatchRow.t) : Z :=
  match rows with
  | [] => 0
  | r :: rest => PickedBatchRow.quantity_picked r + picked_quantity rest
  end.

(** * Proofs *)

(** ** ORDER BY is a stable sort *)

Section OrderBy.

Context {A : Type} (le : A -> A -> bool).

Lemma insert_by_perm (x : A) (l : list A) : Permutation (x :: l) (insert_by le x l).
Proof.
  induction l as [|y l IH]; simpl; [reflexivity|].
  destruct (le x y); [reflexivity|].
  rewrite perm_swap. now constructor.
Qed.

Lemma order_by_perm (l : list A) : Permutation l (order_by le l).
Proof.
  induction l as [|x l IH]; simpl; [constructor|].
  rewrite <- insert_by_perm. now constructor.
Qed.

Lemma order_by_In (l : list A) (x : A) : In x (order_by le l) <-> In x l.
Proof.
  split; apply Permutation_in; [symmetry|]; apply order_by_perm.
Qed.

Hypothesis le_total : forall a b, le a b = true \/ le b a = true.
Hypothesis le_trans : forall a b c, le a b = true -> le b c = true -> le a c = true.

Lemma insert_by_sorted (x : A) (l : list A) :
  StronglySorted (fun a b => le a b = true) l ->
  StronglySorted (fun a b => le a b = true) (insert_by le x l).
Proof.
  induction 1 as [|y l Hs IH Hy]; simpl.
  - repeat constructor.
  - destruct (le x y) eqn:E.
    + constructor; [now constructor|].
      constructor; [exact E|].
      rewrite Forall_forall in *. eauto.
    + constructor; [exact IH|].
      rewrite Forall_forall in *. intros z Hz.
      apply (Permutation_in _ (Permutation_sym (insert_by_perm x l))) in Hz.
      destruct Hz as [<-|Hz]; [|now apply Hy].
      destruct (le_total x y) as [H|H]; congruence.
Qed.

Lemma order_by_sorted (l : list A) :
  StronglySorted (fun a b => le a b = true) (order_by le l).
Proof.
  induction l; simpl; [constructor|now apply insert_by_sorted].
Qed.

End OrderBy.

Lemma sorted_weaken {A} (R R' : A -> A -> Prop) (l : list A) :
  (forall a b, R a b -> R' a b) -> StronglySorted R l -> StronglySorted R' l.
Proof.
  intros HR. induction 1 as [|x l Hs IH Hx]; constructor; [exact IH|].
  eapply Forall_impl; [|exact Hx]. auto.
Qed.

(** In a strongly sorted list, whatever comes later is above. *)
Lemma sorted_split {A} (R : A -> A -> Prop) (l1 l2 : list A) (x y : A) :
  StronglySorted R (l1 ++ x :: l2) -> In y l2 -> R x y.
Proof.
  induction l1 as [|z l1 IH]; simpl; intros Hs Hy.
  - inversion Hs as [|? ? _ Hall]; subst.
    rewrite Forall_forall in Hall. now apply Hall.
  - inversion Hs; subst. now apply IH.
Qed.

(** ** Sums of assigned quantities *)

Lemma assigned_quantity_app (k : Z) (l1 l2 : list Batch.t) :
  assigned_quantity k (l1 ++ l2) = assigned_quantity k l1 + assigned_quantity k l2.
Proof.
  induction l1; simpl; lia.
Qed.

Lemma map_update_absent (i : Z) (f : Batch.t -> Batch.t) (bs : list Batch.t) :
  ~ In i (map Batch.batch_id bs) ->
  map (fun b => if Batch.batch_id b =? i then f b else b) bs = bs.
Proof.
  induction bs as [|b bs IH]; simpl; intros H; [reflexivity|].
  destruct (Z.eqb_spec (Batch.batch_id b) i); [tauto|].
  f_equal. apply IH. tauto.
Qed.

Lemma filter_delete_absent (i : Z) (bs : list Batch.t) :
  ~ In i (map Batch.batch_id bs) ->
  filter (fun b => negb (Batch.batch_id b =? i)) bs = bs.
Proof.
  induction bs as [|b bs IH]; simpl; intros H; [reflexivity|].
  destruct (Z.eqb_spec (Batch.batch_id b) i); [tauto|].
  simpl. f_equal. apply IH. tauto.
Qed.

Lemma assigned_quantity_update
    (k i : Z) (f : Batch.t -> Batch.t) (bs : list Batch.t) (r : Batch.t) :
  NoDup (map Batch.batch_id bs) -> In r bs -> Batch.batch_id r = i ->
  assigned_quantity k (map (fun b => if Batch.batch_id b =? i then f b else b) bs)
  = assigned_quantity k bs + contribution k (f r) - contribution k r.
Proof.
  induction bs as [|b bs IH]; simpl; intros Hnd Hin Hid; [tauto|].
  inversion Hnd as [|? ? Hnotin Hnd']; subst.
  destruct Hin as [->|Hin].
  - rewrite Z.eqb_refl, map_update_absent by assumption. lia.
  - destruct (Z.eqb_spec (Batch.batch_id b) (Batch.batch_id r)) as [E|E].
    + exfalso. apply Hnotin. rewrite E. now apply in_map.
    + rewrite IH by auto. lia.
Qed.

Lemma assigned_quantity_delete (k i : Z) (bs : list Batch.t) (r : Batch.t) :
  NoDup (map Batch.batch_id bs) -> In r bs -> Batch.batch_id r = i ->
  assigned_quantity k (filter (fun b => negb (Batch.batch_id b =? i)) bs)
  = assigned_quantity k bs - contribution k r.
Proof.
  induction bs as [|b bs IH]; simpl; intros Hnd Hin Hid; [tauto|].
  inversion Hnd as [|? ? Hnotin Hnd']; subst.
  destruct Hin as [->|Hin].
  - rewrite Z.eqb_refl. simpl. rewrite filter_delete_absent by assumption. lia.
  - destruct (Z.eqb_spec (Batch.batch_id b) (Batch.batch_id r)) as [E|E].
    + exfalso. apply Hnotin. rewrite E. now apply in_map.
    + simpl. rewrite IH by auto. lia.
Qed.



(** ** Moving the counter with the batches *)

Lemma adjust_id (locationId delta : Z) (l : Location.t) :
  Location.location_id (adjust locationId delta l) = Location.location_id l.
Proof.
  unfold adjust. now destruct (_ =? _).
Qed.

Lemma ledger_add (ls : list Location.t) (bs bs' : list Batch.t) (loc delta : Z) :
  ledger ls bs ->
  (forall l, In l ls ->
     assigned_quantity (Location.location_id l) bs'
     = assigned_quantity (Location.location_id l) bs
       + (if Location.location_id l =? loc then delta else 0)) ->
  ledger (map (adjust loc delta) ls) bs'.
Proof.
  intros Hl Hq l' Hin. apply in_map_iff in Hin as (l & <- & Hin).
  rewrite adjust_id, (Hq l Hin). unfold adjust.
  destruct (_ =? _); simpl; rewrite (Hl l Hin); lia.
Qed.

Lemma ledger_same (ls : list Location.t) (bs bs' : list Batch.t) :
  ledger ls bs ->
  (forall l, In l ls ->
     assigned_quantity (Location.location_id l) bs'
     = assigned_quantity (Location.location_id l) bs) ->
  ledger ls bs'.
Proof.
  intros Hl Hq l Hin. rewrite (Hq l Hin). now apply Hl.
Qed.

Lemma add_occupancy_adjust (delta loc : Z) (d : db) :
  storage_locations (add_occupancy delta loc d)
  = map (adjust loc delta) (storage_locations d).
Proof. reflexivity. Qed.

Lemma subtract_occupancy_adjust (amount loc : Z) (d : db) :
  storage_locations (subtract_occupancy amount loc d)
  = map (adjust loc (- amount)) (storage_locations d).
Proof.
  unfold subtract_occupancy, adjust. simpl. apply map_ext. intros l.
  destruct (_ =? _); [|reflexivity]. f_equal.
Qed.

(** ** The allocator *)

Lemma storage_type_eqb_eq (a b : storage_type) : storage_type_eqb a b = true <-> a = b.
Proof. destruct a, b; simpl; split; congruence. Qed.

Lemma find_first {A} (f : A -> bool) (l : list A) (x : A) :
  find f l = Some x ->
  exists pre post, l = pre ++ x :: post /\ f x = true /\ Forall (fun y => f y = false) pre.
Proof.
  induction l as [|y l IH]; simpl; [discriminate|].
  destruct (f y) eqn:E.
  - intros [= ->]. exists [], l. auto.
  - intros H. destruct (IH H) as (pre & post & -> & Hx & Hpre).
    exists (y :: pre), post. auto.
Qed.

Lemma find_nothing {A} (f : A -> bool) (l : list A) :
  find f l = None -> Forall (fun y => f y = false) l.
Proof.
  induction l as [|y l IH]; simpl; [constructor|].
  destruct (f y) eqn:E; [discriminate|]. auto.
Qed.

Lemma candidate_locations_In (cat : storage_type) (q : Z) (d : db) (l : Location.t) :
  In l (select_candidate_locations cat q d)
  <-> In l (storage_locations d) /\ eligible cat q l.
Proof.
  unfold select_candidate_locations, eligible, free_capacity.
  rewrite order_by_In, filter_In, andb_true_iff, storage_type_eqb_eq, Z.leb_le.
  intuition lia.
Qed.

Lemma candidate_locations_sorted (cat : storage_type) (q : Z) (d : db) :
  StronglySorted (fun a b => free_capacity b <= free_capacity a)
                 (select_candidate_locations cat q d).
Proof.
  unfold select_candidate_locations.
  eapply sorted_weaken; [|apply order_by_sorted].
  - intros a b H. now apply Z.leb_le in H.
  - intros a b. rewrite !Z.leb_le. lia.
  - intros a b c'. rewrite !Z.leb_le. lia.
Qed.

(** ** The text of a temperature *)

Lemma text_order_agrees_In (vs : list Z) (x y : Z) :
  text_order_agrees vs = true -> In x vs -> In y vs ->
  js_lt (Some x) (Some y) = (x <? y).
Proof.
  unfold text_order_agrees. cbv zeta. intros H Hx Hy.
  rewrite forallb_forall in H.
  specialize (H _ (in_map (fun v => (v, decimal_string v)) vs x Hx)).
  rewrite forallb_forall in H.
  specialize (H _ (in_map (fun v => (v, decimal_string v)) vs y Hy)).
  cbn [fst snd] in H. apply Bool.eqb_prop in H. exact H.
Qed.

Lemma below_ten_In (v : Z) : below_ten v -> In v below_ten_values.
Proof.
  unfold below_ten, below_ten_values. intros Hv.
  apply in_map_iff. exists (Z.to_nat v). split; [lia|].
  apply in_seq. split; [apply Nat.le_0_l|].
  change (0 + 1000)%nat with (Z.to_nat 1000). apply Z2Nat.inj_lt; lia.
Qed.

Lemma text_order_checked : text_order_agrees below_ten_values = true.
Proof. vm_cast_no_check (eq_refl true). Qed.

(** From 0.00 to 9.99 the texts are ordered as the numbers are. *)
Lemma js_lt_below_ten (x y : Z) :
  below_ten x -> below_ten y -> js_lt (Some x) (Some y) = (x <? y).
Proof.
  intros Hx Hy.
  apply (text_order_agrees_In below_ten_values);
    [exact text_order_checked|now apply below_ten_In..].
Qed.

(** On a location whose reading and bounds lie between 0.00 and 9.99 the
    gate of the code is the gate of the specification. *)
Lemma temperature_suitable_within (l : Location.t) (lo hi : Z) :
  Location.min_temp l = Some lo -> Location.max_temp l = Some hi ->
  below_ten lo -> below_ten hi ->
  (forall t, Location.latest_temperature l = Some t -> below_ten t) ->
  temperature_suitable l = true <-> within_range l.
Proof.
  unfold temperature_suitable, within_range. intros Hmin Hmax Hlo Hhi Ht.
  rewrite Hmin, Hmax.
  destruct (Location.latest_temperature l) as [t|]; [|intuition].
  specialize (Ht t eq_refl). unfold js_ge, js_le.
  rewrite (js_lt_below_ten t lo Ht Hlo), (js_lt_below_ten hi t Hhi Ht).
  rewrite andb_true_iff, !negb_true_iff, !Z.ltb_ge. split.
  - intros H. right. exists t, lo, hi. auto.
  - intros [H|(t' & lo' & hi' & [= <-] & [= <-] & [= <-] & H)]; [discriminate|lia].
Qed.

Lemma findSuitableLocation_category
    (productId quantityNeeded : Z) (productCategory : storage_type) (c : connection) :
  hd_error (select_product_category productId (working c)) = Some productCategory ->
  findSuitableLocation productId quantityNeeded c
  = (Ok (if storage_type_eqb productCategory ColdStorage
         then find temperature_suitable
                (select_candidate_locations productCategory quantityNeeded (working c))
         else hd_error
                (select_candidate_locations productCategory quantityNeeded (working c))),
     c).
Proof.
  unfold findSuitableLocation, try_catch, bind, select, ret.
  destruct (select_product_category productId (working c)); simpl; [discriminate|].
  now intros [= ->].
Qed.

(** The allocator never touches the connection, whatever it answers. *)
Lemma findSuitableLocation_pure (productId quantityNeeded : Z) (c : connection) :
  snd (findSuitableLocation productId quantityNeeded c) = c.
Proof.
  unfold findSuitableLocation, try_catch, bind, select, ret, throw.
  now destruct (select_product_category productId (working c)).
Qed.

Lemma findSuitableLocation_found
    (productId quantityNeeded : Z) (c : connection) (loc : Location.t) :
  fst (findSuitableLocation productId quantityNeeded c) = Ok (Some loc) ->
  exists productCategory,
    In loc (storage_locations (working c))
    /\ eligible productCategory quantityNeeded loc.
Proof.
  unfold findSuitableLocation, try_catch, bind, select, ret, throw.
  destruct (select_product_category productId (working c)) as [|cat rest];
    simpl; [discriminate|].
  intros [= H]. exists cat. apply candidate_locations_In.
  destruct (storage_type_eqb cat ColdStorage).
  - apply find_some in H. tauto.
  - destruct (select_candidate_locations cat quantityNeeded (working c));
      simpl in *; [discriminate|]. injection H as ->. now left.
Qed.

(** C4. The temperature gate of [findSuitableLocation] compares the text
    of the DECIMAL columns, not their values.  On the sample warehouse the
    candidates for thirty doses are the freezer and then the fridge; the
    freezer reads 10.00 degrees against a maximum of 4.00 and fails the
    gate of the specification, the fridge passes it, and the allocator
    answers the freezer.  In the annex the cold room is the only candidate
    and reads 3.00 degrees between 2.00 and 10.00, and the allocator
    answers none.  Neither call changes the connection. *)
Theorem findSuitableLocation_gate_by_text :
  select_candidate_locations ColdStorage 30 Sample.warehouse
  = [Sample.freezer; Sample.fridge]
  /\ ~ passes_gate ColdStorage Sample.freezer
  /\ passes_gate ColdStorage Sample.fridge
  /\ findSuitableLocation 2 30 (getConnection Sample.warehouse)
     = (Ok (Some Sample.freezer), getConnection Sample.warehouse)
  /\ select_candidate_locations ColdStorage 30 Sample.annex = [Sample.coldroom]
  /\ passes_gate ColdStorage Sample.coldroom
  /\ findSuitableLocation 2 30 (getConnection Sample.annex)
     = (Ok None, getConnection Sample.annex).
Proof.
  split; [reflexivity|]. split.
  { intros [H|(t & lo & hi & [= <-] & [= <-] & [= <-] & H)]; [discriminate|lia]. }
  split.
  { right. exists 550, 200, 800. repeat split; lia. }
  split; [reflexivity|]. split; [reflexivity|]. split.
  { right. exists 300, 200, 1000. repeat split; lia. }
  reflexivity.
Qed.

(** ** What each batch handler leaves behind *)

Ltac tx_unfold :=
  unfold run_handler, try_catch, bind, statement, select, ret, throw,
         commit, rollback, getConnection in *.

Lemma createBatch_cases (req : BatchRequest.t) (d : db) :
  snd (createBatch req d) = d
  \/ exists loc productId batchNumber expiryDate quantity barcode,
       In loc (storage_locations d)
       /\ snd (createBatch req d)
          = add_occupancy quantity (Location.location_id loc)
              (with_batches
                 (batches d ++
                  [Batch.mk (next_batch_id d) productId batchNumber expiryDate
                            quantity (Some barcode)
                            (Some (Location.location_id loc)) Available])
                 (next_batch_id d + 1) d).
Proof.
  unfold createBatch.
  destruct (BatchRequest.product_id req) as [p|]; [|now left].
  destruct (BatchRequest.batch_number req) as [bn|]; [|now left].
  destruct (BatchRequest.expiry_date req) as [e|]; [|now left].
  destruct (BatchRequest.quantity req) as [q|]; [|now left].
  destruct (_ || _ || _); [now left|].
  pose proof (findSuitableLocation_pure p q (getConnection d)) as Hpure.
  pose proof (findSuitableLocation_found p q (getConnection d)) as Hfound.
  unfold run_handler, try_catch, bind.
  destruct (findSuitableLocation p q (getConnection d)) as [[[loc|]|err] c'];
    simpl in Hpure, Hfound; subst c'.
  - destruct (Hfound loc eq_refl) as (cat & Hin & _).
    unfold statement, insert_batch, commit, ret. simpl.
    destruct (existsb _ (batches d)); [left; reflexivity|].
    destruct (existsb _ (batches d)); [left; reflexivity|].
    destruct (negb (product_exists p d)); [left; reflexivity|].
    destruct (negb (location_exists _ d)); [left; reflexivity|].
    right. exists loc, p, bn, e, q, (barcode_or (BatchRequest.barcode req) bn).
    split; [exact Hin|reflexivity].
  - left. reflexivity.
  - left. unfold batch_catch, bind, rollback, ret. simpl.
    destruct err as [m|key|fk]; simpl; try reflexivity.
    destruct (String.eqb key _); reflexivity.
Qed.

Lemma deleteBatch_missing (id : Z) (d : db) :
  filter (fun b => Batch.batch_id b =? id) (batches d) = [] ->
  deleteBatch id d = (InternalServerError (JsError "Batch not found."), d).
Proof.
  intros H. unfold deleteBatch, select_batch_for_update. tx_unfold.
  simpl. rewrite H. reflexivity.
Qed.

Lemma deleteBatch_found (id : Z) (d : db) (r : Batch.t) (rest : list Batch.t) :
  filter (fun b => Batch.batch_id b =? id) (batches d) = r :: rest ->
  deleteBatch id d
  = (Json 200 (BatchDeleted.mk "Batch deleted successfully" id),
     let d' :=
       with_batches
         (filter (fun b => negb (Batch.batch_id b =? id)) (batches d))
         (next_batch_id d)
         (delete_picks_of_batch id (delete_picks_of_batch id d)) in
     if truthy (Batch.assigned_location_id r)
     then subtract_occupancy (Batch.quantity r)
            (to_number (Batch.assigned_location_id r)) d'
     else d').
Proof.
  intros H. unfold deleteBatch, select_batch_for_update, delete_batch. tx_unfold.
  simpl. rewrite H. simpl. rewrite H. simpl.
  destruct (truthy (Batch.assigned_location_id r)); reflexivity.
Qed.

Lemma updateBatch_cases (id : Z) (req : BatchRequest.t) (d : db) :
  snd (updateBatch id req d) = d
  \/ exists r rest productId batchNumber expiryDate quantity barcode status,
       filter (fun b => Batch.batch_id b =? id) (batches d) = r :: rest
       /\ 0 <= quantity
       /\ snd (updateBatch id req d)
          = let d' :=
              with_batches
                (map (fun b =>
                        if Batch.batch_id b =? id
                        then Batch.mk (Batch.batch_id b) productId batchNumber
                               expiryDate quantity (Some barcode)
                               (Batch.assigned_location_id b) status
                        else b)
                     (batches d))
                (next_batch_id d) d in
            if truthy (Batch.assigned_location_id r)
            then add_occupancy (quantity - Batch.quantity r)
                   (to_number (Batch.assigned_location_id r)) d'
            else d'.
Proof.
  unfold updateBatch.
  destruct (BatchRequest.product_id req) as [p|]; [|now left].
  destruct (BatchRequest.batch_number req) as [bn|]; [|now left].
  destruct (BatchRequest.expiry_date req) as [e|]; [|now left].
  destruct (BatchRequest.quantity req) as [q|]; [|now left].
  destruct (BatchRequest.status req) as [st|]; [|now left].
  destruct (_ || _ || _) eqn:Ev; [now left|].
  apply orb_false_iff in Ev as [_ Eq]. apply Z.ltb_ge in Eq.
  unfold select_batch_for_update, update_batch, batch_catch. tx_unfold. simpl.
  destruct (filter (fun b => Batch.batch_id b =? id) (batches d)) as [|r rest] eqn:E;
    simpl; [now left|].
  assert (Hex : existsb (fun b => Batch.batch_id b =? id) (batches d) = true).
  { assert (In r (filter (fun b => Batch.batch_id b =? id) (batches d)))
      as Hr by (rewrite E; now left).
    apply filter_In in Hr. apply existsb_exists. eauto. }
  rewrite Hex. simpl.
  repeat match goal with
         | |- context [if ?b then Throw _ else _] => destruct b; [left; reflexivity|]
         end.
  right. exists r, rest, p, bn, e, q, (barcode_or (BatchRequest.barcode req) bn), st.
  split; [reflexivity|]. split; [exact Eq|].
  destruct (truthy (Batch.assigned_location_id r)); reflexivity.
Qed.

(** ** The batch handlers keep the ledger *)

Lemma ledger_truthy
    (ls : list Location.t) (bs bs' : list Batch.t) (a : option Z) (delta : Z) :
  ledger ls bs ->
  (forall l, In l ls -> Location.location_id l <> 0) ->
  (forall k, assigned_quantity k bs'
             = assigned_quantity k bs
               + (if option_Z_eqb a (Some k) then delta else 0)) ->
  ledger (if truthy a then map (adjust (to_number a) delta) ls else ls) bs'.
Proof.
  intros Hl Hnz Hq. destruct a as [n|]; simpl.
  - destruct (Z.eqb_spec n 0) as [->|Hn]; simpl.
    + apply (ledger_same ls bs); [exact Hl|].
      intros l Hin. rewrite Hq. unfold option_Z_eqb.
      destruct (Z.eqb_spec 0 (Location.location_id l)) as [E|E]; [|lia].
      symmetry in E. now apply Hnz in E.
    + apply (ledger_add ls bs); [exact Hl|].
      intros l Hin. rewrite Hq. unfold option_Z_eqb, to_number.
      now rewrite Z.eqb_sym.
  - apply (ledger_same ls bs); [exact Hl|].
    intros l Hin. rewrite Hq. simpl. lia.
Qed.

Lemma adjust_nonzero (ls : list Location.t) (loc delta : Z) :
  (forall l, In l ls -> Location.location_id l <> 0) ->
  forall l, In l (map (adjust loc delta) ls) -> Location.location_id l <> 0.
Proof.
  intros H l Hin. apply in_map_iff in Hin as (l0 & <- & Hin).
  rewrite adjust_id. now apply H.
Qed.

Lemma first_row (id : Z) (bs rest : list Batch.t) (r : Batch.t) :
  filter (fun b => Batch.batch_id b =? id) bs = r :: rest ->
  In r bs /\ Batch.batch_id r = id.
Proof.
  intros E.
  assert (In r (filter (fun b => Batch.batch_id b =? id) bs)) as Hr
    by (rewrite E; now left).
  apply filter_In in Hr. now rewrite Z.eqb_eq in Hr.
Qed.

Lemma createBatch_keeps (req : BatchRequest.t) (d : db) :
  keys_wellformed d -> ledger_consistent d ->
  keys_wellformed (snd (createBatch req d))
  /\ ledger_consistent (snd (createBatch req d)).
Proof.
  intros Hk Hl.
  destruct (createBatch_cases req d)
    as [->|(loc & p & bn & e & q & bc & Hin & ->)]; [auto|].
  destruct Hk as (Hnd & Hlt & Hnz).
  unfold keys_wellformed, ledger_consistent.
  rewrite add_occupancy_adjust. simpl. repeat split.
  - rewrite map_app. simpl.
    apply (Permutation_NoDup (Permutation_cons_append _ _)).
    constructor; [|exact Hnd].
    intros Hx. apply in_map_iff in Hx as (b & Hb & Hbin).
    apply Hlt in Hbin. lia.
  - intros b Hb. apply in_app_or in Hb as [Hb|[<-|[]]]; simpl.
    + apply Hlt in Hb. lia.
    + lia.
  - now apply adjust_nonzero.
  - apply (ledger_add _ (batches d)); [exact Hl|].
    intros l Hlin. rewrite assigned_quantity_app. simpl.
    unfold contribution. simpl. rewrite (Z.eqb_sym (Location.location_id loc)). lia.
Qed.

Lemma updateBatch_keeps (id : Z) (req : BatchRequest.t) (d : db) :
  keys_wellformed d -> ledger_consistent d ->
  keys_wellformed (snd (updateBatch id req d))
  /\ ledger_consistent (snd (updateBatch id req d)).
Proof.
  intros Hk Hl.
  destruct (updateBatch_cases id req d)
    as [->|(r & rest & p & bn & e & q & bc & st & E & Hq & ->)]; [auto|].
  destruct Hk as (Hnd & Hlt & Hnz).
  apply first_row in E as (Hr & Hid).
  set (upd := fun b : Batch.t => Batch.mk (Batch.batch_id b) p bn e q (Some bc)
                                   (Batch.assigned_location_id b) st).
  change (map _ (batches d))
    with (map (fun b => if Batch.batch_id b =? id then upd b else b) (batches d)).
  set (bs' := map (fun b => if Batch.batch_id b =? id then upd b else b) (batches d)).
  assert (Hids : map Batch.batch_id bs' = map Batch.batch_id (batches d)).
  { unfold bs'. rewrite map_map. apply map_ext. intros b.
    now destruct (_ =? _). }
  assert (Hled : ledger
                   (if truthy (Batch.assigned_location_id r)
                    then map (adjust (to_number (Batch.assigned_location_id r))
                                     (q - Batch.quantity r)) (storage_locations d)
                    else storage_locations d) bs').
  { apply (ledger_truthy _ (batches d)); auto.
    intros k. unfold bs'.
    rewrite (assigned_quantity_update k id upd (batches d) r Hnd Hr Hid).
    unfold contribution, upd. simpl.
    destruct (option_Z_eqb _ _); lia. }
  assert (Hlt' : forall b, In b bs' -> Batch.batch_id b < next_batch_id d).
  { intros b Hb. unfold bs' in Hb. apply in_map_iff in Hb as (b0 & <- & Hb0).
    apply Hlt in Hb0. now destruct (_ =? _). }
  clearbody bs'.
  unfold keys_wellformed, ledger_consistent.
  destruct (truthy (Batch.assigned_location_id r)); cbv zeta.
  - rewrite add_occupancy_adjust. simpl. rewrite Hids. repeat split; auto.
    now apply adjust_nonzero.
  - simpl. rewrite Hids. repeat split; auto.
Qed.

Lemma deleteBatch_keeps (id : Z) (d : db) :
  keys_wellformed d -> ledger_consistent d ->
  keys_wellformed (snd (deleteBatch id d))
  /\ ledger_consistent (snd (deleteBatch id d)).
Proof.
  intros Hk Hl.
  destruct (filter (fun b => Batch.batch_id b =? id) (batches d)) as [|r rest] eqn:E.
  - rewrite (deleteBatch_missing id d E). auto.
  - rewrite (deleteBatch_found id d r rest E). simpl snd.
    destruct Hk as (Hnd & Hlt & Hnz).
    apply first_row in E as (Hr & Hid).
    set (bs' := filter (fun b => negb (Batch.batch_id b =? id)) (batches d)).
    assert (Hled : ledger
                     (if truthy (Batch.assigned_location_id r)
                      then map (adjust (to_number (Batch.assigned_location_id r))
                                       (- Batch.quantity r)) (storage_locations d)
                      else storage_locations d) bs').
    { apply (ledger_truthy _ (batches d)); auto.
      intros k. unfold bs'.
      rewrite (assigned_quantity_delete k id (batches d) r Hnd Hr Hid).
      unfold contribution. destruct (option_Z_eqb _ _); lia. }
    assert (Hnd' : NoDup (map Batch.batch_id bs')).
    { unfold bs'. clear -Hnd. induction (batches d) as [|b bs IH]; simpl; [constructor|].
      inversion Hnd; subst. destruct (negb _); simpl; auto.
      constructor; auto. intros Hx. apply in_map_iff in Hx as (b0 & Hb0 & Hin).
      apply filter_In in Hin as [Hin _]. apply (in_map Batch.batch_id) in Hin.
      congruence. }
    assert (Hlt' : forall b, In b bs' -> Batch.batch_id b < next_batch_id d).
    { intros b Hb. apply filter_In in Hb as [Hb _]. auto. }
    clearbody bs'.
    unfold keys_wellformed, ledger_consistent.
    destruct (truthy (Batch.assigned_location_id r)); cbv zeta.
    + rewrite subtract_occupancy_adjust. simpl. repeat split; auto.
      now apply adjust_nonzero.
    + simpl. repeat split; auto.
Qed.

(** ** Rules for transaction bodies *)

Lemma triple_ret {A} (P : db -> Prop) (Q : A -> db -> Prop) (a : A) :
  (forall d, P d -> Q a d) -> triple P (ret a) Q.
Proof.
  intros H c Hc. simpl. split; [reflexivity|]. intros a' [= <-]. auto.
Qed.

Lemma triple_throw {A} (P : db -> Prop) (Q : A -> db -> Prop) (e : exn) :
  triple P (throw e) Q.
Proof.
  intros c Hc. simpl. split; [reflexivity|]. discriminate.
Qed.

Lemma triple_select {A} (P : db -> Prop) (Q : A -> db -> Prop) (q : db -> A) :
  (forall d, P d -> Q (q d) d) -> triple P (select q) Q.
Proof.
  intros H c Hc. simpl. split; [reflexivity|]. intros a' [= <-]. auto.
Qed.

Lemma triple_statement {A} (P : db -> Prop) (Q : A -> db -> Prop)
    (u : db -> result (A * db)) :
  (forall d a d', P d -> u d = Ok (a, d') -> Q a d') -> triple P (statement u) Q.
Proof.
  intros H c Hc. unfold statement.
  destruct (u (working c)) as [[a d']|e] eqn:E; simpl.
  - split; [reflexivity|]. intros a' [= <-]. eauto.
  - split; [reflexivity|]. discriminate.
Qed.

Lemma triple_bind {A B} (P : db -> Prop) (R : A -> db -> Prop) (Q : B -> db -> Prop)
    (m : tx A) (k : A -> tx B) :
  triple P m R -> (forall a, triple (R a) (k a) Q) -> triple P (bind m k) Q.
Proof.
  intros Hm Hk c Hc. unfold bind.
  destruct (Hm c Hc) as [Hcm Hr].
  destruct (m c) as [[a|e] c']; simpl in *.
  - destruct (Hk a c' (Hr a eq_refl)) as [Hck Hq].
    split; [congruence|exact Hq].
  - split; [exact Hcm|discriminate].
Qed.

Lemma triple_weaken {A} (P P' : db -> Prop) (Q Q' : A -> db -> Prop) (m : tx A) :
  triple P m Q -> (forall d, P' d -> P d) -> (forall a d, Q a d -> Q' a d) ->
  triple P' m Q'.
Proof.
  intros H HP HQ c Hc. destruct (H c (HP _ Hc)) as [H1 H2]. split; auto.
Qed.

Lemma triple_for_each {A} (I : db -> Prop) (l : list A) (body : A -> tx unit) :
  (forall x, In x l -> triple I (body x) (fun _ => I)) ->
  triple I (for_each l body) (fun _ => I).
Proof.
  induction l as [|x l IH]; simpl; intros H.
  - now apply triple_ret.
  - eapply triple_bind; [apply H; now left|].
    intros u. apply IH. intros y Hy. apply H. now right.
Qed.

(** ** Order fulfilment keeps the ledger *)

Lemma reduce_batch_quantity_ids (amount i : Z) (bs : list Batch.t) :
  map Batch.batch_id
      (map (fun b => if Batch.batch_id b =? i
                     then Batch.with_quantity (Batch.quantity b - amount) b
                     else b) bs)
  = map Batch.batch_id bs.
Proof.
  rewrite map_map. apply map_ext. intros b. now destruct (_ =? _).
Qed.

Lemma agrees_reduce (bs : list Batch.t) (amount i : Z) (d : db) :
  agrees bs d -> agrees bs (reduce_batch_quantity amount i d).
Proof.
  intros H b Hb. destruct (H b Hb) as (r & Hr & Hid & Ha).
  exists (if Batch.batch_id r =? i
          then Batch.with_quantity (Batch.quantity r - amount) r else r).
  split.
  - simpl. apply in_map_iff. eauto.
  - now destruct (_ =? _).
Qed.

(** One pick moves the batch and its location by the same amount. *)
Lemma pick_step_sound (amount : Z) (b : Batch.t) (d : db) :
  sound d -> agrees [b] d ->
  sound (let d' := reduce_batch_quantity amount (Batch.batch_id b) d in
         if truthy (Batch.assigned_location_id b)
         then subtract_occupancy amount (to_number (Batch.assigned_location_id b)) d'
         else d').
Proof.
  intros [(Hnd & Hlt & Hnz) Hl] Ha.
  destruct (Ha b (or_introl eq_refl)) as (r & Hr & Hid & Hloc).
  set (bs' := map (fun x => if Batch.batch_id x =? Batch.batch_id b
                            then Batch.with_quantity (Batch.quantity x - amount) x
                            else x) (batches d)).
  assert (Hids : map Batch.batch_id bs' = map Batch.batch_id (batches d))
    by apply reduce_batch_quantity_ids.
  assert (Hled : ledger
                   (if truthy (Batch.assigned_location_id b)
                    then map (adjust (to_number (Batch.assigned_location_id b))
                                     (- amount)) (storage_locations d)
                    else storage_locations d) bs').
  { apply (ledger_truthy _ (batches d)); auto.
    intros k. unfold bs'.
    rewrite (assigned_quantity_update k _ _ (batches d) r Hnd Hr Hid).
    unfold contribution. simpl. rewrite Hloc.
    destruct (option_Z_eqb _ _); lia. }
  assert (Hlt' : forall x, In x bs' -> Batch.batch_id x < next_batch_id d).
  { intros x Hx. unfold bs' in Hx. apply in_map_iff in Hx as (x0 & <- & Hx0).
    apply Hlt in Hx0. now destruct (_ =? _). }
  unfold sound, keys_wellformed, ledger_consistent. cbv zeta.
  destruct (truthy (Batch.assigned_location_id b)).
  - rewrite subtract_occupancy_adjust. simpl. fold bs'. rewrite Hids.
    repeat split; auto. now apply adjust_nonzero.
  - simpl. fold bs'. rewrite Hids. repeat split; auto.
Qed.

Lemma insert_pick_rows (o i q : Z) (st : pick_status) (d d' : db) (u : unit) :
  insert_pick o i q st d = Ok (u, d') ->
  d' = with_order_batch_picks
         (order_batch_picks d ++ [Pick.mk (next_pick_id d) o i q st])
         (next_pick_id d + 1) d.
Proof.
  unfold insert_pick.
  repeat match goal with
         | |- context [if ?b then Throw _ else _] => destruct b; [discriminate|]
         end.
  now intros [= <-].
Qed.

Lemma pick_from_batches_sound (orderId : Z) (bs : list Batch.t) :
  forall remaining,
    triple (fun d => sound d /\ agrees bs d)
           (pick_from_batches orderId bs remaining)
           (fun _ => sound).
Proof.
  induction bs as [|b rest IH]; intros remaining; simpl.
  - apply triple_ret. tauto.
  - destruct (remaining <=? 0); [apply triple_ret; tauto|].
    set (amount := Z.min remaining (Batch.quantity b)).
    eapply triple_bind with (R := fun _ d => sound d /\ agrees (b :: rest) d).
    { apply triple_statement. intros d u d' [Hs Ha] H.
      apply insert_pick_rows in H as ->. split; [exact Hs|exact Ha]. }
    intros _.
    eapply triple_bind
      with (R := fun _ d => exists d0, sound d0 /\ agrees (b :: rest) d0
                                       /\ d = reduce_batch_quantity amount
                                                (Batch.batch_id b) d0).
    { apply triple_statement. intros d u d' [Hs Ha] [= <-]. eauto. }
    intros _.
    eapply triple_bind with (R := fun _ d => sound d /\ agrees rest d);
      [|intros _; apply IH].
    assert (Hstep : forall d0, sound d0 -> agrees (b :: rest) d0 ->
              let d' := reduce_batch_quantity amount (Batch.batch_id b) d0 in
              sound (if truthy (Batch.assigned_location_id b)
                     then subtract_occupancy amount
                            (to_number (Batch.assigned_location_id b)) d'
                     else d')
              /\ agrees rest d').
    { intros d0 Hs Ha. split.
      - apply pick_step_sound; [exact Hs|].
        intros x [<-|[]]. apply Ha. now left.
      - apply agrees_reduce. intros x Hx. apply Ha. now right. }
    destruct (truthy (Batch.assigned_location_id b)).
    + apply triple_statement. intros d u d' (d0 & Hs & Ha & ->) H.
      injection H as H. subst d'.
      destruct (Hstep d0 Hs Ha) as [H1 H2]. split; [exact H1|exact H2].
    + apply triple_ret. intros d (d0 & Hs & Ha & ->).
      now apply Hstep.
Qed.

Lemma candidates_In (productId : Z) (d : db) (b : Batch.t) :
  In b (select_available_batches productId d)
  <-> In b (batches d) /\ fefo_candidate productId b.
Proof.
  unfold select_available_batches, fefo_candidate.
  rewrite order_by_In, filter_In, !andb_true_iff, Z.eqb_eq, Z.ltb_lt.
  destruct (Batch.status b); simpl; intuition congruence.
Qed.

Lemma insert_order_item_rows (o p q : Z) (d d' : db) (u : unit) :
  insert_order_item o p q d = Ok (u, d') ->
  d' = with_order_items
         (order_items d ++ [OrderItem.mk (next_order_item_id d) o p q])
         (next_order_item_id d + 1) d.
Proof.
  unfold insert_order_item.
  repeat match goal with
         | |- context [if ?b then Throw _ else _] => destruct b; [discriminate|]
         end.
  now intros [= <-].
Qed.

Lemma fulfil_item_sound (orderId : Z) (item : ItemRequest.t) :
  triple sound (fulfil_item orderId item) (fun _ => sound).
Proof.
  unfold fulfil_item.
  destruct (ItemRequest.product_id item) as [p|]; [|apply triple_throw].
  destruct (ItemRequest.quantity item) as [q|]; [|apply triple_throw].
  destruct (_ || _); [apply triple_throw|].
  eapply triple_bind with (R := fun _ => sound).
  { apply triple_statement. intros d u d' Hs H.
    apply insert_order_item_rows in H as ->. exact Hs. }
  intros _.
  eapply triple_bind with (R := fun bs d => sound d /\ agrees bs d).
  { apply triple_select. intros d Hs. split; [exact Hs|].
    intros b Hb. apply candidates_In in Hb as [Hb _]. eauto. }
  intros bs.
  eapply triple_bind with (R := fun _ => sound);
    [apply pick_from_batches_sound|].
  intros remaining.
  destruct (0 <? remaining); [apply triple_throw|now apply triple_ret].
Qed.

(** What POST /orders answers and leaves, from the run of its loop. *)
Lemma createOrder_eval (items : list ItemRequest.t) (d : db) :
  items <> [] ->
  createOrder items d
  = match for_each items (fulfil_item (next_order_id d))
            (mkConn d (with_orders (orders d ++ [Order.mk (next_order_id d) Pending])
                                   (next_order_id d + 1) d)) with
    | (Ok _, c) =>
        (Json 201 (OrderPlaced.mk "Order placed successfully" (next_order_id d)),
         working c)
    | (Throw e, c) => (InternalServerError e, committed c)
    end.
Proof.
  destruct items as [|item items]; [congruence|]. intros _.
  cbv beta iota zeta delta [createOrder run_handler try_catch bind statement
                            insert_order commit rollback ret getConnection].
  cbn [working committed].
  destruct (for_each (item :: items) _ _) as [[u|e] c]; reflexivity.
Qed.

Lemma createOrder_keeps (items : list ItemRequest.t) (d : db) :
  sound d -> sound (snd (createOrder items d)).
Proof.
  intros Hs. destruct items as [|item items]; [exact Hs|].
  rewrite createOrder_eval by discriminate.
  set (c := mkConn d _).
  assert (Hc : sound (working c)) by exact Hs.
  destruct (triple_for_each sound (item :: items) (fulfil_item (next_order_id d))
              (fun x _ => fulfil_item_sound _ x) c Hc) as [Hcm Hw].
  destruct (for_each (item :: items) _ c) as [[u|e] c']; simpl in *.
  - now apply Hw with (a := u).
  - now rewrite Hcm.
Qed.

(** The sample warehouse is well formed and its ledger balanced. *)
Lemma warehouse_sound : sound Sample.warehouse.
Proof.
  split; [split; [|split]|].
  - simpl. repeat constructor; simpl; intuition discriminate.
  - intros b [<-|[<-|[]]]; simpl; lia.
  - intros l [<-|[<-|[<-|[]]]]; simpl; lia.
  - intros l [<-|[<-|[<-|[]]]]; reflexivity.
Qed.

(** C1. Batch creation, batch edit, batch deletion and order fulfilment
    each leave every location's [current_occupancy] equal to the sum of
    the quantities of the batches assigned to it, given that it was so
    before and that the keys are as the schema makes them; so each counter
    moves by exactly the change of that sum.  The keys stay well formed,
    which carries the equality along any sequence of operations. *)
Theorem occupancy_ledger_preserved (op : operation) (d : db) :
  keys_wellformed d -> ledger_consistent d ->
  ledger_consistent (perform op d) /\ keys_wellformed (perform op d).
Proof.
  intros Hk Hl. destruct op as [req|id req|id|items]; simpl.
  - destruct (createBatch_keeps req d Hk Hl). auto.
  - destruct (updateBatch_keeps id req d Hk Hl). auto.
  - destruct (deleteBatch_keeps id d Hk Hl). auto.
  - destruct (createOrder_keeps items d (conj Hk Hl)). auto.
Qed.

(** C1 on the sample warehouse: after an order for seven gloves. *)
Lemma occupancy_ledger_preserved_witness :
  ledger_consistent (perform (CreateOrder [Sample.item 1 7]) Sample.warehouse)
  /\ keys_wellformed (perform (CreateOrder [Sample.item 1 7]) Sample.warehouse).
Proof.
  apply (occupancy_ledger_preserved (CreateOrder [Sample.item 1 7]) Sample.warehouse).
  - exact (proj1 warehouse_sound).
  - exact (proj2 warehouse_sound).
Defined.

(** ** The pick loop carries out the depletion plan *)

Lemma insert_pick_ok (o i q : Z) (st : pick_status) (d : db) :
  (forall p, In p (order_batch_picks d) ->
             ~ (Pick.order_id p = o /\ Pick.batch_id p = i)) ->
  order_exists o d = true -> batch_exists i d = true ->
  insert_pick o i q st d
  = Ok (tt, with_order_batch_picks
              (order_batch_picks d ++ [Pick.mk (next_pick_id d) o i q st])
              (next_pick_id d + 1) d).
Proof.
  intros Hfresh Ho Hb. unfold insert_pick. rewrite Ho, Hb. simpl.
  destruct (existsb _ (order_batch_picks d)) eqn:E; [|reflexivity].
  apply existsb_exists in E as (p & Hp & Heq).
  apply andb_true_iff in Heq as [H1 H2].
  apply Z.eqb_eq in H1, H2. exfalso. now apply (Hfresh p Hp).
Qed.

Lemma with_occupancy_same (l : Location.t) (occ : Z) :
  occ = Location.current_occupancy l -> Location.with_occupancy occ l = l.
Proof. intros ->. now destruct l. Qed.

Lemma with_quantity_same (b : Batch.t) (q : Z) :
  q = Batch.quantity b -> Batch.with_quantity q b = b.
Proof. intros ->. now destruct b. Qed.

Lemma deplete_nil (orderId : Z) (d : db) : deplete orderId [] d = d.
Proof.
  unfold deplete. simpl. rewrite app_nil_r, Z.add_0_r.
  replace (map _ (storage_locations d)) with (storage_locations d).
  - replace (map _ (batches d)) with (batches d); [now destruct d|].
    rewrite <- (map_id (batches d)) at 1. apply map_ext. intros b.
    symmetry. apply with_quantity_same. lia.
  - rewrite <- (map_id (storage_locations d)) at 1. apply map_ext. intros l.
    symmetry. apply with_occupancy_same. lia.
Qed.

Lemma truthy_to_number (a : option Z) (k : Z) :
  k <> 0 ->
  truthy a && (to_number a =? k) = option_Z_eqb a (Some k).
Proof.
  intros Hk. destruct a as [n|]; [|reflexivity].
  unfold truthy, to_number, option_Z_eqb.
  destruct (Z.eqb_spec n 0) as [->|Hn]; [|reflexivity].
  symmetry. apply Z.eqb_neq. congruence.
Qed.

Lemma deplete_step (orderId : Z) (b : Batch.t) (amount : Z)
    (plan : list (Batch.t * Z)) (d : db) :
  (forall l, In l (storage_locations d) -> Location.location_id l <> 0) ->
  deplete orderId plan (pick_step orderId b amount d)
  = deplete orderId ((b, amount) :: plan) d.
Proof.
  intros Hnz.
  assert (Hloc : map (fun l => Location.with_occupancy
                                 (Location.current_occupancy l
                                  - taken_from_location (Location.location_id l) plan) l)
                     (storage_locations (pick_step orderId b amount d))
                 = map (fun l => Location.with_occupancy
                                   (Location.current_occupancy l
                                    - taken_from_location (Location.location_id l)
                                        ((b, amount) :: plan)) l)
                       (storage_locations d)).
  { unfold pick_step. cbv zeta.
    destruct (truthy (Batch.assigned_location_id b)) eqn:Et.
    - rewrite subtract_occupancy_adjust. simpl storage_locations.
      rewrite map_map. apply map_ext_in. intros l Hl.
      pose proof (truthy_to_number (Batch.assigned_location_id b) _ (Hnz l Hl)) as Hk.
      rewrite Et in Hk. simpl in Hk. simpl taken_from_location. rewrite <- Hk.
      unfold adjust. rewrite (Z.eqb_sym (Location.location_id l)).
      destruct (_ =? _); unfold Location.with_occupancy; simpl; f_equal; lia.
    - simpl storage_locations. apply map_ext_in. intros l Hl.
      pose proof (truthy_to_number (Batch.assigned_location_id b) _ (Hnz l Hl)) as Hk.
      rewrite Et in Hk. simpl in Hk. simpl taken_from_location. rewrite <- Hk.
      f_equal. }
  assert (Hbat : map (fun x => Batch.with_quantity
                                 (Batch.quantity x
                                  - taken_from_batch (Batch.batch_id x) plan) x)
                     (batches (pick_step orderId b amount d))
                 = map (fun x => Batch.with_quantity
                                   (Batch.quantity x
                                    - taken_from_batch (Batch.batch_id x)
                                        ((b, amount) :: plan)) x)
                       (batches d)).
  { replace (batches (pick_step orderId b amount d))
      with (map (fun x => if Batch.batch_id x =? Batch.batch_id b
                          then Batch.with_quantity (Batch.quantity x - amount) x
                          else x) (batches d))
      by (unfold pick_step; cbv zeta; now destruct (truthy _)).
    rewrite map_map. apply map_ext. intros x. simpl taken_from_batch.
    rewrite (Z.eqb_sym (Batch.batch_id b)).
    destruct (_ =? _); unfold Batch.with_quantity; simpl; f_equal; lia. }
  unfold deplete at 1 2. rewrite Hloc, Hbat.
  unfold pick_step. cbv zeta.
  destruct (truthy (Batch.assigned_location_id b)); simpl;
    rewrite <- app_assoc; simpl; f_equal; lia.
Qed.

Lemma pick_from_batches_step
    (orderId : Z) (b : Batch.t) (rest : list Batch.t) (remaining : Z) (c : connection) :
  0 < remaining ->
  (forall p, In p (order_batch_picks (working c)) ->
             ~ (Pick.order_id p = orderId /\ Pick.batch_id p = Batch.batch_id b)) ->
  order_exists orderId (working c) = true ->
  batch_exists (Batch.batch_id b) (working c) = true ->
  pick_from_batches orderId (b :: rest) remaining c
  = pick_from_batches orderId rest
      (remaining - Z.min remaining (Batch.quantity b))
      (mkConn (committed c)
              (pick_step orderId b (Z.min remaining (Batch.quantity b)) (working c))).
Proof.
  intros Hpos Hfresh Ho Hb. simpl.
  destruct (Z.leb_spec remaining 0); [lia|].
  unfold bind at 1, statement at 1.
  rewrite (insert_pick_ok _ _ _ _ _ Hfresh Ho Hb).
  unfold bind at 1, statement at 1. cbn [working committed].
  unfold pick_step. cbv zeta.
  destruct (truthy (Batch.assigned_location_id b)); reflexivity.
Qed.

Lemma pick_step_batches (orderId : Z) (b : Batch.t) (amount : Z) (d : db) :
  batches (pick_step orderId b amount d)
  = map (fun x => if Batch.batch_id x =? Batch.batch_id b
                  then Batch.with_quantity (Batch.quantity x - amount) x
                  else x) (batches d).
Proof. unfold pick_step. cbv zeta. now destruct (truthy _). Qed.

Lemma pick_step_picks (orderId : Z) (b : Batch.t) (amount : Z) (d : db) :
  order_batch_picks (pick_step orderId b amount d)
  = order_batch_picks d
    ++ [Pick.mk (next_pick_id d) orderId (Batch.batch_id b) amount PendingPick].
Proof. unfold pick_step. cbv zeta. now destruct (truthy _). Qed.

Lemma pick_step_orders (orderId : Z) (b : Batch.t) (amount : Z) (d : db) :
  orders (pick_step orderId b amount d) = orders d.
Proof. unfold pick_step. cbv zeta. now destruct (truthy _). Qed.

Lemma pick_step_locations (orderId : Z) (b : Batch.t) (amount : Z) (d : db) :
  (forall l, In l (storage_locations d) -> Location.location_id l <> 0) ->
  forall l, In l (storage_locations (pick_step orderId b amount d)) ->
            Location.location_id l <> 0.
Proof.
  intros H. unfold pick_step. cbv zeta. destruct (truthy _).
  - rewrite subtract_occupancy_adjust. now apply adjust_nonzero.
  - exact H.
Qed.

Lemma pick_step_batch_exists (orderId : Z) (b : Batch.t) (amount i : Z) (d : db) :
  batch_exists i (pick_step orderId b amount d) = batch_exists i d.
Proof.
  unfold batch_exists. rewrite pick_step_batches.
  induction (batches d) as [|x l IH]; simpl; [reflexivity|].
  rewrite IH. f_equal. now destruct (_ =? Batch.batch_id b).
Qed.

Lemma pick_from_batches_deplete (orderId : Z) (bs : list Batch.t) :
  forall remaining c,
    NoDup (map Batch.batch_id bs) ->
    (forall b, In b bs -> batch_exists (Batch.batch_id b) (working c) = true) ->
    order_exists orderId (working c) = true ->
    unpicked orderId bs (working c) ->
    (forall l, In l (storage_locations (working c)) -> Location.location_id l <> 0) ->
    pick_from_batches orderId bs remaining c
    = (Ok (remaining - planned_total (fefo_plan bs remaining)),
       mkConn (committed c) (deplete orderId (fefo_plan bs remaining) (working c))).
Proof.
  induction bs as [|b rest IH]; intros remaining c Hnd Hex Ho Hun Hnz.
  - simpl. rewrite deplete_nil, Z.sub_0_r. now destruct c.
  - destruct (Z.leb_spec remaining 0) as [Hle|Hpos].
    + simpl. destruct (Z.leb_spec remaining 0); [|lia].
      simpl. rewrite deplete_nil, Z.sub_0_r. now destruct c.
    + inversion Hnd as [|? ? Hnotin Hnd']; subst.
      rewrite pick_from_batches_step; auto.
      * rewrite IH; cbn [working committed]; auto.
        -- simpl fefo_plan. destruct (Z.leb_spec remaining 0); [lia|].
           cbv zeta. rewrite deplete_step by exact Hnz.
           simpl planned_total. f_equal. f_equal. lia.
        -- intros x Hx. rewrite pick_step_batch_exists. apply Hex. now right.
        -- unfold order_exists. rewrite pick_step_orders. exact Ho.
        -- intros x p Hx Hp. rewrite pick_step_picks in Hp.
           apply in_app_or in Hp as [Hp|[<-|[]]].
           ++ apply (Hun x p); auto. now right.
           ++ simpl. intros [_ Heq]. apply Hnotin. rewrite Heq.
              now apply in_map.
        -- now apply pick_step_locations.
      * intros p Hp. apply (Hun b p); auto. now left.
      * apply Hex. now left.
Qed.

(** A WHERE clause keeps a primary key a key. *)
Lemma filtered_keys_NoDup (keep : Batch.t -> bool) (bs : list Batch.t) :
  NoDup (map Batch.batch_id bs) ->
  NoDup (map Batch.batch_id (filter keep bs)).
Proof.
  intros Hnd. induction bs as [|b bs IH]; simpl in *; [constructor|].
  inversion Hnd as [|? ? Hfresh Hrest]; subst.
  destruct (keep b); simpl; [|now apply IH].
  constructor; [|now apply IH].
  intros Hb. apply Hfresh.
  apply in_map_iff in Hb as (x & Hx & Hin).
  apply filter_In in Hin as [Hin _].
  rewrite <- Hx. now apply in_map.
Qed.

Lemma candidates_NoDup (productId : Z) (d : db) :
  NoDup (map Batch.batch_id (batches d)) ->
  NoDup (map Batch.batch_id (select_available_batches productId d)).
Proof.
  intros H. unfold select_available_batches.
  eapply Permutation_NoDup.
  - apply Permutation_map. apply order_by_perm.
  - now apply filtered_keys_NoDup.
Qed.

Lemma candidates_sorted (productId : Z) (d : db) :
  StronglySorted expiry_ascending (select_available_batches productId d).
Proof.
  unfold select_available_batches.
  eapply sorted_weaken; [|apply order_by_sorted].
  - intros a b H. now apply Z.leb_le in H.
  - intros a b. rewrite !Z.leb_le. lia.
  - intros a b c. rewrite !Z.leb_le. lia.
Qed.

Lemma batch_exists_In (b : Batch.t) (d : db) :
  In b (batches d) -> batch_exists (Batch.batch_id b) d = true.
Proof.
  intros H. apply existsb_exists. exists b. split; [exact H|apply Z.eqb_refl].
Qed.

Lemma fulfil_item_plan
    (orderId : Z) (item : ItemRequest.t) (productId quantity : Z) (c : connection) :
  valid_item item productId quantity ->
  keys_wellformed (working c) ->
  order_exists orderId (working c) = true ->
  product_exists productId (working c) = true ->
  unpicked orderId (select_available_batches productId (working c)) (working c) ->
  let plan := fefo_plan (select_available_batches productId (working c)) quantity in
  let remaining := quantity - planned_total plan in
  fulfil_item orderId item c
  = (if 0 <? remaining
     then Throw (insufficient_stock productId quantity remaining)
     else Ok tt,
     mkConn (committed c)
            (deplete orderId plan (with_item orderId productId quantity (working c)))).
Proof.
  intros (Hp & Hq & Hp0 & Hq0) (Hnd & Hlt & Hnz) Ho Hpe Hun plan remaining.
  unfold fulfil_item. rewrite Hp, Hq.
  destruct (Z.eqb_spec productId 0); [contradiction|].
  destruct (Z.leb_spec quantity 0); [lia|]. cbn [orb].
  unfold bind at 1, statement at 1, insert_order_item.
  rewrite Ho, Hpe. cbn [negb].
  unfold bind at 1, select at 1. cbn [working committed].
  fold (with_item orderId productId quantity (working c)).
  change (select_available_batches productId
            (with_item orderId productId quantity (working c)))
    with (select_available_batches productId (working c)).
  unfold bind.
  rewrite pick_from_batches_deplete; cbn [working committed]; auto.
  - fold plan. fold remaining. destruct (0 <? remaining); reflexivity.
  - now apply candidates_NoDup.
  - intros b Hb. apply candidates_In in Hb as [Hb _].
    now apply batch_exists_In in Hb.
Qed.

(** C2, amended.  For an order item none of whose candidate batches has
    a pick of the same order yet: the candidates are the batches of the
    item's product with stock left and status Available, in ascending
    order of expiry; the item's OrderItem is recorded and the loop carries
    out the greedy plan over them, which takes min(remaining, quantity)
    from each candidate in turn until remaining is 0: one Pending Pick per
    amount, the batch and its assigned location (if any) decremented by it;
    what remains unpicked makes the item fail for insufficient stock.  On
    batches expiring 2025-01-01 and 2025-02-01, five each, an order for
    seven picks five from the first and two from the second, in that
    order. *)
Theorem fulfil_item_fefo :
  (forall (orderId : Z) (item : ItemRequest.t) (productId quantity : Z) (c : connection),
     valid_item item productId quantity ->
     keys_wellformed (working c) ->
     order_exists orderId (working c) = true ->
     product_exists productId (working c) = true ->
     unpicked orderId (select_available_batches productId (working c)) (working c) ->
     let candidates := select_available_batches productId (working c) in
     let plan := fefo_plan candidates quantity in
     let remaining := quantity - planned_total plan in
     (forall b, In b candidates <->
                In b (batches (working c)) /\ fefo_candidate productId b)
     /\ StronglySorted expiry_ascending candidates
     /\ fulfil_item orderId item c
        = (if 0 <? remaining
           then Throw (insufficient_stock productId quantity remaining)
           else Ok tt,
           mkConn (committed c)
                  (deplete orderId plan
                     (with_item orderId productId quantity (working c)))))
  /\ order_batch_picks (snd (createOrder [Sample.item 1 7] Sample.warehouse))
     = [Pick.mk 1 1 (Batch.batch_id Sample.early) 5 PendingPick;
        Pick.mk 2 1 (Batch.batch_id Sample.late) 2 PendingPick].
Proof.
  split; [|reflexivity].
  intros orderId item productId quantity c Hv Hk Ho Hp Hun candidates plan remaining.
  split; [|split].
  - intros b. apply candidates_In.
  - apply candidates_sorted.
  - now apply fulfil_item_plan.
Qed.

(** C2 on the sample warehouse: the first item of a fresh order. *)
Lemma fulfil_item_fefo_witness :
  let c := snd (statement insert_order (getConnection Sample.warehouse)) in
  let candidates := select_available_batches 1 (working c) in
  let plan := fefo_plan candidates 7 in
  let remaining := 7 - planned_total plan in
  (forall b, In b candidates <-> In b (batches (working c)) /\ fefo_candidate 1 b)
  /\ StronglySorted expiry_ascending candidates
  /\ fulfil_item 1 (Sample.item 1 7) c
     = (if 0 <? remaining
        then Throw (insufficient_stock 1 7 remaining)
        else Ok tt,
        mkConn (committed c) (deplete 1 plan (with_item 1 1 7 (working c)))).
Proof.
  apply (proj1 fulfil_item_fefo 1 (Sample.item 1 7) 1 7
           (snd (statement insert_order (getConnection Sample.warehouse)))).
  - unfold valid_item. simpl. repeat split; lia.
  - exact (proj1 warehouse_sound).
  - reflexivity.
  - reflexivity.
  - intros b p _ [].
Defined.

(** C2 as first stated fails on an order that names a product twice:
    after the first item took two from the batch that expires first, the
    plan of the second item takes two more from that batch, but the pick
    is refused by UNIQUE(order_id, batch_id), no pick is made and the
    whole order is answered with the driver's error. *)
Lemma fulfil_item_repeated_product :
  let c0 := snd (statement insert_order (getConnection Sample.warehouse)) in
  let c1 := snd (fulfil_item 1 (Sample.item 1 2) c0) in
  fst (fulfil_item 1 (Sample.item 1 2) c0) = Ok tt
  /\ order_exists 1 (working c1) = true
  /\ product_exists 1 (working c1) = true
  /\ map (fun x => (Batch.batch_id (fst x), snd x))
         (fefo_plan (select_available_batches 1 (working c1)) 2)
     = [(Batch.batch_id Sample.early, 2)]
  /\ fst (fulfil_item 1 (Sample.item 1 2) c1)
     = Throw (ER_DUP_ENTRY "order_batch_picks.order_id")
  /\ order_batch_picks (working (snd (fulfil_item 1 (Sample.item 1 2) c1)))
     = order_batch_picks (working c1)
  /\ createOrder [Sample.item 1 2; Sample.item 1 2] Sample.warehouse
     = (InternalServerError (ER_DUP_ENTRY "order_batch_picks.order_id"),
        Sample.warehouse).
Proof.
  repeat split; reflexivity.
Qed.

(** ** Atomicity of POST /orders *)

Lemma pick_from_batches_stable (I : db -> Prop) (orderId : Z) (bs : list Batch.t) :
  stable_picking I ->
  forall remaining, triple I (pick_from_batches orderId bs remaining) (fun _ => I).
Proof.
  intros (Hpicks & Hreduce & Hsub).
  induction bs as [|b rest IH]; intros remaining; simpl.
  - now apply triple_ret.
  - destruct (remaining <=? 0); [now apply triple_ret|].
    eapply triple_bind with (R := fun _ => I).
    { apply triple_statement. intros d u d' Hd H.
      apply insert_pick_rows in H as ->. now apply Hpicks. }
    intros u1. eapply triple_bind with (R := fun _ => I).
    { apply triple_statement. intros d u d' Hd [= _ <-]. now apply Hreduce. }
    intros u2. eapply triple_bind with (R := fun _ => I); [|intros u3; apply IH].
    destruct (truthy _).
    + apply triple_statement. intros d u d' Hd [= _ <-]. now apply Hsub.
    + now apply triple_ret.
Qed.

Lemma fulfil_item_stable (I : db -> Prop) (orderId : Z) (item : ItemRequest.t) :
  stable I -> triple I (fulfil_item orderId item) (fun _ => I).
Proof.
  intros (Hitems & HI).
  unfold fulfil_item.
  destruct (ItemRequest.product_id item) as [p|]; [|apply triple_throw].
  destruct (ItemRequest.quantity item) as [q|]; [|apply triple_throw].
  destruct (_ || _); [apply triple_throw|].
  eapply triple_bind with (R := fun _ => I).
  { apply triple_statement. intros d u d' Hd H.
    apply insert_order_item_rows in H as ->. now apply Hitems. }
  intros u. eapply triple_bind with (R := fun _ => I).
  { now apply triple_select. }
  intros bs. eapply triple_bind with (R := fun _ => I).
  { now apply pick_from_batches_stable. }
  intros remaining.
  destruct (0 <? remaining); [apply triple_throw|now apply triple_ret].
Qed.

Lemma for_each_stable (I : db -> Prop) (orderId : Z) (items : list ItemRequest.t)
    (c : connection) :
  stable I -> I (working c) ->
  committed (snd (for_each items (fulfil_item orderId) c)) = committed c
  /\ (forall u, fst (for_each items (fulfil_item orderId) c) = Ok u ->
                I (working (snd (for_each items (fulfil_item orderId) c)))).
Proof.
  intros HI Hc.
  apply (triple_for_each I items (fulfil_item orderId)
           (fun x _ => fulfil_item_stable I orderId x HI) c Hc).
Qed.

Lemma stable_True : stable (fun _ => True).
Proof. repeat split. Qed.

Lemma stable_orders (os : list Order.t) : stable (fun d => orders d = os).
Proof. repeat split; auto. Qed.

(** Keys, the order row and the products survive every statement. *)
Lemma stable_keys (orderId : Z) (d0 : db) :
  stable (fun d => keys_wellformed d
                   /\ order_exists orderId d = true
                   /\ products d = products d0).
Proof.
  split; [|split; [|split]].
  - intros d rows n H. exact H.
  - intros d rows n H. exact H.
  - intros d amount i ((Hnd & Hlt & Hnz) & Ho & Hp).
    split; [split; [|split]|split]; auto.
    + simpl. rewrite reduce_batch_quantity_ids. exact Hnd.
    + intros b Hb. simpl in Hb. apply in_map_iff in Hb as (x & <- & Hx).
      apply Hlt in Hx. now destruct (_ =? _).
  - intros d amount l ((Hnd & Hlt & Hnz) & Ho & Hp).
    split; [split; [|split]|split]; auto.
    rewrite subtract_occupancy_adjust. now apply adjust_nonzero.
Qed.

Lemma for_each_app {A} (l1 l2 : list A) (body : A -> tx unit) (c : connection) :
  for_each (l1 ++ l2) body c
  = match for_each l1 body c with
    | (Ok _, c') => for_each l2 body c'
    | (Throw e, c') => (Throw e, c')
    end.
Proof.
  revert c. induction l1 as [|x l1 IH]; intros c; simpl; [reflexivity|].
  unfold bind. destruct (body x c) as [[u|e] c']; [apply IH|reflexivity].
Qed.

Lemma stock_nonneg (bs : list Batch.t) :
  (forall b, In b bs -> 0 < Batch.quantity b) -> 0 <= stock bs.
Proof.
  induction bs as [|b rest IH]; simpl; intros H; [lia|].
  assert (0 < Batch.quantity b) by (apply H; now left).
  assert (0 <= stock rest) by (apply IH; intros x Hx; apply H; now right).
  lia.
Qed.

(** The greedy plan takes all that is asked for, or all there is. *)
Lemma planned_total_min (bs : list Batch.t) :
  (forall b, In b bs -> 0 < Batch.quantity b) ->
  forall remaining, 0 <= remaining ->
    planned_total (fefo_plan bs remaining) = Z.min remaining (stock bs).
Proof.
  induction bs as [|b rest IH]; simpl; intros H remaining Hr; [lia|].
  assert (0 < Batch.quantity b) by (apply H; now left).
  assert (Hrest : forall x, In x rest -> 0 < Batch.quantity x)
    by (intros x Hx; apply H; now right).
  pose proof (stock_nonneg rest Hrest).
  destruct (Z.leb_spec remaining 0); simpl; [lia|].
  rewrite IH by (auto; lia). lia.
Qed.

Lemma stable_order (orderId : Z) (d0 : db) :
  stable (fun d => order_exists orderId d = true /\ products d = products d0).
Proof.
  split; [|split; [|split]]; intros d ? ? H; exact H.
Qed.

(** One pass of the item loop, for an item that passes the checks. *)
Lemma fulfil_item_eval
    (orderId : Z) (item : ItemRequest.t) (productId quantity : Z) (c : connection) :
  valid_item item productId quantity ->
  order_exists orderId (working c) = true ->
  product_exists productId (working c) = true ->
  fulfil_item orderId item c
  = match pick_from_batches orderId
            (select_available_batches productId (working c)) quantity
            (mkConn (committed c)
                    (with_item orderId productId quantity (working c))) with
    | (Ok remaining, c') =>
        if 0 <? remaining
        then (Throw (insufficient_stock productId quantity remaining), c')
        else (Ok tt, c')
    | (Throw e, c') => (Throw e, c')
    end.
Proof.
  intros (Hp & Hq & Hp0 & Hq0) Ho Hpe.
  unfold fulfil_item. rewrite Hp, Hq.
  destruct (Z.eqb_spec productId 0); [contradiction|].
  destruct (Z.leb_spec quantity 0); [lia|]. cbn [orb].
  unfold bind at 1, statement at 1, insert_order_item.
  rewrite Ho, Hpe. cbn [negb].
  unfold bind at 1, select at 1. cbn [working committed].
  fold (with_item orderId productId quantity (working c)).
  change (select_available_batches productId
            (with_item orderId productId quantity (working c)))
    with (select_available_batches productId (working c)).
  unfold bind.
  destruct (pick_from_batches _ _ _ _) as [[remaining|e] c']; [|reflexivity].
  destruct (0 <? remaining); reflexivity.
Qed.

(** C3. An order that is not answered with 201 leaves the database as
    it was before the request.  When the items before it were fulfilled
    and the greedy loop of an item ends with remaining > 0, the order is
    answered with the insufficient-stock error of that item; the rows of
    the transaction hold the order at that point, and the rollback of the
    catch block takes back all that was done for it: batch quantities,
    occupancy, picks, the order and its items are those of the state
    before.  The loop ends so whenever the item asks for more than the
    stock its candidates hold and none of them has a pick of this order
    yet. *)
Theorem createOrder_all_or_nothing :
  (forall (items : list ItemRequest.t) (d : db),
     (forall body, fst (createOrder items d) <> Json 201 body) ->
     snd (createOrder items d) = d)
  /\ (forall (before after : list ItemRequest.t) (item : ItemRequest.t)
             (productId quantity remaining : Z) (d : db) (c c' : connection),
        valid_item item productId quantity ->
        product_exists productId d = true ->
        for_each before (fulfil_item (next_order_id d))
                 (snd (statement insert_order (getConnection d))) = (Ok tt, c) ->
        pick_from_batches (next_order_id d)
          (select_available_batches productId (working c)) quantity
          (mkConn (committed c)
                  (with_item (next_order_id d) productId quantity (working c)))
        = (Ok remaining, c') ->
        0 < remaining ->
        orders (working c') = orders d ++ [Order.mk (next_order_id d) Pending]
        /\ createOrder (before ++ item :: after) d
           = (InternalServerError (insufficient_stock productId quantity remaining), d))
  /\ (forall (before after : list ItemRequest.t) (item : ItemRequest.t)
             (productId quantity : Z) (d : db) (c : connection),
        valid_item item productId quantity ->
        keys_wellformed d ->
        product_exists productId d = true ->
        for_each before (fulfil_item (next_order_id d))
                 (snd (statement insert_order (getConnection d))) = (Ok tt, c) ->
        unpicked (next_order_id d)
                 (select_available_batches productId (working c)) (working c) ->
        available_stock productId (working c) < quantity ->
        orders (working c) = orders d ++ [Order.mk (next_order_id d) Pending]
        /\ createOrder (before ++ item :: after) d
           = (InternalServerError
                (insufficient_stock productId quantity
                   (quantity - available_stock productId (working c))),
              d)).
Proof.
  split; [|split].
  - intros items d Hfail. destruct items as [|item items]; [reflexivity|].
    rewrite createOrder_eval in * by discriminate.
    set (c0 := mkConn d _) in *.
    destruct (for_each_stable (fun _ => True) (next_order_id d) (item :: items) c0
                stable_True I) as [Hcm _].
    destruct (for_each (item :: items) _ c0) as [[u|e] c']; simpl in *.
    + exfalso. now apply (Hfail (OrderPlaced.mk "Order placed successfully"
                                                (next_order_id d))).
    + exact Hcm.
  - intros before after item productId quantity remaining d c c'
           Hv Hp Hbefore Hloop Hpos.
    rewrite createOrder_eval by (destruct before; discriminate).
    change (snd (statement insert_order (getConnection d)))
      with (mkConn d (with_orders (orders d ++ [Order.mk (next_order_id d) Pending])
                                  (next_order_id d + 1) d)) in Hbefore.
    set (c0 := mkConn d _) in *.
    assert (Hc0 : order_exists (next_order_id d) (working c0) = true
                  /\ products (working c0) = products d).
    { split; [|reflexivity].
      unfold order_exists. simpl. rewrite existsb_app. simpl.
      rewrite Z.eqb_refl. apply orb_true_r. }
    destruct (for_each_stable _ (next_order_id d) before c0
                (stable_order (next_order_id d) d) Hc0) as [Hcm Hw].
    rewrite Hbefore in Hcm, Hw. simpl in Hcm, Hw.
    destruct (Hw tt eq_refl) as (Hoc & Hpc).
    destruct (for_each_stable _ (next_order_id d) before c0
                (stable_orders (orders (working c0))) eq_refl) as [_ Hos].
    rewrite Hbefore in Hos. specialize (Hos tt eq_refl). cbn [snd] in Hos.
    destruct (pick_from_batches_stable (fun _ => True) (next_order_id d)
                (select_available_batches productId (working c))
                (proj2 stable_True) quantity
                (mkConn (committed c)
                        (with_item (next_order_id d) productId quantity (working c)))
                I) as [Hcm' _].
    destruct (pick_from_batches_stable _ (next_order_id d)
                (select_available_batches productId (working c))
                (proj2 (stable_orders (orders (working c0)))) quantity
                (mkConn (committed c)
                        (with_item (next_order_id d) productId quantity (working c)))
                Hos) as [_ Hos'].
    rewrite Hloop in Hcm', Hos'. simpl in Hcm'.
    specialize (Hos' remaining eq_refl). cbn [snd] in Hos'.
    split; [exact Hos'|].
    rewrite for_each_app, Hbefore.
    cbn [for_each]. unfold bind.
    rewrite (fulfil_item_eval _ _ productId quantity c Hv Hoc).
    + rewrite Hloop. destruct (Z.ltb_spec 0 remaining); [|lia].
      simpl. now rewrite Hcm', Hcm.
    + unfold product_exists in *. now rewrite Hpc.
  - intros before after item productId quantity d c Hv Hk Hp Hbefore Hun Hlow.
    rewrite createOrder_eval by (destruct before; discriminate).
    change (snd (statement insert_order (getConnection d)))
      with (mkConn d (with_orders (orders d ++ [Order.mk (next_order_id d) Pending])
                                  (next_order_id d + 1) d)) in Hbefore.
    set (c0 := mkConn d _) in *.
    assert (Hc0 : keys_wellformed (working c0)
                  /\ order_exists (next_order_id d) (working c0) = true
                  /\ products (working c0) = products d).
    { split; [exact Hk|]. split; [|reflexivity].
      unfold order_exists. simpl. rewrite existsb_app. simpl.
      rewrite Z.eqb_refl. apply orb_true_r. }
    destruct (for_each_stable _ (next_order_id d) before c0
                (stable_keys (next_order_id d) d) Hc0) as [Hcm Hw].
    rewrite Hbefore in Hcm, Hw. simpl in Hcm, Hw.
    destruct (Hw tt eq_refl) as (Hkc & Hoc & Hpc).
    destruct (for_each_stable _ (next_order_id d) before c0
                (stable_orders (orders (working c0))) eq_refl) as [_ Hos].
    rewrite Hbefore in Hos. specialize (Hos tt eq_refl). cbn [snd] in Hos.
    split; [exact Hos|].
    rewrite for_each_app, Hbefore.
    cbn [for_each]. unfold bind.
    rewrite (fulfil_item_plan _ _ productId quantity c Hv Hkc Hoc); auto.
    + cbv zeta.
      assert (Htotal : planned_total
                         (fefo_plan (select_available_batches productId (working c))
                                    quantity)
                       = available_stock productId (working c)).
      { rewrite planned_total_min.
        - unfold available_stock in *. lia.
        - intros b Hb. apply candidates_In in Hb as (_ & _ & Hq & _). exact Hq.
        - destruct Hv as (_ & _ & _ & Hq). lia. }
      rewrite Htotal.
      destruct (Z.ltb_spec 0 (quantity - available_stock productId (working c)));
        [|lia].
      simpl. now rewrite Hcm.
    + unfold product_exists in *. now rewrite Hpc.
Qed.

(** C3 on the sample warehouse: ten gloves in stock, two items naming
    different products, the second asking for a vaccine that is not
    there.  When it fails the transaction holds order 1, and the
    warehouse is left without it. *)
Lemma createOrder_all_or_nothing_witness :
  orders (working (snd (for_each [Sample.item 1 7] (fulfil_item 1)
                          (snd (statement insert_order
                                  (getConnection Sample.warehouse))))))
  = orders Sample.warehouse ++ [Order.mk 1 Pending]
  /\ createOrder ([Sample.item 1 7] ++ Sample.item 2 1 :: []) Sample.warehouse
     = (InternalServerError (insufficient_stock 2 1 (1 - 0)), Sample.warehouse).
Proof.
  apply (proj2 (proj2 createOrder_all_or_nothing)
           [Sample.item 1 7] [] (Sample.item 2 1) 2 1
           Sample.warehouse
           (snd (for_each [Sample.item 1 7] (fulfil_item 1)
                   (snd (statement insert_order (getConnection Sample.warehouse)))))).
  - unfold valid_item. simpl. repeat split; lia.
  - exact (proj1 warehouse_sound).
  - reflexivity.
  - reflexivity.
  - intros b p [].
  - reflexivity.
Defined.

(** ** The order items of an order *)

Lemma fulfil_item_records (orderId : Z) (item : ItemRequest.t) (X : list (Z * Z * Z)) :
  triple (fun d => map recorded (order_items d) = X)
         (fulfil_item orderId item)
         (fun _ d => map recorded (order_items d) = X ++ [requested orderId item]).
Proof.
  unfold fulfil_item, requested.
  destruct (ItemRequest.product_id item) as [p|]; [|apply triple_throw].
  destruct (ItemRequest.quantity item) as [q|]; [|apply triple_throw].
  destruct (_ || _); [apply triple_throw|].
  set (Y := X ++ [(orderId, to_number (Some p), to_number (Some q))]).
  eapply triple_bind with (R := fun _ d => map recorded (order_items d) = Y).
  { apply triple_statement. intros d u d' Hd H.
    apply insert_order_item_rows in H as ->. simpl.
    rewrite map_app, Hd. reflexivity. }
  intros u. eapply triple_bind with (R := fun _ d => map recorded (order_items d) = Y).
  { now apply triple_select. }
  intros bs. eapply triple_bind with (R := fun _ d => map recorded (order_items d) = Y).
  { apply pick_from_batches_stable. repeat split; auto. }
  intros remaining.
  destruct (0 <? remaining); [apply triple_throw|now apply triple_ret].
Qed.

Lemma for_each_records (orderId : Z) (items : list ItemRequest.t) :
  forall X,
    triple (fun d => map recorded (order_items d) = X)
           (for_each items (fulfil_item orderId))
           (fun _ d => map recorded (order_items d)
                       = X ++ map (requested orderId) items).
Proof.
  induction items as [|item items IH]; intros X; simpl.
  - apply triple_ret. intros d ->. now rewrite app_nil_r.
  - eapply triple_bind; [apply fulfil_item_records|].
    intros u. eapply triple_weaken; [apply IH| |].
    + intros d H. exact H.
    + intros u' d H. simpl in H. now rewrite <- app_assoc in H.
Qed.

(** C6, amended.  The OrderItem rows of an order are written inside the
    order's transaction: when the order is answered with 201 the rows
    recorded are those before followed by one row per item, with the
    order's id and the item's product and quantity; whatever else the
    answer is, the table of order items is the one before the request. *)
Theorem order_items_kept_on_commit_only (items : list ItemRequest.t) (d : db) :
  match fst (createOrder items d) with
  | Json _ placed =>
      map recorded (order_items (snd (createOrder items d)))
      = map recorded (order_items d)
        ++ map (requested (OrderPlaced.order_id placed)) items
  | _ => order_items (snd (createOrder items d)) = order_items d
  end.
Proof.
  destruct items as [|item items]; [reflexivity|].
  rewrite createOrder_eval by discriminate.
  set (c0 := mkConn d _).
  destruct (for_each_records (next_order_id d) (item :: items)
              (map recorded (order_items d)) c0 eq_refl) as [Hcm Hw].
  destruct (for_each (item :: items) _ c0) as [[u|e] c']; simpl in *.
  - now apply Hw with (a := u).
  - now rewrite Hcm.
Qed.

(** C6 as first stated fails: an order for eleven gloves against ten in
    stock is refused for insufficient stock, and no row of [order_items]
    records the eleven that were asked for. *)
Lemma order_items_lost_on_failure :
  createOrder [Sample.item 1 11] Sample.warehouse
  = (InternalServerError (insufficient_stock 1 11 1), Sample.warehouse)
  /\ order_items (snd (createOrder [Sample.item 1 11] Sample.warehouse)) = [].
Proof.
  split; reflexivity.
Qed.

(** ** Capacity *)

(** What the allocator answers has room for the quantity. *)
Lemma findSuitableLocation_fits
    (productId quantityNeeded : Z) (c : connection) (loc : Location.t) :
  fst (findSuitableLocation productId quantityNeeded c) = Ok (Some loc) ->
  Location.current_occupancy loc + quantityNeeded <= Location.capacity loc.
Proof.
  intros H. apply findSuitableLocation_found in H as (cat & _ & _ & H).
  unfold free_capacity in H. lia.
Qed.

(** C5 fails on PUT /batches/:id, which never looks at the capacity: ten
    gloves are taken in on an empty shelf of capacity 200, within capacity;
    editing that batch to 500 is answered with 200 and leaves the shelf
    with occupancy 500. *)
Theorem updateBatch_exceeds_capacity :
  let d1 := snd (createBatch Sample.intake Sample.vacant) in
  let d2 := snd (updateBatch 1 Sample.overfill d1) in
  within_capacity Sample.vacant
  /\ within_capacity d1
  /\ (exists b, fst (updateBatch 1 Sample.overfill d1) = Json 200 (Some b)
                /\ Batch.quantity b = 500)
  /\ exists l, In l (storage_locations d2)
               /\ Location.capacity l = 200
               /\ Location.current_occupancy l = 500.
Proof.
  cbv zeta. split; [|split; [|split]].
  - intros l [<-|[<-|[<-|[]]]]; simpl; lia.
  - intros l [<-|[<-|[<-|[]]]]; simpl; lia.
  - eexists. split; reflexivity.
  - eexists. split; [left; reflexivity|]. split; reflexivity.
Qed.

(** ** Deleting a batch *)

Lemma filter_filter_same {A} (f : A -> bool) (l : list A) :
  filter f (filter f l) = filter f l.
Proof.
  induction l as [|x l IH]; simpl; [reflexivity|].
  destruct (f x) eqn:E; simpl; [rewrite E, IH|]; auto.
Qed.




(** ** Expired stock *)

Lemma sorted_before {A} (R : A -> A -> Prop) (l : list A) (a b : A) :
  StronglySorted R l -> In a l -> In b l -> ~ R b a -> a <> b ->
  exists l1 l2 l3, l = l1 ++ a :: l2 ++ b :: l3.
Proof.
  intros Hs Ha Hb Hnot Hneq.
  apply in_split in Ha as (l1 & r & ->).
  apply in_app_or in Hb as [Hb|[Hb|Hb]].
  - exfalso. apply Hnot.
    apply in_split in Hb as (p & q & ->).
    rewrite <- app_assoc in Hs. simpl in Hs.
    apply (sorted_split R p (q ++ a :: r) b a Hs). apply in_elt.
  - contradiction.
  - apply in_split in Hb as (l2 & l3 & ->). now exists l1, l2, l3.
Qed.

Lemma fefo_plan_done (bs : list Batch.t) (remaining : Z) :
  remaining <= 0 -> fefo_plan bs remaining = [].
Proof.
  intros H. destruct bs; simpl; [reflexivity|].
  destruct (Z.leb_spec remaining 0); [reflexivity|lia].
Qed.

Lemma taken_absent (i : Z) (bs : list Batch.t) :
  ~ In i (map Batch.batch_id bs) ->
  forall remaining, taken_from_batch i (fefo_plan bs remaining) = 0.
Proof.
  induction bs as [|b rest IH]; simpl; intros H remaining; [reflexivity|].
  destruct (remaining <=? 0); simpl; [reflexivity|].
  destruct (Z.eqb_spec (Batch.batch_id b) i); [tauto|].
  rewrite IH; tauto.
Qed.

(** A batch is touched only after everything before it is used up. *)
Lemma plan_exhausts_earlier (l1 l2 : list Batch.t) (b y : Batch.t) :
  NoDup (map Batch.batch_id (l1 ++ b :: l2)) -> In y l2 ->
  forall remaining,
    0 < taken_from_batch (Batch.batch_id y) (fefo_plan (l1 ++ b :: l2) remaining) ->
    taken_from_batch (Batch.batch_id b) (fefo_plan (l1 ++ b :: l2) remaining)
    = Batch.quantity b.
Proof.
  induction l1 as [|x l1 IH]; simpl; intros Hnd Hy remaining Htaken.
  - inversion Hnd as [|? ? Hnotin Hnd']; subst.
    destruct (Z.leb_spec remaining 0); simpl in *; [lia|].
    rewrite Z.eqb_refl, (taken_absent _ _ Hnotin).
    destruct (Z.eqb_spec (Batch.batch_id b) (Batch.batch_id y)) as [E|E].
    { exfalso. apply Hnotin. rewrite E. now apply in_map. }
    destruct (Z.leb_spec (remaining - Z.min remaining (Batch.quantity b)) 0)
      as [Hdone|Hmore].
    + rewrite (fefo_plan_done _ _ Hdone) in Htaken. simpl in Htaken. lia.
    + lia.
  - inversion Hnd as [|? ? Hnotin Hnd']; subst.
    destruct (Z.leb_spec remaining 0); simpl in *; [lia|].
    assert (Hxb : Batch.batch_id x <> Batch.batch_id b).
    { intros E. apply Hnotin. rewrite E, map_app. apply in_or_app. right. now left. }
    assert (Hxy : Batch.batch_id x <> Batch.batch_id y).
    { intros E. apply Hnotin. rewrite E, map_app. apply in_or_app. right. right.
      now apply in_map. }
    apply Z.eqb_neq in Hxb, Hxy. rewrite Hxb. rewrite Hxy in Htaken.
    simpl in *. now apply IH.
Qed.

Lemma same_key_same_row (bs : list Batch.t) (x y : Batch.t) :
  NoDup (map Batch.batch_id bs) -> In x bs -> In y bs ->
  Batch.batch_id x = Batch.batch_id y -> x = y.
Proof.
  induction bs as [|b bs IH]; simpl; intros Hnd Hx Hy E; [tauto|].
  inversion Hnd as [|? ? Hnotin Hnd']; subst.
  destruct Hx as [->|Hx], Hy as [->|Hy]; auto.
  - exfalso. apply Hnotin. rewrite E. now apply in_map.
  - exfalso. apply Hnotin. rewrite <- E. now apply in_map.
Qed.

(** A loop that is left without a throw has made every pick of the plan. *)
Lemma pick_from_batches_ok (orderId : Z) (bs : list Batch.t) :
  forall remaining c left c',
    (forall l, In l (storage_locations (working c)) -> Location.location_id l <> 0) ->
    pick_from_batches orderId bs remaining c = (Ok left, c') ->
    left = remaining - planned_total (fefo_plan bs remaining)
    /\ c' = mkConn (committed c) (deplete orderId (fefo_plan bs remaining) (working c)).
Proof.
  induction bs as [|b rest IH]; intros remaining c left c' Hnz Hrun.
  - simpl in *. injection Hrun as <- <-.
    rewrite deplete_nil, Z.sub_0_r. now destruct c.
  - simpl in Hrun. simpl fefo_plan.
    destruct (Z.leb_spec remaining 0) as [Hle|Hpos].
    + injection Hrun as <- <-. simpl.
      rewrite deplete_nil, Z.sub_0_r. now destruct c.
    + cbv zeta. set (amount := Z.min remaining (Batch.quantity b)) in *.
      unfold bind at 1, statement at 1 in Hrun.
      destruct (insert_pick orderId (Batch.batch_id b) amount PendingPick (working c))
        as [[u d1]|e] eqn:E; [|discriminate].
      apply insert_pick_rows in E. subst d1.
      unfold bind at 1, statement at 1 in Hrun. cbn [working committed] in Hrun.
      assert (Hstep : pick_from_batches orderId rest (remaining - amount)
                        (mkConn (committed c) (pick_step orderId b amount (working c)))
                      = (Ok left, c')).
      { unfold pick_step. cbv zeta.
        destruct (truthy (Batch.assigned_location_id b)); exact Hrun. }
      apply IH in Hstep as [-> ->]; cbn [working committed].
      * rewrite deplete_step by exact Hnz. simpl planned_total. split; [lia|reflexivity].
      * now apply pick_step_locations.
Qed.

(** C8. The candidate query looks at product, stock and status only: a
    batch whose expiry date is already past on the day of the order, still
    Available and in stock, is a candidate, stands before every candidate
    of the same product that has not expired, and is used up before the
    loop takes anything from such a batch. *)
Theorem expired_stock_is_picked_first
    (today productId orderId : Z) (expired fresh : Batch.t) (c : connection) :
  keys_wellformed (working c) ->
  In expired (batches (working c)) -> In fresh (batches (working c)) ->
  fefo_candidate productId expired -> fefo_candidate productId fresh ->
  Batch.expiry_date expired < today <= Batch.expiry_date fresh ->
  let candidates := select_available_batches productId (working c) in
  In expired candidates
  /\ (exists l1 l2 l3, candidates = l1 ++ expired :: l2 ++ fresh :: l3)
  /\ forall remaining left c',
       pick_from_batches orderId candidates remaining c = (Ok left, c') ->
       forall fresh',
         In fresh' (batches (working c')) ->
         Batch.batch_id fresh' = Batch.batch_id fresh ->
         Batch.quantity fresh' < Batch.quantity fresh ->
         exists expired',
           In expired' (batches (working c'))
           /\ Batch.batch_id expired' = Batch.batch_id expired
           /\ Batch.quantity expired' = 0.
Proof.
  intros Hk He Hf Hce Hcf Hdate candidates.
  pose proof Hk as (Hnd & _ & Hnz).
  assert (Hin_e : In expired candidates) by (apply candidates_In; auto).
  assert (Hin_f : In fresh candidates) by (apply candidates_In; auto).
  assert (Hsplit : exists l1 l2 l3, candidates = l1 ++ expired :: l2 ++ fresh :: l3).
  { apply (sorted_before expiry_ascending); auto.
    - apply candidates_sorted.
    - unfold expiry_ascending. lia.
    - intros ->. lia. }
  split; [exact Hin_e|]. split; [exact Hsplit|].
  intros remaining left c' Hrun.
  pose proof (candidates_NoDup productId (working c) Hnd) as Hcnd.
  fold candidates in Hcnd.
  apply pick_from_batches_ok in Hrun as [_ ->]; [|exact Hnz].
  cbn [working deplete batches].
  intros fresh' Hin Hid Hless.
  apply in_map_iff in Hin as (x & <- & Hx). simpl in Hid, Hless.
  assert (x = fresh) as -> by (apply (same_key_same_row (batches (working c))); auto).
  destruct Hsplit as (l1 & l2 & l3 & Heq).
  assert (Hall : taken_from_batch (Batch.batch_id expired)
                   (fefo_plan candidates remaining)
                 = Batch.quantity expired).
  { rewrite Heq in *. apply (plan_exhausts_earlier l1 (l2 ++ fresh :: l3) expired fresh).
    - exact Hcnd.
    - apply in_elt.
    - lia. }
  exists (Batch.with_quantity
            (Batch.quantity expired
             - taken_from_batch (Batch.batch_id expired)
                 (fefo_plan candidates remaining)) expired).
  split; [|split].
  - apply in_map_iff. exists expired. split; [reflexivity|exact He].
  - reflexivity.
  - simpl. lia.
Qed.

(** C8 on the sample warehouse on 2025-01-15: the batch that expired on
    2025-01-01 stands before the one that expires on 2025-02-01, and an
    order for seven leaves none of the former and three of the latter. *)
Lemma expired_stock_is_picked_first_witness :
  let c := snd (statement insert_order (getConnection Sample.warehouse)) in
  let candidates := select_available_batches 1 (working c) in
  candidates = [Sample.early; Sample.late]
  /\ map Batch.quantity
         (batches (working (snd (pick_from_batches 1 candidates 7 c))))
     = [3; 0]
  /\ (In Sample.early candidates
      /\ (exists l1 l2 l3, candidates = l1 ++ Sample.early :: l2 ++ Sample.late :: l3)
      /\ forall remaining left c',
           pick_from_batches 1 candidates remaining c = (Ok left, c') ->
           forall fresh',
             In fresh' (batches (working c')) ->
             Batch.batch_id fresh' = Batch.batch_id Sample.late ->
             Batch.quantity fresh' < Batch.quantity Sample.late ->
             exists expired',
               In expired' (batches (working c'))
               /\ Batch.batch_id expired' = Batch.batch_id Sample.early
               /\ Batch.quantity expired' = 0).
Proof.
  cbv zeta. split; [reflexivity|]. split; [reflexivity|].
  apply (expired_stock_is_picked_first 20103 1 1 Sample.early Sample.late
           (snd (statement insert_order (getConnection Sample.warehouse)))).
  - exact (proj1 warehouse_sound).
  - right. now left.
  - now left.
  - unfold fefo_candidate. simpl. repeat split; lia.
  - unfold fefo_candidate. simpl. repeat split; lia.
  - simpl. unfold Sample.jan1, Sample.feb1. lia.
Defined.

(** ** Temperature alerts *)

Section AlertProofs.

Variables (sqlNow jsNow : Z).
Variable renderTemperature : option Z -> string.
Variable toLocaleString : Z -> string.

Lemma select_temperature_alerts_reportable (d : db) :
  cold_storage_bounded d ->
  select_temperature_alerts sqlNow d
  = filter (reportable sqlNow) (storage_locations d).
Proof.
  intros Hb. unfold select_temperature_alerts. apply filter_ext_in.
  intros l Hl. unfold reportable, classify.
  destruct (Location.location_type l) eqn:Ety; [reflexivity|].
  destruct (Hb l Hl Ety) as [Hmin Hmax].
  destruct (Location.min_temp l) as [lo|]; [|congruence].
  destruct (Location.max_temp l) as [hi|]; [|congruence].
  destruct (Location.latest_temperature l) as [t|]; [|reflexivity].
  destruct (Location.last_temp_update l) as [u|]; simpl.
  - destruct (t <? lo), (hi <? t), (u <? sqlNow - 3600000); reflexivity.
  - destruct (t <? lo), (hi <? t); reflexivity.
Qed.

(** Where the reading and the bounds lie between 0.00 and 9.99 the type
    of the alert is the class of the location. *)
Lemma format_alert_classified (l : Location.t) (k : classification) :
  sqlNow <= jsNow ->
  (forall t, Location.latest_temperature l = Some t -> below_ten t) ->
  (forall lo, Location.min_temp l = Some lo -> below_ten lo) ->
  (forall hi, Location.max_temp l = Some hi -> below_ten hi) ->
  classify sqlNow l = Some k ->
  classify jsNow l = Some k
  /\ TemperatureAlert.alert_type
       (format_alert jsNow renderTemperature toLocaleString l)
     = classification_name k.
Proof.
  intros Hclock Ht Hlo Hhi. unfold classify, format_alert.
  destruct (Location.latest_temperature l) as [t|];
    [|intros [= <-]; split; reflexivity].
  destruct (Location.last_temp_update l) as [u|];
    [|intros [= <-]; split; reflexivity].
  destruct (Location.min_temp l) as [lo|]; [|discriminate].
  destruct (Location.max_temp l) as [hi|]; [|discriminate].
  unfold js_gt.
  rewrite (js_lt_below_ten t lo (Ht t eq_refl) (Hlo lo eq_refl)),
          (js_lt_below_ten hi t (Hhi hi eq_refl) (Ht t eq_refl)).
  destruct (t <? lo); [intros [= <-]; split; reflexivity|].
  destruct (hi <? t); [intros [= <-]; split; reflexivity|].
  destruct (Z.ltb_spec u (sqlNow - 3600000)); [|discriminate].
  intros [= <-].
  destruct (Z.ltb_spec u (jsNow - 3600000)); [split; reflexivity|lia].
Qed.

End AlertProofs.

(** C9. The query of GET /alerts/temperature picks the locations by the
    value of their readings, and the callback that types them compares
    the text of the same columns.  On the sample warehouse, asked within
    the hour of its readings, the freezer is the one location reported:
    it reads 10.00 degrees over a maximum of 4.00, a High Temperature by
    the classes of the specification, and its alert has an empty type.
    Asked an hour and a half later the freezer is typed Stale Reading, as
    is the fridge.  Where the fridge reads 10.00 degrees over its maximum
    of 8.00, it is typed Low Temperature. *)
Theorem temperatureAlerts_type_by_text
    (renderTemperature : option Z -> string) (toLocaleString : Z -> string) :
  let answer sqlNow jsNow d :=
    fst (temperatureAlerts sqlNow jsNow renderTemperature toLocaleString d) in
  select_temperature_alerts 2000 Sample.warehouse = [Sample.freezer]
  /\ classify 2000 Sample.freezer = Some HighTemperature
  /\ reported_types (answer 2000 2000 Sample.warehouse) = [(3, "")]
  /\ select_temperature_alerts 5400000 Sample.warehouse
     = [Sample.fridge; Sample.freezer]
  /\ classify 5400000 Sample.freezer = Some HighTemperature
  /\ classify 5400100 Sample.freezer = Some HighTemperature
  /\ reported_types (answer 5400000 5400100 Sample.warehouse)
     = [(2, "Stale Reading"); (3, "Stale Reading")]
  /\ select_temperature_alerts 2000 Sample.heatwave = [Sample.warm_fridge]
  /\ classify 2000 Sample.warm_fridge = Some HighTemperature
  /\ reported_types (answer 2000 2000 Sample.heatwave) = [(2, "Low Temperature")].
Proof.
  cbv zeta. repeat split; reflexivity.
Qed.

(** ** Barcode verification *)

Lemma filter_none {A} (f : A -> bool) (l : list A) :
  (forall x, In x l -> f x = false) -> filter f l = [].
Proof.
  induction l as [|x l IH]; simpl; intros H; [reflexivity|].
  rewrite (H x (or_introl eq_refl)). apply IH. auto.
Qed.

(** C10. For a barcode that no batch carries, [verifyBarcode] answers
    exactly [isValid: false] with the one message 'Barcode not found.',
    no batch and no pending picks, and leaves the database as it was. *)
Theorem verifyBarcode_unknown
    (today : Z) (toLocaleDateString : Z -> string) (barcode : string) (d : db) :
  (forall b, In b (batches d) -> Batch.barcode b <> Some barcode) ->
  verifyBarcode today toLocaleDateString barcode d
  = (Json 200 (Verification.mk false None ["Barcode not found."] None), d).
Proof.
  intros Hnone. unfold verifyBarcode, select_batch_by_barcode.
  rewrite filter_none; [reflexivity|].
  intros b Hb. specialize (Hnone b Hb). unfold column_eqb.
  destruct (Batch.barcode b) as [s|]; [|reflexivity].
  destruct (String.eqb_spec s barcode); [congruence|reflexivity].
Qed.

(** C10 on the sample warehouse. *)
Lemma verifyBarcode_unknown_witness :
  verifyBarcode 20103 (fun _ => "") "NO-SUCH-CODE" Sample.warehouse
  = (Json 200 (Verification.mk false None ["Barcode not found."] None),
     Sample.warehouse).
Proof.
  apply (verifyBarcode_unknown 20103 (fun _ => "") "NO-SUCH-CODE" Sample.warehouse).
  intros b [<-|[<-|[]]]; simpl; discriminate.
Defined.

(** * The remaining handlers *)

(** ** Order and pick status *)

Lemma with_orders_same (d : db) : with_orders (orders d) (next_order_id d) d = d.
Proof. now destruct d. Qed.

Lemma with_picks_same (d : db) :
  with_order_batch_picks (order_batch_picks d) (next_pick_id d) d = d.
Proof. now destruct d. Qed.

Lemma update_orders_absent (i : Z) (st : order_status) (os : list Order.t) :
  filter (fun o => Order.order_id o =? i) os = [] ->
  map (fun o => if Order.order_id o =? i then Order.mk (Order.order_id o) st else o) os
  = os.
Proof.
  induction os as [|o os IH]; simpl; [reflexivity|].
  destruct (Order.order_id o =? i); [discriminate|].
  intros H. now rewrite IH.
Qed.

Lemma update_orders_first (i : Z) (st : order_status) (os rest : list Order.t) (o : Order.t) :
  filter (fun o => Order.order_id o =? i) os = o :: rest ->
  hd_error
    (filter (fun o => Order.order_id o =? i)
       (map (fun o => if Order.order_id o =? i then Order.mk (Order.order_id o) st else o)
            os))
  = Some (Order.mk i st).
Proof.
  induction os as [|x os IH]; simpl; [discriminate|].
  destruct (Z.eqb_spec (Order.order_id x) i) as [E|E]; simpl.
  - intros _. rewrite E, Z.eqb_refl. reflexivity.
  - destruct (Z.eqb_spec (Order.order_id x) i); [contradiction|]. exact IH.
Qed.

Lemma order_exists_filter (i : Z) (d : db) :
  order_exists i d = false <-> filter (fun o => Order.order_id o =? i) (orders d) = [].
Proof.
  unfold order_exists. induction (orders d) as [|o os IH]; simpl; [tauto|].
  destruct (Order.order_id o =? i); simpl; [split; discriminate|exact IH].
Qed.

(** X1. PUT /orders/:orderId refuses a status outside the four it knows
    and an order it does not find, both without a change; otherwise it
    answers with the order under its new status.  Whatever the answer, it
    writes nothing but the status column of that order: no batch quantity,
    occupancy or pick moves, so an order set to Cancelled keeps the stock
    that was picked for it. *)
Theorem setOrderStatus_status_only (orderId : Z) (status : option string) (d : db) :
  (batches (snd (setOrderStatus orderId status d)) = batches d
   /\ storage_locations (snd (setOrderStatus orderId status d)) = storage_locations d
   /\ order_batch_picks (snd (setOrderStatus orderId status d)) = order_batch_picks d
   /\ order_items (snd (setOrderStatus orderId status d)) = order_items d
   /\ products (snd (setOrderStatus orderId status d)) = products d)
  /\ (match status with
      | Some s => order_status_of_string s = None
      | None => True
      end ->
      setOrderStatus orderId status d
      = (JsonError 400 "Invalid order status provided.", d))
  /\ (forall s st,
        status = Some s -> order_status_of_string s = Some st ->
        (order_exists orderId d = false ->
         setOrderStatus orderId status d = (JsonError 404 "Order not found.", d))
        /\ (order_exists orderId d = true ->
            fst (setOrderStatus orderId status d)
            = Json 200 (Some (Order.mk orderId st))
            /\ orders (snd (setOrderStatus orderId status d))
               = map (fun o => if Order.order_id o =? orderId
                               then Order.mk orderId st else o)
                     (orders d))).
Proof.
  split; [|split].
  - unfold setOrderStatus. destruct status as [s|]; [|auto].
    destruct (order_status_of_string s); [|auto].
    simpl. destruct (_ =? 0); auto.
  - unfold setOrderStatus. destruct status as [s|]; [|reflexivity].
    now intros ->.
  - intros s st -> Hst. unfold setOrderStatus. rewrite Hst.
    unfold update_order_status, select_order. split.
    + intros H. apply order_exists_filter in H. rewrite H. simpl.
      now rewrite (update_orders_absent _ _ _ H), with_orders_same.
    + intros H.
      destruct (filter (fun o => Order.order_id o =? orderId) (orders d))
        as [|o rest] eqn:E.
      { apply order_exists_filter in E. congruence. }
      simpl. rewrite (update_orders_first _ st _ _ _ E). split; [reflexivity|].
      apply map_ext. intros x.
      destruct (Z.eqb_spec (Order.order_id x) orderId) as [->|]; reflexivity.
Qed.

(** X1 on the sample warehouse: the order for seven gloves is cancelled
    and the shelf still holds three. *)
Lemma setOrderStatus_status_only_witness :
  let d := snd (createOrder [Sample.item 1 7] Sample.warehouse) in
  fst (setOrderStatus 1 (Some "Cancelled") d) = Json 200 (Some (Order.mk 1 Cancelled))
  /\ orders (snd (setOrderStatus 1 (Some "Cancelled") d)) = [Order.mk 1 Cancelled]
  /\ map Batch.quantity (batches (snd (setOrderStatus 1 (Some "Cancelled") d))) = [3; 0].
Proof.
  cbv zeta.
  destruct (setOrderStatus_status_only 1 (Some "Cancelled")
              (snd (createOrder [Sample.item 1 7] Sample.warehouse)))
    as ((Hb & _) & _ & H).
  destruct (H "Cancelled" Cancelled eq_refl eq_refl) as [_ Hfound].
  destruct (Hfound eq_refl) as [Hr Ho].
  rewrite Hr, Ho, Hb. repeat split.
Defined.

Lemma update_picks_absent (i : Z) (st : pick_status) (ps : list Pick.t) :
  filter (fun p => Pick.pick_id p =? i) ps = [] ->
  map (fun p => if Pick.pick_id p =? i
                then Pick.mk (Pick.pick_id p) (Pick.order_id p) (Pick.batch_id p)
                             (Pick.quantity_picked p) st
                else p) ps
  = ps.
Proof.
  induction ps as [|p ps IH]; simpl; [reflexivity|].
  destruct (Pick.pick_id p =? i); [discriminate|].
  intros H. now rewrite IH.
Qed.

Lemma update_picks_first (i : Z) (st : pick_status) (ps rest : list Pick.t) (p : Pick.t) :
  filter (fun p => Pick.pick_id p =? i) ps = p :: rest ->
  hd_error
    (filter (fun p => Pick.pick_id p =? i)
       (map (fun p => if Pick.pick_id p =? i
                      then Pick.mk (Pick.pick_id p) (Pick.order_id p) (Pick.batch_id p)
                                   (Pick.quantity_picked p) st
                      else p) ps))
  = Some (Pick.mk i (Pick.order_id p) (Pick.batch_id p) (Pick.quantity_picked p) st).
Proof.
  induction ps as [|x ps IH]; simpl; [discriminate|].
  destruct (Z.eqb_spec (Pick.pick_id x) i) as [E|E]; simpl.
  - intros H. injection H as -> _. rewrite E, Z.eqb_refl. reflexivity.
  - destruct (Z.eqb_spec (Pick.pick_id x) i); [contradiction|]. exact IH.
Qed.

(** X2. PUT /order_batch_picks/:pickId refuses a status outside the
    three it knows and a pick it does not find, both without a change;
    otherwise it answers with the pick under its new status, its order,
    batch and quantity as they were.  It never writes anything but the
    status column of that pick: marking a pick Picked or Dispatched moves
    no batch quantity and no occupancy. *)
Theorem setPickStatus_status_only (pickId : Z) (status : option string) (d : db) :
  (batches (snd (setPickStatus pickId status d)) = batches d
   /\ storage_locations (snd (setPickStatus pickId status d)) = storage_locations d
   /\ orders (snd (setPickStatus pickId status d)) = orders d
   /\ order_items (snd (setPickStatus pickId status d)) = order_items d
   /\ products (snd (setPickStatus pickId status d)) = products d)
  /\ (match status with
      | Some s => pick_status_of_string s = None
      | None => True
      end ->
      setPickStatus pickId status d
      = (JsonError 400 "Invalid pick status provided. Must be Picked, Pending Pick, or Dispatched.", d))
  /\ (forall s st,
        status = Some s -> pick_status_of_string s = Some st ->
        ((forall p, In p (order_batch_picks d) -> Pick.pick_id p <> pickId) ->
         setPickStatus pickId status d
         = (JsonError 404 "Pick item not found or status already set.", d))
        /\ (forall p rest,
              filter (fun p => Pick.pick_id p =? pickId) (order_batch_picks d)
              = p :: rest ->
              fst (setPickStatus pickId status d)
              = Json 200 (Some (Pick.mk pickId (Pick.order_id p) (Pick.batch_id p)
                                        (Pick.quantity_picked p) st))
              /\ map (fun p => (Pick.pick_id p, Pick.order_id p, Pick.batch_id p,
                                Pick.quantity_picked p))
                     (order_batch_picks (snd (setPickStatus pickId status d)))
                 = map (fun p => (Pick.pick_id p, Pick.order_id p, Pick.batch_id p,
                                  Pick.quantity_picked p))
                       (order_batch_picks d))).
Proof.
  split; [|split].
  - unfold setPickStatus. destruct status as [s|]; [|auto].
    destruct (pick_status_of_string s); [|auto].
    simpl. destruct (_ =? 0); auto.
  - unfold setPickStatus. destruct status as [s|]; [|reflexivity].
    now intros ->.
  - intros s st -> Hst. unfold setPickStatus. rewrite Hst.
    unfold update_pick_status, select_pick. split.
    + intros H.
      assert (E : filter (fun p => Pick.pick_id p =? pickId) (order_batch_picks d) = []).
      { apply filter_none. intros p Hp. apply Z.eqb_neq. now apply H. }
      rewrite E. simpl.
      now rewrite (update_picks_absent _ _ _ E), with_picks_same.
    + intros p rest E. rewrite E. simpl.
      rewrite (update_picks_first _ st _ _ _ E). split; [reflexivity|].
      rewrite map_map. apply map_ext. intros x.
      now destruct (Pick.pick_id x =? pickId).
Qed.

(** X2 on the sample warehouse: the first pick of the order for seven
    gloves is marked Picked. *)
Lemma setPickStatus_status_only_witness :
  let d := snd (createOrder [Sample.item 1 7] Sample.warehouse) in
  fst (setPickStatus 1 (Some "Picked") d)
  = Json 200 (Some (Pick.mk 1 1 2 5 PickPicked))
  /\ setPickStatus 9 (Some "Picked") d
     = (JsonError 404 "Pick item not found or status already set.", d).
Proof.
  cbv zeta.
  destruct (setPickStatus_status_only 1 (Some "Picked")
              (snd (createOrder [Sample.item 1 7] Sample.warehouse)))
    as (_ & _ & H1).
  destruct (setPickStatus_status_only 9 (Some "Picked")
              (snd (createOrder [Sample.item 1 7] Sample.warehouse)))
    as (_ & _ & H9).
  destruct (H1 "Picked" PickPicked eq_refl eq_refl) as [_ Hfound].
  destruct (H9 "Picked" PickPicked eq_refl eq_refl) as [Hmissing _].
  split.
  - apply (Hfound (Pick.mk 1 1 2 5 PendingPick) [] eq_refl).
  - apply Hmissing. intros p [<-|[<-|[]]]; simpl; lia.
Defined.

(** ** Status changes and barcode verification *)

Lemma pending_rows_after_status
    (orderId : Z) (st : order_status) (p : Pick.t) (os : list Order.t) :
  st <> Pending ->
  map (fun o => PendingPickRow.mk (Pick.pick_id p) (Pick.order_id p)
                  (Pick.quantity_picked p) (Order.status o))
      (filter (fun o => (Order.order_id o =? Pick.order_id p)
                        && order_status_eqb (Order.status o) Pending)
              (map (fun o => if Order.order_id o =? orderId
                             then Order.mk (Order.order_id o) st else o) os))
  = filter (fun row => negb (PendingPickRow.order_id row =? orderId))
      (map (fun o => PendingPickRow.mk (Pick.pick_id p) (Pick.order_id p)
                       (Pick.quantity_picked p) (Order.status o))
           (filter (fun o => (Order.order_id o =? Pick.order_id p)
                             && order_status_eqb (Order.status o) Pending)
                   os)).
Proof.
  intros Hnp.
  assert (Hst : order_status_eqb st Pending = false)
    by (destruct st; simpl; congruence).
  induction os as [|o os IH]; simpl; [reflexivity|].
  destruct (Z.eqb_spec (Order.order_id o) orderId) as [Eo|Eo]; simpl.
  - rewrite Hst, andb_false_r.
    destruct ((Order.order_id o =? Pick.order_id p)
              && order_status_eqb (Order.status o) Pending) eqn:E; simpl;
      [|exact IH].
    apply andb_true_iff in E as [E _]. apply Z.eqb_eq in E.
    assert ((Pick.order_id p =? orderId) = true) as -> by (apply Z.eqb_eq; congruence).
    simpl. exact IH.
  - destruct ((Order.order_id o =? Pick.order_id p)
              && order_status_eqb (Order.status o) Pending) eqn:E; simpl;
      [|exact IH].
    apply andb_true_iff in E as [E _]. apply Z.eqb_eq in E.
    assert ((Pick.order_id p =? orderId) = false) as -> by (apply Z.eqb_neq; congruence).
    simpl. now rewrite IH.
Qed.

(** X3. After an order is moved to a status other than Pending, the
    pending picks that barcode verification finds for any batch are those
    it found before, less the picks of that order. *)
Theorem setOrderStatus_retires_pending_picks
    (orderId batchId : Z) (s : string) (st : order_status) (d : db) :
  order_status_of_string s = Some st -> st <> Pending ->
  select_pending_picks batchId (snd (setOrderStatus orderId (Some s) d))
  = filter (fun row => negb (PendingPickRow.order_id row =? orderId))
           (select_pending_picks batchId d).
Proof.
  intros Hst Hnp.
  assert (Hd : order_batch_picks (snd (setOrderStatus orderId (Some s) d))
               = order_batch_picks d
               /\ orders (snd (setOrderStatus orderId (Some s) d))
                  = map (fun o => if Order.order_id o =? orderId
                                  then Order.mk (Order.order_id o) st else o)
                        (orders d)).
  { unfold setOrderStatus. rewrite Hst. simpl. destruct (_ =? 0); auto. }
  destruct Hd as [Hp Ho]. unfold select_pending_picks. rewrite Hp, Ho.
  clear Hp Ho.
  induction (filter _ (order_batch_picks d)) as [|p ps IH]; simpl; [reflexivity|].
  rewrite filter_app, <- IH. f_equal.
  now apply pending_rows_after_status.
Qed.

(** X3 on the sample warehouse: once the order for two gloves is
    Completed, the batch it picked from has no pending pick left. *)
Lemma setOrderStatus_retires_pending_picks_witness :
  let d := snd (createOrder [Sample.item 1 2] Sample.warehouse) in
  map PendingPickRow.order_id (select_pending_picks 2 d) = [1]
  /\ select_pending_picks 2 (snd (setOrderStatus 1 (Some "Completed") d)) = [].
Proof.
  cbv zeta. split; [reflexivity|].
  rewrite (setOrderStatus_retires_pending_picks 1 2 "Completed" Completed
             (snd (createOrder [Sample.item 1 2] Sample.warehouse)) eq_refl).
  - reflexivity.
  - discriminate.
Defined.

Lemma verifyBarcode_found
    (today : Z) (toLocaleDateString : Z -> string) (barcode : string) (d : db)
    (batch : VerifiedBatch.t) (rows : list VerifiedBatch.t) :
  select_batch_by_barcode barcode d = batch :: rows ->
  exists messages,
    messages <> []
    /\ verifyBarcode today toLocaleDateString barcode d
       = (Json 200
            (Verification.mk
               ((0 <? VerifiedBatch.quantity batch)
                && (today <=? VerifiedBatch.expiry_date batch)
                && negb (is_nil (select_pending_picks (VerifiedBatch.batch_id batch) d)))
               (Some batch) messages
               (match select_pending_picks (VerifiedBatch.batch_id batch) d with
                | [] => None
                | picks => Some picks
                end)),
          d).
Proof.
  intros Hsel. unfold verifyBarcode. rewrite Hsel.
  destruct (Z.leb_spec (VerifiedBatch.quantity batch) 0);
    destruct (Z.ltb_spec 0 (VerifiedBatch.quantity batch)); try lia;
    destruct (Z.ltb_spec (VerifiedBatch.expiry_date batch) today);
    destruct (Z.leb_spec today (VerifiedBatch.expiry_date batch)); try lia;
    destruct (VerifiedBatch.expiry_date batch <=? today + 30);
    destruct (select_pending_picks (VerifiedBatch.batch_id batch) d);
    cbn [andb negb is_nil app];
    eexists; (split; [|reflexivity]); discriminate.
Qed.

(** X4. For a barcode that a batch carries, verification answers with
    that batch and at least one message, and declares it valid exactly
    when the batch has stock, its expiry date is not before today and some
    pick of it is still Pending Pick on a Pending order; the pending picks
    are reported when there are any. *)
Theorem verifyBarcode_valid_iff
    (today : Z) (toLocaleDateString : Z -> string) (barcode : string) (d : db)
    (batch : VerifiedBatch.t) :
  hd_error (select_batch_by_barcode barcode d) = Some batch ->
  exists v,
    verifyBarcode today toLocaleDateString barcode d = (Json 200 v, d)
    /\ Verification.batch v = Some batch
    /\ (Verification.isValid v = true <->
        0 < VerifiedBatch.quantity batch
        /\ today <= VerifiedBatch.expiry_date batch
        /\ select_pending_picks (VerifiedBatch.batch_id batch) d <> [])
    /\ Verification.messages v <> []
    /\ Verification.pendingPicks v
       = match select_pending_picks (VerifiedBatch.batch_id batch) d with
         | [] => None
         | picks => Some picks
         end.
Proof.
  intros Hrow.
  destruct (select_batch_by_barcode barcode d) as [|row rows] eqn:Hsel;
    [discriminate|].
  injection Hrow as ->.
  destruct (verifyBarcode_found today toLocaleDateString barcode d batch rows Hsel)
    as (messages & Hne & ->).
  eexists. split; [reflexivity|]. simpl.
  split; [reflexivity|]. split; [|split; [exact Hne|reflexivity]].
  rewrite !andb_true_iff, Z.ltb_lt, Z.leb_le.
  destruct (select_pending_picks (VerifiedBatch.batch_id batch) d); simpl;
    intuition congruence.
Qed.

(** X4 on the sample warehouse on 2025-01-15: the batch that expires in
    February is invalid until an order picks from it. *)
Lemma verifyBarcode_valid_iff_witness :
  let d := snd (createOrder [Sample.item 1 7] Sample.warehouse) in
  (exists v, fst (verifyBarcode 20103 (fun _ => "") "GLOVE-001" Sample.warehouse)
             = Json 200 v /\ Verification.isValid v = false)
  /\ exists v, fst (verifyBarcode 20103 (fun _ => "") "GLOVE-001" d) = Json 200 v
               /\ Verification.isValid v = true.
Proof.
  cbv zeta. split.
  - destruct (verifyBarcode_valid_iff 20103 (fun _ => "") "GLOVE-001" Sample.warehouse
                (VerifiedBatch.mk 1 "GLOVE-001" 5 Sample.feb1 "Surgical Gloves" Ambient)
                eq_refl) as (v & Hv & _ & Hvalid & _).
    exists v. rewrite Hv. split; [reflexivity|].
    destruct (Verification.isValid v); [|reflexivity].
    destruct (proj1 Hvalid eq_refl) as (_ & _ & Hp). now contradiction Hp.
  - destruct (verifyBarcode_valid_iff 20103 (fun _ => "") "GLOVE-001"
                (snd (createOrder [Sample.item 1 7] Sample.warehouse))
                (VerifiedBatch.mk 1 "GLOVE-001" 3 Sample.feb1 "Surgical Gloves" Ambient)
                eq_refl) as (v & Hv & _ & Hvalid & _).
    exists v. rewrite Hv. split; [reflexivity|].
    apply Hvalid. simpl. unfold Sample.feb1. repeat split; try lia. discriminate.
Defined.

(** ** Expiry and stock alerts *)

(** X5. On any day the expiry alert lists, under [expired], batches whose
    date is before today and, under [expiringSoon], batches whose date is
    within today and thirty days on, the latter in ascending order of
    date, so no row is on both lists; every Available batch in stock with
    a date up to thirty days on and a product row is on one of them, and
    every listed batch, expired ones included, is still a candidate of
    order fulfilment for its product. *)
Theorem getExpiryAlerts_lists (today : Z) (d : db) :
  (forall r, In r (select_expired today d) -> ExpiryRow.expiry_date r < today)
  /\ (forall r, In r (select_expiring_soon today d) ->
                today <= ExpiryRow.expiry_date r <= today + 30)
  /\ StronglySorted (fun a b => ExpiryRow.expiry_date a <= ExpiryRow.expiry_date b)
                    (select_expiring_soon today d)
  /\ (forall r, In r (select_expired today d ++ select_expiring_soon today d) ->
        exists b, In b (select_available_batches (Batch.product_id b) d)
                  /\ ExpiryRow.batch_id r = Batch.batch_id b
                  /\ ExpiryRow.quantity r = Batch.quantity b
                  /\ ExpiryRow.expiry_date r = Batch.expiry_date b)
  /\ (forall b p,
        In b (batches d) -> In p (products_of b d) ->
        Batch.status b = Available -> 0 < Batch.quantity b ->
        Batch.expiry_date b <= today + 30 ->
        if Batch.expiry_date b <? today
        then In (expiry_row b p) (select_expired today d)
        else In (expiry_row b p) (select_expiring_soon today d)).
Proof.
  assert (Hexp : forall r, In r (select_expired today d) ->
            exists b p, In b (batches d) /\ r = expiry_row b p
                        /\ Batch.expiry_date b < today /\ 0 < Batch.quantity b
                        /\ Batch.status b = Available).
  { intros r Hr. unfold select_expired in Hr.
    apply in_flat_map in Hr as (b & Hb & Hr).
    apply in_map_iff in Hr as (p & <- & Hp).
    apply filter_In in Hb as [Hb Hc].
    rewrite !andb_true_iff, Z.ltb_lt, Z.ltb_lt in Hc.
    exists b, p. destruct (Batch.status b) eqn:Es; simpl in Hc; intuition congruence. }
  assert (Hsoon : forall r, In r (select_expiring_soon today d) ->
            exists b p, In b (batches d) /\ r = expiry_row b p
                        /\ today <= Batch.expiry_date b <= today + 30
                        /\ 0 < Batch.quantity b /\ Batch.status b = Available).
  { intros r Hr. unfold select_expiring_soon in Hr.
    apply order_by_In in Hr. apply in_flat_map in Hr as (b & Hb & Hr).
    apply in_map_iff in Hr as (p & <- & Hp).
    apply filter_In in Hb as [Hb Hc].
    rewrite !andb_true_iff, !Z.leb_le, Z.ltb_lt in Hc.
    exists b, p. destruct (Batch.status b) eqn:Es; simpl in Hc; intuition congruence. }
  split; [|split; [|split; [|split]]].
  - intros r Hr. destruct (Hexp r Hr) as (b & p & _ & -> & H & _). exact H.
  - intros r Hr. destruct (Hsoon r Hr) as (b & p & _ & -> & H & _). exact H.
  - unfold select_expiring_soon.
    eapply sorted_weaken; [|apply order_by_sorted].
    + intros a b H. now apply Z.leb_le in H.
    + intros a b. rewrite !Z.leb_le. lia.
    + intros a b c. rewrite !Z.leb_le. lia.
  - intros r Hr. apply in_app_or in Hr as [Hr|Hr].
    + destruct (Hexp r Hr) as (b & p & Hb & -> & _ & Hq & Hs).
      exists b. split; [|auto]. apply candidates_In. unfold fefo_candidate. auto.
    + destruct (Hsoon r Hr) as (b & p & Hb & -> & _ & Hq & Hs).
      exists b. split; [|auto]. apply candidates_In. unfold fefo_candidate. auto.
  - intros b p Hb Hp Hs Hq He.
    destruct (Z.ltb_spec (Batch.expiry_date b) today) as [Hlt|Hge].
    + unfold select_expired. apply in_flat_map. exists b. split.
      * apply filter_In. split; [exact Hb|].
        rewrite Hs. simpl. rewrite !andb_true_iff, !Z.ltb_lt. auto.
      * now apply in_map.
    + unfold select_expiring_soon. apply order_by_In.
      apply in_flat_map. exists b. split.
      * apply filter_In. split; [exact Hb|].
        rewrite Hs. simpl. rewrite !andb_true_iff, !Z.leb_le, Z.ltb_lt. auto.
      * now apply in_map.
Qed.

(** X5 on the sample warehouse on 2025-01-15. *)
Lemma getExpiryAlerts_lists_witness :
  map ExpiryRow.batch_id (select_expired 20103 Sample.warehouse) = [2]
  /\ map ExpiryRow.batch_id (select_expiring_soon 20103 Sample.warehouse) = [1]
  /\ In (expiry_row Sample.early Sample.gloves) (select_expired 20103 Sample.warehouse).
Proof.
  split; [reflexivity|]. split; [reflexivity|].
  apply (proj2 (proj2 (proj2 (proj2 (getExpiryAlerts_lists 20103 Sample.warehouse))))
           Sample.early Sample.gloves).
  - right. now left.
  - now left.
  - reflexivity.
  - reflexivity.
  - simpl. unfold Sample.jan1. lia.
Defined.

(** X6. The low-stock alert lists Available batches holding between one
    and the threshold of ten, in ascending order of quantity, each of them
    still a candidate of order fulfilment; the out-of-stock alert lists
    Available batches holding nothing, none of which order fulfilment will
    pick from; every Available batch holding ten or less that has a
    product row is on one of the two lists. *)
Theorem getLowStockAlerts_lists (d : db) :
  (forall r, In r (select_low_stock LOW_STOCK_THRESHOLD d) ->
     0 < StockRow.quantity r <= 10
     /\ exists b, In b (select_available_batches (Batch.product_id b) d)
                  /\ StockRow.batch_id r = Batch.batch_id b
                  /\ StockRow.quantity r = Batch.quantity b)
  /\ StronglySorted (fun a b => StockRow.quantity a <= StockRow.quantity b)
                    (select_low_stock LOW_STOCK_THRESHOLD d)
  /\ (forall r, In r (select_out_of_stock d) ->
        exists b, In b (batches d)
                  /\ OutOfStockRow.batch_id r = Batch.batch_id b
                  /\ Batch.quantity b <= 0
                  /\ forall productId, ~ In b (select_available_batches productId d))
  /\ (forall b p,
        In b (batches d) -> In p (products_of b d) ->
        Batch.status b = Available -> Batch.quantity b <= 10 ->
        if Batch.quantity b <=? 0
        then In (OutOfStockRow.mk (Batch.batch_id b) (Batch.batch_number b)
                                  (Product.name p))
                (select_out_of_stock d)
        else In (StockRow.mk (Batch.batch_id b) (Batch.batch_number b)
                             (Batch.quantity b) (Product.name p))
                (select_low_stock LOW_STOCK_THRESHOLD d)).
Proof.
  unfold LOW_STOCK_THRESHOLD. split; [|split; [|split]].
  - intros r Hr. unfold select_low_stock in Hr.
    apply order_by_In in Hr. apply in_flat_map in Hr as (b & Hb & Hr).
    apply in_map_iff in Hr as (p & <- & Hp).
    apply filter_In in Hb as [Hb Hc].
    rewrite !andb_true_iff, Z.ltb_lt, Z.leb_le in Hc. simpl.
    split; [lia|]. exists b. split; [|auto].
    apply candidates_In. unfold fefo_candidate.
    destruct (Batch.status b); simpl in Hc; intuition congruence.
  - unfold select_low_stock.
    eapply sorted_weaken; [|apply order_by_sorted].
    + intros a b H. now apply Z.leb_le in H.
    + intros a b. rewrite !Z.leb_le. lia.
    + intros a b c. rewrite !Z.leb_le. lia.
  - intros r Hr. unfold select_out_of_stock in Hr.
    apply in_flat_map in Hr as (b & Hb & Hr).
    apply in_map_iff in Hr as (p & <- & Hp).
    apply filter_In in Hb as [Hb Hc].
    rewrite andb_true_iff, Z.leb_le in Hc.
    exists b. repeat split; try tauto.
    intros productId Hin. apply candidates_In in Hin as (_ & _ & Hq & _). lia.
  - intros b p Hb Hp Hs Hq.
    destruct (Z.leb_spec (Batch.quantity b) 0) as [Hle|Hgt].
    + unfold select_out_of_stock. apply in_flat_map. exists b. split.
      * apply filter_In. split; [exact Hb|].
        rewrite Hs. simpl. rewrite andb_true_iff, Z.leb_le. auto.
      * apply in_map_iff. eauto.
    + unfold select_low_stock. apply order_by_In.
      apply in_flat_map. exists b. split.
      * apply filter_In. split; [exact Hb|].
        rewrite Hs. simpl. rewrite !andb_true_iff, Z.leb_le, Z.ltb_lt. auto.
      * apply in_map_iff. eauto.
Qed.

(** X6 on the sample warehouse, after an order for seven gloves emptied
    one batch and left three in the other. *)
Lemma getLowStockAlerts_lists_witness :
  let d := snd (createOrder [Sample.item 1 7] Sample.warehouse) in
  map StockRow.batch_id (select_low_stock LOW_STOCK_THRESHOLD d) = [1]
  /\ In (OutOfStockRow.mk 2 "GLOVE-002" "Surgical Gloves") (select_out_of_stock d).
Proof.
  cbv zeta. split; [reflexivity|].
  apply (proj2 (proj2 (proj2 (getLowStockAlerts_lists
                                (snd (createOrder [Sample.item 1 7] Sample.warehouse)))))
           (Batch.with_quantity 0 Sample.early) Sample.gloves).
  - right. now left.
  - now left.
  - reflexivity.
  - simpl. lia.
Defined.

(** ** The locations with their contents *)

Lemma contents_add_up (k : Z) (d : db) (bs : list Batch.t) :
  (forall b, In b bs -> exists p, products_of b d = [p]) ->
  content_quantity
    (filter (fun row => option_Z_eqb (ContentRow.assigned_location_id row) (Some k))
       (flat_map
          (fun b =>
             map (fun p =>
                    ContentRow.mk (Batch.batch_id b) (Batch.product_id b) (Product.name p)
                      (Product.category p) (Batch.batch_number b) (Batch.quantity b)
                      (Batch.expiry_date b) (Batch.barcode b)
                      (Batch.assigned_location_id b) (Batch.status b))
                 (products_of b d))
          (filter (fun b => negb (is_null (Batch.assigned_location_id b))) bs)))
  = assigned_quantity k bs.
Proof.
  induction bs as [|b bs IH]; intros Hp; [reflexivity|].
  assert (IH' := IH (fun x Hx => Hp x (or_intror Hx))).
  destruct (Hp b (or_introl eq_refl)) as (p & Ep).
  cbn [filter assigned_quantity]. unfold contribution.
  destruct (Batch.assigned_location_id b) as [a|] eqn:Ea;
    cbn [is_null negb]; [|exact IH'].
  cbn [flat_map]. rewrite Ep. cbn [map app filter ContentRow.assigned_location_id].
  rewrite Ea. destruct (option_Z_eqb (Some a) (Some k));
    cbn [content_quantity ContentRow.assigned_quantity]; rewrite IH'; reflexivity.
Qed.

(** X7. When the ledger is balanced and every batch joins with exactly
    one product row, GET /storage_locations answers with every location,
    in order, and the quantities of the contents it shows for a location
    add up to that location's [current_occupancy]. *)
Theorem getStorageLocations_contents_add_up (toLocaleString : Z -> string) (d : db) :
  ledger_consistent d ->
  (forall b, In b (batches d) -> exists p, products_of b d = [p]) ->
  exists body,
    getStorageLocations toLocaleString d = (Json 200 body, d)
    /\ map LocationDetails.location body = storage_locations d
    /\ forall details, In details body ->
         content_quantity (LocationDetails.contents details)
         = Location.current_occupancy (LocationDetails.location details).
Proof.
  intros Hl Hp. eexists. split; [reflexivity|]. split.
  - rewrite map_map. simpl. apply map_id.
  - intros details Hd. apply in_map_iff in Hd as (l & <- & Hin). simpl.
    unfold select_batches_with_product_info.
    rewrite (contents_add_up _ d (batches d) Hp). symmetry. now apply Hl.
Qed.

(** X7 on the sample warehouse. *)
Lemma getStorageLocations_contents_add_up_witness :
  exists body,
    getStorageLocations (fun _ => "") Sample.warehouse = (Json 200 body, Sample.warehouse)
    /\ map LocationDetails.location body = storage_locations Sample.warehouse
    /\ forall details, In details body ->
         content_quantity (LocationDetails.contents details)
         = Location.current_occupancy (LocationDetails.location details).
Proof.
  apply (getStorageLocations_contents_add_up (fun _ => "") Sample.warehouse).
  - exact (proj2 warehouse_sound).
  - intros b [<-|[<-|[]]]; eexists; reflexivity.
Defined.

(** ** Intake of a batch *)

Lemma findSuitableLocation_unknown (productId quantityNeeded : Z) (c : connection) :
  select_product_category productId (working c) = [] ->
  findSuitableLocation productId quantityNeeded c
  = (Throw (JsError "Internal error during smart allocation."), c).
Proof.
  intros H. unfold findSuitableLocation, try_catch, bind, select, throw.
  rewrite H. reflexivity.
Qed.

Lemma category_product_exists (productId : Z) (d : db) (cat : storage_type)
    (rest : list storage_type) :
  select_product_category productId d = cat :: rest ->
  product_exists productId d = true.
Proof.
  unfold select_product_category, product_exists. intros H.
  induction (products d) as [|p ps IH]; [discriminate|]. simpl in *.
  destruct (Product.product_id p =? productId); [reflexivity|]. now apply IH.
Qed.

Lemma first_fit_In (cat : storage_type) (q : Z) (d : db) (loc : Location.t) :
  first_fit cat q d = Some loc ->
  In loc (storage_locations d) /\ eligible cat q loc.
Proof.
  unfold first_fit. intros H. apply candidate_locations_In.
  destruct (storage_type_eqb cat ColdStorage).
  - apply find_some in H. tauto.
  - destruct (select_candidate_locations cat q d); [discriminate|].
    injection H as ->. now left.
Qed.

Lemma location_exists_In (l : Location.t) (d : db) :
  In l (storage_locations d) -> location_exists (Location.location_id l) d = true.
Proof.
  intros H. unfold location_exists. apply existsb_exists.
  exists l. split; [exact H|apply Z.eqb_refl].
Qed.

Lemma valid_batch_request_checked
    (req : BatchRequest.t) (p : Z) (bn : string) (e q : Z) :
  valid_batch_request req p bn e q ->
  (p =? 0) || String.eqb bn "" || (q <=? 0) = false.
Proof.
  intros (_ & _ & _ & _ & Hp & Hbn & Hq).
  apply Z.eqb_neq in Hp. apply String.eqb_neq in Hbn. apply Z.leb_gt in Hq.
  now rewrite Hp, Hbn, Hq.
Qed.

Lemma createBatch_eval
    (req : BatchRequest.t) (productId : Z) (batchNumber : string)
    (expiryDate quantity : Z) (d : db) :
  valid_batch_request req productId batchNumber expiryDate quantity ->
  let barcode := barcode_or (BatchRequest.barcode req) batchNumber in
  createBatch req d
  = match select_product_category productId d with
    | [] =>
        (InternalServerError (JsError "Internal error during smart allocation."), d)
    | productCategory :: _ =>
        match first_fit productCategory quantity d with
        | None =>
            (JsonError 400 "No suitable storage location found based on product criteria, capacity, and temperature. Please ensure you have available racks and, for Cold Storage, valid temperature readings.", d)
        | Some loc =>
            if existsb (fun b => String.eqb (Batch.batch_number b) batchNumber)
                       (batches d)
            then (JsonError 409
                    ("Batch number '" ++ batchNumber
                     ++ "' already exists. Please use a unique batch number.")%string,
                  d)
            else if existsb (fun b => column_eqb (Batch.barcode b) barcode) (batches d)
            then (InternalServerError (ER_DUP_ENTRY "batches.barcode"), d)
            else
              (Json 201
                 (BatchCreated.mk "Stock added successfully!" (next_batch_id d)
                    barcode (Location.location_id loc)),
               add_occupancy quantity (Location.location_id loc)
                 (with_batches
                    (batches d ++
                     [Batch.mk (next_batch_id d) productId batchNumber expiryDate
                               quantity (Some barcode)
                               (Some (Location.location_id loc)) Available])
                    (next_batch_id d + 1) d))
        end
    end.
Proof.
  intros Hv barcode.
  pose proof (valid_batch_request_checked _ _ _ _ _ Hv) as Hc.
  destruct Hv as (Ep & Ebn & Ee & Eq & _).
  unfold createBatch. rewrite Ep, Ebn, Ee, Eq, Hc.
  destruct (select_product_category productId d) as [|cat cats] eqn:Ecat.
  - unfold run_handler, try_catch, bind.
    rewrite (findSuitableLocation_unknown productId quantity (getConnection d) Ecat).
    reflexivity.
  - assert (Hcat : hd_error (select_product_category productId
                               (working (getConnection d))) = Some cat)
      by (simpl; now rewrite Ecat).
    unfold run_handler, try_catch, bind.
    rewrite (findSuitableLocation_category _ quantity _ _ Hcat).
    fold (first_fit cat quantity (working (getConnection d))).
    change (working (getConnection d)) with d.
    destruct (first_fit cat quantity d) as [loc|] eqn:Efit; [|reflexivity].
    apply first_fit_In in Efit as [Hin _].
    unfold statement, insert_batch. cbn [working getConnection].
    fold barcode.
    destruct (existsb _ (batches d)); [reflexivity|].
    destruct (existsb _ (batches d)); [reflexivity|].
    rewrite (category_product_exists _ _ _ _ Ecat), (location_exists_In _ _ Hin).
    reflexivity.
Qed.



Lemma createBatch_created (req : BatchRequest.t) (d d' : db) (body : BatchCreated.t) :
  createBatch req d = (Json 201 body, d') ->
  exists productId batchNumber expiryDate quantity cat cats loc,
    let barcode := barcode_or (BatchRequest.barcode req) batchNumber in
    valid_batch_request req productId batchNumber expiryDate quantity
    /\ select_product_category productId d = cat :: cats
    /\ first_fit cat quantity d = Some loc
    /\ existsb (fun b => String.eqb (Batch.batch_number b) batchNumber) (batches d) = false
    /\ existsb (fun b => column_eqb (Batch.barcode b) barcode) (batches d) = false
    /\ body = BatchCreated.mk "Stock added successfully!" (next_batch_id d)
                barcode (Location.location_id loc)
    /\ d' = add_occupancy quantity (Location.location_id loc)
              (with_batches
                 (batches d ++
                  [Batch.mk (next_batch_id d) productId batchNumber expiryDate
                            quantity (Some barcode)
                            (Some (Location.location_id loc)) Available])
                 (next_batch_id d + 1) d).
Proof.
  intros H.
  destruct (BatchRequest.product_id req) as [p|] eqn:Ep;
    [|unfold createBatch in H; rewrite Ep in H; discriminate].
  destruct (BatchRequest.batch_number req) as [bn|] eqn:Ebn;
    [|unfold createBatch in H; rewrite Ep, Ebn in H; discriminate].
  destruct (BatchRequest.expiry_date req) as [e|] eqn:Ee;
    [|unfold createBatch in H; rewrite Ep, Ebn, Ee in H; discriminate].
  destruct (BatchRequest.quantity req) as [q|] eqn:Eq;
    [|unfold createBatch in H; rewrite Ep, Ebn, Ee, Eq in H; discriminate].
  destruct ((p =? 0) || String.eqb bn "" || (q <=? 0)) eqn:Ec;
    [unfold createBatch in H; rewrite Ep, Ebn, Ee, Eq, Ec in H; discriminate|].
  apply orb_false_iff in Ec as [Ec Hq]. apply orb_false_iff in Ec as [Hp Hbn].
  apply Z.eqb_neq in Hp. apply String.eqb_neq in Hbn. apply Z.leb_gt in Hq.
  assert (Hv : valid_batch_request req p bn e q) by (unfold valid_batch_request; tauto).
  rewrite (createBatch_eval req p bn e q d Hv) in H.
  destruct (select_product_category p d) as [|cat cats] eqn:Ecat; [discriminate|].
  destruct (first_fit cat q d) as [loc|] eqn:Efit; [|discriminate].
  destruct (existsb _ (batches d)) eqn:E1; [discriminate|].
  destruct (existsb _ (batches d)) eqn:E2 in H; [discriminate|].
  injection H as <- <-.
  exists p, bn, e, q, cat, cats, loc. cbv zeta. repeat split; auto; apply Hv.
Qed.

(** X8. The answers of POST /batches to a request that passes its field
    check.  A product that does not exist is answered with the internal
    error of the allocator (status 500); no location for the product's
    category passing the allocator, with status 400; a batch number in use
    with status 409, while a barcode in use is an internal error (status
    500); each of them leaves the database as it was.  Otherwise the batch
    is stored under the next batch id, Available, at the allocator's
    location, whose occupancy grows by the quantity; the foreign keys of
    the INSERT never fail. *)
Theorem createBatch_answers
    (req : BatchRequest.t) (productId : Z) (batchNumber : string)
    (expiryDate quantity : Z) (d : db) :
  valid_batch_request req productId batchNumber expiryDate quantity ->
  let barcode := barcode_or (BatchRequest.barcode req) batchNumber in
  (product_exists productId d = false ->
   createBatch req d
   = (InternalServerError (JsError "Internal error during smart allocation."), d))
  /\ (forall cat cats,
        select_product_category productId d = cat :: cats ->
        first_fit cat quantity d = None ->
        exists text, createBatch req d = (JsonError 400 text, d))
  /\ (forall cat cats loc,
        select_product_category productId d = cat :: cats ->
        first_fit cat quantity d = Some loc ->
        (existsb (fun b => String.eqb (Batch.batch_number b) batchNumber) (batches d)
         = true ->
         createBatch req d
         = (JsonError 409
              ("Batch number '" ++ batchNumber
               ++ "' already exists. Please use a unique batch number.")%string,
            d))
        /\ (existsb (fun b => String.eqb (Batch.batch_number b) batchNumber) (batches d)
            = false ->
            existsb (fun b => column_eqb (Batch.barcode b) barcode) (batches d) = true ->
            createBatch req d
            = (InternalServerError (ER_DUP_ENTRY "batches.barcode"), d))
        /\ (existsb (fun b => String.eqb (Batch.batch_number b) batchNumber) (batches d)
            = false ->
            existsb (fun b => column_eqb (Batch.barcode b) barcode) (batches d) = false ->
            createBatch req d
            = (Json 201
                 (BatchCreated.mk "Stock added successfully!" (next_batch_id d)
                    barcode (Location.location_id loc)),
               add_occupancy quantity (Location.location_id loc)
                 (with_batches
                    (batches d ++
                     [Batch.mk (next_batch_id d) productId batchNumber expiryDate
                               quantity (Some barcode)
                               (Some (Location.location_id loc)) Available])
                    (next_batch_id d + 1) d)))).
Proof.
  intros Hv barcode. pose proof (createBatch_eval _ _ _ _ _ d Hv) as E.
  cbv zeta in E. fold barcode in E. split; [|split].
  - intros Hp. rewrite E.
    destruct (select_product_category productId d) as [|cat cats] eqn:Ecat;
      [reflexivity|].
    apply category_product_exists in Ecat. congruence.
  - intros cat cats Ecat Efit. rewrite E, Ecat, Efit. eexists. reflexivity.
  - intros cat cats loc Ecat Efit. rewrite E, Ecat, Efit.
    split; [|split].
    + intros ->. reflexivity.
    + intros -> ->. reflexivity.
    + intros -> ->. reflexivity.
Qed.

(** X8 on the sample warehouse: a second batch numbered GLOVE-001. *)
Lemma createBatch_answers_witness :
  createBatch Sample.intake Sample.warehouse
  = (JsonError 409
       "Batch number 'GLOVE-001' already exists. Please use a unique batch number.",
     Sample.warehouse).
Proof.
  assert (Hv : valid_batch_request Sample.intake 1 "GLOVE-001" Sample.feb1 10)
    by (unfold valid_batch_request; simpl; repeat split; discriminate).
  apply (proj1 (proj2 (proj2 (createBatch_answers Sample.intake 1 "GLOVE-001"
                                Sample.feb1 10 Sample.warehouse Hv))
                      Ambient [] Sample.shelf eq_refl eq_refl)).
  reflexivity.
Defined.

(** X9. A batch that POST /batches has just stored is found by
    GET /verify-barcode under the barcode of the answer, with the quantity
    and the expiry date of the request, and is never reported valid:
    no pick can reference it yet. *)
Theorem createBatch_then_verifyBarcode
    (today : Z) (toLocaleDateString : Z -> string)
    (req : BatchRequest.t) (d d' : db) (body : BatchCreated.t) :
  (forall p, In p (order_batch_picks d) -> Pick.batch_id p <> next_batch_id d) ->
  createBatch req d = (Json 201 body, d') ->
  exists batch messages,
    verifyBarcode today toLocaleDateString (BatchCreated.barcode body) d'
    = (Json 200 (Verification.mk false (Some batch) messages None), d')
    /\ messages <> []
    /\ VerifiedBatch.batch_id batch = BatchCreated.batch_id body
    /\ BatchRequest.quantity req = Some (VerifiedBatch.quantity batch)
    /\ BatchRequest.expiry_date req = Some (VerifiedBatch.expiry_date batch).
Proof.
  intros Hfk H.
  apply createBatch_created in H
    as (p & bn & e & q & cat & cats & loc & Hv & Ecat & Efit & E1 & E2 & -> & ->).
  set (barcode := barcode_or (BatchRequest.barcode req) bn) in *.
  set (d' := add_occupancy _ _ _).
  assert (Hrows : exists row rows,
             select_batch_by_barcode barcode d' = row :: rows
             /\ VerifiedBatch.batch_id row = next_batch_id d
             /\ VerifiedBatch.quantity row = q
             /\ VerifiedBatch.expiry_date row = e).
  { unfold select_batch_by_barcode, d'. cbn [batches products add_occupancy
      with_storage_locations with_batches].
    rewrite filter_app. rewrite (filter_none _ (batches d)).
    - cbn [filter app Batch.barcode column_eqb]. rewrite String.eqb_refl.
      cbn [flat_map Batch.product_id]. rewrite app_nil_r.
      unfold select_product_category in Ecat.
      destruct (filter _ (products d)) as [|pr prs]; [discriminate|].
      eexists. eexists. split; [reflexivity|]. simpl. auto.
    - intros b Hb. destruct (column_eqb (Batch.barcode b) barcode) eqn:Eb; [|reflexivity].
      assert (existsb (fun b => column_eqb (Batch.barcode b) barcode) (batches d) = true)
        by (apply existsb_exists; eauto).
      congruence. }
  destruct Hrows as (row & rows & Hrows & Hid & Hq & He).
  assert (Hpend : select_pending_picks (VerifiedBatch.batch_id row) d' = []).
  { unfold select_pending_picks, d'. cbn [order_batch_picks orders add_occupancy
      with_storage_locations with_batches].
    rewrite (filter_none _ (order_batch_picks d)); [reflexivity|].
    intros pk Hpk. specialize (Hfk pk Hpk). rewrite Hid.
    apply Z.eqb_neq in Hfk. now rewrite Hfk. }
  destruct (verifyBarcode_found today toLocaleDateString barcode d' row rows Hrows)
    as (messages & Hm & Hver).
  rewrite Hpend in Hver. cbn [is_nil negb] in Hver. rewrite andb_false_r in Hver.
  exists row, messages. destruct Hv as (_ & _ & Ee & Eq & _).
  cbn [BatchCreated.barcode BatchCreated.batch_id].
  repeat split; auto; congruence.
Qed.

(** X9 on the vacant sample warehouse. *)
Lemma createBatch_then_verifyBarcode_witness :
  exists batch messages,
    verifyBarcode 20089 (fun _ => "") "GLOVE-001"
      (snd (createBatch Sample.intake Sample.vacant))
    = (Json 200 (Verification.mk false (Some batch) messages None),
       snd (createBatch Sample.intake Sample.vacant))
    /\ messages <> []
    /\ VerifiedBatch.batch_id batch = 1
    /\ BatchRequest.quantity Sample.intake = Some (VerifiedBatch.quantity batch)
    /\ BatchRequest.expiry_date Sample.intake = Some (VerifiedBatch.expiry_date batch).
Proof.
  apply (createBatch_then_verifyBarcode 20089 (fun _ => "") Sample.intake Sample.vacant
           (snd (createBatch Sample.intake Sample.vacant))
           (BatchCreated.mk "Stock added successfully!" 1 "GLOVE-001" 1)).
  - intros p [].
  - reflexivity.
Defined.


Lemma add_then_subtract (q k : Z) (ls : list Location.t) :
  map (fun l => if Location.location_id l =? k
                then Location.with_occupancy (Location.current_occupancy l - q) l
                else l)
      (map (fun l => if Location.location_id l =? k
                     then Location.with_occupancy (Location.current_occupancy l + q) l
                     else l) ls)
  = ls.
Proof.
  induction ls as [|l ls IH]; [reflexivity|]. simpl. rewrite IH. f_equal.
  destruct (Location.location_id l =? k) eqn:E; simpl; rewrite E; [|reflexivity].
  destruct l; unfold Location.with_occupancy; simpl. f_equal. lia.
Qed.

Lemma filter_all {A} (f : A -> bool) (l : list A) :
  (forall x, In x l -> f x = true) -> filter f l = l.
Proof.
  induction l as [|x l IH]; intros H; [reflexivity|]. simpl.
  rewrite (H x (or_introl eq_refl)). f_equal. apply IH. intros y Hy. apply H. now right.
Qed.

(** X10. Deleting the batch that POST /batches has just stored restores
    every row of the database, the occupancy of the allocated location
    included; only the AUTO_INCREMENT counter of [batches] has moved. *)
Theorem createBatch_deleteBatch_round_trip
    (req : BatchRequest.t) (d d' : db) (body : BatchCreated.t) :
  keys_wellformed d ->
  (forall p, In p (order_batch_picks d) -> Pick.batch_id p <> next_batch_id d) ->
  createBatch req d = (Json 201 body, d') ->
  deleteBatch (BatchCreated.batch_id body) d'
  = (Json 200 (BatchDeleted.mk "Batch deleted successfully" (BatchCreated.batch_id body)),
     with_batches (batches d) (next_batch_id d + 1) d).
Proof.
  intros (_ & Hids & Hlocs) Hfk H.
  apply createBatch_created in H
    as (p & bn & e & q & cat & cats & loc & Hv & Ecat & Efit & E1 & E2 & -> & ->).
  set (barcode := barcode_or (BatchRequest.barcode req) bn) in *.
  cbn [BatchCreated.batch_id].
  apply first_fit_In in Efit as [Hin _].
  assert (Hk : (Location.location_id loc =? 0) = false) by (apply Z.eqb_neq; auto).
  set (new := Batch.mk (next_batch_id d) p bn e q (Some barcode)
                       (Some (Location.location_id loc)) Available).
  assert (Hold : forall b, In b (batches d) ->
                   (Batch.batch_id b =? next_batch_id d) = false).
  { intros b Hb. apply Z.eqb_neq. specialize (Hids b Hb). lia. }
  rewrite (deleteBatch_found (next_batch_id d) _ new []).
  - cbn [Batch.assigned_location_id Batch.quantity new truthy to_number].
    rewrite Hk. cbn [negb]. f_equal.
    unfold subtract_occupancy, delete_picks_of_batch, with_batches,
      with_order_batch_picks, add_occupancy, with_storage_locations.
    cbn [products storage_locations batches orders order_items order_batch_picks
         next_batch_id next_order_id next_order_item_id next_pick_id].
    rewrite add_then_subtract, filter_filter_same, filter_app.
    cbn [filter Batch.batch_id]. rewrite Z.eqb_refl. cbn [negb].
    rewrite app_nil_r.
    rewrite (filter_all _ (batches d)) by (intros b Hb; now rewrite (Hold b Hb)).
    rewrite (filter_all _ (order_batch_picks d)); [reflexivity|].
    intros pk Hpk. apply negb_true_iff, Z.eqb_neq. now apply Hfk.
  - unfold add_occupancy, with_storage_locations, with_batches. cbn [batches].
    rewrite filter_app. cbn [filter Batch.batch_id new]. rewrite Z.eqb_refl.
    rewrite (filter_none _ (batches d) Hold). reflexivity.
Qed.

(** X10 on the vacant sample warehouse. *)
Lemma createBatch_deleteBatch_round_trip_witness :
  deleteBatch 1 (snd (createBatch Sample.intake Sample.vacant))
  = (Json 200 (BatchDeleted.mk "Batch deleted successfully" 1),
     with_batches (batches Sample.vacant) (next_batch_id Sample.vacant + 1) Sample.vacant).
Proof.
  apply (createBatch_deleteBatch_round_trip Sample.intake Sample.vacant
           (snd (createBatch Sample.intake Sample.vacant))
           (BatchCreated.mk "Stock added successfully!" 1 "GLOVE-001" 1)).
  - repeat split.
    + constructor.
    + intros b [].
    + intros l [<-|[<-|[<-|[]]]]; discriminate.
  - intros p [].
  - reflexivity.
Defined.


(** ** Editing a batch *)

Lemma exists_by_id (id : Z) (bs rest : list Batch.t) (r : Batch.t) :
  filter (fun b => Batch.batch_id b =? id) bs = r :: rest ->
  existsb (fun b => Batch.batch_id b =? id) bs = true.
Proof.
  intros H. apply existsb_exists. exists r.
  assert (Hr : In r (filter (fun b => Batch.batch_id b =? id) bs))
    by (rewrite H; now left).
  apply filter_In in Hr. exact Hr.
Qed.

Lemma update_batches_first
    (id : Z) (f : Batch.t -> Batch.t) (bs rest : list Batch.t) (r : Batch.t) :
  (forall b, Batch.batch_id (f b) = Batch.batch_id b) ->
  filter (fun b => Batch.batch_id b =? id) bs = r :: rest ->
  hd_error
    (filter (fun b => Batch.batch_id b =? id)
       (map (fun b => if Batch.batch_id b =? id then f b else b) bs))
  = Some (f r).
Proof.
  intros Hf. induction bs as [|b bs IH]; [discriminate|]. simpl.
  destruct (Batch.batch_id b =? id) eqn:E.
  - intros [= -> _]. simpl. rewrite Hf, E. reflexivity.
  - intros H. simpl. rewrite E. now apply IH.
Qed.

Lemma updateBatch_eval
    (id : Z) (req : BatchRequest.t) (productId : Z) (batchNumber : string)
    (expiryDate quantity : Z) (status : batch_status) (d : db) :
  valid_batch_update req productId batchNumber expiryDate quantity status ->
  let barcode := barcode_or (BatchRequest.barcode req) batchNumber in
  updateBatch id req d
  = match filter (fun b => Batch.batch_id b =? id) (batches d) with
    | [] => (InternalServerError (JsError "Batch not found."), d)
    | old :: _ =>
        if existsb (fun b => negb (Batch.batch_id b =? id)
                             && String.eqb (Batch.batch_number b) batchNumber)
                   (batches d)
        then (JsonError 409
                ("Batch number '" ++ batchNumber
                 ++ "' already exists for another batch.")%string, d)
        else if existsb (fun b => negb (Batch.batch_id b =? id)
                                  && column_eqb (Batch.barcode b) barcode)
                        (batches d)
        then (InternalServerError (ER_DUP_ENTRY "batches.barcode"), d)
        else if negb (product_exists productId d)
        then (InternalServerError (ER_NO_REFERENCED_ROW_2 "batches_ibfk_1"), d)
        else
          let d1 :=
            with_batches
              (map (fun b =>
                      if Batch.batch_id b =? id
                      then Batch.mk (Batch.batch_id b) productId batchNumber
                             expiryDate quantity (Some barcode)
                             (Batch.assigned_location_id b) status
                      else b)
                   (batches d))
              (next_batch_id d) d in
          (Json 200
             (Some (Batch.mk id productId batchNumber expiryDate quantity
                      (Some barcode) (Batch.assigned_location_id old) status)),
           if truthy (Batch.assigned_location_id old)
           then add_occupancy (quantity - Batch.quantity old)
                  (to_number (Batch.assigned_location_id old)) d1
           else d1)
    end.
Proof.
  intros (Ep & Ebn & Ee & Eq & Est & Hp & Hbn & Hq) barcode.
  apply Z.eqb_neq in Hp. apply String.eqb_neq in Hbn. apply Z.ltb_ge in Hq.
  unfold updateBatch. rewrite Ep, Ebn, Ee, Eq, Est, Hp, Hbn, Hq. cbn [orb].
  unfold run_handler, try_catch, bind, select, select_batch_for_update.
  cbn [working getConnection].
  destruct (filter (fun b => Batch.batch_id b =? id) (batches d)) as [|old rest] eqn:Ef;
    [reflexivity|].
  cbn [map]. unfold statement, update_batch, getConnection. cbn [working committed].
  rewrite (exists_by_id _ _ _ _ Ef). cbn [negb]. fold barcode.
  destruct (existsb _ (batches d)); [reflexivity|].
  destruct (existsb _ (batches d)); [reflexivity|].
  destruct (negb (product_exists productId d)); [reflexivity|].
  assert (Hsel : forall ls,
            select_batch id
              (with_storage_locations ls
                 (with_batches
                    (map (fun b =>
                            if Batch.batch_id b =? id
                            then Batch.mk (Batch.batch_id b) productId batchNumber
                                   expiryDate quantity (Some barcode)
                                   (Batch.assigned_location_id b) status
                            else b)
                         (batches d))
                    (next_batch_id d) d))
            = Some (Batch.mk id productId batchNumber expiryDate quantity
                      (Some barcode) (Batch.assigned_location_id old) status)).
  { intros ls. unfold select_batch. cbn [batches with_storage_locations with_batches].
    rewrite (update_batches_first id
               (fun b => Batch.mk (Batch.batch_id b) productId batchNumber expiryDate
                           quantity (Some barcode) (Batch.assigned_location_id b) status)
               _ rest old (fun _ => eq_refl) Ef).
    destruct (first_row _ _ _ _ Ef) as [_ ->]. reflexivity. }
  destruct (truthy (Batch.assigned_location_id old)).
  - unfold commit, ret. cbn [working committed fst snd].
    unfold add_occupancy at 1. rewrite Hsel. reflexivity.
  - unfold commit, ret. cbn [working committed fst snd].
    assert (Hsame : forall x, with_storage_locations (storage_locations x) x = x)
      by (now intros []).
    rewrite <- (Hsame (with_batches _ _ d)) at 1. rewrite Hsel. reflexivity.
Qed.

(** X11. PUT /batches/:id edits a batch in place.  A batch that is not
    found is an internal error (status 500) and every answer other than
    200 leaves the database as it was.  On 200 the answer is the row with
    the fields of the request under the same batch id and the same
    assigned location: no batch gains or loses its location, all other
    batches are untouched, no pick, order or product changes, and the
    batch's location, if it has one, moves by the difference between the
    new and the old quantity.  A quantity of 0 is accepted. *)
Theorem updateBatch_in_place
    (id : Z) (req : BatchRequest.t) (productId : Z) (batchNumber : string)
    (expiryDate quantity : Z) (status : batch_status) (d : db) :
  valid_batch_update req productId batchNumber expiryDate quantity status ->
  (filter (fun b => Batch.batch_id b =? id) (batches d) = [] ->
   updateBatch id req d = (InternalServerError (JsError "Batch not found."), d))
  /\ ((forall body, fst (updateBatch id req d) <> Json 200 body) ->
      snd (updateBatch id req d) = d)
  /\ (forall body d',
        updateBatch id req d = (Json 200 body, d') ->
        exists old rest,
          filter (fun b => Batch.batch_id b =? id) (batches d) = old :: rest
          /\ body = Some (Batch.mk id productId batchNumber expiryDate quantity
                            (Some (barcode_or (BatchRequest.barcode req) batchNumber))
                            (Batch.assigned_location_id old) status)
          /\ map Batch.batch_id (batches d') = map Batch.batch_id (batches d)
          /\ map Batch.assigned_location_id (batches d')
             = map Batch.assigned_location_id (batches d)
          /\ (forall x, In x (batches d) -> Batch.batch_id x <> id -> In x (batches d'))
          /\ storage_locations d'
             = (if truthy (Batch.assigned_location_id old)
                then map (adjust (to_number (Batch.assigned_location_id old))
                                 (quantity - Batch.quantity old))
                         (storage_locations d)
                else storage_locations d)
          /\ order_batch_picks d' = order_batch_picks d
          /\ orders d' = orders d
          /\ order_items d' = order_items d
          /\ products d' = products d).
Proof.
  intros Hv. pose proof (updateBatch_eval id req _ _ _ _ _ d Hv) as E.
  cbv zeta in E.
  set (barcode := barcode_or (BatchRequest.barcode req) batchNumber) in *.
  set (edit := fun b : Batch.t =>
                 if Batch.batch_id b =? id
                 then Batch.mk (Batch.batch_id b) productId batchNumber expiryDate
                        quantity (Some barcode) (Batch.assigned_location_id b) status
                 else b) in *.
  assert (Hids : map Batch.batch_id (map edit (batches d))
                 = map Batch.batch_id (batches d)).
  { rewrite map_map. apply map_ext. intros b. unfold edit.
    now destruct (Batch.batch_id b =? id). }
  assert (Hlocs : map Batch.assigned_location_id (map edit (batches d))
                  = map Batch.assigned_location_id (batches d)).
  { rewrite map_map. apply map_ext. intros b. unfold edit.
    now destruct (Batch.batch_id b =? id). }
  assert (Hothers : forall x, In x (batches d) -> Batch.batch_id x <> id ->
                              In x (map edit (batches d))).
  { intros x Hx Hne. apply in_map_iff. exists x. split; [|exact Hx].
    unfold edit. apply Z.eqb_neq in Hne. now rewrite Hne. }
  rewrite E. clear E.
  destruct (filter (fun b => Batch.batch_id b =? id) (batches d)) as [|old rest] eqn:Ef.
  - split; [reflexivity|]. split; [reflexivity|]. discriminate.
  - split; [discriminate|].
    destruct (existsb _ (batches d));
      [split; [reflexivity|discriminate]|].
    destruct (existsb _ (batches d));
      [split; [reflexivity|discriminate]|].
    destruct (negb (product_exists productId d));
      [split; [reflexivity|discriminate]|].
    split.
    + intros Hno. exfalso. eapply Hno. reflexivity.
    + intros body d' [= <- <-]. exists old, rest.
      split; [reflexivity|]. split; [reflexivity|].
      destruct (truthy (Batch.assigned_location_id old)); simpl; auto 12.
Qed.

(** X11 on the sample warehouse: the first batch is emptied in place. *)
Lemma updateBatch_in_place_witness :
  exists d',
    updateBatch 1 (BatchRequest.mk (Some 1) (Some "GLOVE-001") (Some Sample.feb1)
                     (Some 0) None (Some Damaged)) Sample.warehouse
    = (Json 200 (Some (Batch.mk 1 1 "GLOVE-001" Sample.feb1 0 (Some "GLOVE-001")
                         (Some 1) Damaged)), d')
    /\ map Location.current_occupancy (storage_locations d') = [5; 0; 0].
Proof.
  assert (Hv : valid_batch_update
                 (BatchRequest.mk (Some 1) (Some "GLOVE-001") (Some Sample.feb1)
                    (Some 0) None (Some Damaged))
                 1 "GLOVE-001" Sample.feb1 0 Damaged)
    by (unfold valid_batch_update; simpl; repeat split; discriminate).
  destruct (proj2 (proj2 (updateBatch_in_place 1 _ _ _ _ _ _ Sample.warehouse Hv))
              _ _ eq_refl)
    as (old & rest & Hold & _ & _ & _ & _ & Hlocs & _).
  eexists. split; [reflexivity|]. reflexivity.
Defined.


(** ** What an accepted order leaves behind *)

(** An item that is fulfilled has made the picks of its plan, and the
    plan covers the quantity asked for. *)
Lemma fulfil_item_ok (orderId : Z) (item : ItemRequest.t) (c c' : connection) (u : unit) :
  (forall l, In l (storage_locations (working c)) -> Location.location_id l <> 0) ->
  fulfil_item orderId item c = (Ok u, c') ->
  exists p q,
    valid_item item p q
    /\ planned_total (fefo_plan (select_available_batches p (working c)) q) = q
    /\ c' = mkConn (committed c)
              (deplete orderId (fefo_plan (select_available_batches p (working c)) q)
                 (with_item orderId p q (working c))).
Proof.
  intros Hnz. unfold fulfil_item.
  destruct (ItemRequest.product_id item) as [p|] eqn:Ep; [|discriminate].
  destruct (ItemRequest.quantity item) as [q|] eqn:Eq; [|discriminate].
  destruct ((p =? 0) || (q <=? 0)) eqn:Ec; [discriminate|].
  apply orb_false_iff in Ec as [Hp Hq]. apply Z.eqb_neq in Hp. apply Z.leb_gt in Hq.
  unfold bind at 1. unfold statement at 1.
  destruct (insert_order_item orderId p q (working c)) as [[[] d1]|e] eqn:Eins;
    [|discriminate].
  apply insert_order_item_rows in Eins. fold (with_item orderId p q (working c)) in Eins.
  subst d1. unfold bind at 1. unfold select at 1. cbn [working].
  unfold bind at 1.
  change (select_available_batches p (with_item orderId p q (working c)))
    with (select_available_batches p (working c)).
  destruct (pick_from_batches orderId (select_available_batches p (working c)) q _)
    as [[left|e] c1] eqn:Erun; [|discriminate].
  apply pick_from_batches_ok in Erun as [-> ->]; [|exact Hnz].
  cbn [committed working].
  assert (Hplan : planned_total (fefo_plan (select_available_batches p (working c)) q)
                  = Z.min q (stock (select_available_batches p (working c)))).
  { apply planned_total_min; [|lia].
    intros b Hb. apply candidates_In in Hb as (_ & _ & Hb & _). exact Hb. }
  destruct (0 <? _) eqn:El; [discriminate|]. apply Z.ltb_ge in El.
  intros [= _ <-]. exists p, q. split; [unfold valid_item; auto|].
  split; [lia|reflexivity].
Qed.

Lemma fulfil_item_keeps (I : db -> Prop) (orderId : Z) (item : ItemRequest.t) :
  (forall d, I d -> forall l, In l (storage_locations d) -> Location.location_id l <> 0) ->
  (forall d p q,
     I d -> p <> 0 -> 0 < q ->
     planned_total (fefo_plan (select_available_batches p d) q) = q ->
     I (deplete orderId (fefo_plan (select_available_batches p d) q)
          (with_item orderId p q d))) ->
  triple I (fulfil_item orderId item) (fun _ => I).
Proof.
  intros Hnz Hstep c Hc. split.
  - now apply (fulfil_item_stable (fun _ => True) orderId item stable_True c).
  - intros u Hu. destruct (fulfil_item orderId item c) as [r c'] eqn:E.
    simpl in Hu. subst r.
    apply fulfil_item_ok in E as (p & q & (_ & _ & Hp & Hq) & Htotal & ->);
      [|now apply Hnz].
    simpl. now apply Hstep.
Qed.

Lemma createOrder_invariant (I : db -> Prop) (items : list ItemRequest.t) (d : db) :
  (forall x os n, I x -> I (with_orders os n x)) ->
  (forall o item, triple I (fulfil_item o item) (fun _ => I)) ->
  I d -> I (snd (createOrder items d)).
Proof.
  intros Horders Hitem Hd. destruct items as [|item items]; [exact Hd|].
  rewrite createOrder_eval by discriminate.
  set (c := mkConn d _).
  assert (Hc : I (working c)) by (apply Horders, Hd).
  destruct (triple_for_each I (item :: items) (fulfil_item (next_order_id d))
              (fun x _ => Hitem _ x) c Hc) as [Hcm Hw].
  destruct (for_each (item :: items) _ c) as [[u|e] c']; simpl in *.
  - now apply Hw with (a := u).
  - now rewrite Hcm.
Qed.

Lemma deplete_keys (orderId : Z) (plan : list (Batch.t * Z)) (d : db) :
  keys_wellformed d -> keys_wellformed (deplete orderId plan d).
Proof.
  intros (Hnd & Hlt & Hnz). unfold keys_wellformed, deplete. cbn [batches
    storage_locations next_batch_id]. split; [|split].
  - rewrite map_map. cbn [Batch.with_quantity Batch.batch_id]. exact Hnd.
  - intros b Hb. apply in_map_iff in Hb as (x & <- & Hx). simpl. now apply Hlt.
  - intros l Hl. apply in_map_iff in Hl as (x & <- & Hx). simpl. now apply Hnz.
Qed.

(** A plan takes from a batch no more than the batch holds. *)
Lemma taken_bounds (all bs : list Batch.t) (x : Batch.t) :
  NoDup (map Batch.batch_id all) -> NoDup (map Batch.batch_id bs) ->
  (forall b, In b bs -> In b all /\ 0 < Batch.quantity b) ->
  In x all -> 0 <= Batch.quantity x ->
  forall remaining,
    0 <= taken_from_batch (Batch.batch_id x) (fefo_plan bs remaining)
      <= Batch.quantity x.
Proof.
  intros Hall. induction bs as [|b rest IH]; intros Hnd Hbs Hx Hq remaining;
    [simpl; lia|].
  inversion Hnd as [|? ? Hnotin Hnd']; subst.
  cbn [fefo_plan]. destruct (remaining <=? 0) eqn:Er; [simpl; lia|].
  apply Z.leb_gt in Er. cbn [taken_from_batch].
  destruct (Hbs b (or_introl eq_refl)) as [Hb Hqb].
  destruct (Z.eqb_spec (Batch.batch_id b) (Batch.batch_id x)) as [E|E].
  - assert (b = x) by exact (same_key_same_row all b x Hall Hb Hx E). subst x.
    rewrite (taken_absent _ rest Hnotin). lia.
  - specialize (IH Hnd' (fun y Hy => Hbs y (or_intror Hy)) Hx Hq
                  (remaining - Z.min remaining (Batch.quantity b))).
    lia.
Qed.

Lemma plan_location_nonneg (k : Z) (bs : list Batch.t) :
  (forall b, In b bs -> 0 < Batch.quantity b) ->
  forall remaining, 0 <= taken_from_location k (fefo_plan bs remaining).
Proof.
  induction bs as [|b rest IH]; intros Hbs remaining; [simpl; lia|].
  cbn [fefo_plan]. destruct (remaining <=? 0) eqn:Er; [simpl; lia|].
  apply Z.leb_gt in Er. cbn [taken_from_location].
  specialize (Hbs b (or_introl eq_refl)) as Hqb.
  specialize (IH (fun y Hy => Hbs y (or_intror Hy))
                (remaining - Z.min remaining (Batch.quantity b))).
  destruct (option_Z_eqb _ _); lia.
Qed.

Lemma deplete_stocked (orderId productId quantity : Z) (d d1 : db) :
  keys_wellformed d -> stocked d -> batches d1 = batches d ->
  stocked (deplete orderId (fefo_plan (select_available_batches productId d) quantity) d1).
Proof.
  intros (Hnd & _) Hs E b Hb. unfold deplete in Hb. cbn [batches] in Hb.
  rewrite E in Hb. apply in_map_iff in Hb as (x & <- & Hx).
  cbn [Batch.with_quantity Batch.quantity].
  pose proof (taken_bounds (batches d) (select_available_batches productId d) x Hnd
                (candidates_NoDup productId d Hnd)) as H.
  specialize (H (fun y Hy => match proj1 (candidates_In productId d y) Hy with
                             | conj Hin (conj _ (conj Hq _)) => conj Hin Hq
                             end)
                Hx (Hs x Hx) quantity).
  lia.
Qed.

Lemma createBatch_outcome (req : BatchRequest.t) (d : db) :
  snd (createBatch req d) = d
  \/ exists body, createBatch req d = (Json 201 body, snd (createBatch req d)).
Proof.
  destruct (BatchRequest.product_id req) as [p|] eqn:Ep;
    [|left; unfold createBatch; now rewrite Ep].
  destruct (BatchRequest.batch_number req) as [bn|] eqn:Ebn;
    [|left; unfold createBatch; now rewrite Ep, Ebn].
  destruct (BatchRequest.expiry_date req) as [e|] eqn:Ee;
    [|left; unfold createBatch; now rewrite Ep, Ebn, Ee].
  destruct (BatchRequest.quantity req) as [q|] eqn:Eq;
    [|left; unfold createBatch; now rewrite Ep, Ebn, Ee, Eq].
  destruct ((p =? 0) || String.eqb bn "" || (q <=? 0)) eqn:Ec;
    [left; unfold createBatch; now rewrite Ep, Ebn, Ee, Eq, Ec|].
  apply orb_false_iff in Ec as [Ec Hq]. apply orb_false_iff in Ec as [Hp Hbn].
  apply Z.eqb_neq in Hp. apply String.eqb_neq in Hbn. apply Z.leb_gt in Hq.
  assert (Hv : valid_batch_request req p bn e q) by (unfold valid_batch_request; tauto).
  rewrite (createBatch_eval req p bn e q d Hv).
  destruct (select_product_category p d) as [|cat cats]; [now left|].
  destruct (first_fit cat q d) as [loc|]; [|now left].
  destruct (existsb _ (batches d)); [now left|].
  destruct (existsb _ (batches d)); [now left|].
  right. eexists. reflexivity.
Qed.

(** X12. No operation of the core drives a batch quantity below zero:
    batch creation stores a positive quantity, a batch edit a quantity
    that is not negative, and order fulfilment takes from a batch no more
    than the batch holds. *)
Theorem quantities_never_negative (op : operation) (d : db) :
  keys_wellformed d -> stocked d -> stocked (perform op d).
Proof.
  intros Hk Hs. destruct op as [req|id req|id|items]; cbn [perform].
  - destruct (createBatch_outcome req d) as [->|[body H]]; [exact Hs|].
    apply createBatch_created in H
      as (p & bn & e & q & cat & cats & loc & Hv & _ & _ & _ & _ & _ & ->).
    intros b Hb. cbn in Hb. apply in_app_or in Hb as [Hb|[<-|[]]]; [now apply Hs|].
    simpl. destruct Hv as (_ & _ & _ & _ & _ & _ & Hq). lia.
  - destruct (updateBatch_cases id req d)
      as [->|(r & rest & p & bn & e & q & bc & st & Hf & Hq & ->)]; [exact Hs|].
    cbv zeta. assert (Hmap : forall x,
      In x (map (fun b => if Batch.batch_id b =? id
                          then Batch.mk (Batch.batch_id b) p bn e q (Some bc)
                                 (Batch.assigned_location_id b) st
                          else b) (batches d)) -> 0 <= Batch.quantity x).
    { intros x Hx. apply in_map_iff in Hx as (y & <- & Hy).
      destruct (Batch.batch_id y =? id); [exact Hq|now apply Hs]. }
    destruct (truthy _); exact Hmap.
  - destruct (filter (fun b => Batch.batch_id b =? id) (batches d)) as [|r rest] eqn:Hf.
    + now rewrite (deleteBatch_missing id d Hf).
    + rewrite (deleteBatch_found id d r rest Hf). cbv zeta. cbn [snd].
      assert (Hsub : forall x,
                In x (filter (fun b => negb (Batch.batch_id b =? id)) (batches d)) ->
                0 <= Batch.quantity x).
      { intros x Hx. apply filter_In in Hx as [Hx _]. now apply Hs. }
      destruct (truthy _); exact Hsub.
  - apply (createOrder_invariant (fun x => keys_wellformed x /\ stocked x)); auto.
    intros o item. apply fulfil_item_keeps.
    + intros x [(_ & _ & Hnz) _]. exact Hnz.
    + intros x p q [Hkx Hsx] _ _ _. split.
      * apply deplete_keys. exact Hkx.
      * now apply deplete_stocked.
Qed.

(** X12 on the sample warehouse. *)
Lemma quantities_never_negative_witness :
  stocked (perform (CreateOrder [Sample.item 1 7]) Sample.warehouse).
Proof.
  apply (quantities_never_negative (CreateOrder [Sample.item 1 7]) Sample.warehouse).
  - exact (proj1 warehouse_sound).
  - intros b [<-|[<-|[]]]; simpl; lia.
Defined.

Lemma same_location (ls : list Location.t) (x y : Location.t) :
  NoDup (map Location.location_id ls) -> In x ls -> In y ls ->
  Location.location_id x = Location.location_id y -> x = y.
Proof.
  induction ls as [|l ls IH]; simpl; intros Hnd Hx Hy E; [tauto|].
  apply NoDup_cons_iff in Hnd as [Hnotin Hnd].
  destruct Hx as [->|Hx], Hy as [->|Hy]; auto; exfalso; apply Hnotin.
  - rewrite E. now apply in_map.
  - rewrite <- E. now apply in_map.
Qed.

Lemma adjust_within (k delta : Z) (ls : list Location.t) :
  (forall l, In l ls -> Location.current_occupancy l <= Location.capacity l) ->
  (forall l, In l ls -> Location.location_id l = k ->
             Location.current_occupancy l + delta <= Location.capacity l) ->
  forall l, In l (map (adjust k delta) ls) ->
            Location.current_occupancy l <= Location.capacity l.
Proof.
  intros Hw Hk l Hl. apply in_map_iff in Hl as (x & <- & Hx). unfold adjust.
  destruct (Z.eqb_spec (Location.location_id x) k) as [E|E]; [|now apply Hw].
  simpl. now apply Hk.
Qed.

(** X13. Apart from the batch edit, no operation of the core fills a
    location beyond its capacity: intake adds to the allocator's location
    only what fits it, and deletion and order fulfilment only lower an
    occupancy. *)
Theorem capacity_kept_without_edits (op : operation) (d : db) :
  (forall id req, op <> UpdateBatch id req) ->
  keys_wellformed d -> locations_keyed d -> stocked d ->
  within_capacity d -> within_capacity (perform op d).
Proof.
  intros Hop Hk Hl Hs Hw. destruct op as [req|id req|id|items]; cbn [perform].
  - destruct (createBatch_outcome req d) as [->|[body H]]; [exact Hw|].
    apply createBatch_created in H
      as (p & bn & e & q & cat & cats & loc & Hv & _ & Hfit & _ & _ & _ & ->).
    apply first_fit_In in Hfit as [Hin [_ Hfree]]. unfold free_capacity in Hfree.
    unfold within_capacity. rewrite add_occupancy_adjust.
    apply adjust_within; [exact Hw|].
    intros l Hl' E. rewrite (same_location _ l loc Hl Hl' Hin E). lia.
  - now elim (Hop id req).
  - destruct (filter (fun b => Batch.batch_id b =? id) (batches d)) as [|r rest] eqn:Hf.
    + now rewrite (deleteBatch_missing id d Hf).
    + rewrite (deleteBatch_found id d r rest Hf). cbv zeta. cbn [snd].
      destruct (first_row _ _ _ _ Hf) as [Hr _]. specialize (Hs r Hr).
      destruct (truthy _); [|exact Hw].
      unfold within_capacity. rewrite subtract_occupancy_adjust.
      apply adjust_within; [exact Hw|].
      intros l Hl' _. specialize (Hw l Hl'). lia.
  - apply (createOrder_invariant (fun x => keys_wellformed x /\ within_capacity x)); auto.
    intros o item. apply fulfil_item_keeps.
    + intros x [(_ & _ & Hnz) _]. exact Hnz.
    + intros x p q [Hkx Hwx] _ _ _. split; [now apply deplete_keys|].
      intros l Hl'. unfold deplete in Hl'. cbn [storage_locations with_item] in Hl'.
      apply in_map_iff in Hl' as (y & <- & Hy). simpl.
      pose proof (plan_location_nonneg (Location.location_id y)
                    (select_available_batches p x)
                    (fun b Hb => proj1 (proj2 (proj2 (proj1 (candidates_In p x b) Hb))))
                    q).
      specialize (Hwx y Hy). lia.
Qed.

(** X13 on the sample warehouse. *)
Lemma capacity_kept_without_edits_witness :
  within_capacity (perform (CreateBatch Sample.intake) Sample.vacant).
Proof.
  apply (capacity_kept_without_edits (CreateBatch Sample.intake) Sample.vacant).
  - discriminate.
  - repeat split; [constructor|intros b []|].
    intros l [<-|[<-|[<-|[]]]]; discriminate.
  - unfold locations_keyed. simpl. repeat constructor; simpl; intuition discriminate.
  - intros b [].
  - intros l [<-|[<-|[<-|[]]]]; simpl; lia.
Defined.

Lemma picked_for_app (o : Z) (l1 l2 : list Pick.t) :
  picked_for o (l1 ++ l2) = picked_for o l1 + picked_for o l2.
Proof. induction l1 as [|p l1 IH]; simpl; [reflexivity|]. rewrite IH. lia. Qed.

Lemma picked_for_plan (o : Z) (plan : list (Batch.t * Z)) :
  forall n, picked_for o (planned_picks o n plan) = planned_total plan.
Proof.
  induction plan as [|[b a] plan IH]; intros n; simpl; [reflexivity|].
  rewrite Z.eqb_refl, IH. reflexivity.
Qed.

Lemma fefo_plan_In (bs : list Batch.t) (b : Batch.t) (a : Z) :
  forall remaining, In (b, a) (fefo_plan bs remaining) -> In b bs.
Proof.
  induction bs as [|x bs IH]; intros remaining; simpl; [tauto|].
  destruct (remaining <=? 0); simpl; [tauto|].
  intros [H|H]; [left; congruence|right; eauto].
Qed.

Lemma taken_from_nil (all : list Batch.t) : taken_from all [] = 0.
Proof. induction all as [|x all IH]; simpl; [reflexivity|exact IH]. Qed.

Lemma taken_from_cons (all : list Batch.t) (b : Batch.t) (a : Z)
    (plan : list (Batch.t * Z)) :
  NoDup (map Batch.batch_id all) ->
  taken_from all ((b, a) :: plan)
  = (if existsb (fun x => Batch.batch_id b =? Batch.batch_id x) all then a else 0)
    + taken_from all plan.
Proof.
  induction all as [|x all IH]; intros Hnd; [reflexivity|].
  apply NoDup_cons_iff in Hnd as [Hnotin Hnd]. cbn [taken_from taken_from_batch existsb].
  rewrite (IH Hnd).
  destruct (Z.eqb_spec (Batch.batch_id b) (Batch.batch_id x)) as [E|E]; cbn [orb]; [|lia].
  replace (existsb (fun y => Batch.batch_id b =? Batch.batch_id y) all) with false; [lia|].
  symmetry. apply not_true_is_false. intros H. apply existsb_exists in H as (y & Hy & Ey).
  apply Z.eqb_eq in Ey. apply Hnotin. rewrite <- E, Ey. now apply in_map.
Qed.

Lemma taken_from_total (all : list Batch.t) (plan : list (Batch.t * Z)) :
  NoDup (map Batch.batch_id all) ->
  (forall b a, In (b, a) plan -> In b all) ->
  taken_from all plan = planned_total plan.
Proof.
  intros Hnd. induction plan as [|[b a] plan IH]; intros Hin; [apply taken_from_nil|].
  rewrite taken_from_cons by exact Hnd. cbn [planned_total].
  rewrite IH by (intros x y Hxy; apply (Hin x y); now right).
  replace (existsb (fun x => Batch.batch_id b =? Batch.batch_id x) all) with true;
    [reflexivity|].
  symmetry. apply existsb_exists. exists b. split; [|apply Z.eqb_refl].
  apply (Hin b a). now left.
Qed.

Lemma stock_after_plan (all : list Batch.t) (plan : list (Batch.t * Z)) :
  stock (map (fun b => Batch.with_quantity
                         (Batch.quantity b - taken_from_batch (Batch.batch_id b) plan) b)
             all)
  = stock all - taken_from all plan.
Proof.
  induction all as [|x all IH]; [reflexivity|]. cbn [map stock taken_from].
  rewrite IH. simpl. lia.
Qed.

(** What one fulfilled item adds to the picks of its order and takes
    from the batches. *)
Lemma fulfil_item_totals (o : Z) (item : ItemRequest.t) (X Y : Z) :
  triple (fun d => keys_wellformed d
                   /\ picked_for o (order_batch_picks d) = X
                   /\ stock (batches d) = Y)
         (fulfil_item o item)
         (fun _ d => keys_wellformed d
                     /\ picked_for o (order_batch_picks d)
                        = X + to_number (ItemRequest.quantity item)
                     /\ stock (batches d) = Y - to_number (ItemRequest.quantity item)).
Proof.
  intros c (Hk & HX & HY). split.
  - now apply (fulfil_item_stable (fun _ => True) o item stable_True c).
  - intros u Hu. destruct (fulfil_item o item c) as [r c'] eqn:E.
    simpl in Hu. subst r.
    apply fulfil_item_ok in E as (p & q & (_ & Eq & _ & _) & Htotal & ->);
      [|apply Hk].
    rewrite Eq. cbn [to_number snd working].
    split; [now apply deplete_keys|]. unfold deplete.
    cbn [order_batch_picks batches with_item with_order_items].
    rewrite picked_for_app, picked_for_plan, stock_after_plan, Htotal.
    rewrite taken_from_total, Htotal; [lia|apply Hk|].
    intros b a Hb. apply fefo_plan_In in Hb. now apply candidates_In in Hb as [Hb _].
Qed.

Lemma for_each_totals (o : Z) (items : list ItemRequest.t) :
  forall X Y,
    triple (fun d => keys_wellformed d
                     /\ picked_for o (order_batch_picks d) = X
                     /\ stock (batches d) = Y)
           (for_each items (fulfil_item o))
           (fun _ d => keys_wellformed d
                       /\ picked_for o (order_batch_picks d) = X + requested_total items
                       /\ stock (batches d) = Y - requested_total items).
Proof.
  induction items as [|item items IH]; intros X Y; cbn [for_each requested_total].
  - apply triple_ret. intros d (Hk & HX & HY). repeat split; try apply Hk; lia.
  - eapply triple_bind; [apply fulfil_item_totals|]. intros u0.
    eapply triple_weaken; [eapply IH| |].
    + intros d H. exact H.
    + intros u d (Hk & HX & HY). split; [exact Hk|]. split; lia.
Qed.

Lemma picked_for_none (o : Z) (ps : list Pick.t) :
  (forall p, In p ps -> Pick.order_id p <> o) -> picked_for o ps = 0.
Proof.
  induction ps as [|p ps IH]; intros H; [reflexivity|]. simpl.
  rewrite IH by (intros x Hx; apply H; now right).
  specialize (H p (or_introl eq_refl)). apply Z.eqb_neq in H. now rewrite H.
Qed.

(** X14. An order that is accepted picks exactly what its items ask
    for: the picks of the new order add up to the requested quantities,
    and the quantities of the batches have decreased by that amount in
    all. *)
Theorem createOrder_conservation
    (items : list ItemRequest.t) (d d' : db) (placed : OrderPlaced.t) :
  keys_wellformed d ->
  (forall p, In p (order_batch_picks d) -> Pick.order_id p <> next_order_id d) ->
  createOrder items d = (Json 201 placed, d') ->
  OrderPlaced.order_id placed = next_order_id d
  /\ picked_for (OrderPlaced.order_id placed) (order_batch_picks d')
     = requested_total items
  /\ stock (batches d') = stock (batches d) - requested_total items.
Proof.
  intros Hk Hfk H. destruct items as [|item items]; [discriminate|].
  rewrite createOrder_eval in H by discriminate.
  set (c := mkConn d _) in H.
  destruct (for_each_totals (next_order_id d) (item :: items) 0 (stock (batches d)) c)
    as [_ Hw].
  { split; [exact Hk|]. split; [|reflexivity]. now apply picked_for_none. }
  destruct (for_each (item :: items) _ c) as [[u|e] c'] eqn:E; [|discriminate].
  injection H as <- <-. cbn [OrderPlaced.order_id].
  destruct (Hw u eq_refl) as (_ & HX & HY). simpl in HX, HY.
  split; [reflexivity|]. split; [rewrite HX|rewrite HY]; simpl; lia.
Qed.

(** X14 on the sample warehouse. *)
Lemma createOrder_conservation_witness :
  picked_for 1 (order_batch_picks (snd (createOrder [Sample.item 1 7] Sample.warehouse)))
  = 7
  /\ stock (batches (snd (createOrder [Sample.item 1 7] Sample.warehouse))) = 10 - 7.
Proof.
  apply (createOrder_conservation [Sample.item 1 7] Sample.warehouse
           (snd (createOrder [Sample.item 1 7] Sample.warehouse))
           (OrderPlaced.mk "Order placed successfully" 1)).
  - exact (proj1 warehouse_sound).
  - intros p [].
  - vm_compute. reflexivity.
Defined.


(** ** The stock an order can draw on *)

Lemma stock_perm (l l' : list Batch.t) : Permutation l l' -> stock l = stock l'.
Proof. induction 1; simpl; lia. Qed.

Lemma available_stock_filter (p : Z) (d : db) :
  available_stock p d = stock (filter (is_candidate p) (batches d)).
Proof.
  unfold available_stock, select_available_batches. symmetry.
  apply stock_perm, order_by_perm.
Qed.

Lemma is_candidate_spec (p : Z) (b : Batch.t) :
  is_candidate p b = true <-> fefo_candidate p b.
Proof.
  unfold is_candidate, fefo_candidate.
  rewrite !andb_true_iff, Z.eqb_eq, Z.ltb_lt.
  destruct (Batch.status b); simpl; intuition congruence.
Qed.

(** What the plan of an item takes from a row: nothing unless the row is
    a candidate, and then no more than it holds. *)
Lemma taken_of_row (p q : Z) (d : db) (b : Batch.t) :
  NoDup (map Batch.batch_id (batches d)) -> In b (batches d) ->
  let t := taken_from_batch (Batch.batch_id b)
             (fefo_plan (select_available_batches p d) q) in
  if is_candidate p b then 0 <= t <= Batch.quantity b else t = 0.
Proof.
  intros Hnd Hb t. destruct (is_candidate p b) eqn:Ec.
  - apply is_candidate_spec in Ec as (_ & Hq & _).
    apply (taken_bounds (batches d)); auto using candidates_NoDup; [|lia].
    intros y Hy. apply candidates_In in Hy as (Hy & _ & Hqy & _). auto.
  - apply taken_absent. intros Hin. apply in_map_iff in Hin as (c & E & Hc).
    pose proof (proj1 (candidates_In p d c) Hc) as [Hcd Hcand].
    assert (c = b) by exact (same_key_same_row (batches d) c b Hnd Hcd Hb E). subst c.
    apply is_candidate_spec in Hcand. congruence.
Qed.

Lemma available_after_plan (p p' q : Z) (d : db) :
  NoDup (map Batch.batch_id (batches d)) ->
  forall l, (forall b, In b l -> In b (batches d)) ->
    stock (filter (is_candidate p')
             (map (fun b =>
                     Batch.with_quantity
                       (Batch.quantity b
                        - taken_from_batch (Batch.batch_id b)
                            (fefo_plan (select_available_batches p d) q)) b)
                  l))
    = stock (filter (is_candidate p') l)
      - (if p =? p'
         then taken_from l (fefo_plan (select_available_batches p d) q)
         else 0).
Proof.
  intros Hnd. induction l as [|b l IH]; intros Hl; [simpl; now destruct (p =? p')|].
  specialize (IH (fun x Hx => Hl x (or_intror Hx))).
  pose proof (taken_of_row p q d b Hnd (Hl b (or_introl eq_refl))) as Ht.
  cbv zeta in Ht. cbn [map filter taken_from].
  set (t := taken_from_batch (Batch.batch_id b) _) in *.
  assert (H1 : is_candidate p' (Batch.with_quantity (Batch.quantity b - t) b)
               = (Batch.product_id b =? p') && (0 <? Batch.quantity b - t)
                 && batch_status_eqb (Batch.status b) Available) by reflexivity.
  assert (H2 : is_candidate p' b
               = (Batch.product_id b =? p') && (0 <? Batch.quantity b)
                 && batch_status_eqb (Batch.status b) Available) by reflexivity.
  rewrite H1, H2. clear H1 H2. unfold is_candidate in Ht.
  destruct (Z.eqb_spec p p') as [<-|Hpp].
  - destruct (Batch.product_id b =? p) eqn:Ep; cbn [andb] in *;
      [|rewrite IH; subst t; lia].
    destruct (batch_status_eqb (Batch.status b) Available) eqn:Es;
      rewrite ?andb_true_r, ?andb_false_r in *;
      [|rewrite IH; lia].
    destruct (Z.ltb_spec 0 (Batch.quantity b)) as [Hq|Hq];
      destruct (Z.ltb_spec 0 (Batch.quantity b - t));
      cbn [stock Batch.quantity Batch.with_quantity]; rewrite IH; lia.
  - destruct (Z.eqb_spec (Batch.product_id b) p') as [Ep'|Ep']; cbn [andb];
      [|rewrite IH; lia].
    assert (Ep : (Batch.product_id b =? p) = false) by (apply Z.eqb_neq; congruence).
    rewrite Ep in Ht. cbn [andb] in Ht. rewrite Ht, Z.sub_0_r.
    destruct (_ && _); cbn [stock Batch.quantity Batch.with_quantity]; rewrite IH;
      lia.
Qed.

Lemma fulfil_item_available (o : Z) (item : ItemRequest.t) (A : Z -> Z) :
  triple (fun d => keys_wellformed d /\ forall p, available_stock p d = A p)
         (fulfil_item o item)
         (fun _ d => keys_wellformed d
                     /\ forall p, available_stock p d
                                  = A p - requested_for p [item]).
Proof.
  intros c (Hk & HA). split.
  - now apply (fulfil_item_stable (fun _ => True) o item stable_True c).
  - intros u Hu. destruct (fulfil_item o item c) as [r c'] eqn:E.
    simpl in Hu. subst r.
    apply fulfil_item_ok in E as (p & q & (Ep & Eq & _ & _) & Htotal & ->);
      [|apply Hk].
    cbn [snd working]. split; [now apply deplete_keys|]. intros p'.
    rewrite available_stock_filter. unfold deplete.
    cbn [batches with_item with_order_items requested_for].
    rewrite Ep, Eq. cbn [to_number].
    rewrite (available_after_plan p p' q (working c) (proj1 Hk) _ (fun b Hb => Hb)).
    rewrite <- available_stock_filter, HA.
    destruct (p =? p'); [|lia].
    rewrite taken_from_total, Htotal; [lia|apply Hk|].
    intros b a Hb. apply fefo_plan_In in Hb. now apply candidates_In in Hb as [Hb _].
Qed.

Lemma for_each_available (o : Z) (items : list ItemRequest.t) :
  forall A : Z -> Z,
    triple (fun d => keys_wellformed d /\ forall p, available_stock p d = A p)
           (for_each items (fulfil_item o))
           (fun _ d => keys_wellformed d
                       /\ forall p, available_stock p d
                                    = A p - requested_for p items).
Proof.
  induction items as [|item items IH]; intros A; cbn [for_each].
  - apply triple_ret. intros d (Hk & HA). split; [exact Hk|].
    intros p. rewrite HA. simpl. lia.
  - eapply triple_bind; [apply fulfil_item_available|]. intros u0.
    eapply triple_weaken;
      [apply (IH (fun p => A p - requested_for p [item]))| |].
    + intros d H. exact H.
    + intros u d (Hk & HA). split; [exact Hk|].
      intros p. rewrite HA. simpl. lia.
Qed.

Lemma available_stock_nonneg (p : Z) (d : db) : 0 <= available_stock p d.
Proof.
  apply stock_nonneg. intros b Hb.
  now apply candidates_In in Hb as (_ & _ & Hq & _).
Qed.

(** X15. An order that is accepted lowers the available stock of every
    product, the sum of the quantities of its Available batches, by
    exactly what the items of the order ask for of that product; so an
    order is accepted only if the stock covers, product by product, all
    that its items ask for. *)
Theorem createOrder_available_stock
    (items : list ItemRequest.t) (d d' : db) (placed : OrderPlaced.t) :
  keys_wellformed d ->
  createOrder items d = (Json 201 placed, d') ->
  forall productId,
    available_stock productId d'
    = available_stock productId d - requested_for productId items
    /\ requested_for productId items <= available_stock productId d.
Proof.
  intros Hk H. destruct items as [|item items]; [discriminate|].
  rewrite createOrder_eval in H by discriminate.
  set (c := mkConn d _) in H.
  destruct (for_each_available (next_order_id d) (item :: items)
              (fun p => available_stock p d) c) as [_ Hw].
  { split; [exact Hk|]. reflexivity. }
  destruct (for_each (item :: items) _ c) as [[u|e] c'] eqn:E; [|discriminate].
  injection H as _ <-.
  destruct (Hw u eq_refl) as (_ & HA). intros p.
  specialize (HA p). cbn [snd] in HA.
  pose proof (available_stock_nonneg p (working c')) as Hnn.
  split; [exact HA|lia].
Qed.

(** X15 on the sample warehouse. *)
Lemma createOrder_available_stock_witness :
  available_stock 1 (snd (createOrder [Sample.item 1 7] Sample.warehouse))
  = available_stock 1 Sample.warehouse - requested_for 1 [Sample.item 1 7]
  /\ requested_for 1 [Sample.item 1 7] <= available_stock 1 Sample.warehouse.
Proof.
  apply (createOrder_available_stock [Sample.item 1 7] Sample.warehouse
           (snd (createOrder [Sample.item 1 7] Sample.warehouse))
           (OrderPlaced.mk "Order placed successfully" 1)).
  - exact (proj1 warehouse_sound).
  - vm_compute. reflexivity.
Defined.

(** X16. In a store with well-formed keys, an order of one valid item
    for a product that exists is accepted exactly when the available stock
    of the product covers the quantity: nothing else can make the order
    fail. *)
Theorem createOrder_accepted_iff
    (item : ItemRequest.t) (productId quantity : Z) (d : db) :
  valid_item item productId quantity ->
  keys_wellformed d ->
  product_exists productId d = true ->
  (forall p, In p (order_batch_picks d) -> Pick.order_id p <> next_order_id d) ->
  quantity <= available_stock productId d
  <-> exists d',
        createOrder [item] d
        = (Json 201 (OrderPlaced.mk "Order placed successfully" (next_order_id d)), d').
Proof.
  intros Hv Hk Hp Hfk.
  rewrite createOrder_eval by discriminate.
  set (c := mkConn d _).
  assert (Hplan := fulfil_item_plan (next_order_id d) item productId quantity c Hv).
  cbv zeta in Hplan.
  assert (Hcands : select_available_batches productId (working c)
                   = select_available_batches productId d) by reflexivity.
  rewrite Hcands in Hplan.
  assert (Htotal : planned_total (fefo_plan (select_available_batches productId d) quantity)
                   = Z.min quantity (available_stock productId d)).
  { apply planned_total_min; [|destruct Hv as (_ & _ & _ & Hq); lia].
    intros b Hb. now apply candidates_In in Hb as (_ & _ & Hq & _). }
  cbn [for_each]. unfold bind at 1. rewrite Hplan; cycle 1.
  - exact Hk.
  - unfold c, order_exists. cbn [working orders with_orders].
    rewrite existsb_app. cbn [existsb Order.order_id]. rewrite Z.eqb_refl.
    now rewrite orb_true_r.
  - exact Hp.
  - intros b pk _ Hpk [E _]. exact (Hfk pk Hpk E).
  - rewrite Htotal.
    destruct (Z.ltb_spec 0 (quantity - Z.min quantity (available_stock productId d)))
      as [Hshort|Hfull].
    + split; [lia|]. intros [d' H]. discriminate.
    + split; [|lia]. intros _. eexists. reflexivity.
Qed.

(** X16 on the sample warehouse: ten gloves are in stock. *)
Lemma createOrder_accepted_iff_witness :
  exists d',
    createOrder [Sample.item 1 10] Sample.warehouse
    = (Json 201 (OrderPlaced.mk "Order placed successfully" 1), d').
Proof.
  apply (createOrder_accepted_iff (Sample.item 1 10) 1 10 Sample.warehouse).
  - unfold valid_item. simpl. repeat split; discriminate.
  - exact (proj1 warehouse_sound).
  - reflexivity.
  - intros p [].
  - vm_compute. discriminate.
Defined.


(** ** Temperature readings *)

Lemma logTemperature_eval (now k t : Z) (d : db) :
  logTemperature now (Some k) (Some t) d
  = if location_exists k d
    then (Json 201 "Temperature log received and stored successfully",
          update_latest_temperature t now k d)
    else (InternalServerError (ER_NO_REFERENCED_ROW_2 "temperature_logs_ibfk_1"), d).
Proof.
  unfold logTemperature, run_handler, try_catch, bind, statement,
    insert_temperature_log, commit, rollback, ret, getConnection.
  cbn [working committed]. now destruct (location_exists k d).
Qed.

Lemma logged_row (now k t : Z) (d : db) (x : Location.t) :
  In x (storage_locations (update_latest_temperature t now k d)) <->
  exists l, In l (storage_locations d)
            /\ x = (if Location.location_id l =? k then with_reading t now l else l).
Proof.
  unfold update_latest_temperature. cbn [storage_locations with_storage_locations].
  rewrite in_map_iff. split; intros (l & H1 & H2); exists l; auto.
Qed.



Lemma format_alert_location_id
    (jsNow : Z) (renderTemperature : option Z -> string)
    (toLocaleString : Z -> string) (l : Location.t) :
  TemperatureAlert.location_id (format_alert jsNow renderTemperature toLocaleString l)
  = Location.location_id l.
Proof.
  unfold format_alert.
  destruct (Location.latest_temperature l); [|reflexivity].
  destruct (Location.last_temp_update l); [|reflexivity].
  destruct (js_lt _ _); [reflexivity|].
  destruct (js_gt _ _); [reflexivity|].
  destruct (_ <? _); reflexivity.
Qed.

(** X18. Within the hour that follows a logged reading, the
    temperature alerts report the location when the reading is below the
    minimum or above the maximum, and not at all when it lies within the
    bounds, whatever was reported for the location before.  Where the
    reading and both bounds lie between 0.00 and 9.99 degrees, a reading
    below the minimum is typed Low Temperature and a reading above the
    maximum High Temperature. *)
Theorem logTemperature_then_alerts
    (now later jsNow : Z) (renderTemperature : option Z -> string)
    (toLocaleString : Z -> string)
    (k t lo hi : Z) (l : Location.t) (d : db) :
  locations_keyed d ->
  In l (storage_locations d) -> Location.location_id l = k ->
  Location.location_type l = ColdStorage ->
  Location.min_temp l = Some lo -> Location.max_temp l = Some hi ->
  lo <= hi -> now <= later <= now + 3600000 ->
  exists alerts d',
    logTemperature now (Some k) (Some t) d
    = (Json 201 "Temperature log received and stored successfully", d')
    /\ temperatureAlerts later jsNow renderTemperature toLocaleString d'
       = (Json 200 alerts, d')
    /\ (t < lo \/ hi < t ->
        exists a, In a alerts /\ TemperatureAlert.location_id a = k)
    /\ (below_ten lo -> below_ten hi -> below_ten t ->
        (t < lo ->
         exists a, In a alerts /\ TemperatureAlert.location_id a = k
                   /\ TemperatureAlert.alert_type a = "Low Temperature")
        /\ (hi < t ->
            exists a, In a alerts /\ TemperatureAlert.location_id a = k
                      /\ TemperatureAlert.alert_type a = "High Temperature"))
    /\ (lo <= t <= hi ->
        forall a, In a alerts -> TemperatureAlert.location_id a <> k).
Proof.
  intros Hkeyed Hl Hid Hcold Hlo Hhi Hbounds Hlater.
  rewrite logTemperature_eval.
  assert (Hex : location_exists k d = true)
    by (rewrite <- Hid; now apply location_exists_In).
  rewrite Hex. eexists. eexists. split; [reflexivity|]. split; [reflexivity|].
  set (d' := update_latest_temperature t now k d).
  assert (Hrow : In (with_reading t now l) (storage_locations d')).
  { apply logged_row. exists l. split; [exact Hl|].
    apply Z.eqb_eq in Hid. now rewrite Hid. }
  assert (Hsel : t < lo \/ hi < t ->
                 In (format_alert jsNow renderTemperature toLocaleString
                       (with_reading t now l))
                    (map (format_alert jsNow renderTemperature toLocaleString)
                         (select_temperature_alerts later d'))).
  { intros Hout. apply in_map. unfold select_temperature_alerts. apply filter_In.
    split; [exact Hrow|]. cbn [with_reading Location.location_type
      Location.latest_temperature Location.min_temp Location.max_temp
      Location.last_temp_update]. rewrite Hcold, Hlo, Hhi. cbn [sql_lt is_null
      storage_type_eqb orb andb].
    destruct Hout as [Hlow|Hhigh].
    - apply Z.ltb_lt in Hlow. now rewrite Hlow.
    - apply Z.ltb_lt in Hhigh. rewrite Hhigh. now rewrite orb_true_r. }
  assert (Hk : TemperatureAlert.location_id
                 (format_alert jsNow renderTemperature toLocaleString
                    (with_reading t now l)) = k)
    by (rewrite format_alert_location_id; exact Hid).
  split; [|split].
  - intros Hout. eexists. split; [exact (Hsel Hout)|exact Hk].
  - intros Blo Bhi Bt. split.
    + intros Hlow. eexists. split; [exact (Hsel (or_introl Hlow))|].
      split; [exact Hk|].
      unfold format_alert. cbn [with_reading Location.latest_temperature
        Location.last_temp_update Location.min_temp]. rewrite Hlo.
      rewrite (js_lt_below_ten t lo Bt Blo).
      apply Z.ltb_lt in Hlow. now rewrite Hlow.
    + intros Hhigh. eexists. split; [exact (Hsel (or_intror Hhigh))|].
      split; [exact Hk|].
      unfold format_alert. cbn [with_reading Location.latest_temperature
        Location.last_temp_update Location.min_temp Location.max_temp].
      rewrite Hlo, Hhi. unfold js_gt.
      rewrite (js_lt_below_ten t lo Bt Blo), (js_lt_below_ten hi t Bhi Bt).
      assert (Hnl : (t <? lo) = false) by (apply Z.ltb_ge; lia).
      apply Z.ltb_lt in Hhigh. now rewrite Hnl, Hhigh.
  - intros Hin a Ha Ea. apply in_map_iff in Ha as (x & <- & Hx).
    rewrite format_alert_location_id in Ea.
    unfold select_temperature_alerts in Hx. apply filter_In in Hx as [Hx Hc].
    apply logged_row in Hx as (y & Hy & ->).
    assert (Ey : Location.location_id y = k).
    { destruct (Location.location_id y =? k) eqn:E; [now apply Z.eqb_eq|].
      exact Ea. }
    assert (y = l) by (apply (same_location _ y l Hkeyed Hy Hl); congruence). subst y.
    apply Z.eqb_eq in Ey. rewrite Ey in Hc.
    cbn [with_reading Location.location_type Location.latest_temperature
         Location.min_temp Location.max_temp Location.last_temp_update] in Hc.
    rewrite Hcold, Hlo, Hhi in Hc. cbn [sql_lt is_null storage_type_eqb orb andb] in Hc.
    assert (H1 : (t <? lo) = false) by (apply Z.ltb_ge; lia).
    assert (H2 : (hi <? t) = false) by (apply Z.ltb_ge; lia).
    assert (H3 : (now <? later - 3600000) = false) by (apply Z.ltb_ge; lia).
    rewrite H1, H2, H3 in Hc. discriminate.
Qed.

(** X18 on the sample warehouse: 9.00 degrees in the fridge, whose
    bounds are 2.00 and 8.00 degrees. *)
Lemma logTemperature_then_alerts_witness :
  exists alerts d',
    logTemperature 5000 (Some 2) (Some 900) Sample.warehouse
    = (Json 201 "Temperature log received and stored successfully", d')
    /\ temperatureAlerts 6000 6000 (fun _ => "") (fun _ => "") d' = (Json 200 alerts, d')
    /\ exists a, In a alerts /\ TemperatureAlert.location_id a = 2
                 /\ TemperatureAlert.alert_type a = "High Temperature".
Proof.
  destruct (logTemperature_then_alerts 5000 6000 6000 (fun _ => "") (fun _ => "")
              2 900 200 800 Sample.fridge Sample.warehouse)
    as (alerts & d' & H1 & H2 & _ & H3 & _).
  - unfold locations_keyed. simpl. repeat constructor; simpl; intuition discriminate.
  - right. now left.
  - reflexivity.
  - reflexivity.
  - reflexivity.
  - reflexivity.
  - lia.
  - lia.
  - exists alerts, d'. split; [exact H1|]. split; [exact H2|].
    apply H3; unfold below_ten; lia.
Defined.

(** X19. After a reading is logged for a Cold Storage location, the
    allocator hands that location to a Cold Storage product only if the
    text of the reading is neither before the text of the minimum nor
    after the text of the maximum.  Where the bounds lie between 0.00 and
    9.99 degrees this means, for a reading in that span, that the reading
    lies within the bounds; and when it does and the quantity fits the
    location, the allocation of a Cold Storage product finds a place. *)
Theorem logTemperature_then_allocation
    (now k t lo hi : Z) (l : Location.t) (d : db) :
  locations_keyed d ->
  In l (storage_locations d) -> Location.location_id l = k ->
  Location.min_temp l = Some lo -> Location.max_temp l = Some hi ->
  forall productId quantityNeeded,
    let d' := snd (logTemperature now (Some k) (Some t) d) in
    hd_error (select_product_category productId d') = Some ColdStorage ->
    (forall loc,
       fst (findSuitableLocation productId quantityNeeded (getConnection d'))
       = Ok (Some loc) ->
       Location.location_id loc = k ->
       js_ge (Some t) (Some lo) = true /\ js_le (Some t) (Some hi) = true)
    /\ (below_ten lo -> below_ten hi ->
        (forall loc,
           fst (findSuitableLocation productId quantityNeeded (getConnection d'))
           = Ok (Some loc) ->
           Location.location_id loc = k -> below_ten t -> lo <= t <= hi)
        /\ (lo <= t <= hi ->
            Location.location_type l = ColdStorage ->
            Location.current_occupancy l + quantityNeeded <= Location.capacity l ->
            exists loc,
              fst (findSuitableLocation productId quantityNeeded (getConnection d'))
              = Ok (Some loc))).
Proof.
  intros Hkeyed Hl Hid Hlo Hhi p q d' Hcat. subst d'.
  rewrite logTemperature_eval in *.
  assert (Hex : location_exists k d = true)
    by (rewrite <- Hid; now apply location_exists_In).
  rewrite Hex in *. cbn [snd] in *.
  set (d' := update_latest_temperature t now k d) in *.
  rewrite (findSuitableLocation_category p q ColdStorage (getConnection d') Hcat).
  cbn [fst storage_type_eqb working getConnection].
  assert (Hgate : forall loc,
            Ok (find temperature_suitable (select_candidate_locations ColdStorage q d'))
            = Ok (Some loc) ->
            Location.location_id loc = k ->
            js_ge (Some t) (Some lo) = true /\ js_le (Some t) (Some hi) = true).
  { intros loc [= Hfind] Eloc. apply find_some in Hfind as [Hin Hsuit].
    apply candidate_locations_In in Hin as [Hin _].
    apply logged_row in Hin as (y & Hy & ->).
    assert (Ey : Location.location_id y = k)
      by (destruct (Location.location_id y =? k) eqn:E;
          [now apply Z.eqb_eq|exact Eloc]).
    assert (y = l) by (apply (same_location _ y l Hkeyed Hy Hl); congruence). subst y.
    apply Z.eqb_eq in Ey. rewrite Ey in Hsuit. unfold temperature_suitable in Hsuit.
    cbn [with_reading Location.latest_temperature Location.min_temp Location.max_temp]
      in Hsuit.
    rewrite Hlo, Hhi in Hsuit. now apply andb_true_iff in Hsuit. }
  split; [exact Hgate|].
  intros Blo Bhi. split.
  - intros loc Hfind Eloc Bt. destruct (Hgate loc Hfind Eloc) as [H1 H2].
    unfold js_ge, js_le in H1, H2.
    rewrite (js_lt_below_ten t lo Bt Blo) in H1.
    rewrite (js_lt_below_ten hi t Bhi Bt) in H2.
    apply negb_true_iff, Z.ltb_ge in H1. apply negb_true_iff, Z.ltb_ge in H2. lia.
  - intros Hin Hcold Hfits.
    assert (Bt : below_ten t) by (unfold below_ten in *; lia).
    destruct (find temperature_suitable (select_candidate_locations ColdStorage q d'))
      as [loc|] eqn:Efind; [now exists loc|].
    exfalso.
    assert (Hrow : In (with_reading t now l) (select_candidate_locations ColdStorage q d')).
    { apply candidate_locations_In. split.
      - apply logged_row. exists l. split; [exact Hl|].
        apply Z.eqb_eq in Hid. now rewrite Hid.
      - split; [exact Hcold|]. unfold free_capacity. simpl. lia. }
    pose proof (find_none _ _ Efind _ Hrow) as Hno.
    unfold temperature_suitable in Hno.
    cbn [with_reading Location.latest_temperature Location.min_temp Location.max_temp]
      in Hno.
    rewrite Hlo, Hhi in Hno. unfold js_ge, js_le in Hno.
    rewrite (js_lt_below_ten t lo Bt Blo), (js_lt_below_ten hi t Bhi Bt) in Hno.
    apply andb_false_iff in Hno as [H|H];
      apply negb_false_iff, Z.ltb_lt in H; lia.
Qed.

(** X19 on the sample warehouse: once 3.00 degrees are logged for the
    fridge, whose bounds are 2.00 and 8.00 degrees, thirty doses find a
    place. *)
Lemma logTemperature_then_allocation_witness :
  exists loc,
    fst (findSuitableLocation 2 30
           (getConnection (snd (logTemperature 5000 (Some 2) (Some 300)
                                  Sample.warehouse))))
    = Ok (Some loc).
Proof.
  apply (proj2 (proj2 (logTemperature_then_allocation 5000 2 300 200 800 Sample.fridge
                  Sample.warehouse
                  ltac:(unfold locations_keyed; simpl; repeat constructor; simpl;
                        intuition discriminate)
                  ltac:(right; now left)
                  eq_refl eq_refl eq_refl 2 30 eq_refl)
                  ltac:(unfold below_ten; lia) ltac:(unfold below_ten; lia))).
  - lia.
  - reflexivity.
  - simpl. lia.
Defined.


(** ** Master data *)

Lemma storage_type_of_string_nonempty (text : string) (cat : storage_type) :
  storage_type_of_string text = Some cat -> String.eqb text "" = false.
Proof.
  unfold storage_type_of_string. intros H.
  destruct (String.eqb_spec text ""); [subst; discriminate|reflexivity].
Qed.

Lemma createProduct_eval (req : ProductRequest.t) (name : string)
    (category : storage_type) (s : store) :
  valid_product_request req name category ->
  createProduct req s
  = if existsb (fun p => String.eqb (Product.name p) name) (products (tables s))
    then (JsonError 409 ("Product with name '" ++ name ++ "' already exists.")%string, s)
    else
      let s' :=
        mkStore
          (with_products
             (products (tables s) ++ [Product.mk (next_product_id s) name category])
             (tables s))
          (dispatches s) (next_product_id s + 1) (next_location_id s)
          (next_dispatch_id s) in
      (Json 201 (select_product (next_product_id s) s'), s').
Proof.
  intros (En & Hn & text & Ec & Ecat). unfold createProduct. rewrite En, Ec.
  apply String.eqb_neq in Hn. rewrite Hn, (storage_type_of_string_nonempty _ _ Ecat), Ecat.
  cbn [orb]. unfold insert_product.
  now destruct (existsb _ (products (tables s))).
Qed.

Lemma createProduct_refused (req : ProductRequest.t) (s : store) :
  (forall name category, ~ valid_product_request req name category) ->
  exists text, createProduct req s = (JsonError 400 text, s).
Proof.
  intros Hno. unfold createProduct.
  destruct (ProductRequest.name req) as [name|] eqn:En; [|eexists; reflexivity].
  destruct (ProductRequest.category req) as [text|] eqn:Ec; [|eexists; reflexivity].
  destruct (String.eqb_spec name "") as [|Hn]; [eexists; reflexivity|].
  cbn [orb]. destruct (String.eqb text ""); [eexists; reflexivity|].
  destruct (storage_type_of_string text) as [cat|] eqn:Ecat; [|eexists; reflexivity].
  exfalso. apply (Hno name cat). unfold valid_product_request. eauto 6.
Qed.

Lemma select_new_product (n : Z) (ps : list Product.t) (p : Product.t) :
  (forall x, In x ps -> Product.product_id x < n) -> Product.product_id p = n ->
  filter (fun x => Product.product_id x =? n) (ps ++ [p]) = [p].
Proof.
  intros Hlt Hp. rewrite filter_app. rewrite (filter_none _ ps).
  - simpl. apply Z.eqb_eq in Hp. now rewrite Hp.
  - intros x Hx. apply Z.eqb_neq. specialize (Hlt x Hx). lia.
Qed.

(** X20. POST /products refuses a request without a name or with a
    category other than the two it knows (status 400) and a name in use
    (status 409), each without a change.  Otherwise it stores the product
    under the next product id and answers with that row; the allocator
    then finds the requested category under the new id, product ids and
    names stay unique, and nothing but [products] has changed. *)
Theorem createProduct_answers (req : ProductRequest.t) (s : store) :
  products_keyed s ->
  ((forall name category, ~ valid_product_request req name category) ->
   exists text, createProduct req s = (JsonError 400 text, s))
  /\ (forall name category,
        valid_product_request req name category ->
        if existsb (fun p => String.eqb (Product.name p) name) (products (tables s))
        then createProduct req s
             = (JsonError 409 ("Product with name '" ++ name ++ "' already exists.")%string,
                s)
        else
          let row := Product.mk (next_product_id s) name category in
          fst (createProduct req s) = Json 201 (Some row)
          /\ products (tables (snd (createProduct req s)))
             = products (tables s) ++ [row]
          /\ select_product_category (next_product_id s)
               (tables (snd (createProduct req s)))
             = [category])
  /\ products_keyed (snd (createProduct req s))
  /\ tables (snd (createProduct req s))
     = with_products (products (tables (snd (createProduct req s)))) (tables s)
  /\ dispatches (snd (createProduct req s)) = dispatches s.
Proof.
  intros (Hids & Hnames & Hpos & Hlt).
  assert (Hsame : tables s = with_products (products (tables s)) (tables s))
    by (now destruct (tables s)).
  assert (Hkeyed : products_keyed s) by (unfold products_keyed; auto).
  split; [apply createProduct_refused|]. split.
  - intros name category Hv. rewrite (createProduct_eval req name category s Hv).
    destruct (existsb _ (products (tables s))) eqn:Edup; [reflexivity|].
    cbv zeta. cbn [fst snd tables products with_products].
    unfold select_product, select_product_category.
    cbn [tables products with_products].
    rewrite (select_new_product (next_product_id s) (products (tables s))
               (Product.mk (next_product_id s) name category)
               (fun x Hx => proj2 (Hlt x Hx)) eq_refl).
    repeat split.
  - destruct (ProductRequest.name req) as [name|] eqn:En;
      [|unfold createProduct; rewrite En; auto].
    destruct (ProductRequest.category req) as [text|] eqn:Ec;
      [|unfold createProduct; rewrite En, Ec; auto].
    destruct (String.eqb_spec name "") as [->|Hn];
      [unfold createProduct; rewrite En, Ec; auto|].
    destruct (storage_type_of_string text) as [cat|] eqn:Ecat;
      [|unfold createProduct; rewrite En, Ec, Ecat;
        apply String.eqb_neq in Hn; rewrite Hn; cbn [orb];
        destruct (String.eqb text ""); auto].
    assert (Hv : valid_product_request req name cat)
      by (unfold valid_product_request; eauto 6).
    rewrite (createProduct_eval req name cat s Hv).
    destruct (existsb _ (products (tables s))) eqn:Edup; [auto|].
    cbv zeta. cbn [snd tables dispatches products with_products].
    split; [|split; reflexivity].
    unfold products_keyed. cbn [tables products with_products next_product_id].
    rewrite !map_app. cbn [map Product.product_id Product.name].
    split; [|split; [|split]].
    + apply NoDup_app; [exact Hids|repeat constructor; simpl; tauto|].
      intros i Hi [<-|[]]. apply in_map_iff in Hi as (x & E & Hx).
      specialize (Hlt x Hx). lia.
    + apply NoDup_app; [exact Hnames|repeat constructor; simpl; tauto|].
      intros n Hn' [<-|[]]. apply in_map_iff in Hn' as (x & E & Hx).
      assert (existsb (fun p => String.eqb (Product.name p) name) (products (tables s))
              = true); [|congruence].
      apply existsb_exists. exists x. split; [exact Hx|]. now apply String.eqb_eq.
    + lia.
    + intros p Hp. apply in_app_or in Hp as [Hp|[<-|[]]].
      * specialize (Hlt p Hp). lia.
      * simpl. lia.
Qed.

(** X20 on the sample warehouse. *)
Lemma createProduct_answers_witness :
  fst (createProduct (ProductRequest.mk (Some "Bandages") (Some "Ambient")) depot)
  = Json 201 (Some (Product.mk 3 "Bandages" Ambient))
  /\ products (tables (snd (createProduct
                              (ProductRequest.mk (Some "Bandages") (Some "Ambient"))
                              depot)))
     = products (tables depot) ++ [Product.mk 3 "Bandages" Ambient]
  /\ select_product_category 3
       (tables (snd (createProduct
                       (ProductRequest.mk (Some "Bandages") (Some "Ambient")) depot)))
     = [Ambient].
Proof.
  assert (Hk : products_keyed depot).
  { unfold products_keyed. simpl. repeat split; try lia.
    - repeat constructor; simpl; intuition discriminate.
    - repeat constructor; simpl; intuition discriminate.
    - destruct H as [<-|[<-|[]]]; simpl; lia.
    - destruct H as [<-|[<-|[]]]; simpl; lia. }
  assert (Hv : valid_product_request
                 (ProductRequest.mk (Some "Bandages") (Some "Ambient"))
                 "Bandages" Ambient).
  { unfold valid_product_request. simpl. repeat split; try discriminate.
    exists "Ambient". split; reflexivity. }
  exact (proj1 (proj2 (createProduct_answers _ depot Hk)) "Bandages" Ambient Hv).
Defined.

Lemma createStorageLocation_eval
    (req : LocationRequest.t) (zone rack slot : string)
    (locationType : storage_type) (capacity : Z) (bounds : option Z * option Z)
    (s : store) :
  valid_location_request req zone rack slot locationType capacity bounds ->
  createStorageLocation req s
  = if existsb (fun l => String.eqb (Location.zone l) zone
                         && String.eqb (Location.rack l) rack
                         && String.eqb (Location.slot l) slot)
               (storage_locations (tables s))
    then (JsonError 409 "A location with this Zone, Rack, and Slot already exists.", s)
    else
      let s' :=
        mkStore
          (with_storage_locations
             (storage_locations (tables s) ++
              [Location.mk (next_location_id s) zone rack slot locationType capacity 0
                           (fst bounds) (snd bounds) None None])
             (tables s))
          (dispatches s) (next_product_id s) (next_location_id s + 1)
          (next_dispatch_id s) in
      (Json 201 (select_location (next_location_id s) s'), s').
Proof.
  intros (Ez & Hz & Er & Hr & Es & Hs & Ec & Hc & (text & Et & Ety) & Hb).
  unfold createStorageLocation. rewrite Ez, Er, Es, Ec, Et.
  apply String.eqb_neq in Hz, Hr, Hs. apply Z.leb_gt in Hc.
  rewrite Hz, Hr, Hs, Hc, (storage_type_of_string_nonempty _ _ Ety), Ety. cbn [orb].
  unfold stored_bounds in Hb. destruct locationType.
  - injection Hb as <-. cbn [fst snd]. unfold insert_location.
    now destruct (existsb _ (storage_locations (tables s))).
  - destruct (LocationRequest.min_temp req) as [lo|]; [|discriminate].
    destruct (LocationRequest.max_temp req) as [hi|]; [|discriminate].
    injection Hb as <-. cbn [fst snd]. unfold insert_location.
    now destruct (existsb _ (storage_locations (tables s))).
Qed.

Lemma createStorageLocation_cases (req : LocationRequest.t) (s : store) :
  (exists text, createStorageLocation req s = (JsonError 400 text, s))
  \/ exists zone rack slot locationType capacity bounds,
       valid_location_request req zone rack slot locationType capacity bounds.
Proof.
  unfold createStorageLocation, valid_location_request.
  destruct (LocationRequest.zone req) as [zone|]; [|left; eexists; reflexivity].
  destruct (LocationRequest.rack req) as [rack|]; [|left; eexists; reflexivity].
  destruct (LocationRequest.slot req) as [slot|]; [|left; eexists; reflexivity].
  destruct (LocationRequest.capacity req) as [capacity|]; [|left; eexists; reflexivity].
  destruct (LocationRequest.location_type req) as [text|]; [|left; eexists; reflexivity].
  destruct (String.eqb_spec zone ""); [left; eexists; reflexivity|].
  destruct (String.eqb_spec rack ""); [left; eexists; reflexivity|].
  destruct (String.eqb_spec slot ""); [left; eexists; reflexivity|].
  destruct (Z.leb_spec capacity 0); [left; eexists; reflexivity|].
  cbn [orb]. destruct (String.eqb text ""); [left; eexists; reflexivity|].
  destruct (storage_type_of_string text) as [ty|] eqn:Ety; [|left; eexists; reflexivity].
  destruct (stored_bounds req ty) as [bounds|] eqn:Eb.
  - right. exists zone, rack, slot, ty, capacity, bounds. repeat split; eauto.
  - left. unfold stored_bounds in Eb. destruct ty; [discriminate|].
    destruct (LocationRequest.min_temp req); [|eexists; reflexivity].
    destruct (LocationRequest.max_temp req); [discriminate|eexists; reflexivity].
Qed.

Lemma assigned_quantity_none (k : Z) (bs : list Batch.t) :
  (forall b, In b bs -> Batch.assigned_location_id b <> Some k) ->
  assigned_quantity k bs = 0.
Proof.
  induction bs as [|b bs IH]; intros H; [reflexivity|]. cbn [assigned_quantity].
  rewrite IH by (intros x Hx; apply H; now right).
  specialize (H b (or_introl eq_refl)). unfold contribution.
  destruct (Batch.assigned_location_id b) as [a|]; [|reflexivity]. simpl.
  destruct (Z.eqb_spec a k); [congruence|reflexivity].
Qed.

(** X21. POST /storage_locations refuses a request it does not accept
    with status 400, among them a Cold Storage location without both
    temperature bounds, and a (zone, rack, slot) in use with status 409,
    each without a change.  Otherwise it stores the location under the
    next location id, empty and without a reading, with the bounds of the
    request for Cold Storage and none for Ambient, whatever the request
    gave.  Location ids and (zone, rack, slot) stay unique, Cold Storage
    locations stay bounded, no location exceeds its capacity, the ledger
    stays balanced when no batch refers to the new id, and nothing but
    [storage_locations] has changed. *)
Theorem createStorageLocation_answers (req : LocationRequest.t) (s : store) :
  locations_wellkeyed s ->
  ((forall zone rack slot locationType capacity bounds,
      ~ valid_location_request req zone rack slot locationType capacity bounds) ->
   exists text, createStorageLocation req s = (JsonError 400 text, s))
  /\ (forall zone rack slot locationType capacity bounds,
        valid_location_request req zone rack slot locationType capacity bounds ->
        if existsb (fun l => String.eqb (Location.zone l) zone
                             && String.eqb (Location.rack l) rack
                             && String.eqb (Location.slot l) slot)
                   (storage_locations (tables s))
        then createStorageLocation req s
             = (JsonError 409 "A location with this Zone, Rack, and Slot already exists.",
                s)
        else
          let row := Location.mk (next_location_id s) zone rack slot locationType
                       capacity 0 (fst bounds) (snd bounds) None None in
          fst (createStorageLocation req s) = Json 201 (Some row)
          /\ storage_locations (tables (snd (createStorageLocation req s)))
             = storage_locations (tables s) ++ [row]
          /\ (locationType = ColdStorage ->
              Location.min_temp row <> None /\ Location.max_temp row <> None)
          /\ (locationType = Ambient ->
              Location.min_temp row = None /\ Location.max_temp row = None))
  /\ locations_wellkeyed (snd (createStorageLocation req s))
  /\ (cold_storage_bounded (tables s) ->
      cold_storage_bounded (tables (snd (createStorageLocation req s))))
  /\ (within_capacity (tables s) ->
      within_capacity (tables (snd (createStorageLocation req s))))
  /\ (ledger_consistent (tables s) ->
      (forall b, In b (batches (tables s)) ->
                 Batch.assigned_location_id b <> Some (next_location_id s)) ->
      ledger_consistent (tables (snd (createStorageLocation req s))))
  /\ tables (snd (createStorageLocation req s))
     = with_storage_locations
         (storage_locations (tables (snd (createStorageLocation req s)))) (tables s)
  /\ dispatches (snd (createStorageLocation req s)) = dispatches s.
Proof.
  intros (Hids & Hplaces & Hpos & Hlt).
  assert (Hsame : tables s = with_storage_locations (storage_locations (tables s))
                               (tables s)) by (now destruct (tables s)).
  assert (Hkeyed : locations_wellkeyed s) by (unfold locations_wellkeyed; auto).
  split.
  { intros Hno. destruct (createStorageLocation_cases req s)
      as [H|(z & r & sl & ty & c & b & Hv)]; [exact H|]. now elim (Hno z r sl ty c b). }
  split.
  { intros zone rack slot ty capacity bounds Hv.
    rewrite (createStorageLocation_eval req _ _ _ _ _ _ s Hv).
    destruct (existsb _ (storage_locations (tables s))); [reflexivity|].
    cbv zeta. cbn [fst snd tables storage_locations with_storage_locations].
    unfold select_location. cbn [tables storage_locations with_storage_locations].
    rewrite filter_app, (filter_none _ (storage_locations (tables s))).
    - cbn [filter app Location.location_id]. rewrite Z.eqb_refl.
      split; [reflexivity|]. split; [reflexivity|].
      destruct Hv as (_ & _ & _ & _ & _ & _ & _ & _ & _ & Hb).
      unfold stored_bounds in Hb. split; intros ->.
      + destruct (LocationRequest.min_temp req); [|discriminate].
        destruct (LocationRequest.max_temp req); [|discriminate].
        injection Hb as <-. simpl. split; discriminate.
      + injection Hb as <-. simpl. split; reflexivity.
    - intros l Hl. apply Z.eqb_neq. specialize (Hlt l Hl). lia. }
  destruct (createStorageLocation_cases req s)
    as [[text ->]|(zone & rack & slot & ty & capacity & bounds & Hv)];
    [cbn [snd]; auto 10|].
  rewrite (createStorageLocation_eval req _ _ _ _ _ _ s Hv).
  destruct (existsb _ (storage_locations (tables s))) eqn:Edup; [cbn [snd]; auto 10|].
  cbv zeta. cbn [snd tables dispatches storage_locations with_storage_locations].
  set (row := Location.mk (next_location_id s) zone rack slot ty capacity 0
                (fst bounds) (snd bounds) None None).
  split; [|split; [|split; [|split; [|split; reflexivity]]]].
  - unfold locations_wellkeyed, locations_keyed.
    cbn [tables storage_locations with_storage_locations next_location_id].
    rewrite !map_app. cbn [map]. split; [|split; [|split]].
    + apply NoDup_app; [exact Hids|repeat constructor; simpl; tauto|].
      intros i Hi [<-|[]]. apply in_map_iff in Hi as (x & E & Hx).
      specialize (Hlt x Hx). simpl in E. lia.
    + apply NoDup_app; [exact Hplaces|repeat constructor; simpl; tauto|].
      intros place Hp [<-|[]]. apply in_map_iff in Hp as (x & E & Hx).
      assert (existsb (fun l => String.eqb (Location.zone l) zone
                                && String.eqb (Location.rack l) rack
                                && String.eqb (Location.slot l) slot)
                      (storage_locations (tables s)) = true); [|congruence].
      apply existsb_exists. exists x. split; [exact Hx|].
      simpl in E. injection E as -> -> ->. now rewrite !String.eqb_refl.
    + lia.
    + intros l Hl. apply in_app_or in Hl as [Hl|[<-|[]]].
      * specialize (Hlt l Hl). lia.
      * simpl. lia.
  - intros Hcold l Hl Hty. apply in_app_or in Hl as [Hl|[<-|[]]]; [now apply Hcold|].
    simpl in Hty. subst ty.
    destruct Hv as (_ & _ & _ & _ & _ & _ & _ & _ & _ & Hb). unfold stored_bounds in Hb.
    destruct (LocationRequest.min_temp req); [|discriminate].
    destruct (LocationRequest.max_temp req); [|discriminate].
    injection Hb as <-. simpl. split; discriminate.
  - intros Hw l Hl. apply in_app_or in Hl as [Hl|[<-|[]]]; [now apply Hw|].
    simpl. destruct Hv as (_ & _ & _ & _ & _ & _ & _ & Hc & _). lia.
  - intros Hledger Hfk l Hl. cbn [batches with_storage_locations].
    apply in_app_or in Hl as [Hl|[<-|[]]]; [now apply Hledger|].
    simpl. symmetry. now apply assigned_quantity_none.
Qed.

(** X21 on the sample warehouse: a third cold room. *)
Lemma createStorageLocation_answers_witness :
  fst (createStorageLocation
         (LocationRequest.mk (Some "Cold_C") (Some "CR3") (Some "CS1")
            (Some "Cold Storage") (Some 60) (Some 200) (Some 800)) depot)
  = Json 201 (Some (Location.mk 4 "Cold_C" "CR3" "CS1" ColdStorage 60 0
                      (Some 200) (Some 800) None None)).
Proof.
  assert (Hk : locations_wellkeyed depot).
  { unfold locations_wellkeyed, locations_keyed. simpl. repeat split; try lia.
    - repeat constructor; simpl; intuition discriminate.
    - repeat constructor; simpl; intuition discriminate.
    - destruct H as [<-|[<-|[<-|[]]]]; simpl; lia.
    - destruct H as [<-|[<-|[<-|[]]]]; simpl; lia. }
  assert (Hv : valid_location_request
                 (LocationRequest.mk (Some "Cold_C") (Some "CR3") (Some "CS1")
                    (Some "Cold Storage") (Some 60) (Some 200) (Some 800))
                 "Cold_C" "CR3" "CS1" ColdStorage 60 (Some 200, Some 800)).
  { unfold valid_location_request. simpl. repeat split; try discriminate.
    exists "Cold Storage". split; reflexivity. }
  exact (proj1 (proj1 (proj2 (createStorageLocation_answers _ depot Hk)) _ _ _ _ _ _ Hv)).
Defined.

(** X22. Once POST /storage_locations has stored a location, the
    allocator finds a place for every product of the location's type in
    any quantity up to the new capacity: the new location is empty and,
    having no reading yet, passes the temperature gate.  Until a reading
    is logged, a new Cold Storage location is reported by the temperature
    alerts under No Readings. *)
Theorem createStorageLocation_then_allocation
    (req : LocationRequest.t) (zone rack slot : string)
    (locationType : storage_type) (capacity : Z) (bounds : option Z * option Z)
    (s s' : store) (row : option Location.t) :
  valid_location_request req zone rack slot locationType capacity bounds ->
  createStorageLocation req s = (Json 201 row, s') ->
  (forall productId quantityNeeded,
     hd_error (select_product_category productId (tables s')) = Some locationType ->
     quantityNeeded <= capacity ->
     exists loc,
       fst (findSuitableLocation productId quantityNeeded (getConnection (tables s')))
       = Ok (Some loc))
  /\ (locationType = ColdStorage ->
      forall sqlNow jsNow renderTemperature toLocaleString,
      exists a,
        In a (map (format_alert jsNow renderTemperature toLocaleString)
                  (select_temperature_alerts sqlNow (tables s')))
        /\ TemperatureAlert.location_id a = next_location_id s
        /\ TemperatureAlert.alert_type a = "No Readings").
Proof.
  intros Hv H. rewrite (createStorageLocation_eval req _ _ _ _ _ _ s Hv) in H.
  destruct (existsb _ (storage_locations (tables s))); [discriminate|].
  cbv zeta in H. injection H as _ <-. cbn [tables].
  set (new := Location.mk (next_location_id s) zone rack slot locationType capacity 0
                (fst bounds) (snd bounds) None None).
  set (d' := with_storage_locations (storage_locations (tables s) ++ [new]) (tables s)).
  assert (Hnew : In new (storage_locations d')).
  { unfold d'. cbn [storage_locations with_storage_locations].
    apply in_or_app. right. now left. }
  split.
  - intros p q Hcat Hq.
    rewrite (findSuitableLocation_category p q locationType (getConnection d') Hcat).
    cbn [fst working getConnection].
    assert (Hcand : In new (select_candidate_locations locationType q d')).
    { apply candidate_locations_In. split; [exact Hnew|].
      split; [reflexivity|]. unfold free_capacity. simpl. lia. }
    destruct (storage_type_eqb locationType ColdStorage).
    + destruct (find temperature_suitable _) as [loc|] eqn:Efind; [now exists loc|].
      pose proof (find_none _ _ Efind _ Hcand) as Hno. discriminate.
    + destruct (select_candidate_locations locationType q d') as [|loc rest];
        [destruct Hcand|now exists loc].
  - intros -> sqlNow jsNow renderTemperature toLocaleString.
    exists (format_alert jsNow renderTemperature toLocaleString new).
    split; [|split; reflexivity].
    apply in_map. unfold select_temperature_alerts. apply filter_In.
    split; [exact Hnew|reflexivity].
Qed.

(** X22 on the sample warehouse: the fridge holds 80, the new room 120. *)
Lemma createStorageLocation_then_allocation_witness :
  exists loc,
    fst (findSuitableLocation 2 100
           (getConnection
              (tables (snd (createStorageLocation
                              (LocationRequest.mk (Some "Cold_C") (Some "CR3") (Some "CS1")
                                 (Some "Cold Storage") (Some 120) (Some 200) (Some 800))
                              depot)))))
    = Ok (Some loc).
Proof.
  assert (Hv : valid_location_request
                 (LocationRequest.mk (Some "Cold_C") (Some "CR3") (Some "CS1")
                    (Some "Cold Storage") (Some 120) (Some 200) (Some 800))
                 "Cold_C" "CR3" "CS1" ColdStorage 120 (Some 200, Some 800)).
  { unfold valid_location_request. simpl. repeat split; try discriminate.
    exists "Cold Storage". split; reflexivity. }
  apply (proj1 (createStorageLocation_then_allocation _ _ _ _ _ _ _ depot _ _ Hv eq_refl)
           2 100 eq_refl).
  lia.
Defined.

(** ** Dispatches *)

Lemma recordDispatch_eval (req : DispatchRequest.t) (orderId : Z) (by_ : string)
    (date : Z) (s : store) :
  valid_dispatch_request req orderId by_ date ->
  recordDispatch req s
  = if negb (order_exists orderId (tables s))
    then (InternalServerError (ER_NO_REFERENCED_ROW_2 "dispatches_ibfk_1"), s)
    else if existsb (fun x => Dispatch.order_id x =? orderId) (dispatches s)
    then (InternalServerError (ER_DUP_ENTRY "dispatches.order_id"), s)
    else
      let s' :=
        mkStore (tables s)
          (dispatches s ++ [Dispatch.mk (next_dispatch_id s) orderId by_ date])
          (next_product_id s) (next_location_id s) (next_dispatch_id s + 1) in
      (Json 201 (select_dispatch (next_dispatch_id s) s'), s').
Proof.
  intros (Eo & Ho & Eb & Hb & Ed). unfold recordDispatch. rewrite Eo, Eb, Ed.
  apply Z.eqb_neq in Ho. apply String.eqb_neq in Hb. rewrite Ho, Hb. cbn [orb].
  unfold insert_dispatch.
  destruct (negb (order_exists orderId (tables s))); [reflexivity|].
  now destruct (existsb _ (dispatches s)).
Qed.

Lemma recordDispatch_cases (req : DispatchRequest.t) (s : store) :
  (exists text, recordDispatch req s = (JsonError 400 text, s))
  \/ exists orderId by_ date, valid_dispatch_request req orderId by_ date.
Proof.
  unfold recordDispatch, valid_dispatch_request.
  destruct (DispatchRequest.order_id req) as [o|]; [|left; eexists; reflexivity].
  destruct (DispatchRequest.dispatched_by req) as [b|]; [|left; eexists; reflexivity].
  destruct (DispatchRequest.dispatch_date req) as [dt|]; [|left; eexists; reflexivity].
  destruct (Z.eqb_spec o 0); [left; eexists; reflexivity|].
  destruct (String.eqb_spec b ""); [left; eexists; reflexivity|].
  right. exists o, b, dt. auto.
Qed.

(** X23. POST /dispatches records at most one dispatch per order, and
    only of an order that exists: a second dispatch of an order and a
    dispatch of an unknown order are internal errors (status 500), a
    request without order, dispatcher or date is refused with status 400,
    each without a change.  An accepted dispatch is stored under the next
    dispatch id and answered with its row.  No row of any other table is
    written: recording a dispatch leaves the status of the order and of
    its picks as they were. *)
Theorem recordDispatch_answers (req : DispatchRequest.t) (s : store) :
  dispatches_keyed s ->
  tables (snd (recordDispatch req s)) = tables s
  /\ dispatches_keyed (snd (recordDispatch req s))
  /\ ((forall orderId by_ date, ~ valid_dispatch_request req orderId by_ date) ->
      exists text, recordDispatch req s = (JsonError 400 text, s))
  /\ (forall orderId by_ date,
        valid_dispatch_request req orderId by_ date ->
        (order_exists orderId (tables s) = false ->
         recordDispatch req s
         = (InternalServerError (ER_NO_REFERENCED_ROW_2 "dispatches_ibfk_1"), s))
        /\ (existsb (fun x => Dispatch.order_id x =? orderId) (dispatches s) = true ->
            recordDispatch req s
            = (InternalServerError (ER_DUP_ENTRY "dispatches.order_id"), s))
        /\ (order_exists orderId (tables s) = true ->
            existsb (fun x => Dispatch.order_id x =? orderId) (dispatches s) = false ->
            let row := Dispatch.mk (next_dispatch_id s) orderId by_ date in
            fst (recordDispatch req s) = Json 201 (Some row)
            /\ dispatches (snd (recordDispatch req s)) = dispatches s ++ [row])).
Proof.
  intros (Hnd & Hfk & Hlt).
  assert (Hkeyed : dispatches_keyed s) by (unfold dispatches_keyed; auto).
  assert (Hframe : tables (snd (recordDispatch req s)) = tables s
                   /\ dispatches_keyed (snd (recordDispatch req s))).
  { destruct (recordDispatch_cases req s) as [[text ->]|(o & b & dt & Hv)]; [auto|].
    rewrite (recordDispatch_eval req o b dt s Hv).
    destruct (negb (order_exists o (tables s))) eqn:Eo; [auto|].
    destruct (existsb _ (dispatches s)) eqn:Edup; [auto|].
    cbv zeta. cbn [snd tables]. split; [reflexivity|].
    unfold dispatches_keyed. cbn [tables dispatches next_dispatch_id].
    rewrite map_app. cbn [map Dispatch.order_id]. split; [|split].
    - apply NoDup_app; [exact Hnd|repeat constructor; simpl; tauto|].
      intros i Hi [<-|[]]. apply in_map_iff in Hi as (x & E & Hx).
      assert (existsb (fun x => Dispatch.order_id x =? o) (dispatches s) = true);
        [|congruence].
      apply existsb_exists. exists x. split; [exact Hx|]. now apply Z.eqb_eq.
    - intros x Hx. apply in_app_or in Hx as [Hx|[<-|[]]]; [now apply Hfk|].
      simpl. now apply negb_false_iff in Eo.
    - intros x Hx. apply in_app_or in Hx as [Hx|[<-|[]]].
      + specialize (Hlt x Hx). lia.
      + simpl. lia. }
  split; [apply Hframe|]. split; [apply Hframe|]. split.
  { intros Hno. destruct (recordDispatch_cases req s) as [H|(o & b & dt & Hv)];
      [exact H|]. now elim (Hno o b dt). }
  intros o b dt Hv. rewrite (recordDispatch_eval req o b dt s Hv).
  split; [|split].
  - intros ->. reflexivity.
  - intros Hdup. destruct (negb (order_exists o (tables s))) eqn:Eo.
    + exfalso. apply existsb_exists in Hdup as (x & Hx & E). apply Z.eqb_eq in E.
      specialize (Hfk x Hx). rewrite E in Hfk. rewrite Hfk in Eo. discriminate.
    + now rewrite Hdup.
  - intros -> ->. cbv zeta. cbn [negb fst snd dispatches]. split; [|reflexivity].
    unfold select_dispatch. cbn [dispatches].
    rewrite filter_app, (filter_none _ (dispatches s)).
    + cbn [filter app Dispatch.dispatch_id]. now rewrite Z.eqb_refl.
    + intros x Hx. apply Z.eqb_neq. specialize (Hlt x Hx). lia.
Qed.

(** X23 on the sample warehouse after an order: the order is dispatched
    once, and stays Pending. *)
Lemma recordDispatch_answers_witness :
  let s := with_tables (snd (createOrder [Sample.item 1 2] Sample.warehouse)) depot in
  let req := DispatchRequest.mk (Some 1) (Some "J. Doe") (Some Sample.jan1) in
  fst (recordDispatch req s) = Json 201 (Some (Dispatch.mk 1 1 "J. Doe" Sample.jan1))
  /\ map Order.status (orders (tables (snd (recordDispatch req s)))) = [Pending]
  /\ fst (recordDispatch req (snd (recordDispatch req s)))
     = InternalServerError (ER_DUP_ENTRY "dispatches.order_id").
Proof.
  cbv zeta.
  set (s := with_tables (snd (createOrder [Sample.item 1 2] Sample.warehouse)) depot).
  set (req := DispatchRequest.mk (Some 1) (Some "J. Doe") (Some Sample.jan1)).
  assert (Hk : dispatches_keyed s).
  { unfold dispatches_keyed. simpl. repeat split; [constructor|intros x []..]. }
  assert (Hv : valid_dispatch_request req 1 "J. Doe" Sample.jan1).
  { unfold valid_dispatch_request. simpl. repeat split; discriminate. }
  destruct (recordDispatch_answers req s Hk) as (Ht & Hk' & _ & H).
  destruct (H 1 "J. Doe" Sample.jan1 Hv) as (_ & _ & Hok).
  destruct (Hok eq_refl eq_refl) as [Hans Hrows].
  split; [exact Hans|]. split; [now rewrite Ht|].
  destruct (recordDispatch_answers req _ Hk') as (_ & _ & _ & H2).
  destruct (H2 1 "J. Doe" Sample.jan1 Hv) as (_ & Hdup & _).
  rewrite Hdup; [reflexivity|]. rewrite Hrows, existsb_app.
  apply orb_true_iff. right. reflexivity.
Defined.


(** * Every request keeps the store consistent *)

(** ** What the stock handlers leave alone *)

Lemma master_data_kept_refl (d : db) : master_data_kept d d.
Proof. repeat split; auto. Qed.

Lemma fixture_adjust (k delta : Z) (l : Location.t) :
  fixture (adjust k delta l) = fixture l.
Proof. unfold adjust. now destruct (Location.location_id l =? k). Qed.

Lemma fixtures_adjust (k delta : Z) (ls : list Location.t) :
  map fixture (map (adjust k delta) ls) = map fixture ls.
Proof. rewrite map_map. apply map_ext. intros l. apply fixture_adjust. Qed.

Lemma createBatch_frame (req : BatchRequest.t) (d : db) :
  master_data_kept d (snd (createBatch req d)).
Proof.
  destruct (createBatch_cases req d)
    as [->|(loc & p & bn & e & q & bc & _ & ->)]; [apply master_data_kept_refl|].
  repeat split; auto. rewrite add_occupancy_adjust. apply fixtures_adjust.
Qed.

Lemma updateBatch_frame (id : Z) (req : BatchRequest.t) (d : db) :
  master_data_kept d (snd (updateBatch id req d)).
Proof.
  destruct (updateBatch_cases id req d)
    as [->|(r & rest & p & bn & e & q & bc & st & _ & _ & ->)];
    [apply master_data_kept_refl|].
  cbv zeta. destruct (truthy _); repeat split; auto.
  rewrite add_occupancy_adjust. apply fixtures_adjust.
Qed.

Lemma deleteBatch_frame (id : Z) (d : db) :
  master_data_kept d (snd (deleteBatch id d)).
Proof.
  destruct (filter (fun b => Batch.batch_id b =? id) (batches d)) as [|r rest] eqn:Hf.
  - rewrite (deleteBatch_missing id d Hf). apply master_data_kept_refl.
  - rewrite (deleteBatch_found id d r rest Hf). cbv zeta. cbn [snd].
    destruct (truthy _); repeat split; auto.
    rewrite subtract_occupancy_adjust. apply fixtures_adjust.
Qed.

Lemma stable_master_data (d0 : db) :
  stable (fun d => master_data_kept d0 d).
Proof.
  split; [|split; [|split]].
  - intros d rows n H. exact H.
  - intros d rows n H. exact H.
  - intros d amount i H. exact H.
  - intros d amount l (Hp & Hf & Ho). repeat split; auto.
    rewrite subtract_occupancy_adjust, fixtures_adjust. exact Hf.
Qed.

(** The rows an order leaves are those it found, or those of a run of
    its loop from the rows with the new order. *)
Lemma createOrder_run (J : db -> Prop) (items : list ItemRequest.t) (d : db) :
  J (with_orders (orders d ++ [Order.mk (next_order_id d) Pending])
                 (next_order_id d + 1) d) ->
  (forall item, triple J (fulfil_item (next_order_id d) item) (fun _ => J)) ->
  snd (createOrder items d) = d \/ J (snd (createOrder items d)).
Proof.
  intros Hstart Hitem. destruct items as [|item items]; [now left|].
  rewrite createOrder_eval by discriminate.
  set (c := mkConn d _).
  destruct (triple_for_each J (item :: items) (fulfil_item (next_order_id d))
              (fun x _ => Hitem x) c Hstart) as [Hcm Hw].
  destruct (for_each (item :: items) _ c) as [[u|e] c']; simpl in *.
  - right. now apply Hw with (a := u).
  - left. exact Hcm.
Qed.

Lemma order_exists_app (o : Z) (d : db) (os : list Order.t) (n : Z) :
  order_exists o (with_orders (orders d ++ os) n d)
  = order_exists o d || existsb (fun x => Order.order_id x =? o) os.
Proof. unfold order_exists. cbn [orders with_orders]. apply existsb_app. Qed.

Lemma createOrder_frame (items : list ItemRequest.t) (d : db) :
  master_data_kept d (snd (createOrder items d)).
Proof.
  destruct (createOrder_run (fun x => master_data_kept d x) items d) as [->|H];
    auto using master_data_kept_refl.
  - repeat split; auto. intros o Ho. rewrite order_exists_app, Ho. reflexivity.
  - intros item. apply fulfil_item_stable, stable_master_data.
Qed.

Lemma order_exists_status (o i : Z) (st : order_status) (os : list Order.t) :
  existsb (fun x => Order.order_id x =? o)
    (map (fun x => if Order.order_id x =? i then Order.mk (Order.order_id x) st else x) os)
  = existsb (fun x => Order.order_id x =? o) os.
Proof.
  induction os as [|x os IH]; [reflexivity|]. simpl. rewrite IH. f_equal.
  now destruct (Order.order_id x =? i).
Qed.

Lemma setOrderStatus_cases (orderId : Z) (status : option string) (d : db) :
  snd (setOrderStatus orderId status d) = d
  \/ exists st,
       snd (setOrderStatus orderId status d)
       = with_orders
           (map (fun o => if Order.order_id o =? orderId
                          then Order.mk (Order.order_id o) st else o)
                (orders d))
           (next_order_id d) d.
Proof.
  unfold setOrderStatus. destruct status as [s|]; [|now left].
  destruct (order_status_of_string s) as [st|]; [|now left].
  right. exists st. unfold update_order_status. now destruct (_ =? 0).
Qed.

Lemma setPickStatus_cases (pickId : Z) (status : option string) (d : db) :
  snd (setPickStatus pickId status d) = d
  \/ exists st,
       snd (setPickStatus pickId status d)
       = with_order_batch_picks
           (map (fun p => if Pick.pick_id p =? pickId
                          then Pick.mk (Pick.pick_id p) (Pick.order_id p)
                                 (Pick.batch_id p) (Pick.quantity_picked p) st
                          else p)
                (order_batch_picks d))
           (next_pick_id d) d.
Proof.
  unfold setPickStatus. destruct status as [s|]; [|now left].
  destruct (pick_status_of_string s) as [st|]; [|now left].
  right. exists st. unfold update_pick_status. now destruct (_ =? 0).
Qed.

Lemma logTemperature_cases (now : Z) (location_id reading : option Z) (d : db) :
  snd (logTemperature now location_id reading d) = d
  \/ exists k t,
       snd (logTemperature now location_id reading d)
       = update_latest_temperature t now k d.
Proof.
  destruct location_id as [k|], reading as [t|]; try now left.
  rewrite logTemperature_eval. destruct (location_exists k d); [|now left].
  right. now exists k, t.
Qed.

Lemma setOrderStatus_frame (orderId : Z) (status : option string) (d : db) :
  master_data_kept d (snd (setOrderStatus orderId status d)).
Proof.
  destruct (setOrderStatus_cases orderId status d) as [->|[st ->]];
    [apply master_data_kept_refl|].
  repeat split; auto. intros o Ho. unfold order_exists in *.
  cbn [orders with_orders]. now rewrite order_exists_status.
Qed.

Lemma setPickStatus_frame (pickId : Z) (status : option string) (d : db) :
  master_data_kept d (snd (setPickStatus pickId status d)).
Proof.
  destruct (setPickStatus_cases pickId status d) as [->|[st ->]];
    [apply master_data_kept_refl|].
  repeat split; auto.
Qed.

Lemma logTemperature_frame (now : Z) (location_id reading : option Z) (d : db) :
  master_data_kept d (snd (logTemperature now location_id reading d)).
Proof.
  destruct (logTemperature_cases now location_id reading d) as [->|(k & t & ->)];
    [apply master_data_kept_refl|].
  repeat split; auto. unfold update_latest_temperature.
  cbn [storage_locations with_storage_locations]. rewrite map_map.
  apply map_ext. intros l. now destruct (Location.location_id l =? k).
Qed.

Lemma on_tables_snd {A} (handler : db -> A * db) (s : store) :
  snd (on_tables handler s) = with_tables (snd (handler (tables s))) s.
Proof. unfold on_tables. now destruct (handler (tables s)). Qed.

(** X24. No request that moves stock, sets a status, records a
    dispatch or logs a temperature writes master data: the products, and
    of every location all but its occupancy, reading and reading time,
    are as they were, in the same order, and no order disappears.  Only
    POST /products and POST /storage_locations write them. *)
Theorem master_data_written_by_two (r : request) (s : store) :
  (forall req, r <> PostProducts req) ->
  (forall req, r <> PostStorageLocations req) ->
  master_data_kept (tables s) (tables (serve r s))
  /\ next_product_id (serve r s) = next_product_id s
  /\ next_location_id (serve r s) = next_location_id s.
Proof.
  intros Hp Hl.
  destruct r as [req|req|req|id req|id|items|o st|pk st|req|now k t]; cbn [serve];
    try rewrite on_tables_snd; cbn [tables with_tables next_product_id next_location_id].
  - now elim (Hp req).
  - now elim (Hl req).
  - split; [apply createBatch_frame|auto].
  - split; [apply updateBatch_frame|auto].
  - split; [apply deleteBatch_frame|auto].
  - split; [apply createOrder_frame|auto].
  - split; [apply setOrderStatus_frame|auto].
  - split; [apply setPickStatus_frame|auto].
  - destruct (recordDispatch_cases req s) as [[text ->]|(oid & b & dt & Hv)];
      [cbn [snd]; auto using master_data_kept_refl|].
    rewrite (recordDispatch_eval req oid b dt s Hv).
    destruct (negb _); [cbn [snd]; auto using master_data_kept_refl|].
    destruct (existsb _ _); cbn [snd tables next_product_id next_location_id];
      auto using master_data_kept_refl.
  - split; [apply logTemperature_frame|auto].
Qed.

(** X24 on the sample warehouse: an order of seven gloves. *)
Lemma master_data_written_by_two_witness :
  master_data_kept (tables depot) (tables (serve (PostOrders [Sample.item 1 7]) depot)).
Proof.
  apply (master_data_written_by_two (PostOrders [Sample.item 1 7]) depot);
    discriminate.
Defined.

(** ** What master data decides *)

Lemma fixtures_project {B} (g : Location.t -> B) (ls ls' : list Location.t) :
  (forall l, g (fixture l) = g l) ->
  map fixture ls' = map fixture ls -> map g ls' = map g ls.
Proof.
  intros Hg E.
  assert (H : forall xs, map g xs = map g (map fixture xs)).
  { intros xs. rewrite map_map. apply map_ext. intros l. now rewrite Hg. }
  now rewrite (H ls'), (H ls), E.
Qed.

Lemma fixtures_In (ls ls' : list Location.t) (l' : Location.t) :
  map fixture ls' = map fixture ls -> In l' ls' ->
  exists l, In l ls /\ fixture l = fixture l'.
Proof.
  intros E Hl. apply (in_map fixture) in Hl. rewrite E in Hl.
  apply in_map_iff in Hl as (l & El & Hl). eauto.
Qed.

Lemma kept_location_exists (d d' : db) (k : Z) :
  master_data_kept d d' -> location_exists k d' = location_exists k d.
Proof.
  intros (_ & Hf & _). unfold location_exists.
  assert (H : forall ls, existsb (fun l => Location.location_id l =? k) ls
                         = existsb (fun i => i =? k) (map Location.location_id ls)).
  { induction ls as [|l ls IH]; [reflexivity|]. simpl. now rewrite IH. }
  rewrite !H. now rewrite (fixtures_project Location.location_id _ _ (fun _ => eq_refl) Hf).
Qed.

Lemma kept_product_exists (d d' : db) (i : Z) :
  master_data_kept d d' -> product_exists i d' = product_exists i d.
Proof. intros (Hp & _). unfold product_exists. now rewrite Hp. Qed.

Lemma kept_cold_storage_bounded (d d' : db) :
  master_data_kept d d' -> cold_storage_bounded d -> cold_storage_bounded d'.
Proof.
  intros (_ & Hf & _) Hcold l' Hl' Hty.
  destruct (fixtures_In _ _ l' Hf Hl') as (l & Hl & E).
  assert (Et : Location.location_type l = Location.location_type l')
    by exact (f_equal Location.location_type E).
  assert (Elo : Location.min_temp l = Location.min_temp l')
    by exact (f_equal Location.min_temp E).
  assert (Ehi : Location.max_temp l = Location.max_temp l')
    by exact (f_equal Location.max_temp E).
  rewrite <- Elo, <- Ehi. apply Hcold; congruence.
Qed.

Lemma kept_keyed (s : store) (d' : db) :
  master_data_kept (tables s) d' ->
  products_keyed s -> locations_wellkeyed s -> dispatches_keyed s ->
  products_keyed (with_tables d' s)
  /\ locations_wellkeyed (with_tables d' s)
  /\ dispatches_keyed (with_tables d' s).
Proof.
  intros Hk Hp (Hids & Hplaces & Hpos & Hlt) (Hnd & Hfk & Hdl).
  pose proof Hk as (Eprod & Hf & Ho).
  split; [|split].
  - unfold products_keyed in *. cbn [tables with_tables next_product_id].
    now rewrite Eprod.
  - unfold locations_wellkeyed, locations_keyed in *.
    cbn [tables with_tables next_location_id].
    rewrite (fixtures_project Location.location_id _ _ (fun _ => eq_refl) Hf).
    rewrite (fixtures_project
               (fun l => (Location.zone l, Location.rack l, Location.slot l))
               _ _ (fun _ => eq_refl) Hf).
    repeat split; auto.
    + destruct (fixtures_In _ _ l Hf H) as (l0 & Hl0 & E).
      rewrite <- (f_equal Location.location_id E : Location.location_id l0
                                                  = Location.location_id l).
      now apply Hlt.
    + destruct (fixtures_In _ _ l Hf H) as (l0 & Hl0 & E).
      rewrite <- (f_equal Location.location_id E : Location.location_id l0
                                                  = Location.location_id l).
      now apply Hlt.
  - unfold dispatches_keyed in *. cbn [tables with_tables dispatches next_dispatch_id].
    repeat split; auto.
Qed.

(** ** The foreign keys *)

Lemma referenced_step (d d' : db) :
  master_data_kept d d' ->
  (forall b, In b (batches d') ->
     product_exists (Batch.product_id b) d = true
     /\ exists k, Batch.assigned_location_id b = Some k /\ location_exists k d = true) ->
  (forall p, In p (order_batch_picks d') ->
     batch_exists (Pick.batch_id p) d' = true
     /\ order_exists (Pick.order_id p) d' = true) ->
  (forall o, In o (orders d') -> Order.order_id o < next_order_id d') ->
  referenced d'.
Proof.
  intros Hk Hb Hp Ho. split; [|split; assumption].
  intros b Hin. destruct (Hb b Hin) as (H1 & k & E & H2).
  rewrite (kept_product_exists d d' _ Hk). split; [exact H1|].
  exists k. now rewrite (kept_location_exists d d' _ Hk).
Qed.

Lemma batch_exists_ids (i : Z) (d d' : db) :
  map Batch.batch_id (batches d') = map Batch.batch_id (batches d) ->
  batch_exists i d' = batch_exists i d.
Proof.
  intros E. unfold batch_exists.
  assert (H : forall bs, existsb (fun b => Batch.batch_id b =? i) bs
                         = existsb (fun x => x =? i) (map Batch.batch_id bs)).
  { induction bs as [|b bs IH]; [reflexivity|]. simpl. now rewrite IH. }
  now rewrite !H, E.
Qed.

Lemma createBatch_referenced (req : BatchRequest.t) (d : db) :
  referenced d -> referenced (snd (createBatch req d)).
Proof.
  intros Href. pose proof (createBatch_frame req d) as Hk.
  destruct (createBatch_outcome req d) as [E|[body H]]; [now rewrite E|].
  apply createBatch_created in H
    as (p & bn & e & q & cat & cats & loc & Hv & Ecat & Efit & _ & _ & _ & E).
  rewrite E in *. clear E. destruct Href as (Hb & Hp & Ho).
  apply (referenced_step d); auto.
  - intros b Hin. cbn in Hin. apply in_app_or in Hin as [Hin|[<-|[]]]; [now apply Hb|].
    cbn [Batch.product_id Batch.assigned_location_id]. split.
    + eapply category_product_exists, Ecat.
    + eexists. split; [reflexivity|].
      apply location_exists_In. now apply first_fit_In in Efit.
  - intros pk Hin. destruct (Hp pk Hin) as [H1 H2]. split; [|exact H2].
    unfold batch_exists in *. cbn [batches add_occupancy with_storage_locations
      with_batches]. rewrite existsb_app, H1. reflexivity.
Qed.

Lemma createBatch_stocked (req : BatchRequest.t) (d : db) :
  stocked d -> stocked (snd (createBatch req d)).
Proof.
  intros Hs. destruct (createBatch_outcome req d) as [->|[body H]]; [exact Hs|].
  apply createBatch_created in H
    as (p & bn & e & q & cat & cats & loc & Hv & _ & _ & _ & _ & _ & ->).
  intros b Hb. cbn in Hb. apply in_app_or in Hb as [Hb|[<-|[]]]; [now apply Hs|].
  simpl. destruct Hv as (_ & _ & _ & _ & _ & _ & Hq). lia.
Qed.

Lemma updateBatch_outcome (id : Z) (req : BatchRequest.t) (d : db) :
  snd (updateBatch id req d) = d
  \/ exists r rest productId batchNumber expiryDate quantity barcode status,
       filter (fun b => Batch.batch_id b =? id) (batches d) = r :: rest
       /\ 0 <= quantity
       /\ product_exists productId d = true
       /\ snd (updateBatch id req d)
          = let d' :=
              with_batches
                (map (fun b =>
                        if Batch.batch_id b =? id
                        then Batch.mk (Batch.batch_id b) productId batchNumber
                               expiryDate quantity (Some barcode)
                               (Batch.assigned_location_id b) status
                        else b)
                     (batches d))
                (next_batch_id d) d in
            if truthy (Batch.assigned_location_id r)
            then add_occupancy (quantity - Batch.quantity r)
                   (to_number (Batch.assigned_location_id r)) d'
            else d'.
Proof.
  destruct (BatchRequest.product_id req) as [p|] eqn:Ep;
    [|left; unfold updateBatch; now rewrite Ep].
  destruct (BatchRequest.batch_number req) as [bn|] eqn:Ebn;
    [|left; unfold updateBatch; now rewrite Ep, Ebn].
  destruct (BatchRequest.expiry_date req) as [e|] eqn:Ee;
    [|left; unfold updateBatch; now rewrite Ep, Ebn, Ee].
  destruct (BatchRequest.quantity req) as [q|] eqn:Eq;
    [|left; unfold updateBatch; now rewrite Ep, Ebn, Ee, Eq].
  destruct (BatchRequest.status req) as [st|] eqn:Est;
    [|left; unfold updateBatch; now rewrite Ep, Ebn, Ee, Eq, Est].
  destruct ((p =? 0) || String.eqb bn "" || (q <? 0)) eqn:Ec;
    [left; unfold updateBatch; now rewrite Ep, Ebn, Ee, Eq, Est, Ec|].
  apply orb_false_iff in Ec as [Ec Hq]. apply orb_false_iff in Ec as [Hp Hbn].
  apply Z.eqb_neq in Hp. apply String.eqb_neq in Hbn. apply Z.ltb_ge in Hq.
  assert (Hv : valid_batch_update req p bn e q st)
    by (unfold valid_batch_update; tauto).
  rewrite (updateBatch_eval id req p bn e q st d Hv). cbv zeta.
  destruct (filter (fun b => Batch.batch_id b =? id) (batches d)) as [|r rest];
    [now left|].
  destruct (existsb _ (batches d)); [now left|].
  destruct (existsb _ (batches d)); [now left|].
  destruct (product_exists p d) eqn:Epe; [|now left].
  right. exists r, rest, p, bn, e, q, (barcode_or (BatchRequest.barcode req) bn), st.
  auto.
Qed.

Lemma updateBatch_referenced (id : Z) (req : BatchRequest.t) (d : db) :
  referenced d -> referenced (snd (updateBatch id req d)).
Proof.
  intros Href. pose proof (updateBatch_frame id req d) as Hk.
  destruct (updateBatch_outcome id req d)
    as [E|(r & rest & p & bn & e & q & bc & st & Hf & Hq & Hpe & E)]; [now rewrite E|].
  rewrite E in *. clear E. destruct Href as (Hb & Hp & Ho). cbv zeta in *.
  set (edit := fun b : Batch.t =>
                 if Batch.batch_id b =? id
                 then Batch.mk (Batch.batch_id b) p bn e q (Some bc)
                        (Batch.assigned_location_id b) st
                 else b) in *.
  assert (Hbatches : forall b, In b (map edit (batches d)) ->
            product_exists (Batch.product_id b) d = true
            /\ exists k, Batch.assigned_location_id b = Some k
                         /\ location_exists k d = true).
  { intros b Hin. apply in_map_iff in Hin as (x & <- & Hx). unfold edit.
    destruct (Hb x Hx) as [H1 H2].
    destruct (Batch.batch_id x =? id); [split; [exact Hpe|exact H2]|auto]. }
  assert (Hids : map Batch.batch_id (map edit (batches d)) = map Batch.batch_id (batches d)).
  { rewrite map_map. apply map_ext. intros b. unfold edit.
    now destruct (Batch.batch_id b =? id). }
  apply (referenced_step d); auto.
  - destruct (truthy _); exact Hbatches.
  - intros pk Hin.
    assert (Hin' : In pk (order_batch_picks d)) by (destruct (truthy _); exact Hin).
    destruct (Hp pk Hin') as [H1 H2]. split.
    + rewrite <- H1. apply batch_exists_ids. destruct (truthy _); exact Hids.
    + destruct (truthy _); exact H2.
  - destruct (truthy _); exact Ho.
Qed.

Lemma updateBatch_stocked (id : Z) (req : BatchRequest.t) (d : db) :
  stocked d -> stocked (snd (updateBatch id req d)).
Proof.
  intros Hs. destruct (updateBatch_cases id req d)
    as [->|(r & rest & p & bn & e & q & bc & st & Hf & Hq & ->)]; [exact Hs|].
  cbv zeta. assert (Hmap : forall x,
    In x (map (fun b => if Batch.batch_id b =? id
                        then Batch.mk (Batch.batch_id b) p bn e q (Some bc)
                               (Batch.assigned_location_id b) st
                        else b) (batches d)) -> 0 <= Batch.quantity x).
  { intros x Hx. apply in_map_iff in Hx as (y & <- & Hy).
    destruct (Batch.batch_id y =? id); [exact Hq|now apply Hs]. }
  destruct (truthy _); exact Hmap.
Qed.

Lemma deleteBatch_stocked (id : Z) (d : db) :
  stocked d -> stocked (snd (deleteBatch id d)).
Proof.
  intros Hs.
  destruct (filter (fun b => Batch.batch_id b =? id) (batches d)) as [|r rest] eqn:Hf.
  - now rewrite (deleteBatch_missing id d Hf).
  - rewrite (deleteBatch_found id d r rest Hf). cbv zeta. cbn [snd].
    assert (Hsub : forall x,
              In x (filter (fun b => negb (Batch.batch_id b =? id)) (batches d)) ->
              0 <= Batch.quantity x).
    { intros x Hx. apply filter_In in Hx as [Hx _]. now apply Hs. }
    destruct (truthy _); exact Hsub.
Qed.

Lemma deleteBatch_referenced (id : Z) (d : db) :
  referenced d -> referenced (snd (deleteBatch id d)).
Proof.
  intros Href. pose proof (deleteBatch_frame id d) as Hk.
  destruct (filter (fun b => Batch.batch_id b =? id) (batches d)) as [|r rest] eqn:Hf.
  - now rewrite (deleteBatch_missing id d Hf).
  - rewrite (deleteBatch_found id d r rest Hf) in *. cbv zeta in *. cbn [snd] in *.
    destruct Href as (Hb & Hp & Ho).
    apply (referenced_step d); auto.
    + intros b Hin.
      assert (Hin' : In b (filter (fun b => negb (Batch.batch_id b =? id)) (batches d)))
        by (destruct (truthy _); exact Hin).
      apply filter_In in Hin' as [Hin' _]. now apply Hb.
    + intros pk Hin.
      assert (Hin' : In pk (filter (fun p => negb (Pick.batch_id p =? id))
                              (order_batch_picks d))).
      { destruct (truthy _); cbn in Hin; rewrite filter_filter_same in Hin; exact Hin. }
      apply filter_In in Hin' as [Hin' Hne]. destruct (Hp pk Hin') as [H1 H2].
      assert (Hex : existsb (fun b => Batch.batch_id b =? Pick.batch_id pk)
                      (filter (fun b => negb (Batch.batch_id b =? id)) (batches d))
                    = true).
      { unfold batch_exists in H1. apply existsb_exists in H1 as (b & Hbin & E).
        apply existsb_exists. exists b. split; [|exact E].
        apply filter_In. split; [exact Hbin|].
        apply Z.eqb_eq in E. now rewrite E. }
      split; destruct (truthy _); assumption.
    + destruct (truthy _); exact Ho.
Qed.

Lemma triple_conj {A} (P1 P2 : db -> Prop) (Q1 Q2 : A -> db -> Prop) (m : tx A) :
  triple P1 m Q1 -> triple P2 m Q2 ->
  triple (fun d => P1 d /\ P2 d) m (fun a d => Q1 a d /\ Q2 a d).
Proof.
  intros H1 H2 c [Hp1 Hp2]. destruct (H1 c Hp1) as [Hc1 Hq1].
  destruct (H2 c Hp2) as [_ Hq2]. split; [exact Hc1|]. intros a Ha. split; auto.
Qed.

Lemma planned_picks_In (o : Z) (plan : list (Batch.t * Z)) (pk : Pick.t) :
  forall n, In pk (planned_picks o n plan) ->
    Pick.order_id pk = o
    /\ exists b a, In (b, a) plan /\ Pick.batch_id pk = Batch.batch_id b.
Proof.
  induction plan as [|[b a] plan IH]; intros n; simpl; [tauto|].
  intros [<-|H].
  - split; [reflexivity|]. exists b, a. split; [now left|reflexivity].
  - destruct (IH _ H) as (Ho & b' & a' & Hin & E). split; [exact Ho|].
    exists b', a'. split; [now right|exact E].
Qed.

Lemma deplete_referenced (o p q : Z) (d : db) :
  referenced d -> order_exists o d = true ->
  referenced (deplete o (fefo_plan (select_available_batches p d) q) (with_item o p q d)).
Proof.
  intros (Hb & Hp & Ho) Hex.
  set (d' := deplete _ _ _).
  assert (Hk : master_data_kept d d').
  { repeat split; auto. unfold d', deplete. cbn [storage_locations with_item
      with_order_items]. rewrite !map_map. apply map_ext. reflexivity. }
  assert (Hids : map Batch.batch_id (batches d') = map Batch.batch_id (batches d)).
  { unfold d', deplete. cbn [batches with_item with_order_items]. rewrite map_map.
    apply map_ext. reflexivity. }
  apply (referenced_step d); auto.
  - intros b Hin. unfold d', deplete in Hin. cbn [batches with_item with_order_items] in Hin.
    apply in_map_iff in Hin as (x & <- & Hx).
    cbn [Batch.with_quantity Batch.product_id Batch.assigned_location_id].
    now apply Hb.
  - intros pk Hin. unfold d', deplete in Hin.
    cbn [order_batch_picks with_item with_order_items] in Hin.
    rewrite (batch_exists_ids _ d d' Hids).
    apply in_app_or in Hin as [Hin|Hin]; [now apply Hp|].
    apply planned_picks_In in Hin as (-> & b & a & Hplan & ->).
    split; [|exact Hex].
    apply batch_exists_In. apply fefo_plan_In in Hplan.
    now apply candidates_In in Hplan as [Hplan _].
Qed.

Lemma fulfil_item_consistent (o : Z) (item : ItemRequest.t) :
  triple (fun d => sound d
                   /\ (keys_wellformed d /\ stocked d /\ referenced d
                       /\ order_exists o d = true))
         (fulfil_item o item)
         (fun _ d => sound d
                     /\ (keys_wellformed d /\ stocked d /\ referenced d
                         /\ order_exists o d = true)).
Proof.
  apply triple_conj; [apply fulfil_item_sound|].
  apply fulfil_item_keeps.
  - intros d ((_ & _ & Hnz) & _). exact Hnz.
  - intros d p q (Hk & Hs & Hr & Ho) _ _ _.
    split; [now apply deplete_keys|]. split; [now apply deplete_stocked|].
    split; [now apply deplete_referenced|exact Ho].
Qed.

Lemma createOrder_consistent (items : list ItemRequest.t) (d : db) :
  sound d -> stocked d -> referenced d ->
  sound (snd (createOrder items d))
  /\ stocked (snd (createOrder items d))
  /\ referenced (snd (createOrder items d)).
Proof.
  intros Hs Hst Hr.
  destruct (createOrder_run
              (fun x => sound x
                        /\ (keys_wellformed x /\ stocked x /\ referenced x
                            /\ order_exists (next_order_id d) x = true))
              items d) as [->|(H1 & _ & H2 & H3 & _)]; auto.
  - split; [exact Hs|]. split; [apply Hs|]. split; [exact Hst|]. split.
    + destruct Hr as (Hb & Hp & Ho). split; [exact Hb|]. split.
      * intros pk Hpk. destruct (Hp pk Hpk) as [E1 E2]. split; [exact E1|].
        rewrite order_exists_app, E2. reflexivity.
      * intros x Hx. cbn [orders with_orders next_order_id] in *.
        apply in_app_or in Hx as [Hx|[<-|[]]]; [specialize (Ho x Hx); lia|simpl; lia].
    + rewrite order_exists_app. cbn [existsb Order.order_id]. rewrite Z.eqb_refl.
      now rewrite orb_true_r.
  - intros item. apply fulfil_item_consistent.
Qed.

Lemma setOrderStatus_consistent (orderId : Z) (status : option string) (d : db) :
  sound d -> stocked d -> referenced d ->
  sound (snd (setOrderStatus orderId status d))
  /\ stocked (snd (setOrderStatus orderId status d))
  /\ referenced (snd (setOrderStatus orderId status d)).
Proof.
  intros Hs Hst (Hb & Hp & Ho).
  destruct (setOrderStatus_cases orderId status d) as [->|[st ->]];
    [unfold referenced; auto|].
  split; [exact Hs|]. split; [exact Hst|]. split; [exact Hb|]. split.
  - intros pk Hpk. destruct (Hp pk Hpk) as [E1 E2]. split; [exact E1|].
    unfold order_exists in *. cbn [orders with_orders]. now rewrite order_exists_status.
  - intros o Hin. cbn [orders with_orders next_order_id] in *.
    apply in_map_iff in Hin as (x & <- & Hx). specialize (Ho x Hx).
    now destruct (Order.order_id x =? orderId).
Qed.

Lemma setPickStatus_consistent (pickId : Z) (status : option string) (d : db) :
  sound d -> stocked d -> referenced d ->
  sound (snd (setPickStatus pickId status d))
  /\ stocked (snd (setPickStatus pickId status d))
  /\ referenced (snd (setPickStatus pickId status d)).
Proof.
  intros Hs Hst (Hb & Hp & Ho).
  destruct (setPickStatus_cases pickId status d) as [->|[st ->]];
    [unfold referenced; auto|].
  split; [exact Hs|]. split; [exact Hst|]. split; [exact Hb|]. split; [|exact Ho].
  intros pk Hin. cbn [order_batch_picks with_order_batch_picks] in Hin.
  apply in_map_iff in Hin as (x & <- & Hx). destruct (Hp x Hx) as [E1 E2].
  destruct (Pick.pick_id x =? pickId); auto.
Qed.

Lemma logTemperature_consistent (now : Z) (location_id reading : option Z) (d : db) :
  sound d -> stocked d -> referenced d ->
  sound (snd (logTemperature now location_id reading d))
  /\ stocked (snd (logTemperature now location_id reading d))
  /\ referenced (snd (logTemperature now location_id reading d)).
Proof.
  intros Hs Hst Hr. pose proof (logTemperature_frame now location_id reading d) as Hk.
  destruct (logTemperature_cases now location_id reading d) as [->|(k & t & E)]; [auto|].
  rewrite E in *. clear E. destruct Hs as ((Hnd & Hlt & Hnz) & Hl).
  destruct Hr as (Hb & Hp & Ho).
  split; [split; [split; [exact Hnd|split; [exact Hlt|]]|]|split; [exact Hst|]].
  - intros l Hin. apply logged_row in Hin as (x & Hx & ->).
    specialize (Hnz x Hx). now destruct (Location.location_id x =? k).
  - intros l Hin. apply logged_row in Hin as (x & Hx & ->).
    specialize (Hl x Hx). unfold update_latest_temperature.
    cbn [batches with_storage_locations]. now destruct (Location.location_id x =? k).
  - apply (referenced_step d); auto.
Qed.

(** ** The handlers of master data and dispatches *)

Lemma createProduct_outcome (req : ProductRequest.t) (s : store) :
  snd (createProduct req s) = s
  \/ exists name category,
       existsb (fun p => String.eqb (Product.name p) name) (products (tables s)) = false
       /\ snd (createProduct req s)
          = mkStore
              (with_products
                 (products (tables s) ++ [Product.mk (next_product_id s) name category])
                 (tables s))
              (dispatches s) (next_product_id s + 1) (next_location_id s)
              (next_dispatch_id s).
Proof.
  destruct (ProductRequest.name req) as [name|] eqn:En;
    [|left; unfold createProduct; now rewrite En].
  destruct (ProductRequest.category req) as [text|] eqn:Ec;
    [|left; unfold createProduct; now rewrite En, Ec].
  destruct (String.eqb_spec name "") as [->|Hn];
    [left; unfold createProduct; now rewrite En, Ec|].
  destruct (storage_type_of_string text) as [cat|] eqn:Ecat;
    [|left; unfold createProduct; rewrite En, Ec, Ecat;
      apply String.eqb_neq in Hn; rewrite Hn; cbn [orb];
      now destruct (String.eqb text "")].
  assert (Hv : valid_product_request req name cat)
    by (unfold valid_product_request; eauto 6).
  rewrite (createProduct_eval req name cat s Hv).
  destruct (existsb _ (products (tables s))) eqn:Edup; [now left|].
  right. exists name, cat. auto.
Qed.

Lemma product_exists_more (i : Z) (d : db) (ps : list Product.t) :
  product_exists i d = true ->
  product_exists i (with_products (products d ++ ps) d) = true.
Proof.
  unfold product_exists. cbn [products with_products]. rewrite existsb_app.
  now intros ->.
Qed.

Lemma createProduct_consistent (req : ProductRequest.t) (s : store) :
  consistent s -> consistent (snd (createProduct req s)).
Proof.
  intros Hc. destruct (createProduct_outcome req s) as [->|(name & cat & Edup & ->)];
    [exact Hc|].
  destruct Hc as (Hs & Hst & (Hb & Hp & Ho) & Hcold & (Hids & Hnames & Hpos & Hlt)
                  & Hloc & Hdisp).
  unfold consistent. cbn [tables].
  split; [exact Hs|]. split; [exact Hst|]. split; [|split; [exact Hcold|split;
    [|split; [exact Hloc|exact Hdisp]]]].
  - split; [|split; [exact Hp|exact Ho]].
    intros b Hin. destruct (Hb b Hin) as [H1 H2]. split; [|exact H2].
    now apply product_exists_more.
  - unfold products_keyed. cbn [tables products with_products next_product_id].
    rewrite !map_app. cbn [map Product.product_id Product.name].
    split; [|split; [|split]].
    + apply NoDup_app; [exact Hids|repeat constructor; simpl; tauto|].
      intros i Hi [<-|[]]. apply in_map_iff in Hi as (x & E & Hx).
      specialize (Hlt x Hx). lia.
    + apply NoDup_app; [exact Hnames|repeat constructor; simpl; tauto|].
      intros n Hn' [<-|[]]. apply in_map_iff in Hn' as (x & E & Hx).
      assert (existsb (fun p => String.eqb (Product.name p) name) (products (tables s))
              = true); [|congruence].
      apply existsb_exists. exists x. split; [exact Hx|]. now apply String.eqb_eq.
    + lia.
    + intros p Hin. apply in_app_or in Hin as [Hin|[<-|[]]].
      * specialize (Hlt p Hin). lia.
      * simpl. lia.
Qed.

Lemma createStorageLocation_outcome (req : LocationRequest.t) (s : store) :
  snd (createStorageLocation req s) = s
  \/ exists zone rack slot locationType capacity bounds,
       valid_location_request req zone rack slot locationType capacity bounds
       /\ existsb (fun l => String.eqb (Location.zone l) zone
                            && String.eqb (Location.rack l) rack
                            && String.eqb (Location.slot l) slot)
                  (storage_locations (tables s)) = false
       /\ snd (createStorageLocation req s)
          = mkStore
              (with_storage_locations
                 (storage_locations (tables s) ++
                  [Location.mk (next_location_id s) zone rack slot locationType
                               capacity 0 (fst bounds) (snd bounds) None None])
                 (tables s))
              (dispatches s) (next_product_id s) (next_location_id s + 1)
              (next_dispatch_id s).
Proof.
  destruct (createStorageLocation_cases req s)
    as [[text ->]|(zone & rack & slot & ty & capacity & bounds & Hv)]; [now left|].
  rewrite (createStorageLocation_eval req _ _ _ _ _ _ s Hv).
  destruct (existsb _ (storage_locations (tables s))) eqn:Edup; [now left|].
  right. exists zone, rack, slot, ty, capacity, bounds. auto.
Qed.

Lemma location_exists_more (k : Z) (d : db) (ls : list Location.t) :
  location_exists k d = true ->
  location_exists k (with_storage_locations (storage_locations d ++ ls) d) = true.
Proof.
  unfold location_exists. cbn [storage_locations with_storage_locations].
  rewrite existsb_app. now intros ->.
Qed.

Lemma createStorageLocation_consistent (req : LocationRequest.t) (s : store) :
  consistent s -> consistent (snd (createStorageLocation req s)).
Proof.
  intros Hc.
  destruct (createStorageLocation_outcome req s)
    as [->|(zone & rack & slot & ty & capacity & bounds & Hv & Edup & ->)]; [exact Hc|].
  destruct Hc as (((Hnd & Hblt & Hnz) & Hledger) & Hst & (Hb & Hp & Ho) & Hcold & Hprod
                  & (Hids & Hplaces & Hpos & Hlt) & Hdisp).
  set (row := Location.mk (next_location_id s) zone rack slot ty capacity 0
                (fst bounds) (snd bounds) None None).
  unfold consistent. cbn [tables].
  split; [split; [split; [exact Hnd|split; [exact Hblt|]]|]|].
  - intros l Hin. cbn [storage_locations with_storage_locations] in Hin.
    apply in_app_or in Hin as [Hin|[<-|[]]]; [now apply Hnz|]. simpl. lia.
  - intros l Hin. cbn [storage_locations batches with_storage_locations] in *.
    apply in_app_or in Hin as [Hin|[<-|[]]]; [now apply Hledger|].
    simpl. symmetry. apply assigned_quantity_none. intros b Hbin E.
    destruct (Hb b Hbin) as (_ & k & Ek & Hex).
    unfold location_exists in Hex. apply existsb_exists in Hex as (l & Hl & El).
    apply Z.eqb_eq in El. specialize (Hlt l Hl). rewrite E in Ek.
    injection Ek as <-. lia.
  - split; [exact Hst|]. split; [|split; [|split; [exact Hprod|split; [|exact Hdisp]]]].
    + split; [|split; [exact Hp|exact Ho]].
      intros b Hin. destruct (Hb b Hin) as (H1 & k & Ek & H2). split; [exact H1|].
      exists k. split; [exact Ek|]. now apply location_exists_more.
    + intros l Hin Hty. cbn [storage_locations with_storage_locations] in Hin.
      apply in_app_or in Hin as [Hin|[<-|[]]]; [now apply Hcold|].
      simpl in Hty. subst ty.
      destruct Hv as (_ & _ & _ & _ & _ & _ & _ & _ & _ & Hbd).
      unfold stored_bounds in Hbd.
      destruct (LocationRequest.min_temp req); [|discriminate].
      destruct (LocationRequest.max_temp req); [|discriminate].
      injection Hbd as <-. simpl. split; discriminate.
    + unfold locations_wellkeyed, locations_keyed.
      cbn [tables storage_locations with_storage_locations next_location_id].
      rewrite !map_app. cbn [map]. split; [|split; [|split]].
      * apply NoDup_app; [exact Hids|repeat constructor; simpl; tauto|].
        intros i Hi [<-|[]]. apply in_map_iff in Hi as (x & E & Hx).
        specialize (Hlt x Hx). simpl in E. lia.
      * apply NoDup_app; [exact Hplaces|repeat constructor; simpl; tauto|].
        intros place Hpl [<-|[]]. apply in_map_iff in Hpl as (x & E & Hx).
        assert (existsb (fun l => String.eqb (Location.zone l) zone
                                  && String.eqb (Location.rack l) rack
                                  && String.eqb (Location.slot l) slot)
                        (storage_locations (tables s)) = true); [|congruence].
        apply existsb_exists. exists x. split; [exact Hx|].
        simpl in E. injection E as -> -> ->. now rewrite !String.eqb_refl.
      * lia.
      * intros l Hin. apply in_app_or in Hin as [Hin|[<-|[]]].
        -- specialize (Hlt l Hin). lia.
        -- simpl. lia.
Qed.

Lemma recordDispatch_consistent (req : DispatchRequest.t) (s : store) :
  consistent s -> consistent (snd (recordDispatch req s)).
Proof.
  intros Hc.
  destruct (recordDispatch_cases req s) as [[text ->]|(o & b & dt & Hv)]; [exact Hc|].
  rewrite (recordDispatch_eval req o b dt s Hv).
  destruct (negb (order_exists o (tables s))) eqn:Eo; [exact Hc|].
  destruct (existsb _ (dispatches s)) eqn:Edup; [exact Hc|].
  destruct Hc as (Hs & Hst & Hr & Hcold & Hprod & Hloc & (Hnd & Hfk & Hlt)).
  cbv zeta. cbn [snd]. unfold consistent. cbn [tables].
  repeat (split; [assumption|]).
  unfold dispatches_keyed. cbn [tables dispatches next_dispatch_id].
  rewrite map_app. cbn [map Dispatch.order_id]. split; [|split].
  - apply NoDup_app; [exact Hnd|repeat constructor; simpl; tauto|].
    intros i Hi [<-|[]]. apply in_map_iff in Hi as (x & E & Hx).
    assert (existsb (fun x => Dispatch.order_id x =? o) (dispatches s) = true);
      [|congruence].
    apply existsb_exists. exists x. split; [exact Hx|]. now apply Z.eqb_eq.
  - intros x Hx. apply in_app_or in Hx as [Hx|[<-|[]]]; [now apply Hfk|].
    simpl. now apply negb_false_iff in Eo.
  - intros x Hx. apply in_app_or in Hx as [Hx|[<-|[]]].
    + specialize (Hlt x Hx). lia.
    + simpl. lia.
Qed.

(** A handler of the tables that keeps them sound, stocked and
    referenced and leaves master data alone keeps the store consistent. *)
Lemma on_tables_consistent {A} (handler : db -> A * db) (s : store) :
  master_data_kept (tables s) (snd (handler (tables s))) ->
  (sound (tables s) -> stocked (tables s) -> referenced (tables s) ->
   sound (snd (handler (tables s)))
   /\ stocked (snd (handler (tables s)))
   /\ referenced (snd (handler (tables s)))) ->
  consistent s -> consistent (snd (on_tables handler s)).
Proof.
  intros Hk Hkeep (Hs & Hst & Hr & Hcold & Hprod & Hloc & Hdisp).
  rewrite on_tables_snd. destruct (Hkeep Hs Hst Hr) as (Hs' & Hst' & Hr').
  destruct (kept_keyed s _ Hk Hprod Hloc Hdisp) as (Hprod' & Hloc' & Hdisp').
  unfold consistent. cbn [tables with_tables].
  repeat (split; [assumption|]).
  split; [now apply (kept_cold_storage_bounded (tables s))|].
  repeat (split; [assumption|]). assumption.
Qed.

Lemma serve_consistent (r : request) (s : store) :
  consistent s -> consistent (serve r s).
Proof.
  destruct r as [req|req|req|id req|id|items|o st|pk st|req|now k t]; cbn [serve].
  - apply createProduct_consistent.
  - apply createStorageLocation_consistent.
  - apply on_tables_consistent; [apply createBatch_frame|].
    intros [Hk Hl] Hst Hr. split; [split; now apply createBatch_keeps|].
    split; [now apply createBatch_stocked|now apply createBatch_referenced].
  - apply on_tables_consistent; [apply updateBatch_frame|].
    intros [Hk Hl] Hst Hr. split; [split; now apply updateBatch_keeps|].
    split; [now apply updateBatch_stocked|now apply updateBatch_referenced].
  - apply on_tables_consistent; [apply deleteBatch_frame|].
    intros [Hk Hl] Hst Hr. split; [split; now apply deleteBatch_keeps|].
    split; [now apply deleteBatch_stocked|now apply deleteBatch_referenced].
  - apply on_tables_consistent; [apply createOrder_frame|apply createOrder_consistent].
  - apply on_tables_consistent;
      [apply setOrderStatus_frame|apply setOrderStatus_consistent].
  - apply on_tables_consistent;
      [apply setPickStatus_frame|apply setPickStatus_consistent].
  - apply recordDispatch_consistent.
  - apply on_tables_consistent;
      [apply logTemperature_frame|apply logTemperature_consistent].
Qed.

Lemma empty_store_consistent : consistent empty_store.
Proof.
  unfold consistent, sound, keys_wellformed, ledger_consistent, ledger, stocked,
    referenced, cold_storage_bounded, products_keyed, locations_wellkeyed,
    locations_keyed, dispatches_keyed.
  simpl. repeat split; try constructor; try lia; intros ? [].
Qed.

(** X25. Every request keeps the store consistent, so every store
    reached from a consistent one, the empty database of the schema among
    them, by any sequence of requests is consistent: batch ids are a key
    below their counter, the occupancy ledger is balanced, no quantity is
    negative, every batch has its product and a location, every pick its
    batch and its order, order ids lie below their counter, Cold Storage
    locations carry both bounds, products and locations are keyed by id
    and by name or place, and no order has two dispatches. *)
Theorem served_store_consistent (rs : list request) (s : store) :
  consistent s -> consistent (serve_all rs s).
Proof.
  revert s. induction rs as [|r rs IH]; intros s Hc; [exact Hc|].
  cbn [serve_all fold_left]. apply IH. now apply serve_consistent.
Qed.

(** X25 from the empty database: a product, a shelf, ten gloves taken
    in, seven of them ordered and the order dispatched. *)
Lemma served_store_consistent_witness :
  let day :=
    [PostProducts (ProductRequest.mk (Some "Surgical Gloves") (Some "Ambient"));
     PostStorageLocations
       (LocationRequest.mk (Some "Ambient_A") (Some "AR1") (Some "AS1")
          (Some "Ambient") (Some 200) None None);
     PostBatches Sample.intake;
     PostOrders [Sample.item 1 7];
     PutOrders 1 (Some "Dispatched");
     PostDispatches (DispatchRequest.mk (Some 1) (Some "J. Doe") (Some Sample.feb1))] in
  map Batch.quantity (batches (tables (serve_all day empty_store))) = [3]
  /\ map Location.current_occupancy
         (storage_locations (tables (serve_all day empty_store))) = [3]
  /\ map Dispatch.order_id (dispatches (serve_all day empty_store)) = [1]
  /\ consistent (serve_all day empty_store).
Proof.
  cbv zeta. split; [vm_compute; reflexivity|]. split; [vm_compute; reflexivity|].
  split; [vm_compute; reflexivity|].
  apply served_store_consistent. exact empty_store_consistent.
Defined.


(** ** Verifying what an order has picked *)

Lemma createOrder_one_item
    (item : ItemRequest.t) (productId quantity : Z) (d : db) :
  valid_item item productId quantity ->
  keys_wellformed d ->
  product_exists productId d = true ->
  (forall p, In p (order_batch_picks d) -> Pick.order_id p <> next_order_id d) ->
  quantity <= available_stock productId d ->
  createOrder [item] d
  = (Json 201 (OrderPlaced.mk "Order placed successfully" (next_order_id d)),
     deplete (next_order_id d)
       (fefo_plan (select_available_batches productId d) quantity)
       (with_item (next_order_id d) productId quantity
          (with_orders (orders d ++ [Order.mk (next_order_id d) Pending])
                       (next_order_id d + 1) d))).
Proof.
  intros Hv Hk Hp Hfk Hq.
  rewrite createOrder_eval by discriminate.
  set (c := mkConn d _).
  assert (Hplan := fulfil_item_plan (next_order_id d) item productId quantity c Hv).
  cbv zeta in Hplan.
  assert (Hcands : select_available_batches productId (working c)
                   = select_available_batches productId d) by reflexivity.
  rewrite Hcands in Hplan.
  assert (Htotal : planned_total (fefo_plan (select_available_batches productId d) quantity)
                   = Z.min quantity (available_stock productId d)).
  { apply planned_total_min; [|destruct Hv as (_ & _ & _ & H); lia].
    intros b Hb. now apply candidates_In in Hb as (_ & _ & H & _). }
  cbn [for_each]. unfold bind at 1. rewrite Hplan; cycle 1.
  - exact Hk.
  - unfold c. cbn [working]. rewrite order_exists_app. cbn [existsb Order.order_id].
    rewrite Z.eqb_refl. now rewrite orb_true_r.
  - exact Hp.
  - intros b pk _ Hpk [E _]. exact (Hfk pk Hpk E).
  - rewrite Htotal.
    destruct (Z.ltb_spec 0 (quantity - Z.min quantity (available_stock productId d)));
      [lia|reflexivity].
Qed.

(** X26. An order that takes all that a batch holds leaves the batch
    failing barcode verification: the quantity is taken off the batch when
    the order is placed, so the verification of the batch that is to be
    picked shows it with quantity 0 and answers that it is not valid,
    while listing the pending pick of the new order for the whole
    quantity. *)
Theorem createOrder_then_verifyBarcode
    (today : Z) (toLocaleDateString : Z -> string)
    (item : ItemRequest.t) (productId quantity : Z) (d : db)
    (b : Batch.t) (rest : list Batch.t) (barcode : string) :
  valid_item item productId quantity ->
  keys_wellformed d ->
  product_exists productId d = true ->
  (forall p, In p (order_batch_picks d) -> Pick.order_id p <> next_order_id d) ->
  select_available_batches productId d = b :: rest ->
  Batch.barcode b = Some barcode ->
  (forall x, In x (batches d) -> Batch.barcode x = Some barcode -> x = b) ->
  Batch.quantity b <= quantity <= available_stock productId d ->
  exists d' v picks,
    createOrder [item] d
    = (Json 201 (OrderPlaced.mk "Order placed successfully" (next_order_id d)), d')
    /\ verifyBarcode today toLocaleDateString barcode d' = (Json 200 v, d')
    /\ Verification.isValid v = false
    /\ (exists shown, Verification.batch v = Some shown
                      /\ VerifiedBatch.batch_id shown = Batch.batch_id b
                      /\ VerifiedBatch.quantity shown = 0)
    /\ Verification.pendingPicks v = Some picks
    /\ exists row, In row picks
                   /\ PendingPickRow.order_id row = next_order_id d
                   /\ PendingPickRow.quantity_picked row = Batch.quantity b.
Proof.
  intros Hv Hk Hp Hfk Hcands Hbar Huniq [Hqb Hq].
  rewrite (createOrder_one_item item productId quantity d Hv Hk Hp Hfk Hq).
  rewrite Hcands. set (o := next_order_id d).
  set (d' := deplete o _ _).
  assert (Hb : In b (batches d) /\ fefo_candidate productId b).
  { apply candidates_In. rewrite Hcands. now left. }
  destruct Hb as [Hbin (Hbp & Hbq & _)].
  assert (Hnd : NoDup (map Batch.batch_id (b :: rest))).
  { rewrite <- Hcands. apply candidates_NoDup, Hk. }
  apply NoDup_cons_iff in Hnd as [Hnotin _].
  assert (Hplan : fefo_plan (b :: rest) quantity
                  = (b, Batch.quantity b)
                    :: fefo_plan rest (quantity - Batch.quantity b)).
  { cbn [fefo_plan]. destruct (Z.leb_spec quantity 0); [lia|].
    now rewrite Z.min_r by lia. }
  assert (Hrows : forall r, In r (select_batch_by_barcode barcode d') ->
            VerifiedBatch.batch_id r = Batch.batch_id b /\ VerifiedBatch.quantity r = 0).
  { intros r Hr. unfold select_batch_by_barcode in Hr.
    apply in_flat_map in Hr as (x' & Hx' & Hr). apply filter_In in Hx' as [Hx' Ebar].
    unfold d', deplete in Hx'. cbn [batches with_item with_order_items with_orders] in Hx'.
    apply in_map_iff in Hx' as (x & <- & Hx).
    cbn [Batch.with_quantity Batch.barcode] in Ebar.
    assert (x = b).
    { apply Huniq; [exact Hx|]. unfold column_eqb in Ebar.
      destruct (Batch.barcode x) as [s|]; [|discriminate].
      apply String.eqb_eq in Ebar. now subst. }
    subst x. apply in_map_iff in Hr as (pr & <- & _).
    cbn [VerifiedBatch.batch_id VerifiedBatch.quantity Batch.with_quantity
         Batch.batch_id Batch.quantity].
    split; [reflexivity|]. rewrite Hplan. cbn [taken_from_batch].
    rewrite Z.eqb_refl, (taken_absent _ rest Hnotin). lia. }
  assert (Hsome : select_batch_by_barcode barcode d' <> []).
  { intros Hnil.
    assert (Hprod : exists pr, In pr (filter (fun pr => Product.product_id pr
                                                        =? Batch.product_id b)
                                        (products d))).
    { unfold product_exists in Hp. apply existsb_exists in Hp as (pr & Hpr & E).
      exists pr. apply filter_In. split; [exact Hpr|]. now rewrite Hbp. }
    destruct Hprod as (pr & Hpr).
    assert (Hin : In (VerifiedBatch.mk (Batch.batch_id b) (Batch.batch_number b)
                        (Batch.quantity b
                         - taken_from_batch (Batch.batch_id b) (fefo_plan (b :: rest) quantity))
                        (Batch.expiry_date b) (Product.name pr) (Product.category pr))
                     (select_batch_by_barcode barcode d')).
    { unfold select_batch_by_barcode. apply in_flat_map.
      exists (Batch.with_quantity
                (Batch.quantity b
                 - taken_from_batch (Batch.batch_id b) (fefo_plan (b :: rest) quantity)) b).
      split.
      - apply filter_In. split.
        + unfold d', deplete. cbn [batches with_item with_order_items with_orders].
          apply in_map_iff. exists b. split; [reflexivity|exact Hbin].
        + cbn [Batch.with_quantity Batch.barcode]. rewrite Hbar. simpl.
          apply String.eqb_refl.
      - apply in_map_iff. exists pr. split; [reflexivity|exact Hpr]. }
    rewrite Hnil in Hin. destruct Hin. }
  destruct (select_batch_by_barcode barcode d') as [|row rows] eqn:Esel; [congruence|].
  destruct (Hrows row (or_introl eq_refl)) as [Hid Hzero].
  destruct (verifyBarcode_found today toLocaleDateString barcode d' row rows Esel)
    as (messages & _ & Hver).
  rewrite Hzero in Hver. cbn [Z.ltb Z.compare andb] in Hver.
  assert (Hpending : In (PendingPickRow.mk (next_pick_id d) o (Batch.quantity b) Pending)
                        (select_pending_picks (VerifiedBatch.batch_id row) d')).
  { unfold select_pending_picks. apply in_flat_map.
    exists (Pick.mk (next_pick_id d) o (Batch.batch_id b) (Batch.quantity b) PendingPick).
    split.
    - apply filter_In. split.
      + unfold d', deplete. cbn [order_batch_picks with_item with_order_items with_orders
          next_pick_id]. apply in_or_app. right. rewrite Hplan. now left.
      + cbn [Pick.batch_id Pick.status pick_status_eqb]. rewrite Hid, Z.eqb_refl.
        reflexivity.
    - apply in_map_iff. exists (Order.mk o Pending). split; [reflexivity|].
      apply filter_In. split.
      + unfold d', deplete. cbn [orders with_item with_order_items with_orders].
        apply in_or_app. right. now left.
      + cbn [Order.order_id Pick.order_id Order.status order_status_eqb].
        rewrite Z.eqb_refl. reflexivity. }
  destruct (select_pending_picks (VerifiedBatch.batch_id row) d') as [|pk pks] eqn:Epend;
    [destruct Hpending|].
  eexists. eexists. exists (pk :: pks).
  split; [reflexivity|]. split; [exact Hver|]. split; [reflexivity|].
  split; [exists row; auto|]. split; [reflexivity|].
  eexists. split; [exact Hpending|]. split; reflexivity.
Qed.

(** X26 on the sample warehouse: an order of five gloves takes all of
    the batch that expires first. *)
Lemma createOrder_then_verifyBarcode_witness :
  exists d' v picks,
    createOrder [Sample.item 1 5] Sample.warehouse
    = (Json 201 (OrderPlaced.mk "Order placed successfully" 1), d')
    /\ verifyBarcode Sample.jan1 (fun _ => "") "GLOVE-002" d' = (Json 200 v, d')
    /\ Verification.isValid v = false
    /\ (exists shown, Verification.batch v = Some shown
                      /\ VerifiedBatch.batch_id shown = 2
                      /\ VerifiedBatch.quantity shown = 0)
    /\ Verification.pendingPicks v = Some picks
    /\ exists row, In row picks
                   /\ PendingPickRow.order_id row = 1
                   /\ PendingPickRow.quantity_picked row = 5.
Proof.
  apply (createOrder_then_verifyBarcode Sample.jan1 (fun _ => "") (Sample.item 1 5) 1 5
           Sample.warehouse Sample.early [Sample.late] "GLOVE-002").
  - unfold valid_item. simpl. repeat split; discriminate.
  - exact (proj1 warehouse_sound).
  - reflexivity.
  - intros p [].
  - reflexivity.
  - reflexivity.
  - intros x [<-|[<-|[]]]; [discriminate|reflexivity].
  - vm_compute. split; discriminate.
Defined.


(** * The dashboard lists of a consistent store *)

Lemma filter_key {A} (key : A -> Z) (k : Z) (l : list A) (x : A) :
  NoDup (map key l) -> In x l -> key x = k ->
  filter (fun y => key y =? k) l = [x].
Proof.
  induction l as [|y l IH]; intros Hnd Hin Hk; [destruct Hin|].
  cbn [map] in Hnd. apply NoDup_cons_iff in Hnd as [Hnotin Hnd]. cbn [filter].
  destruct Hin as [->|Hin].
  - apply Z.eqb_eq in Hk. rewrite Hk. f_equal. apply filter_none.
    intros z Hz. apply Z.eqb_neq. intros E. apply Hnotin.
    apply Z.eqb_eq in Hk. rewrite Hk, <- E. now apply in_map.
  - destruct (Z.eqb_spec (key y) k) as [E|_]; [|now apply IH].
    exfalso. apply Hnotin. rewrite E, <- Hk. now apply in_map.
Qed.

Lemma consistent_product_of (s : store) (b : Batch.t) :
  consistent s -> In b (batches (tables s)) ->
  exists p, products_of b (tables s) = [p]
            /\ In p (products (tables s))
            /\ Product.product_id p = Batch.product_id b.
Proof.
  intros (_ & _ & (Hb & _) & _ & (Hids & _) & _) Hin.
  destruct (Hb b Hin) as [Hex _]. unfold product_exists in Hex.
  apply existsb_exists in Hex as (p & Hp & E). apply Z.eqb_eq in E.
  exists p. split; [|auto]. unfold products_of.
  now apply (filter_key Product.product_id).
Qed.

Lemma consistent_location_of (s : store) (b : Batch.t) :
  consistent s -> In b (batches (tables s)) ->
  exists l, locations_of b (tables s) = [l]
            /\ In l (storage_locations (tables s))
            /\ Batch.assigned_location_id b = Some (Location.location_id l).
Proof.
  intros (_ & _ & (Hb & _) & _ & _ & (Hids & _) & _) Hin.
  destruct (Hb b Hin) as (_ & k & Ek & Hex). unfold location_exists in Hex.
  apply existsb_exists in Hex as (l & Hl & E). apply Z.eqb_eq in E.
  exists l. split; [|split; [exact Hl|congruence]].
  unfold locations_of. rewrite Ek.
  rewrite (filter_ext _ (fun sl => Location.location_id sl =? k))
    by (intros sl; simpl; apply Z.eqb_sym).
  now apply (filter_key Location.location_id).
Qed.

Lemma flat_map_singletons {A B} (g : A -> list B) (f : B -> A) (l : list A) :
  (forall x, In x l -> exists y, g x = [y] /\ f y = x) ->
  map f (flat_map g l) = l.
Proof.
  induction l as [|x l IH]; intros H; [reflexivity|]. cbn [flat_map].
  destruct (H x (or_introl eq_refl)) as (y & -> & <-). cbn [app map].
  f_equal. apply IH. intros z Hz. apply H. now right.
Qed.

Lemma dashboard_row (s : store) (b : Batch.t) :
  consistent s -> In b (batches (tables s)) ->
  exists p l,
    In p (products (tables s)) /\ In l (storage_locations (tables s))
    /\ Product.product_id p = Batch.product_id b
    /\ Batch.assigned_location_id b = Some (Location.location_id l)
    /\ flat_map
         (fun p =>
            match locations_of b (tables s) with
            | [] => [DashboardRow.mk b (Product.name p) (Product.category p)
                                     None None None]
            | sls =>
                map (fun sl =>
                       DashboardRow.mk b (Product.name p) (Product.category p)
                         (Some (Location.zone sl)) (Some (Location.rack sl))
                         (Some (Location.slot sl)))
                    sls
            end)
         (products_of b (tables s))
       = [DashboardRow.mk b (Product.name p) (Product.category p)
            (Some (Location.zone l)) (Some (Location.rack l)) (Some (Location.slot l))].
Proof.
  intros Hc Hin.
  destruct (consistent_product_of s b Hc Hin) as (p & Ep & Hp & Epid).
  destruct (consistent_location_of s b Hc Hin) as (l & El & Hl & Eloc).
  exists p, l. rewrite Ep, El. auto 6.
Qed.

Lemma depot_consistent : consistent depot.
Proof.
  split; [exact warehouse_sound|]. split; [|split; [|split; [|split; [|split]]]].
  - intros b [<-|[<-|[]]]; simpl; lia.
  - split; [|split].
    + intros b [<-|[<-|[]]]; (split; [reflexivity|exists 1; split; reflexivity]).
    + intros p [].
    + intros o [].
  - intros l [<-|[<-|[<-|[]]]]; simpl; intros H; try discriminate; split; discriminate.
  - split; [|split; [|split]].
    + simpl. repeat constructor; simpl; intuition discriminate.
    + simpl. repeat constructor; simpl; intuition discriminate.
    + simpl. lia.
    + intros p [<-|[<-|[]]]; simpl; lia.
  - split; [|split; [|split]].
    + unfold locations_keyed. simpl. repeat constructor; simpl; intuition discriminate.
    + simpl. repeat constructor; simpl; intuition discriminate.
    + simpl. lia.
    + intros l [<-|[<-|[<-|[]]]]; simpl; lia.
  - split; [constructor|split; intros x []].
Qed.

(** X27. In a consistent store GET /batches lists every batch exactly
    once, in the order of the table, each with the name and category of
    its product and the zone, rack and slot of the location it is assigned
    to: no batch is dropped or repeated by the joins, and none is shown
    without a place. *)
Theorem getBatches_one_row_each (s : store) :
  consistent s ->
  exists body,
    getBatches (tables s) = (Json 200 body, tables s)
    /\ map DashboardRow.batch body = batches (tables s)
    /\ forall row, In row body ->
         exists p l,
           In p (products (tables s)) /\ In l (storage_locations (tables s))
           /\ Product.product_id p = Batch.product_id (DashboardRow.batch row)
           /\ Batch.assigned_location_id (DashboardRow.batch row)
              = Some (Location.location_id l)
           /\ DashboardRow.product_name row = Product.name p
           /\ DashboardRow.product_type row = Product.category p
           /\ DashboardRow.zone row = Some (Location.zone l)
           /\ DashboardRow.rack row = Some (Location.rack l)
           /\ DashboardRow.slot row = Some (Location.slot l).
Proof.
  intros Hc. eexists. split; [reflexivity|]. split.
  - unfold select_dashboard_batches. apply flat_map_singletons.
    intros b Hb. destruct (dashboard_row s b Hc Hb) as (p & l & _ & _ & _ & _ & ->).
    eexists. split; reflexivity.
  - intros row Hrow. unfold select_dashboard_batches in Hrow.
    apply in_flat_map in Hrow as (b & Hb & Hrow).
    destruct (dashboard_row s b Hc Hb) as (p & l & Hp & Hl & Epid & Eloc & E).
    rewrite E in Hrow. destruct Hrow as [<-|[]].
    exists p, l. cbn. auto 10.
Qed.

(** X27 on the sample warehouse. *)
Lemma getBatches_one_row_each_witness :
  exists body,
    getBatches (tables depot) = (Json 200 body, tables depot)
    /\ map DashboardRow.batch body = [Sample.late; Sample.early].
Proof.
  destruct (getBatches_one_row_each depot depot_consistent) as (body & H1 & H2 & _).
  exists body. split; [exact H1|exact H2].
Defined.

Lemma picked_batch_row (s : store) (obp : Pick.t) :
  consistent s -> In obp (order_batch_picks (tables s)) ->
  exists row,
    flat_map
      (fun b =>
         flat_map
           (fun p =>
              let row zone rack slot :=
                PickedBatchRow.mk (Pick.pick_id obp) (Pick.batch_id obp)
                  (Pick.quantity_picked obp) (Pick.status obp)
                  (Batch.batch_number b) (Batch.barcode b) (Product.name p)
                  (Batch.assigned_location_id b) zone rack slot in
              match locations_of b (tables s) with
              | [] => [row None None None]
              | sls =>
                  map (fun sl => row (Some (Location.zone sl))
                                     (Some (Location.rack sl))
                                     (Some (Location.slot sl)))
                      sls
              end)
           (products_of b (tables s)))
      (filter (fun b => Batch.batch_id b =? Pick.batch_id obp) (batches (tables s)))
    = [row]
    /\ PickedBatchRow.pick_id row = Pick.pick_id obp
    /\ PickedBatchRow.quantity_picked row = Pick.quantity_picked obp
    /\ PickedBatchRow.status row = Pick.status obp.
Proof.
  intros Hc Hin. pose proof Hc as (((Hnd & _) & _) & _ & (_ & Hp & _) & _).
  destruct (Hp obp Hin) as [Hex _]. unfold batch_exists in Hex.
  apply existsb_exists in Hex as (b & Hb & E). apply Z.eqb_eq in E.
  rewrite (filter_key Batch.batch_id _ _ b Hnd Hb E).
  destruct (consistent_product_of s b Hc Hb) as (p & Ep & _).
  destruct (consistent_location_of s b Hc Hb) as (l & El & _).
  cbn [flat_map]. rewrite Ep, El. cbn. eexists. split; [reflexivity|]. auto.
Qed.

Lemma picked_quantity_rows (o : Z) (g : Pick.t -> list PickedBatchRow.t)
    (ps : list Pick.t) :
  (forall pk, In pk ps ->
     exists row, g pk = [row]
                 /\ PickedBatchRow.quantity_picked row = Pick.quantity_picked pk) ->
  picked_quantity (flat_map g (filter (fun pk => Pick.order_id pk =? o) ps))
  = picked_for o ps.
Proof.
  induction ps as [|pk ps IH]; intros H; [reflexivity|].
  specialize (IH (fun x Hx => H x (or_intror Hx))).
  destruct (H pk (or_introl eq_refl)) as (row & Eg & Eq).
  cbn [filter picked_for]. destruct (Pick.order_id pk =? o); [|lia].
  cbn [flat_map]. rewrite Eg. cbn [app picked_quantity]. lia.
Qed.

Lemma createOrder_accepted (J : db -> Prop) (items : list ItemRequest.t) (d d' : db)
    (placed : OrderPlaced.t) :
  createOrder items d = (Json 201 placed, d') ->
  J (with_orders (orders d ++ [Order.mk (next_order_id d) Pending])
                 (next_order_id d + 1) d) ->
  (forall item, triple J (fulfil_item (next_order_id d) item) (fun _ => J)) ->
  J d' /\ OrderPlaced.order_id placed = next_order_id d.
Proof.
  intros H Hstart Hitem. destruct items as [|item items]; [discriminate|].
  rewrite createOrder_eval in H by discriminate.
  set (c := mkConn d _) in H.
  destruct (triple_for_each J (item :: items) (fulfil_item (next_order_id d))
              (fun x _ => Hitem x) c Hstart) as [_ Hw].
  destruct (for_each (item :: items) _ c) as [[u|e] c'] eqn:E; [|discriminate].
  injection H as <- <-. split; [now apply (Hw u)|reflexivity].
Qed.

Lemma createOrder_picked_total (items : list ItemRequest.t) (d d' : db)
    (placed : OrderPlaced.t) :
  keys_wellformed d ->
  (forall p, In p (order_batch_picks d) -> Pick.order_id p <> next_order_id d) ->
  createOrder items d = (Json 201 placed, d') ->
  picked_for (next_order_id d) (order_batch_picks d') = requested_total items.
Proof.
  intros Hk Hfk H. destruct items as [|item items]; [discriminate|].
  rewrite createOrder_eval in H by discriminate.
  set (c := mkConn d _) in H.
  destruct (for_each_totals (next_order_id d) (item :: items) 0 (stock (batches d)) c)
    as [_ Hw].
  { split; [exact Hk|]. split; [|reflexivity]. now apply picked_for_none. }
  destruct (for_each (item :: items) _ c) as [[u|e] c'] eqn:E; [|discriminate].
  injection H as _ <-. destruct (Hw u eq_refl) as (_ & HX & _). exact HX.
Qed.

(** X28. In a consistent store GET /orders lists every order once, in
    the order of the table, each with picked batches whose quantities add
    up to what was picked for the order: the joins drop and repeat no
    pick.  For an order that POST /orders has just accepted the list shows
    the order as Pending with picked batches that add up to the quantities
    its items asked for. *)
Theorem getOrders_after_createOrder
    (s : store) (items : list ItemRequest.t) (d' : db) (placed : OrderPlaced.t) :
  consistent s ->
  createOrder items (tables s) = (Json 201 placed, d') ->
  exists body details,
    getOrders d' = (Json 200 body, d')
    /\ map OrderDetails.order body = orders d'
    /\ (forall x, In x body ->
          picked_quantity (OrderDetails.picked_batches x)
          = picked_for (Order.order_id (OrderDetails.order x)) (order_batch_picks d'))
    /\ In details body
    /\ OrderDetails.order details = Order.mk (OrderPlaced.order_id placed) Pending
    /\ picked_quantity (OrderDetails.picked_batches details) = requested_total items.
Proof.
  intros Hc H.
  assert (Hd' : d' = snd (createOrder items (tables s))) by now rewrite H.
  assert (Hc' : consistent (with_tables d' s)).
  { rewrite Hd', <- on_tables_snd.
    apply on_tables_consistent;
      [apply createOrder_frame|apply createOrder_consistent|exact Hc]. }
  pose proof Hc as ((Hk & _) & _ & (_ & Hp & Ho) & _).
  assert (Hfresh : forall p, In p (order_batch_picks (tables s)) ->
                     Pick.order_id p <> next_order_id (tables s)).
  { intros p Hin E. destruct (Hp p Hin) as [_ Hex]. unfold order_exists in Hex.
    apply existsb_exists in Hex as (o & Hoin & Eo). apply Z.eqb_eq in Eo.
    specialize (Ho o Hoin). lia. }
  pose proof (createOrder_picked_total items (tables s) d' placed Hk Hfresh H) as Htotal.
  destruct (createOrder_accepted
              (fun x => orders x = orders (tables s)
                                   ++ [Order.mk (next_order_id (tables s)) Pending])
              items (tables s) d' placed H eq_refl
              (fun item => fulfil_item_stable _ _ item (stable_orders _)))
    as [Horders Eplaced].
  assert (Hsum : forall o,
            picked_quantity (select_picked_batches o d')
            = picked_for o (order_batch_picks d')).
  { intros o. unfold select_picked_batches. apply picked_quantity_rows.
    intros pk Hpk. destruct (picked_batch_row (with_tables d' s) pk Hc' Hpk)
      as (row & E & _ & Eq & _).
    exists row. split; [exact E|exact Eq]. }
  eexists.
  exists (OrderDetails.mk (Order.mk (next_order_id (tables s)) Pending)
            (select_items_of_order (next_order_id (tables s)) d')
            (select_picked_batches (next_order_id (tables s)) d')).
  split; [reflexivity|]. split; [|split; [|split; [|split]]].
  - rewrite map_map. cbn [OrderDetails.order]. apply map_id.
  - intros x Hx. apply in_map_iff in Hx as (o & <- & _).
    cbn [OrderDetails.picked_batches OrderDetails.order]. apply Hsum.
  - apply in_map_iff. exists (Order.mk (next_order_id (tables s)) Pending).
    split; [reflexivity|]. rewrite Horders. apply in_or_app. right. now left.
  - cbn [OrderDetails.order]. now rewrite Eplaced.
  - cbn [OrderDetails.picked_batches]. now rewrite Hsum.
Qed.

(** X28 on the sample warehouse: an order of seven gloves. *)
Lemma getOrders_after_createOrder_witness :
  exists body details,
    getOrders (snd (createOrder [Sample.item 1 7] Sample.warehouse))
    = (Json 200 body, snd (createOrder [Sample.item 1 7] Sample.warehouse))
    /\ In details body
    /\ OrderDetails.order details = Order.mk 1 Pending
    /\ picked_quantity (OrderDetails.picked_batches details) = 7.
Proof.
  destruct (getOrders_after_createOrder depot [Sample.item 1 7]
              (snd (createOrder [Sample.item 1 7] Sample.warehouse))
              (OrderPlaced.mk "Order placed successfully" 1)
              depot_consistent)
    as (body & details & H1 & _ & _ & H2 & H3 & H4).
  - vm_compute. reflexivity.
  - exists body, details. auto.
Defined.


(** * More of the allocator and of picking *)

(** X29. The location the allocator returns has the most free capacity
    of all locations that qualify: of the product's type, with room for
    the quantity and, for a Cold Storage product, passing the test the
    allocator makes of the reading, which a location without a reading
    passes and which otherwise compares the text of the reading with the
    texts of the bounds. *)
Theorem findSuitableLocation_most_room
    (productId quantityNeeded : Z) (productCategory : storage_type)
    (c : connection) (loc : Location.t) :
  hd_error (select_product_category productId (working c)) = Some productCategory ->
  fst (findSuitableLocation productId quantityNeeded c) = Ok (Some loc) ->
  In loc (storage_locations (working c))
  /\ eligible productCategory quantityNeeded loc
  /\ (productCategory = ColdStorage -> temperature_suitable loc = true)
  /\ forall l,
       In l (storage_locations (working c)) ->
       eligible productCategory quantityNeeded l ->
       (productCategory = ColdStorage -> temperature_suitable l = true) ->
       free_capacity l <= free_capacity loc.
Proof.
  intros Hcat Hres.
  pose proof (candidate_locations_In productCategory quantityNeeded (working c)) as HIn.
  pose proof (candidate_locations_sorted productCategory quantityNeeded (working c)) as Hs.
  rewrite (findSuitableLocation_category _ _ _ _ Hcat) in Hres. cbn [fst] in Hres.
  set (candidates := select_candidate_locations _ _ _) in *.
  assert (Hsplit : exists skipped rest,
            candidates = skipped ++ loc :: rest
            /\ (productCategory = ColdStorage -> temperature_suitable loc = true)
            /\ forall l, In l skipped ->
                 productCategory = ColdStorage /\ temperature_suitable l = false).
  { destruct productCategory; cbn [storage_type_eqb] in Hres.
    - destruct candidates as [|x rest]; [discriminate|].
      injection Hres as ->. exists [], rest.
      split; [reflexivity|]. split; [discriminate|]. intros l [].
    - injection Hres as Hres.
      apply find_first in Hres as (skipped & rest & Heq & Hloc & Hskipped).
      exists skipped, rest. split; [exact Heq|]. split; [now intros _|].
      rewrite Forall_forall in Hskipped. intros l Hl. split; [reflexivity|].
      now apply Hskipped. }
  destruct Hsplit as (skipped & rest & Heq & Hpass & Hskipped).
  assert (Hloc : In loc candidates) by (rewrite Heq; apply in_elt).
  apply HIn in Hloc as [Hloc Helig].
  split; [exact Hloc|]. split; [exact Helig|]. split; [exact Hpass|].
  intros l Hl Hel Hp.
  assert (Hc : In l candidates) by (apply HIn; auto).
  rewrite Heq in Hc, Hs. apply in_app_or in Hc as [Hc|[<-|Hc]].
  - destruct (Hskipped l Hc) as [Hcold Hno]. rewrite (Hp Hcold) in Hno. discriminate.
  - lia.
  - exact (sorted_split _ _ _ _ _ Hs Hc).
Qed.

(** X29 on the sample warehouse: thirty doses go to the freezer, which
    has more room than the fridge. *)
Lemma findSuitableLocation_most_room_witness :
  In Sample.freezer (storage_locations Sample.warehouse)
  /\ eligible ColdStorage 30 Sample.freezer
  /\ (ColdStorage = ColdStorage -> temperature_suitable Sample.freezer = true)
  /\ forall l,
       In l (storage_locations Sample.warehouse) ->
       eligible ColdStorage 30 l ->
       (ColdStorage = ColdStorage -> temperature_suitable l = true) ->
       free_capacity l <= free_capacity Sample.freezer.
Proof.
  apply (findSuitableLocation_most_room 2 30 ColdStorage
           (getConnection Sample.warehouse) Sample.freezer).
  - reflexivity.
  - reflexivity.
Defined.

Lemma pending_rows_after_pick_status
    (pickId batchId : Z) (st : pick_status) (os : list Order.t) (ps : list Pick.t) :
  st <> PendingPick ->
  flat_map
    (fun p =>
       map (fun o => PendingPickRow.mk (Pick.pick_id p) (Pick.order_id p)
                       (Pick.quantity_picked p) (Order.status o))
           (filter (fun o => (Order.order_id o =? Pick.order_id p)
                             && order_status_eqb (Order.status o) Pending) os))
    (filter (fun p => (Pick.batch_id p =? batchId)
                      && pick_status_eqb (Pick.status p) PendingPick)
            (map (fun p => if Pick.pick_id p =? pickId
                           then Pick.mk (Pick.pick_id p) (Pick.order_id p)
                                  (Pick.batch_id p) (Pick.quantity_picked p) st
                           else p) ps))
  = filter (fun row => negb (PendingPickRow.pick_id row =? pickId))
      (flat_map
         (fun p =>
            map (fun o => PendingPickRow.mk (Pick.pick_id p) (Pick.order_id p)
                            (Pick.quantity_picked p) (Order.status o))
                (filter (fun o => (Order.order_id o =? Pick.order_id p)
                                  && order_status_eqb (Order.status o) Pending) os))
         (filter (fun p => (Pick.batch_id p =? batchId)
                           && pick_status_eqb (Pick.status p) PendingPick) ps)).
Proof.
  intros Hst. induction ps as [|p ps IH]; [reflexivity|].
  cbn [map filter].
  assert (Hrows : forall keep : bool,
            (Pick.pick_id p =? pickId) = negb keep ->
            filter (fun row => negb (PendingPickRow.pick_id row =? pickId))
              (map (fun o => PendingPickRow.mk (Pick.pick_id p) (Pick.order_id p)
                               (Pick.quantity_picked p) (Order.status o))
                   (filter (fun o => (Order.order_id o =? Pick.order_id p)
                                     && order_status_eqb (Order.status o) Pending) os))
            = if keep
              then map (fun o => PendingPickRow.mk (Pick.pick_id p) (Pick.order_id p)
                                   (Pick.quantity_picked p) (Order.status o))
                       (filter (fun o => (Order.order_id o =? Pick.order_id p)
                                         && order_status_eqb (Order.status o) Pending) os)
              else []).
  { intros keep E. induction (filter _ os) as [|o l IHl]; [now destruct keep|].
    cbn [map filter PendingPickRow.pick_id]. rewrite E, negb_involutive, IHl.
    now destruct keep. }
  destruct (Pick.pick_id p =? pickId) eqn:E.
  - cbn [Pick.batch_id Pick.status].
    assert (Hno : pick_status_eqb st PendingPick = false) by (now destruct st).
    rewrite Hno, andb_false_r, IH.
    destruct ((Pick.batch_id p =? batchId) && pick_status_eqb (Pick.status p) PendingPick);
      [|reflexivity].
    cbn [flat_map]. rewrite filter_app, (Hrows false eq_refl). reflexivity.
  - destruct ((Pick.batch_id p =? batchId) && pick_status_eqb (Pick.status p) PendingPick);
      [|exact IH].
    cbn [flat_map]. rewrite filter_app, (Hrows true eq_refl), IH. reflexivity.
Qed.

(** X30. After a pick is moved to a status other than Pending Pick, the
    pending picks that barcode verification finds for any batch are those
    it found before, less that pick: marking a pick Picked takes it off
    the pick list of its batch, whatever the status of the order. *)
Theorem setPickStatus_retires_pending_pick
    (pickId batchId : Z) (s : string) (st : pick_status) (d : db) :
  pick_status_of_string s = Some st -> st <> PendingPick ->
  select_pending_picks batchId (snd (setPickStatus pickId (Some s) d))
  = filter (fun row => negb (PendingPickRow.pick_id row =? pickId))
           (select_pending_picks batchId d).
Proof.
  intros Hs Hst. unfold setPickStatus. rewrite Hs. unfold update_pick_status.
  assert (Hd : forall (b : bool) (r1 r2 : response (option Pick.t)) (x : db),
            snd (if b then (r1, x) else (r2, x)) = x) by (now intros []).
  rewrite Hd. unfold select_pending_picks.
  cbn [order_batch_picks orders with_order_batch_picks].
  now apply pending_rows_after_pick_status.
Qed.

(** X30 on the sample warehouse after an order. *)
Lemma setPickStatus_retires_pending_pick_witness :
  let d := snd (createOrder [Sample.item 1 2] Sample.warehouse) in
  map PendingPickRow.pick_id (select_pending_picks 2 d) = [1]
  /\ select_pending_picks 2 (snd (setPickStatus 1 (Some "Picked") d)) = [].
Proof.
  cbv zeta. split; [reflexivity|].
  rewrite (setPickStatus_retires_pending_pick 1 2 "Picked" PickPicked
             (snd (createOrder [Sample.item 1 2] Sample.warehouse)) eq_refl);
    [reflexivity|discriminate].
Defined.
